(* ===== verification/_CoqProject ===== *)
-Q . S2P
Prelude.v
Regex.v
JsValue.v
Uri.v
Normalizer.v
Store.v
Gateway.v
Access.v
Reply.v
Conversation.v
Session.v
Codec.v
Admin.v
Mongo.v
Serving.v
Client.v
Panel.v
Turn.v
Chat.v
Page.v
Build.v
