(* ===== verification/Prelude.v ===== *)
(** * IndiraGPT: a verification development of the data-query core

    The repository is a chat assistant for business intelligence.  An
    Express back end ([src/backend/server.js]) stores uploaded CSV files in
    MongoDB, authenticates users and runs aggregation pipelines on their
    files; a React front end ([src/frontend/index.tsx]) talks to a
    generative model which, in the middle of a conversation, emits fenced
    [```mongodb] blocks that the front end sends to the back end, feeding
    the result back to the model.

    ** Parts of the program and how they interact

    - Normalizer ([server.js] [getCollectionName], [cleanCSVValue], the key
      cleaning inside [parseAndStoreCSVInMongo]): pure string functions
      turning CSV cells and headers into MongoDB-safe documents.
    - Dataset store ([parseAndStoreCSVInMongo], the upload handler, the
      schema handlers, [GET /api/user/files]): the MongoDB state, the
      [csvFiles] metadata collection and one [data_*] collection per file.
      Calls the normalizer.
    - Authentication and administration ([authenticateToken],
      [requireAdmin], login, the user and file-access routes): the [users]
      collection as a step relation; every admin route goes through the two
      middlewares.
    - Query gateway ([validatePipeline], [POST /api/data/query]):
      authorisation, stage blacklist, execution, [_id] stripping and the
      10 000-row cap.  Reads the store and the users.
    - Serving ([GET /], [/health], [/data/:filename], the static files and
      catch-alls, [injectApiKeyAndServe], multer and the global error
      handler): the routes outside the JSON API and the upload transport,
      composed with the store's upload handler and the middlewares.
    - Access policy ([index.tsx] [validateQuestionAccess],
      [validateResponseAccess], the schema filtering of the prompt): textual
      checks the front end runs against the schemas the back end sent.
    - Conversation ([handleSend], [runGeneration],
      [processResponseWithMongo], [executeMongoQuery],
      [removeQueryFromResponse]): one turn of the chat, the retrying and
      recursive driver of the model; calls the access policy and, through
      [executeMongoQuery], the query gateway.
    - Client session and admin panel ([authAPI], [checkAuth], the login
      page, [AdminPanel]): the front end's calls of the authentication and
      administration routes, the page's signed-in state and the admin
      panel's state; each handler is composed with the server's routes.
    - Connection ([connectDB] and the reconnection of
      [GET /api/admin/files]): the environment checks, the connection
      string, the password masks of the log, the unique index and the
      default admin; the rest of the server reads only whether [db] is set.
    - Main page ([App]): the messages kept in [localStorage], sign-out and
      [resetChat], the automatic schema load and the reload after an
      upload, which the admin panel starts with the [reloadData] event and
      the ['dataNeedsReload'] flag.

    ** Files of the development (in dependency order)

    - [Prelude.v] (this file): JavaScript string operations on ASCII
      strings ([toLowerCase], [trim], [includes], [replace] with a string,
      [split] on a character class), their lemmas, the [js] scope of
      notations, the [js] hint databases and the tactics [js_bool],
      [nat_bool] and [ascii_enum].
    - [Regex.v] (Module [Regex]): an ECMAScript backtracking matcher in
      continuation-passing style ([m], [exec], [match], [test], [replace]
      with a function or with a replacement string read by
      [GetSubstitution]), with the closed forms of the patterns the code
      uses, and the shared lemmas on literal patterns (a literal found in
      a string splits it around the match; [replace] of a literal with a
      [$]-free replacement string replaces that occurrence).  It models the
      JavaScript runtime, not code of the repository.
    - [JsValue.v]: JavaScript/BSON values ([jv]), objects as ordered
      association lists with JavaScript's assignment semantics, truthiness.
    - [Uri.v] (Module [Uri]): [encodeURIComponent] and
      [decodeURIComponent] on byte strings, with UTF-8 validity as
      ECMAScript's Decode checks it; also a runtime model.
    - [Normalizer.v], [Store.v], [Gateway.v], [Access.v]: the parts named
      above, one Module each.  MongoDB's aggregation engine is the
      [AggEngine] class, csv-parse the [CsvParser] class.
    - [Reply.v]: the query-block search ([mongo_block]) and
      [removeQueryFromResponse] as scans, the messages of the loop, and the
      equivalence of [mongo_block] with the regular expression of line
      3508 run by [Regex].
    - [Conversation.v]: [runGeneration] and [processResponseWithMongo] as
      state-passing functions with fuel, over a model that is a function
      of the chat session ([JsRuntime] class for JSON and number
      formatting); the state is the UI's message list and a trace of what
      the user saw.
    - [Session.v]: the query service of the loop instantiated with the
      server's query handler.
    - [Codec.v]: [split] on a one-character string and a text encoding of
      strings used by the example token service.
    - [Admin.v]: [authenticateToken], [requireAdmin] ([TokenService] and
      [PasswordHasher] classes for JWT and bcrypt), login, the admin API
      as [handle] and the step relation [step] on the database.
    - [Mongo.v] (Module [Mongo]): [connectDB] (lines 47-134) as a function
      of the environment, the driver (a function from the connection
      string to success or an error message), the time and the database,
      returning the database and the log lines that carry a value; the
      masks of lines 72 and 85 are regular expressions run by [Regex];
      [admin_files_route] is [GET /api/admin/files] with its call of
      [connectDB].
    - [Serving.v]: the routes outside the API ([serve_get] in registration
      order, [data_file], [inject_html], [health]), the upload route
      ([upload_route]: middlewares, multer's filter and size limit, the
      store's handler) and the error handler [on_error].
    - [Client.v]: the requests [authAPI] builds for the login and user
      administration routes and how it reads the answers, [checkAuth]
      with the database of each of its two requests, the login form with
      [App.handleLogin] and [App.handleLogout], and the server's routing
      of [/api/admin/users/:email] with Express's parameter decoding.
    - [Panel.v] (Module [Panel]): [AdminPanel] (lines 1699-1858) as a
      record of its hooks, its handlers ([loadData], [handleFileUpload],
      [handleAddUser], [handleUserSelect], [handleFileToggle],
      [handleDeleteUser], [handleUpdateRole]) and the add-user form's
      inputs as functions of the token, the time, the database and the
      panel; the calls go through the routes of [Client], [Admin] and
      [Serving].  [panel_step] is the relation of the admin's actions and
      [reachable] the states from the panel's mount.
    - [Turn.v]: [handleSend] with the prompt composition,
      [matchFilesToQuery], [getApiKey] and [loadDataFolderFiles].
    - [Chat.v] (Module [Chat]): the files attached to the chat
      ([handleChatFileSelect], [processSingleFile], [isHTMLContent],
      [removeAttachment]) as updates of the client state of [Turn]; a
      picked file is the text the browser reads, a ZIP archive the entries
      JSZip lists.
    - [Page.v] (Module [Page]): the main page as a record of [App]'s
      sign-in state ([Client.auth_state]), the conversation's state
      ([Turn.client]), its two refs, the pending timeout and the keys of
      [localStorage]; [usePersistentState] for ['chat_messages'] with the
      cleaning effect, [handleLogout], [resetChat], the automatic load,
      [handleDataReload], its timeout and [checkReload];
      [page_step] is the relation of the page's events, each followed by
      the effect that writes the messages back, and [reachable] the pages
      of a tab opened on some storage.  The handlers installed once at
      mount hold the first render's functions ([stale_env]).
    - [Build.v] (Module [Build]): [vite.config.ts] as functions of the
      variables [loadEnv] gives: the backend port and the [/api] and
      [/data] proxy of the development server, the build-time API key
      names [Turn.getApiKey] reads, and the ports the page's two kinds of
      calls reach in development, against the server's [PORT || 5005].
      The two programs read different environments ([dev_setup]): the
      server the shell and [src/backend/.env] (dotenv, [server.js] line
      18), Vite the shell and the [.env] of the directory it runs in; only
      a variable set in the shell reaches both.

    ** What the theorems show (groups)

    - Normalizer: collection names are [data_] followed by [a-z0-9_]
      without doubled or edge underscores; cleaned keys are safe field
      names and cleaning is idempotent; a cleaned record has each safe key
      once; finding: two headers that clean to the same key lose a column.
    - Store: a successful upload answers 201 with the cleaned headers
      followed by the [_id] that [insertMany] adds, replaces the data
      collection and leaves one metadata record; non-admin users get only schemas of their files;
      findings: an upload whose CSV yields no record answers 201 and keeps
      the previous rows, and two names differing in case share a
      collection.
    - Admin: every request keeps the users' emails distinct and lower-case
      (rule induction on [step]); findings: a token keeps admin rights after
      its account is deleted, and two admins can remove every admin.
    - Gateway: a blacklisted stage never reaches the engine; a non-admin
      user is refused a file outside the accessible list; the cap keeps the
      first 10 000 rows and reports [totalRows] and [truncated] exactly;
      findings: a request naming only a [collectionName] skips the
      authorisation check, [$lookup] passes the blacklist, and scenario C
      returns [_id: null].
    - Serving: [GET /data/<name>] has no authentication and returns the
      content of any active file (composed with the gateway's 403 for the
      same user, and with a full upload through [upload_route]); the name
      is decoded twice, so names with escapes are unreachable; on a page
      with a [<head>] and no script yet, [inject_html] places a [$]-free
      API key in a JavaScript string literal that reads back as the key
      (round trip through the escaping); a filtered upload is answered
      500; finding: a key containing [$] is expanded by [replace] as a
      replacement pattern ([$&] becomes [<head>]).
    - Client: every request of the admin page reaches the handler for
      the e-mail it names, through [encodeURIComponent] and Express's
      decoding (round trip); findings: a failed [GET /api/user/files]
      leaves the signed-in user with no restriction (fail-open), and
      signing in after another account signed out keeps that account's
      accessible list.
    - Panel: every reachable state of the admin panel shows the server's
      user and file lists (invariant by rule induction on [reachable]);
      toggling a file stores the toggled list and the selection shows what
      the server then answers (refinement), and toggling twice restores
      it (round trip); the panel only creates accounts with the role
      [user]; finding: failed uploads are silent, even a refused
      re-upload that has already removed the previous file from the lists.
    - Access and Reply: soundness and completeness of the question check,
      the response check refines it, the prompt's schemas are accessible
      ones; [mongo_block] is equivalent to the regular expression;
      findings: the question check can never fire in the deployed flow, and
      an empty accessible list is unrestricted.
    - Conversation and Turn: quota retries send the prompt six times with
      waits of 2 to 32 seconds; an access denial ends the turn; a denied
      question never reaches the model; a plain reply ends the turn;
      termination when the model stops querying; the client sends the
      wrong file name with a query; findings: the loop has no bound on
      query rounds, a refused reply is shown before its denial, a
      certificate error's diagnostic is overwritten, and only the first
      turn of a session carries the data sources.
    - Chat: the prompt does not depend on the contents of the attached
      files (no attached text reaches the model); two checks of
      [isHTMLContent] are dead, so the filter equals its remaining checks.
    - Mongo: the mask of a [mongodb+srv] URI replaces exactly the password;
      a first connection creates the default admin, who can then log in
      with [admin123]; findings: a [mongodb://] URI is logged with its
      password, a URI naming another database gets [/indira-gpt] appended
      after it, and a database lost at start stays lost for every route
      but the admin file listing.
    - Page: in every reachable page the stored messages are the messages
      shown, and a timeout is pending exactly while a reload is in progress
      (invariant by rule induction); findings: a new page load shows the
      previous account's conversation (round trip of the stored
      messages), the forced reload after an upload returns at once (stale
      closure), so the upload reaches the chat as a merge that keeps the
      session and old entries, and every upload loads the schemas twice.
    - Build: both build-time key names carry [GEMINI_API_KEY], so
      [getApiKey] falls back to that key; lemmas: a [PORT] set in the shell
      makes the proxy reach the server's port, and with no variable set the
      server listens on 5005 while the proxy sends login and the admin
      calls to 8080 (finding).

    ** Bounds and fuel

    The conversation loop of the code is unbounded (see the findings); the
    model gives [processResponseWithMongo] an explicit [fuel] counting its
    calls, [None] being a run that has not ended.  [process_terminates]
    shows that fuel [n - k + 1] suffices when the model stops emitting
    queries once the session has sent [n] prompts ([k] sent so far), since
    every round sends at least one prompt; [query_loop_unbounded] shows
    that no fuel suffices for a model that always emits a successful query.
    [handleSend] passes its fuel on.  The regular-expression matcher gives
    a repetition [S (length s)] rounds, enough because every iteration but
    the last consumes a character; [decodeURIComponent] uses the length of
    its input, which bounds the number of characters it reads.

    ** Not modelled (and why)

    JavaScript numbers are exact rationals ([Q]): IEEE-754 rounding,
    [-0] and exponents in [parseFloat] are not modelled.  Strings are byte
    strings; [\s] and [trim] are ASCII white space.  Integer-like object
    keys are not moved first (keys keep insertion order).  csv-parse,
    JSON.parse, bcrypt, JWT and MongoDB's aggregation engine are
    interfaces with the laws the theorems use.  Express's routing is
    modelled for the GET routes outside the API (case-insensitive paths,
    optional trailing slash, parameter decoding); the routes of
    [server.js] lines 1126-1445 (the query and schema handlers among
    them) are registered only when the front end's [dist] folder exists
    ([distExists]), which the model takes as true; the temporary files of
    multer, GridFS streaming, the loading of [.env] and the log lines that
    carry no value, React rendering and the order of renders (each event
    is followed by one render and its effects), the browser's form
    validation, the charting, video and storyboard UI with its
    [localStorage] keys, and the parts of [vite.config.ts] with no bearing
    on what the program computes (the plugin copying the [data] folder at
    build time, HMR, the React plugin, the path alias) are outside the
    model.  [JSON.stringify] and [JSON.parse] of
    the stored messages are represented by the value read back
    (see PROJECT.json for the per-component status). *)

From Stdlib Require Import String Ascii List Bool Arith Lia ZArith QArith.
From Stdlib Require Import DecimalString DecimalNat DecimalFacts Sorted Permutation.
Import ListNotations.
Open Scope string_scope.

(** ** Notations of the development *)

Declare Scope js_scope.
Delimit Scope js_scope with js.

(** [s1 +s s2] is JavaScript's string concatenation [s1 + s2]. *)
Notation "s1 +s s2" := (String.append s1 s2) (at level 60, right associativity) : js_scope.
Open Scope js_scope.
Open Scope nat_scope.

(** ** Characters *)

Definition code (c : ascii) : nat := nat_of_ascii c.

Definition in_range (lo hi : nat) (c : ascii) : bool :=
  Nat.leb lo (code c) && Nat.leb (code c) hi.

Definition is_digit (c : ascii) : bool := in_range 48 57 c.
Definition is_upper (c : ascii) : bool := in_range 65 90 c.
Definition is_lower (c : ascii) : bool := in_range 97 122 c.
Definition is_alnum (c : ascii) : bool := is_digit c || is_upper c || is_lower c.

(** JavaScript's [\s] restricted to ASCII: space, tab, LF, VT, FF, CR. *)
Definition is_ws (c : ascii) : bool :=
  Nat.eqb (code c) 32 || in_range 9 13 c.

Definition is_char (d : ascii) (c : ascii) : bool := Ascii.eqb c d.

(** [String.prototype.toLowerCase] on ASCII. *)
Definition lower_char (c : ascii) : ascii :=
  if is_upper c then ascii_of_nat (code c + 32) else c.

(** ** Strings as the code manipulates them *)

Fixpoint map_chars (f : ascii -> ascii) (s : string) : string :=
  match s with
  | EmptyString => EmptyString
  | String c t => String (f c) (map_chars f t)
  end.

Definition lower (s : string) : string := map_chars lower_char s.

(** Every character satisfies [p]. *)
Fixpoint all_chars (p : ascii -> bool) (s : string) : bool :=
  match s with
  | EmptyString => true
  | String c t => p c && all_chars p t
  end.

(** [s.replace(/[...]/g, '')]: delete the characters of a class. *)
Fixpoint remove_chars (p : ascii -> bool) (s : string) : string :=
  match s with
  | EmptyString => EmptyString
  | String c t => if p c then remove_chars p t else String c (remove_chars p t)
  end.

(** [s.replace(/x/g, c')]: replace every character of a class by one. *)
Definition replace_chars (p : ascii -> bool) (d : ascii) (s : string) : string :=
  map_chars (fun c => if p c then d else c) s.

(** [s.replace(/x+/g, r)]: each maximal run of the class becomes [r]. *)
Fixpoint collapse_go (p : ascii -> bool) (r : string) (in_run : bool) (s : string)
  : string :=
  match s with
  | EmptyString => EmptyString
  | String c t =>
      if p c then (if in_run then collapse_go p r true t else r ++ collapse_go p r true t)
      else String c (collapse_go p r false t)
  end.

Definition collapse_runs (p : ascii -> bool) (r : string) (s : string) : string :=
  collapse_go p r false s.

(** [String.prototype.trimStart] / [trimEnd] / [trim] (ASCII white space). *)
Fixpoint trim_start (s : string) : string :=
  match s with
  | EmptyString => EmptyString
  | String c t => if is_ws c then trim_start t else s
  end.

Fixpoint rev_string (s : string) : string :=
  match s with
  | EmptyString => EmptyString
  | String c t => rev_string t ++ String c EmptyString
  end.

Definition trim_end (s : string) : string := rev_string (trim_start (rev_string s)).

Definition trim (s : string) : string := trim_end (trim_start s).

(** [hay.includes(needle)]. *)
Fixpoint includes (hay needle : string) : bool :=
  prefix needle hay ||
  match hay with
  | EmptyString => false
  | String _ t => includes t needle
  end.

(** [s.replace(pat, r)] with a string pattern: the first occurrence only. *)
Fixpoint replace_first (pat r s : string) : string :=
  if prefix pat s then r ++ substring (String.length pat) (String.length s) s
  else match s with
       | EmptyString => EmptyString
       | String c t => String c (replace_first pat r t)
       end.

(** [s.split(/[class]+/)]: tokens between maximal runs of the class; a
    leading or trailing run yields an empty token, as in JavaScript. *)
Fixpoint split_go (p : ascii -> bool) (cur : string) (in_sep : bool) (s : string)
  : list string :=
  match s with
  | EmptyString => [cur]
  | String c t =>
      if p c then (if in_sep then split_go p EmptyString true t
                   else cur :: split_go p EmptyString true t)
      else split_go p (cur ++ String c EmptyString) false t
  end.

Definition split_runs (p : ascii -> bool) (s : string) : list string :=
  split_go p EmptyString false s.

(** The characters that JavaScript source writes as [\n] and as a double
    quote. *)
Definition NL : string := String (ascii_of_nat 10) EmptyString.
Definition DQ : string := String (ascii_of_nat 34) EmptyString.

(** [`${n}`] for a natural number. *)
Definition nat_to_string (n : nat) : string :=
  NilEmpty.string_of_uint (Nat.to_uint n).

(** The first character of [s] exists and satisfies [p]. *)
Definition head_is (p : ascii -> bool) (s : string) : bool :=
  match s with EmptyString => false | String c _ => p c end.

(** No two adjacent characters of [s] both satisfy [p]. *)
Fixpoint no_double (p : ascii -> bool) (s : string) : bool :=
  match s with
  | EmptyString => true
  | String c t => negb (p c && head_is p t) && no_double p t
  end.

(** Neither the first nor the last character satisfies [p]. *)
Definition edges_not (p : ascii -> bool) (s : string) : bool :=
  negb (head_is p s) && negb (head_is p (rev_string s)).

(** [s] with its first character removed when it satisfies [p]
    (the anchored patterns [/^x/]). *)
Definition drop_head_if (p : ascii -> bool) (s : string) : string :=
  match s with
  | String c t => if p c then t else s
  | EmptyString => EmptyString
  end.

(** [s.replace(/^x|x$/g, '')] for a one-character class [x]: one leading
    and one trailing occurrence removed. *)
Definition strip_edges (p : ascii -> bool) (s : string) : string :=
  rev_string (drop_head_if p (rev_string (drop_head_if p s))).

(** [list.includes(x)] on strings. *)
Definition str_mem (x : string) (l : list string) : bool :=
  existsb (String.eqb x) l.

(** [Array.prototype.sort] with a comparator [key b - key a] (newest
    first), which is stable: each element goes after those whose key is not
    smaller. *)
Fixpoint insert_desc {A} (key : A -> Z) (x : A) (l : list A) : list A :=
  match l with
  | [] => [x]
  | y :: l' => if Z.ltb (key y) (key x) then x :: l else y :: insert_desc key x l'
  end.

Definition sort_desc {A} (key : A -> Z) (l : list A) : list A :=
  fold_left (fun acc x => insert_desc key x acc) l [].

(** No character of [s] satisfies [p]. *)
Definition none_of (p : ascii -> bool) (s : string) : bool := all_chars (fun c => negb (p c)) s.

(** ** Lemmas on characters and strings *)

Create HintDb js discriminated.
Create Rewrite HintDb js_rw.

(** Split the [andb] and [orb] hypotheses the boolean string predicates
    produce. *)
Ltac js_bool :=
  repeat match goal with
         | H : (_ && _) = true |- _ => apply andb_prop in H as [? ?]
         | H : (_ || _) = false |- _ => apply orb_false_elim in H as [? ?]
         end.

(** Turn the boolean comparisons of naturals among the hypotheses into
    propositions, for [lia]. *)
Ltac nat_bool :=
  repeat match goal with
         | H : (_ && _) = true |- _ => apply andb_prop in H as [? ?]
         | H : Nat.leb _ _ = true |- _ => apply Nat.leb_le in H
         | H : Nat.leb _ _ = false |- _ => apply Nat.leb_gt in H
         | H : Nat.ltb _ _ = true |- _ => apply Nat.ltb_lt in H
         | H : Nat.ltb _ _ = false |- _ => apply Nat.ltb_ge in H
         | H : Nat.eqb _ _ = true |- _ => apply Nat.eqb_eq in H
         | H : Nat.eqb _ _ = false |- _ => apply Nat.eqb_neq in H
         end.


Lemma all_chars_app p s t :
  all_chars p (s ++ t) = all_chars p s && all_chars p t.
Proof. induction s as [|c s IH]; simpl; [reflexivity|]. rewrite IH. apply andb_assoc. Qed.

Lemma all_chars_map p f s :
  (forall c, p (f c) = true) -> all_chars p (map_chars f s) = true.
Proof. intros Hf. induction s; simpl; [reflexivity|]. now rewrite Hf, IHs. Qed.

Lemma all_chars_impl (p q : ascii -> bool) s :
  (forall c, p c = true -> q c = true) ->
  all_chars p s = true -> all_chars q s = true.
Proof.
  intros Hpq. induction s as [|c s IH]; simpl; [reflexivity|].
  intros [Hc Hs]%andb_prop. now rewrite (Hpq c Hc), (IH Hs).
Qed.

Lemma all_chars_remove p q s :
  (forall c, p c = false -> q c = true) ->
  all_chars q s = true -> all_chars q (remove_chars p s) = true.
Proof.
  intros Hpq. induction s as [|c s IH]; simpl; [reflexivity|].
  intros [Hc Hs]%andb_prop. destruct (p c); simpl; rewrite ?Hc; auto.
Qed.

Lemma all_chars_remove_not p s : all_chars (fun c => negb (p c)) (remove_chars p s) = true.
Proof.
  induction s as [|c s IH]; simpl; [reflexivity|].
  destruct (p c) eqn:E; simpl; rewrite ?E; auto.
Qed.

Lemma all_chars_collapse p q r s :
  all_chars q r = true -> all_chars q s = true ->
  all_chars q (collapse_runs p r s) = true.
Proof.
  unfold collapse_runs. generalize false as b.
  intros b Hr. revert b. induction s as [|c s IH]; intros b; simpl; [reflexivity|].
  intros [Hc Hs]%andb_prop.
  destruct (p c), b; simpl; rewrite ?all_chars_app, ?Hr, ?Hc; simpl; auto.
Qed.

Lemma all_chars_collapse_repl p q r s :
  (forall c, p c = false -> q c = true) -> all_chars q r = true ->
  all_chars q (collapse_runs p r s) = true.
Proof.
  intros Hpq Hr. unfold collapse_runs. generalize false as b.
  induction s as [|c s IH]; intros b; simpl; [reflexivity|].
  destruct (p c) eqn:E, b; simpl; rewrite ?all_chars_app, ?Hr; simpl; auto;
    rewrite (Hpq c E); simpl; auto.
Qed.

Lemma str_length_append s t :
  String.length (s ++ t) = String.length s + String.length t.
Proof. induction s as [|c s IH]; simpl; congruence. Qed.

Lemma append_nil_r s : s ++ EmptyString = s.
Proof. induction s as [|c s IH]; simpl; congruence. Qed.

Lemma append_assoc s t u : s ++ t ++ u = (s ++ t) ++ u.
Proof. induction s as [|c s IH]; simpl; congruence. Qed.

Lemma rev_string_app s t : rev_string (s ++ t) = rev_string t ++ rev_string s.
Proof.
  induction s as [|c s IH]; simpl.
  - now rewrite append_nil_r.
  - rewrite IH. now rewrite append_assoc.
Qed.

Lemma rev_string_involutive s : rev_string (rev_string s) = s.
Proof. induction s as [|c s IH]; simpl; [reflexivity|]. now rewrite rev_string_app, IH. Qed.

Lemma all_chars_rev p s : all_chars p (rev_string s) = all_chars p s.
Proof.
  induction s as [|c s IH]; simpl; [reflexivity|].
  rewrite all_chars_app, IH. simpl. now rewrite andb_true_r, andb_comm.
Qed.

Lemma lower_char_not_upper c : is_upper (lower_char c) = false.
Proof.
  unfold lower_char. destruct (is_upper c) eqn:E; [|exact E].
  unfold is_upper, in_range, code in *.
  apply andb_prop in E as [E1 E2]. apply Nat.leb_le in E1, E2.
  rewrite nat_ascii_embedding by lia.
  apply andb_false_iff. right. apply Nat.leb_gt. lia.
Qed.


(** *** Character tests by code *)

Lemma code_inj c d : code c = code d -> c = d.
Proof.
  unfold code. intros H.
  rewrite <- (ascii_nat_embedding c), <- (ascii_nat_embedding d). now rewrite H.
Qed.

Lemma is_char_code d c : is_char d c = Nat.eqb (code c) (code d).
Proof.
  unfold is_char. destruct (Ascii.eqb_spec c d) as [->|Hne].
  - now rewrite Nat.eqb_refl.
  - symmetry. apply Nat.eqb_neq. intros H. apply Hne, code_inj, H.
Qed.

Lemma code_lt_256 c : code c < 256.
Proof. unfold code. apply nat_ascii_bounded. Qed.

Lemma lower_char_code c :
  code (lower_char c) = if is_upper c then code c + 32 else code c.
Proof.
  unfold lower_char. destruct (is_upper c) eqn:E; [|reflexivity].
  unfold is_upper, in_range in E. js_bool. apply Nat.leb_le in H0.
  unfold code at 1. rewrite nat_ascii_embedding; [reflexivity|]. lia.
Qed.

(** Lower-casing changes only upper-case letters: any class that contains
    no letter is left as it is. *)
Lemma lower_char_class (p : ascii -> bool) c :
  (forall d, in_range 65 90 d || in_range 97 122 d = true -> p d = false) ->
  p (lower_char c) = p c.
Proof.
  intros Hp. unfold lower_char. destruct (is_upper c) eqn:E; [|reflexivity].
  rewrite (Hp c) by (unfold is_upper in E; now rewrite E).
  apply Hp. apply orb_true_iff. right.
  unfold is_upper, in_range, code in *.
  apply andb_prop in E as [E1 E2]. apply Nat.leb_le in E1, E2.
  rewrite nat_ascii_embedding by lia.
  apply andb_true_intro. split; apply Nat.leb_le; lia.
Qed.

(** *** Heads, reversal and [no_double] *)

Lemma head_is_app_l p x y : head_is p x = true -> head_is p (x ++ y) = true.
Proof. destruct x; simpl; easy. Qed.

Lemma head_is_app_nil p y : head_is p (EmptyString ++ y) = head_is p y.
Proof. reflexivity. Qed.

Lemma head_is_app_ne p x y : x <> EmptyString -> head_is p (x ++ y) = head_is p x.
Proof. destruct x; simpl; congruence. Qed.

Lemma rev_string_nonempty c x : rev_string (String c x) <> EmptyString.
Proof.
  simpl. intros H. apply (f_equal String.length) in H.
  rewrite str_length_append in H. simpl in H. lia.
Qed.

Lemma no_double_app p x y :
  no_double p (x ++ y) =
  no_double p x && no_double p y && negb (head_is p (rev_string x) && head_is p y).
Proof.
  induction x as [|c x IH]; cbn [append no_double rev_string].
  - destruct (head_is p y), (no_double p y); reflexivity.
  - rewrite IH. destruct x as [|d x'].
    + simpl. destruct (p c), (head_is p y), (no_double p y); reflexivity.
    + rewrite (head_is_app_ne p (rev_string (String d x'))) by apply rev_string_nonempty.
      cbn [append head_is].
      destruct (p c), (p d), (head_is p (rev_string (String d x'))), (head_is p y),
        (no_double p (String d x')), (no_double p y); reflexivity.
Qed.

Lemma no_double_rev p s : no_double p (rev_string s) = no_double p s.
Proof.
  induction s as [|c s IH]; simpl; [reflexivity|].
  rewrite no_double_app, IH, rev_string_involutive. simpl.
  destruct (head_is p s), (p c), (no_double p s); reflexivity.
Qed.

Lemma drop_head_if_no_head p s : head_is p s = false -> drop_head_if p s = s.
Proof. destruct s; simpl; [reflexivity|]. intros ->. reflexivity. Qed.

Lemma drop_head_if_split p s :
  exists w, s = w ++ drop_head_if p s /\ String.length w <= 1.
Proof.
  destruct s as [|c t]; simpl.
  - exists EmptyString. simpl. split; [reflexivity|lia].
  - destruct (p c).
    + exists (String c EmptyString). simpl. split; [reflexivity|lia].
    + exists EmptyString. simpl. split; [reflexivity|lia].
Qed.

Lemma drop_head_if_head p s :
  no_double p s = true -> head_is p (drop_head_if p s) = false.
Proof.
  destruct s as [|c t]; simpl; [reflexivity|].
  destruct (p c) eqn:E; simpl; [|now rewrite E].
  intros H. js_bool. now destruct (head_is p t).
Qed.

Lemma no_double_drop p q s : no_double q s = true -> no_double q (drop_head_if p s) = true.
Proof.
  destruct s as [|c t]; simpl; [reflexivity|].
  intros H. destruct (p c); [|exact H]. js_bool. assumption.
Qed.

Lemma all_chars_drop p q s : all_chars q s = true -> all_chars q (drop_head_if p s) = true.
Proof.
  destruct s as [|c t]; simpl; [reflexivity|].
  intros H. js_bool. destruct (p c); simpl; [assumption|]. now rewrite H, H0.
Qed.

(** *** Fixed points of the replacement steps *)

Lemma remove_chars_id p s : none_of p s = true -> remove_chars p s = s.
Proof.
  unfold none_of. induction s as [|c s IH]; simpl; [reflexivity|].
  intros H. js_bool. apply negb_true_iff in H. rewrite H. f_equal. auto.
Qed.

Lemma replace_chars_id p d s : none_of p s = true -> replace_chars p d s = s.
Proof.
  unfold none_of, replace_chars. induction s as [|c s IH]; simpl; [reflexivity|].
  intros H. js_bool. apply negb_true_iff in H. rewrite H. f_equal. auto.
Qed.

Lemma collapse_runs_id p r s : none_of p s = true -> collapse_runs p r s = s.
Proof.
  unfold none_of, collapse_runs. generalize false.
  induction s as [|c s IH]; intros b; simpl; [reflexivity|].
  intros H. js_bool. apply negb_true_iff in H. rewrite H. f_equal. auto.
Qed.

(** Collapsing runs of a one-character class into that character. *)
Section Collapse.
Variable p : ascii -> bool.
Variable d : ascii.
Hypothesis Hd : p d = true.
Hypothesis Honly : forall c, p c = true -> c = d.

Lemma collapse_go_id b s :
  no_double p s = true -> (b = true -> head_is p s = false) ->
  collapse_go p (String d EmptyString) b s = s.
Proof.
  revert b. induction s as [|c s IH]; intros b; simpl; [reflexivity|].
  intros H Hb. js_bool. destruct (p c) eqn:E.
  - destruct b; [specialize (Hb eq_refl); discriminate|].
    rewrite (Honly c E). simpl. f_equal. apply IH; [assumption|].
    intros _. now destruct (head_is p s).
  - f_equal. apply IH; [assumption|discriminate].
Qed.

Lemma collapse_go_no_double b s :
  no_double p (collapse_go p (String d EmptyString) b s) = true /\
  (b = true -> head_is p (collapse_go p (String d EmptyString) b s) = false).
Proof.
  revert b. induction s as [|c s IH]; intros b; simpl; [split; reflexivity|].
  destruct (p c) eqn:E; [destruct b|].
  - apply IH.
  - destruct (IH true) as [H1 H2]. simpl. rewrite Hd, H2, H1 by reflexivity.
    split; [reflexivity|discriminate].
  - destruct (IH false) as [H1 _]. simpl. rewrite E, H1. split; [reflexivity|].
    intros _. reflexivity.
Qed.
End Collapse.


(** *** Edges *)

Lemma none_of_edges p s : none_of p s = true -> edges_not p s = true.
Proof.
  unfold none_of, edges_not. intros H.
  assert (Hr : all_chars (fun c => negb (p c)) (rev_string s) = true)
    by now rewrite all_chars_rev.
  destruct s as [|c t]; [reflexivity|].
  destruct (rev_string (String c t)) as [|d u]; simpl in *; js_bool;
    now rewrite ?H, ?Hr.
Qed.

(** The common shape of [trim] and [strip_edges]: drop a head, reverse,
    drop a head, reverse back. *)
Lemma edges_of_double_drop p (f g : string -> string) s :
  (forall x, exists w, x = w ++ g x) ->
  head_is p (f s) = false -> head_is p (g (rev_string (f s))) = false ->
  edges_not p (rev_string (g (rev_string (f s)))) = true.
Proof.
  intros Hsplit Hf Hg. unfold edges_not. rewrite rev_string_involutive, Hg.
  rewrite andb_true_r. apply negb_true_iff.
  destruct (head_is p (rev_string (g (rev_string (f s))))) eqn:E; [|reflexivity].
  destruct (Hsplit (rev_string (f s))) as [w Hw].
  apply (f_equal rev_string) in Hw. rewrite rev_string_involutive, rev_string_app in Hw.
  rewrite Hw in Hf. rewrite (head_is_app_l p _ _ E) in Hf. discriminate.
Qed.

Lemma strip_edges_id p s : edges_not p s = true -> strip_edges p s = s.
Proof.
  unfold edges_not, strip_edges. intros H. js_bool. apply negb_true_iff in H, H0.
  rewrite (drop_head_if_no_head p s H), (drop_head_if_no_head p _ H0).
  apply rev_string_involutive.
Qed.

Lemma strip_edges_edges p s : no_double p s = true -> edges_not p (strip_edges p s) = true.
Proof.
  intros H. unfold strip_edges. apply edges_of_double_drop.
  - intros x. destruct (drop_head_if_split p x) as [w [Hw _]]. now exists w.
  - now apply drop_head_if_head.
  - apply drop_head_if_head. rewrite no_double_rev. now apply no_double_drop.
Qed.

Lemma strip_edges_all p q s : all_chars q s = true -> all_chars q (strip_edges p s) = true.
Proof.
  intros H. unfold strip_edges. rewrite all_chars_rev.
  apply all_chars_drop. rewrite all_chars_rev. now apply all_chars_drop.
Qed.

Lemma strip_edges_no_double p q s : no_double q s = true -> no_double q (strip_edges p s) = true.
Proof.
  intros H. unfold strip_edges. rewrite no_double_rev.
  apply no_double_drop. rewrite no_double_rev. now apply no_double_drop.
Qed.

(** *** Trimming *)

Lemma trim_start_head s : head_is is_ws (trim_start s) = false.
Proof.
  induction s as [|c s IH]; simpl; [reflexivity|].
  destruct (is_ws c) eqn:E; [exact IH|]. simpl. exact E.
Qed.

Lemma trim_start_no_head s : head_is is_ws s = false -> trim_start s = s.
Proof. destruct s as [|c s]; simpl; [reflexivity|]. now intros ->. Qed.

Lemma trim_start_split s : exists w, s = w ++ trim_start s.
Proof.
  induction s as [|c s [w IH]]; simpl; [now exists EmptyString|].
  destruct (is_ws c); [exists (String c w); simpl; now f_equal|now exists EmptyString].
Qed.

Lemma trim_start_split_ws s : exists w, all_chars is_ws w = true /\ s = w ++ trim_start s.
Proof.
  induction s as [|c s [w [Hw IH]]]; simpl; [now exists EmptyString|].
  destruct (is_ws c) eqn:E; [exists (String c w); simpl; rewrite E, Hw; split; [reflexivity|now f_equal]|].
  now exists EmptyString.
Qed.

Lemma trim_start_app_ws w u : all_chars is_ws w = true -> trim_start (w ++ u) = trim_start u.
Proof. induction w as [|c w IH]; simpl; [reflexivity|]. intros H. js_bool. rewrite H. now apply IH. Qed.

Lemma trim_start_snoc x a :
  trim_start (x ++ String a EmptyString) =
  if all_chars is_ws x then (if is_ws a then EmptyString else String a EmptyString)
  else trim_start x ++ String a EmptyString.
Proof.
  induction x as [|c x IH]; simpl; [now destruct (is_ws a)|].
  destruct (is_ws c); simpl; [exact IH|reflexivity].
Qed.

Lemma trim_start_all_ws x : all_chars is_ws x = true -> trim_start x = EmptyString.
Proof. induction x as [|c x IH]; simpl; [reflexivity|]. intros H. js_bool. rewrite H. now apply IH. Qed.

(** [trimEnd] one character at a time from the left. *)
Lemma trim_end_cons a b :
  trim_end (String a b) = if is_ws a && all_chars is_ws b then EmptyString else String a (trim_end b).
Proof.
  unfold trim_end. cbn [rev_string]. rewrite trim_start_snoc, all_chars_rev.
  destruct (all_chars is_ws b) eqn:Eb.
  - rewrite andb_true_r, (trim_start_all_ws (rev_string b)) by (now rewrite all_chars_rev).
    destruct (is_ws a); reflexivity.
  - rewrite andb_false_r, rev_string_app. reflexivity.
Qed.

Lemma trim_end_all_ws x : all_chars is_ws x = true -> trim_end x = EmptyString.
Proof. intros H. unfold trim_end. rewrite trim_start_all_ws by (now rewrite all_chars_rev). reflexivity. Qed.

Lemma all_chars_trim_start q s : all_chars q s = true -> all_chars q (trim_start s) = true.
Proof.
  induction s as [|c s IH]; simpl; [reflexivity|].
  intros H. destruct (is_ws c); [|exact H]. js_bool. auto.
Qed.

Lemma trim_edges s : edges_not is_ws (trim s) = true.
Proof.
  unfold trim, trim_end. apply edges_of_double_drop.
  - apply trim_start_split.
  - apply trim_start_head.
  - apply trim_start_head.
Qed.

Lemma trim_id s : edges_not is_ws s = true -> trim s = s.
Proof.
  unfold edges_not, trim, trim_end. intros H. js_bool. apply negb_true_iff in H, H0.
  rewrite (trim_start_no_head s H), (trim_start_no_head _ H0).
  apply rev_string_involutive.
Qed.

Lemma trim_idem s : trim (trim s) = trim s.
Proof. apply trim_id, trim_edges. Qed.

Lemma all_chars_trim q s : all_chars q s = true -> all_chars q (trim s) = true.
Proof.
  intros H. unfold trim, trim_end. rewrite all_chars_rev.
  apply all_chars_trim_start. rewrite all_chars_rev. now apply all_chars_trim_start.
Qed.

#[export] Hint Resolve trim_edges strip_edges_edges strip_edges_all all_chars_trim : js.
#[export] Hint Rewrite trim_idem : js_rw.


(** *** Decimal rendering and character maps *)

Lemma nat_to_uint_nonnil n : Nat.to_uint n <> Decimal.Nil.
Proof.
  intros H. pose proof (DecimalNat.Unsigned.to_of (Nat.to_uint n)) as E.
  rewrite DecimalNat.Unsigned.of_to in E. rewrite H in E.
  symmetry in E. apply (DecimalFacts.unorm_nonnil Decimal.Nil). exact E.
Qed.

Lemma nat_to_string_digits n :
  nat_to_string n <> EmptyString /\ all_chars is_digit (nat_to_string n) = true.
Proof.
  unfold nat_to_string. pose proof (nat_to_uint_nonnil n) as Hn.
  revert Hn. generalize (Nat.to_uint n) as u. intros u Hn. split.
  - destruct u; simpl; congruence.
  - clear Hn. induction u; simpl; auto.
Qed.

Lemma all_chars_map_eq p f s : all_chars p (map_chars f s) = all_chars (fun c => p (f c)) s.
Proof. induction s as [|c s IH]; simpl; congruence. Qed.

Lemma rev_string_map f s : rev_string (map_chars f s) = map_chars f (rev_string s).
Proof.
  induction s as [|c s IH]; simpl; [reflexivity|].
  rewrite IH. clear IH. generalize (rev_string s) as t.
  induction t as [|d t IH]; simpl; congruence.
Qed.

(** A map that respects a class leaves [no_double] and the edges alone. *)
Section MapClass.
Variable p : ascii -> bool.
Variable f : ascii -> ascii.
Hypothesis Hf : forall c, p (f c) = p c.

Lemma head_is_map s : head_is p (map_chars f s) = head_is p s.
Proof. destruct s; simpl; auto. Qed.

Lemma no_double_map s : no_double p (map_chars f s) = no_double p s.
Proof. induction s as [|c s IH]; simpl; [reflexivity|]. now rewrite IH, Hf, head_is_map. Qed.

Lemma edges_not_map s : edges_not p (map_chars f s) = edges_not p s.
Proof. unfold edges_not. now rewrite rev_string_map, !head_is_map. Qed.
End MapClass.


(** *** Character classes by enumeration

    A fact about one character and the classes of this file is decided by
    running the tests on all 256 characters. *)
Ltac ascii_enum :=
  let c := fresh "c" in
  intros c; destruct c as [[] [] [] [] [] [] [] []]; vm_compute;
  first [ reflexivity | intros; reflexivity | let H := fresh in intros H; discriminate H
        | intros; split; reflexivity ].

Lemma none_of_or p q s :
  none_of (fun c => p c || q c) s = none_of p s && none_of q s.
Proof.
  unfold none_of. induction s as [|c s IH]; simpl; [reflexivity|].
  rewrite IH, negb_orb. destruct (p c), (q c), (all_chars (fun c => negb (p c)) s),
    (all_chars (fun c => negb (q c)) s); reflexivity.
Qed.

Lemma none_of_no_double p s : none_of p s = true -> no_double p s = true.
Proof.
  unfold none_of. induction s as [|c s IH]; simpl; [reflexivity|].
  intros H. js_bool. apply negb_true_iff in H. rewrite H. simpl. auto.
Qed.

Lemma all_chars_remove_pres p q s : all_chars q s = true -> all_chars q (remove_chars p s) = true.
Proof.
  induction s as [|c s IH]; simpl; [reflexivity|].
  intros H. js_bool. destruct (p c); simpl; rewrite ?H; auto.
Qed.

Lemma none_of_collapse p q r s :
  none_of q s = true -> none_of q r = true -> none_of q (collapse_runs p r s) = true.
Proof. intros Hs Hr. now apply all_chars_collapse. Qed.

Lemma none_of_remove p q s : none_of q s = true -> none_of q (remove_chars p s) = true.
Proof. apply all_chars_remove_pres. Qed.

Lemma none_of_remove_self p s : none_of p (remove_chars p s) = true.
Proof. apply all_chars_remove_not. Qed.

Lemma none_of_head p s : none_of p s = true -> head_is p s = false.
Proof. unfold none_of. destruct s; simpl; [reflexivity|]. intros H. js_bool. now destruct (p a). Qed.

Lemma rev_string_nil s : rev_string s = EmptyString -> s = EmptyString.
Proof. intros E. rewrite <- (rev_string_involutive s), E. reflexivity. Qed.

Lemma all_chars_rev_nonempty p s :
  s <> EmptyString -> all_chars p s = true -> head_is p (rev_string s) = true.
Proof.
  intros Hne H. rewrite <- all_chars_rev in H.
  destruct (rev_string s) as [|c t] eqn:E.
  - apply (f_equal rev_string) in E. rewrite rev_string_involutive in E. contradiction.
  - simpl in *. js_bool. assumption.
Qed.

Lemma str_mem_In x l : str_mem x l = true <-> In x l.
Proof.
  unfold str_mem. rewrite existsb_exists. split.
  - intros [y [Hy E]]. apply String.eqb_eq in E. now subst.
  - intros H. exists x. split; [exact H|apply String.eqb_refl].
Qed.

Lemma filter_none {A} (f : A -> bool) l : (forall x, In x l -> f x = false) -> filter f l = [].
Proof.
  induction l as [|x l IH]; simpl; intros H; [reflexivity|].
  rewrite H by (left; reflexivity). apply IH. intros y Hy. apply H. now right.
Qed.

Lemma prefix_map f x q : prefix x q = true -> prefix (map_chars f x) (map_chars f q) = true.
Proof.
  revert q. induction x as [|a x IH]; intros [|b q]; simpl; try easy.
  destruct (ascii_dec a b) as [<-|]; [|discriminate].
  destruct (ascii_dec (f a) (f a)); [apply IH|contradiction].
Qed.

(** Searching commutes with a character map such as [toLowerCase]. *)
Lemma includes_map f q x : includes q x = true -> includes (map_chars f q) (map_chars f x) = true.
Proof.
  induction q as [|c q IH]; simpl; intros H; apply orb_true_iff in H as [H|H];
    apply orb_true_iff.
  - left. now apply (prefix_map f x EmptyString).
  - discriminate.
  - left. now apply (prefix_map f x (String c q)).
  - right. now apply IH.
Qed.

Lemma map_chars_app f s t : map_chars f (s ++ t) = map_chars f s ++ map_chars f t.
Proof. induction s as [|c s IH]; simpl; [reflexivity|]. now rewrite IH. Qed.

Lemma prefix_app p r : prefix p (p ++ r) = true.
Proof.
  induction p as [|c p IH]; simpl; [now destruct r|].
  destruct (ascii_dec c c); [exact IH|contradiction].
Qed.

Lemma prefix_split p s : prefix p s = true -> exists r, s = p ++ r.
Proof.
  revert s. induction p as [|c p IH]; intros s H; [now exists s|].
  destruct s as [|d s]; [discriminate|]. cbn in H. destruct (ascii_dec c d) as [<-|]; [|discriminate].
  destruct (IH s H) as [r ->]. now exists r.
Qed.

Lemma substring_all s m : String.length s <= m -> substring 0 m s = s.
Proof.
  revert m. induction s as [|c s IH]; intros [|m] Hm; simpl in *; try reflexivity; [lia|].
  rewrite IH by lia. reflexivity.
Qed.

Lemma substring_after_le p r m : String.length r <= m -> substring (String.length p) m (p ++ r) = r.
Proof. intros Hm. induction p as [|c p IH]; simpl; [now apply substring_all|exact IH]. Qed.

(** [s.slice(p.length)] on [p ++ r]. *)
Lemma substring_after p r : substring (String.length p) (String.length (p ++ r)) (p ++ r) = r.
Proof. apply substring_after_le. rewrite str_length_append. lia. Qed.

(** A string with no [c] does not include ["c"]. *)
Lemma includes_char_none c s : none_of (is_char c) s = true -> includes s (String c EmptyString) = false.
Proof.
  induction s as [|a t IH]; intros H; [reflexivity|]. cbn in H |- *. apply andb_prop in H as [Ha Ht].
  rewrite IH by exact Ht. unfold is_char in Ha. destruct (ascii_dec c a) as [<-|]; [|reflexivity].
  now rewrite Ascii.eqb_refl in Ha.
Qed.

Lemma lower_char_idem c : lower_char (lower_char c) = lower_char c.
Proof. revert c. ascii_enum. Qed.

Lemma lower_idem s : lower (lower s) = lower s.
Proof. unfold lower. induction s as [|c s IH]; simpl; [reflexivity|]. now rewrite lower_char_idem, IH. Qed.

(** [s] does not contain the one-character string [c]. *)
Lemma includes_char_false s c :
  includes s (String c EmptyString) = false -> all_chars (fun x => negb (Ascii.eqb x c)) s = true.
Proof.
  induction s as [|x s IH]; simpl; [reflexivity|]. intros H. apply orb_false_iff in H as [Hp Hi].
  destruct (ascii_dec c x) as [<-|Hne]; [destruct s; discriminate|].
  rewrite IH by exact Hi. destruct (Ascii.eqb_spec x c); [congruence|reflexivity].
Qed.

#[export] Hint Rewrite lower_idem : js_rw.

(** *** The stable sort *)

Section SortDesc.
Context {A : Type} (key : A -> Z).

Definition desc (a b : A) : Prop := (key b <= key a)%Z.

Lemma insert_desc_perm x l : Permutation (insert_desc key x l) (x :: l).
Proof.
  induction l as [|y l IH]; simpl; [reflexivity|].
  destruct (Z.ltb (key y) (key x)); [reflexivity|].
  rewrite IH. apply perm_swap.
Qed.

Lemma insert_desc_hd x y l :
  HdRel desc y l -> (key x <= key y)%Z -> HdRel desc y (insert_desc key x l).
Proof.
  intros Hh Hxy. destruct l as [|z l]; simpl; [now constructor|].
  destruct (Z.ltb (key z) (key x)); constructor; [exact Hxy|now inversion Hh].
Qed.

Lemma insert_desc_sorted x l : Sorted desc l -> Sorted desc (insert_desc key x l).
Proof.
  induction l as [|y l IH]; simpl; intros Hs; [now repeat constructor|].
  destruct (Z.ltb (key y) (key x)) eqn:E.
  - apply Z.ltb_lt in E. constructor; [exact Hs|constructor; unfold desc; lia].
  - apply Z.ltb_ge in E. inversion Hs as [|? ? Hl Hh]; subst.
    constructor; [now apply IH|]. apply insert_desc_hd; [exact Hh|lia].
Qed.

Lemma sort_desc_go_perm l acc :
  Permutation (fold_left (fun acc x => insert_desc key x acc) l acc) (acc ++ l).
Proof.
  revert acc. induction l as [|x l IH]; intros acc; simpl; [now rewrite List.app_nil_r|].
  rewrite IH, insert_desc_perm. apply Permutation_cons_app. reflexivity.
Qed.

(** The sort returns the same elements, newest first. *)
Lemma sort_desc_perm l : Permutation (sort_desc key l) l.
Proof. apply sort_desc_go_perm. Qed.

Lemma sort_desc_sorted l : Sorted desc (sort_desc key l).
Proof.
  unfold sort_desc. generalize (@Sorted_nil A desc). generalize (@nil A).
  induction l as [|x l IH]; intros acc Hacc; simpl; [exact Hacc|].
  apply IH. now apply insert_desc_sorted.
Qed.

End SortDesc.

#[export] Hint Resolve sort_desc_perm sort_desc_sorted : js.
#[export] Hint Rewrite map_chars_app substring_after : js_rw.
#[export] Hint Resolve lower_char_not_upper : js.
#[export] Hint Rewrite all_chars_app all_chars_rev rev_string_involutive : js_rw.

