(* ===== verification/Regex.v ===== *)
(** JavaScript regular expressions as the program uses them: a
    backtracking matcher written in continuation-passing style after
    ECMAScript's pattern semantics (each matcher takes the state and a
    continuation; alternatives and quantifiers backtrack by trying the
    continuation again), [String.prototype.match] without the [g] flag,
    and [replace] with and without it.

    A state is the position and the rest of the input.  A capture stores
    the text its group matched.  A repetition stops when an iteration
    matches the empty string, as ECMAScript's [RepeatMatcher] does; since
    every other iteration consumes a character, [S (length s)] rounds are
    enough ([star_go]).  Captures inside a repeated atom are not reset
    between iterations; no pattern of the program has one.  Classes are
    boolean predicates on bytes; [\s] is ASCII white space ([is_ws]). *)

From Stdlib Require Import String Ascii List Bool Arith Lia.
From S2P Require Import Prelude.
Import ListNotations.
Open Scope string_scope.
Open Scope nat_scope.

Module Regex.

Inductive re :=
| Empty                            (** the empty pattern *)
| Char (p : ascii -> bool)          (** one character of a class *)
| Seq (r1 r2 : re)
| Alt (r1 r2 : re)                  (** [r1|r2] *)
| Star (greedy : bool) (r : re)     (** [r*] or [r*?] *)
| Group (n : nat) (r : re)          (** the capturing group number [n] *)
| Bol                               (** [^] *)
| Eol.                              (** [$] *)

(** Captured texts, the latest capture of a group first. *)
Definition caps := list (nat * string).

Definition result := option (nat * caps).

(** A continuation: what remains to match from a state. *)
Definition cont := nat -> string -> caps -> result.

(** [r*]: the matcher [step] of the atom is repeated; [greedy] tries one
    more iteration before the continuation, the lazy form after it. *)
Fixpoint star_go (step : cont -> cont) (greedy : bool) (fuel : nat) (k : cont)
  (p : nat) (s : string) (c : caps) : result :=
  match fuel with
  | O => k p s c
  | S f =>
      let iter := step (fun p' s' c' =>
                          if Nat.ltb (String.length s') (String.length s) then star_go step greedy f k p' s' c'
                          else None) p s c in
      if greedy then match iter with Some x => Some x | None => k p s c end
      else match k p s c with Some x => Some x | None => iter end
  end.

Fixpoint m (r : re) (k : cont) (p : nat) (s : string) (c : caps) : result :=
  match r with
  | Empty => k p s c
  | Char q => match s with String a t => if q a then k (S p) t c else None | EmptyString => None end
  | Seq r1 r2 => m r1 (fun p' s' c' => m r2 k p' s' c') p s c
  | Alt r1 r2 => match m r1 k p s c with Some x => Some x | None => m r2 k p s c end
  | Star g r1 => star_go (m r1) g (S (String.length s)) k p s c
  | Group n r1 =>
      m r1 (fun p' s' c' => k p' s' ((n, substring 0 (String.length s - String.length s') s) :: c')) p s c
  | Bol => if Nat.eqb p 0 then k p s c else None
  | Eol => match s with EmptyString => k p s c | _ => None end
  end.

Definition accept : cont := fun p _ c => Some (p, c).

(** The first position at or after [p] where the pattern matches: the
    start, the end and the captures. *)
Fixpoint search_go (r : re) (p : nat) (s : string) : option (nat * nat * caps) :=
  match m r accept p s [] with
  | Some (e, c) => Some (p, e, c)
  | None => match s with EmptyString => None | String _ t => search_go r (S p) t end
  end.

(** [s.match(r)] without the [g] flag: [Some] of the start, end and
    captures of the leftmost match. *)
Definition exec (r : re) (s : string) : option (nat * nat * caps) := search_go r 0 s.

Definition group (n : nat) (c : caps) : option string :=
  match find (fun x => Nat.eqb (fst x) n) c with Some (_, t) => Some t | None => None end.

(** [s.test(r)]. *)
Definition test (r : re) (s : string) : bool := match exec r s with Some _ => true | None => false end.

(** [s.match(r)[0]], the matched text. *)
Definition match_text (r : re) (s : string) : option string :=
  match exec r s with Some (a, e, _) => Some (substring a (e - a) s) | None => None end.

(** [s.match(r)[n]], [undefined] being [None]. *)
Definition match_group (r : re) (n : nat) (s : string) : option string :=
  match exec r s with Some (_, _, c) => group n c | None => None end.

(** [s.replace(r, f)] without the [g] flag; [f] receives the matched
    text and the captures. *)
Definition replace_first_re (r : re) (f : string -> caps -> string) (s : string) : string :=
  match exec r s with
  | Some (a, e, c) => substring 0 a s ++ f (substring a (e - a) s) c ++ substring e (String.length s - e) s
  | None => s
  end.

(** [s.replace(r, f)] with the [g] flag: the scan resumes at the end of
    each match, one character further after an empty one. *)
Fixpoint replace_all_go (r : re) (f : string -> caps -> string) (fuel p : nat) (s : string) : string :=
  match fuel with
  | O => s
  | S fuel' =>
      match m r accept p s [] with
      | Some (e, c) =>
          if Nat.eqb e p then
            f EmptyString c ++ match s with
                   | EmptyString => EmptyString
                   | String a t => String a (replace_all_go r f fuel' (S p) t)
                   end
          else f (substring 0 (e - p) s) c ++
               replace_all_go r f fuel' e (substring (e - p) (String.length s - (e - p)) s)
      | None =>
          match s with
          | EmptyString => EmptyString
          | String a t => String a (replace_all_go r f fuel' (S p) t)
          end
      end
  end.

Definition replace_all_re (r : re) (f : string -> caps -> string) (s : string) : string :=
  replace_all_go r f (S (String.length s)) 0 s.

(** ** Building patterns *)

(** A literal string. *)
Fixpoint lit (w : string) : re :=
  match w with
  | EmptyString => Empty
  | String d w' => Seq (Char (fun c => Ascii.eqb c d)) (lit w')
  end.

(** A literal under the [i] flag. *)
Fixpoint lit_i (w : string) : re :=
  match w with
  | EmptyString => Empty
  | String d w' => Seq (Char (fun c => Ascii.eqb (lower_char c) (lower_char d))) (lit_i w')
  end.

Definition any : re := Char (fun _ => true).                      (** [[\s\S]] *)
Definition dot : re := Char (fun c => negb (is_char "010" c || is_char "013" c)).  (** [.] *)
Definition ws : re := Char is_ws.                                  (** [\s] *)
Definition plus (g : bool) (r : re) : re := Seq r (Star g r).
Definition opt (g : bool) (r : re) : re := if g then Alt r Empty else Alt Empty r.

(** ** Replacement patterns

    A replacement string of [replace] is read by ECMAScript's
    [GetSubstitution]: [$$] is [$], [$&] the match, [$`] the text before
    it, [$'] the text after it, [$n] and [$nn] the [n]th capture when the
    pattern has that many groups (an unmatched group gives the empty
    string); any other [$] is kept.  No pattern of the program has named
    groups, so [$<] is kept as well. *)

(** The number of capturing groups of a pattern. *)
Fixpoint ngroups (r : re) : nat :=
  match r with
  | Seq r1 r2 | Alt r1 r2 => Nat.max (ngroups r1) (ngroups r2)
  | Star _ r1 => ngroups r1
  | Group n r1 => Nat.max n (ngroups r1)
  | _ => 0
  end.

Definition digit_of (c : ascii) : option nat :=
  if is_digit c then Some (nat_of_ascii c - 48) else None.

Fixpoint get_substitution (matched before after : string) (m : nat) (c : caps) (repl : string) : string :=
  let cap n := match group n c with Some t => t | None => EmptyString end in
  let valid n := (1 <=? n) && (n <=? m) in
  match repl with
  | String "$" (String "$" t) => String "$" (get_substitution matched before after m c t)
  | String "$" (String "&" t) => matched ++ get_substitution matched before after m c t
  | String "$" (String "`" t) => before ++ get_substitution matched before after m c t
  | String "$" (String "'" t) => after ++ get_substitution matched before after m c t
  | String "$" (String d1 t) =>
      let one := if match digit_of d1 with Some n1 => valid n1 | None => false end
                 then cap (nat_of_ascii d1 - 48) ++ get_substitution matched before after m c t
                 else String "$" (String d1 (get_substitution matched before after m c t)) in
      match digit_of d1, t with
      | Some n1, String d2 t' =>
          match digit_of d2 with
          | Some n2 => if valid (10 * n1 + n2) then cap (10 * n1 + n2) ++ get_substitution matched before after m c t'
                       else one
          | None => one
          end
      | _, _ => one
      end
  | String a t => String a (get_substitution matched before after m c t)
  | EmptyString => EmptyString
  end.

(** [s.replace(r, repl)] with a replacement string, without the [g] flag. *)
Definition replace_first_sub (r : re) (repl : string) (s : string) : string :=
  match exec r s with
  | Some (a, e, c) =>
      let before := substring 0 a s in
      let after := substring e (String.length s - e) s in
      before ++ get_substitution (substring a (e - a) s) before after (ngroups r) c repl ++ after
  | None => s
  end.

(** [s.replace(pat, repl)] with a string pattern: its first occurrence,
    with no capture. *)
Definition replace_str (pat repl s : string) : string := replace_first_sub (lit pat) repl s.

(** ** Matchers in closed form *)

Fixpoint strip_prefix (w s : string) : option string :=
  match w, s with
  | EmptyString, _ => Some s
  | String d w', String a t => if Ascii.eqb a d then strip_prefix w' t else None
  | String _ _, EmptyString => None
  end.

(** [x] unless it failed, then [y]: the order in which a backtracking
    matcher tries two ways. *)
Definition orelse (x y : result) : result := match x with Some v => Some v | None => y end.

(** A greedy [P*] followed by [k]: the longest run of [P] first. *)
Fixpoint gscan (P : ascii -> bool) (k : cont) (p : nat) (s : string) (c : caps) : result :=
  match s with
  | String a t => if P a then orelse (gscan P k (S p) t c) (k p s c) else k p s c
  | EmptyString => k p s c
  end.

(** A lazy [[\s\S]*?] followed by [k]: the shortest prefix first. *)
Fixpoint lscan (k : cont) (p : nat) (s : string) (c : caps) : result :=
  orelse (k p s c) (match s with String _ t => lscan k (S p) t c | EmptyString => None end).

(** ** Lemmas *)

Lemma m_lit w k p s c :
  m (lit w) k p s c = match strip_prefix w s with Some r => k (p + String.length w) r c | None => None end.
Proof.
  revert k p s. induction w as [|d w IH]; intros k p s; cbn [lit m strip_prefix].
  - now rewrite Nat.add_0_r.
  - destruct s as [|a t]; [reflexivity|]. rewrite IH. destruct (Ascii.eqb a d); [|reflexivity].
    destruct (strip_prefix w t); [|reflexivity]. cbn. now rewrite Nat.add_succ_r.
Qed.

Lemma star_char_greedy P f k p s c :
  String.length s < f -> star_go (m (Char P)) true f k p s c = gscan P k p s c.
Proof.
  revert f p. induction s as [|a t IH]; intros [|f] p Hf; cbn in Hf; try lia; cbn [star_go m gscan].
  - reflexivity.
  - destruct (P a); [|reflexivity]. cbn [String.length]. rewrite (proj2 (Nat.ltb_lt _ _)) by lia.
    rewrite IH by lia. reflexivity.
Qed.

Lemma star_char_lazy P f k p s c :
  String.length s < f -> star_go (m (Char P)) false f k p s c =
  orelse (k p s c) (match s with String a t => if P a then star_go (m (Char P)) false (pred f) k (S p) t c else None
                                | EmptyString => None end).
Proof.
  destruct f as [|f]; [lia|]. intros Hf. cbn [star_go m pred].
  destruct (k p s c); [reflexivity|]. destruct s as [|a t]; [reflexivity|].
  destruct (P a); [|reflexivity]. cbn [String.length]. now rewrite (proj2 (Nat.ltb_lt _ _)) by (cbn in Hf; lia).
Qed.

Lemma star_any_lazy f k p s c :
  String.length s < f -> star_go (m any) false f k p s c = lscan k p s c.
Proof.
  revert f p. induction s as [|a t IH]; intros f p Hf; unfold any; rewrite star_char_lazy by exact Hf.
  - reflexivity.
  - cbn [lscan]. f_equal. apply IH. cbn in Hf. lia.
Qed.

Lemma m_seq r1 r2 k p s c : m (Seq r1 r2) k p s c = m r1 (fun p' s' c' => m r2 k p' s' c') p s c.
Proof. reflexivity. Qed.

Lemma m_group n r k p s c :
  m (Group n r) k p s c =
  m r (fun p' s' c' => k p' s' ((n, substring 0 (String.length s - String.length s') s) :: c')) p s c.
Proof. reflexivity. Qed.

(** The captures of a result. *)
Definition caps_of (x : result) : option caps := option_map snd x.

Lemma caps_orelse x y : caps_of (orelse x y) = match caps_of x with Some v => Some v | None => caps_of y end.
Proof. now destruct x. Qed.

(** Two lengths that both reach past the end take the same tail. *)
Lemma substring_tail n m1 m2 t :
  String.length t <= n + m1 -> String.length t <= n + m2 -> substring n m1 t = substring n m2 t.
Proof.
  revert t. induction n as [|n IH]; intros t H1 H2.
  - now rewrite !substring_all by lia.
  - destruct t as [|a t]; [destruct m1, m2; reflexivity|]. cbn in *. apply IH; lia.
Qed.

Lemma strip_prefix_prefix w s :
  strip_prefix w s = if prefix w s then Some (substring (String.length w) (String.length s) s) else None.
Proof.
  revert s. induction w as [|d w IH]; intros s.
  { cbn [String.length]. rewrite substring_all by lia. destruct s; reflexivity. }
  destruct s as [|a t]; cbn [strip_prefix prefix]; [reflexivity|].
  - rewrite IH. destruct (ascii_dec d a) as [<-|Hne].
    + rewrite Ascii.eqb_refl. destruct (prefix w t); [|reflexivity].
      cbn [String.length substring]. f_equal. apply substring_tail; lia.
    + destruct (Ascii.eqb_spec a d); [congruence|reflexivity].
Qed.

(** [P*] and [[\s\S]*?] in closed form. *)
Lemma m_star_greedy P k p s c : m (Star true (Char P)) k p s c = gscan P k p s c.
Proof. cbn [m]. apply star_char_greedy. lia. Qed.

Lemma m_star_any_lazy k p s c : m (Star false any) k p s c = lscan k p s c.
Proof. cbn [m]. apply star_any_lazy. lia. Qed.

Lemma strip_prefix_app w x : strip_prefix w (w ++ x) = Some x.
Proof. rewrite strip_prefix_prefix, prefix_app. f_equal. apply substring_after. Qed.

Lemma search_go_here r p s e c : m r accept p s [] = Some (e, c) -> search_go r p s = Some (p, e, c).
Proof. intros E. destruct s; cbn [search_go]; now rewrite E. Qed.

Lemma replace_first_sub_none r repl s : exec r s = None -> replace_first_sub r repl s = s.
Proof. unfold replace_first_sub. now intros ->. Qed.

(** A pattern that starts with a literal cannot match a text that does not
    contain it. *)
Lemma exec_lit_absent w r s : includes s w = false -> exec (Seq (lit w) r) s = None.
Proof.
  unfold exec. generalize 0. induction s as [|a t IH]; intros p Hs; cbn [search_go];
    rewrite m_seq, m_lit, strip_prefix_prefix; cbn [includes] in Hs; apply orb_false_elim in Hs as [Hp Ht].
  - now rewrite Hp.
  - rewrite Hp. now apply IH.
Qed.

(** The search for a literal stops at an occurrence. *)
Lemma search_lit_split w p s i j c :
  search_go (lit w) p s = Some (i, j, c) ->
  exists b a, s = b ++ w ++ a /\ i = p + String.length b /\ j = i + String.length w /\ c = [].
Proof.
  revert p. induction s as [|x t IH]; intros p; cbn [search_go]; rewrite m_lit, strip_prefix_prefix;
    destruct (prefix w _) eqn:E.
  1, 3: intros H; injection H as <- <- <-; apply prefix_split in E as [r Er];
        exists EmptyString, r; cbn [append String.length]; repeat split; (exact Er || lia).
  - discriminate.
  - intros H. destruct (IH (S p) H) as (b & a & -> & -> & -> & ->).
    exists (String x b), a. cbn [append String.length]. repeat split; lia.
Qed.

Lemma search_lit_some w p s : includes s w = true -> exists i j c, search_go (lit w) p s = Some (i, j, c).
Proof.
  revert p. induction s as [|x t IH]; intros p H; cbn [search_go]; rewrite m_lit, strip_prefix_prefix;
    cbn [includes] in H; destruct (prefix w _); cbn [accept orb] in H |- *; eauto.
  discriminate.
Qed.

Lemma substring_app_l b x : substring 0 (String.length b) (b ++ x) = b.
Proof. induction b as [|a b IH]; cbn; [now destruct x|]. now rewrite IH. Qed.

(** A replacement string without [$] is inserted as it is. *)
Lemma get_substitution_plain matched before after n c r :
  none_of (is_char "$") r = true -> get_substitution matched before after n c r = r.
Proof.
  induction r as [|x r IH]; [reflexivity|]. intros H. cbn [none_of all_chars] in H.
  apply andb_prop in H as [Hx Hr].
  destruct x as [[] [] [] [] [] [] [] []]; cbn in Hx |- *; try discriminate; now rewrite IH.
Qed.

(** [s.replace(w, repl)] with a string pattern that occurs and a
    replacement without [$]: the text around the first occurrence, with
    [repl] in its place. *)
Lemma replace_str_split w repl s :
  includes s w = true -> none_of (is_char "$") repl = true ->
  exists b a, s = b ++ w ++ a /\ replace_str w repl s = b ++ repl ++ a.
Proof.
  intros Hw Hr. destruct (search_lit_some w 0 s Hw) as (i & j & c & E).
  pose proof E as E'. apply search_lit_split in E' as (b & a & -> & -> & -> & ->).
  exists b, a. split; [reflexivity|]. unfold replace_str, replace_first_sub, exec. rewrite E. cbn [Nat.add].
  rewrite substring_app_l, get_substitution_plain by exact Hr. f_equal. f_equal.
  rewrite append_assoc, <- str_length_append. apply substring_after_le. rewrite !str_length_append. lia.
Qed.

End Regex.
