(* ===== verification/JsValue.v ===== *)
(** JavaScript and BSON values as the back end and the front end handle
    them: [jv].  Objects are association lists in insertion order with the
    assignment semantics of [obj[k] = v] (an existing key keeps its place,
    a new key is appended), which is what [Object.keys] and
    [Object.entries] enumerate.  Also JavaScript truthiness, [typeof], and
    the lemmas on objects the components share. *)

From Stdlib Require Import String Ascii List Bool Arith Lia ZArith QArith.
From S2P Require Import Prelude.
Import ListNotations.
Open Scope string_scope.

#[warnings="-register-all"]
Inductive jv : Type :=
| JUndef
| JNull
| JBool (b : bool)
| JNum (q : Q)
| JStr (s : string)
| JOid (n : N)                       (** a MongoDB [ObjectId] *)
| JArr (l : list jv)
| JObj (kvs : list (string * jv)).

(** JavaScript truthiness ([if (x)], [!x], [x || y]); NaN is not a value
    of the model. *)
Definition truthy (v : jv) : bool :=
  match v with
  | JUndef | JNull => false
  | JBool b => b
  | JNum q => negb (Qeq_bool q 0)
  | JStr s => negb (String.eqb s EmptyString)
  | _ => true
  end.

(** [typeof v === 'object'] (true for [null], arrays and ObjectIds). *)
Definition typeof_object (v : jv) : bool :=
  match v with
  | JNull | JOid _ | JArr _ | JObj _ => true
  | _ => false
  end.

Definition is_array (v : jv) : bool :=
  match v with JArr _ => true | _ => false end.

(** ** Objects *)

Definition obj := list (string * jv).

(** Lookup and assignment work on any JavaScript object used as a record
    of [A]s (the front end keeps such records of table schemas). *)
Fixpoint obj_get {A} (k : string) (o : list (string * A)) : option A :=
  match o with
  | [] => None
  | (k', v) :: o' => if String.eqb k k' then Some v else obj_get k o'
  end.

(** [o[k] = v]. *)
Fixpoint obj_set {A} (k : string) (v : A) (o : list (string * A)) : list (string * A) :=
  match o with
  | [] => [(k, v)]
  | (k', v') :: o' => if String.eqb k k' then (k', v) :: o' else (k', v') :: obj_set k v o'
  end.

(** [const { k, ...rest } = o]: [rest]. *)
Definition obj_delete {A} (k : string) (o : list (string * A)) : list (string * A) :=
  filter (fun kv => negb (String.eqb k (fst kv))) o.

Definition obj_keys {A} (o : list (string * A)) : list string := map fst o.

(** [Object.keys(v)] on any value (arrays enumerate their indices). *)
Definition js_keys (v : jv) : list string :=
  match v with
  | JObj o => obj_keys o
  | JArr l => map nat_to_string (seq 0 (length l))
  | _ => []
  end.

(** [o[k]] on a value, [undefined] when absent. *)
Definition get_field (v : jv) (k : string) : jv :=
  match v with
  | JObj o => match obj_get k o with Some x => x | None => JUndef end
  | _ => JUndef
  end.

(** ** Lemmas on objects *)

Lemma obj_get_set_eq {A} k (v : A) o : obj_get k (obj_set k v o) = Some v.
Proof.
  induction o as [|[k' v'] o IH]; simpl; rewrite ?String.eqb_refl; [reflexivity|].
  destruct (String.eqb k k') eqn:E; simpl; rewrite ?E; [reflexivity|exact IH].
Qed.

Lemma obj_get_set_ne {A} k k2 (v : A) o :
  k <> k2 -> obj_get k2 (obj_set k v o) = obj_get k2 o.
Proof.
  intros Hne. induction o as [|[k' v'] o IH]; simpl.
  - apply String.eqb_neq in Hne. rewrite String.eqb_sym, Hne. reflexivity.
  - destruct (String.eqb k k') eqn:E; simpl.
    + apply String.eqb_eq in E. subst k'.
      apply String.eqb_neq in Hne. now rewrite String.eqb_sym, Hne.
    + now rewrite IH.
Qed.

Lemma obj_keys_set_in {A} k (v : A) o :
  In k (obj_keys o) -> obj_keys (obj_set k v o) = obj_keys o.
Proof.
  induction o as [|[k' v'] o IH]; simpl; [tauto|].
  intros Hin. destruct (String.eqb k k') eqn:E; simpl; [reflexivity|].
  apply String.eqb_neq in E. f_equal. apply IH. destruct Hin; [congruence|assumption].
Qed.

Lemma obj_keys_set_notin {A} k (v : A) o :
  ~ In k (obj_keys o) -> obj_keys (obj_set k v o) = (obj_keys o ++ [k])%list.
Proof.
  induction o as [|[k' v'] o IH]; simpl; [reflexivity|].
  intros Hin. destruct (String.eqb k k') eqn:E.
  - apply String.eqb_eq in E. subst. tauto.
  - simpl. f_equal. apply IH. tauto.
Qed.

Lemma obj_keys_set_incl {A} k (v : A) o x :
  In x (obj_keys (obj_set k v o)) <-> x = k \/ In x (obj_keys o).
Proof.
  destruct (in_dec string_dec k (obj_keys o)) as [Hin|Hin].
  - rewrite obj_keys_set_in by exact Hin. split; [tauto|]. intros [->|H]; assumption.
  - rewrite obj_keys_set_notin by exact Hin. rewrite in_app_iff. simpl. intuition congruence.
Qed.

(** Objects built by assignment never hold a key twice. *)
Lemma obj_set_nodup {A} k (v : A) o :
  NoDup (obj_keys o) -> NoDup (obj_keys (obj_set k v o)).
Proof.
  intros Hnd. destruct (in_dec string_dec k (obj_keys o)) as [Hin|Hin].
  - now rewrite obj_keys_set_in.
  - rewrite obj_keys_set_notin by exact Hin.
    apply NoDup_app; [exact Hnd|constructor; [simpl; tauto|constructor]|].
    intros x Hx [<-|[]]. contradiction.
Qed.

Lemma obj_keys_delete {A} k (o : list (string * A)) x :
  In x (obj_keys (obj_delete k o)) <-> In x (obj_keys o) /\ x <> k.
Proof.
  unfold obj_keys, obj_delete. rewrite in_map_iff. split.
  - intros [[k' v] [<- Hf]]. apply filter_In in Hf as [Hin Hk]. simpl in *.
    split; [apply in_map_iff; now exists (k', v)|].
    intros ->. now rewrite String.eqb_refl in Hk.
  - intros [Hin Hne]. apply in_map_iff in Hin as [[k' v] [<- Hin]].
    exists (k', v). split; [reflexivity|]. apply filter_In. split; [assumption|].
    simpl in *. apply negb_true_iff, String.eqb_neq. congruence.
Qed.

Lemma obj_get_delete {A} k (o : list (string * A)) : obj_get k (obj_delete k o) = None.
Proof.
  induction o as [|[k' v] o IH]; simpl; [reflexivity|].
  destruct (String.eqb k k') eqn:E; simpl; [exact IH|]. rewrite E. exact IH.
Qed.

(** Every value of [o[k] = v] is [v] or a value of [o]. *)
Lemma obj_set_values {A} k (v x : A) o :
  In x (map snd (obj_set k v o)) -> x = v \/ In x (map snd o).
Proof.
  induction o as [|[k' v'] o IH]; simpl; [intuition|].
  destruct (String.eqb k k'); simpl; intuition.
Qed.

#[export] Hint Resolve obj_set_nodup obj_get_set_eq obj_get_delete : js.
