(* ===== verification/Uri.v ===== *)
(** URI components as the application passes them around: the admin API
    client builds paths with [encodeURIComponent] ([src/frontend/index.tsx],
    [authAPI.deleteUser], [updateUserRole], [getUserFiles],
    [updateUserFiles], lines 1306-1385), Express decodes a route
    parameter with [decodeURIComponent] before a handler sees it, and the
    [/data/:filename] route of [src/backend/server.js] decodes it once
    more (lines 1131-1136 and 1159-1160).

    Strings are the UTF-8 bytes of the JavaScript strings.  Encoding
    escapes every byte outside the unreserved set; decoding turns each
    escape back into its byte and, as ECMAScript's [Decode] does, accepts
    a non-ASCII escape only as the start of a well-formed UTF-8 sequence
    of escapes (no overlong form, no surrogate, nothing above U+10FFFF).
    A URIError is [None]. *)

From Stdlib Require Import String Ascii List Bool Arith Lia.
From S2P Require Import Prelude.
Import ListNotations.
Open Scope string_scope.
Open Scope nat_scope.

Module Uri.

(** ** [encodeURIComponent] *)

(** The characters [encodeURIComponent] leaves alone:
    [A-Z a-z 0-9 - _ . ! ~ * ' ( )]. *)
Definition unreserved (c : ascii) : bool :=
  is_alnum c || str_mem (String c EmptyString) ["-"; "_"; "."; "!"; "~"; "*"; "'"; "("; ")"].

(** Upper-case hexadecimal digit of [n < 16]. *)
Definition hex_digit (n : nat) : ascii :=
  if Nat.ltb n 10 then ascii_of_nat (48 + n) else ascii_of_nat (55 + n).

Definition escape_byte (c : ascii) : string :=
  String "%" (String (hex_digit (code c / 16)) (String (hex_digit (code c mod 16)) EmptyString)).

Fixpoint encodeURIComponent (s : string) : string :=
  match s with
  | EmptyString => EmptyString
  | String c t => (if unreserved c then String c EmptyString else escape_byte c) ++ encodeURIComponent t
  end.

(** ** [decodeURIComponent] *)

Definition hex_val (c : ascii) : option nat :=
  let n := code c in
  if in_range 48 57 c then Some (n - 48)
  else if in_range 65 70 c then Some (n - 55)
  else if in_range 97 102 c then Some (n - 87)
  else None.

(** The byte of an escape [%XY] at the head of [s], and what follows it. *)
Definition read_escape (s : string) : option (nat * string) :=
  match s with
  | String "%" (String h1 (String h2 r)) =>
      match hex_val h1, hex_val h2 with
      | Some a, Some b => Some (16 * a + b, r)
      | _, _ => None
      end
  | _ => None
  end.

(** The length of the UTF-8 sequence a lead byte [b >= 128] announces,
    from its leading one bits; 0 when it cannot lead (a continuation byte
    or five and more ones). *)
Definition seq_length (b : nat) : nat :=
  if Nat.ltb b 192 then 0
  else if Nat.ltb b 224 then 2
  else if Nat.ltb b 240 then 3
  else if Nat.ltb b 248 then 4
  else 0.

Definition cont (b : nat) : bool := Nat.leb 128 b && Nat.ltb b 192.

(** The octets of one escaped code point are a valid UTF-8 encoding:
    RFC 3629's table, which excludes overlong forms, surrogates and code
    points above U+10FFFF. *)
Definition utf8_ok (octets : list nat) : bool :=
  match octets with
  | [b1; b2] => Nat.leb 194 b1 && Nat.leb b1 223 && cont b2
  | [b1; b2; b3] =>
      (if Nat.eqb b1 224 then Nat.leb 160 b2 && Nat.leb b2 191
       else if Nat.eqb b1 237 then Nat.leb 128 b2 && Nat.leb b2 159
       else Nat.leb 225 b1 && Nat.leb b1 239 && cont b2) && cont b3
  | [b1; b2; b3; b4] =>
      (if Nat.eqb b1 240 then Nat.leb 144 b2 && Nat.leb b2 191
       else if Nat.eqb b1 244 then Nat.leb 128 b2 && Nat.leb b2 143
       else Nat.leb 241 b1 && Nat.leb b1 243 && cont b2) && cont b3 && cont b4
  | _ => false
  end.

(** [k] escapes whose bytes are continuation bytes. *)
Fixpoint read_conts (k : nat) (s : string) : option (list nat * string) :=
  match k with
  | O => Some ([], s)
  | S k' =>
      match read_escape s with
      | Some (b, r) =>
          if cont b then
            match read_conts k' r with
            | Some (bs, r') => Some (b :: bs, r')
            | None => None
            end
          else None
      | None => None
      end
  end.

Definition bytes (l : list nat) : string :=
  fold_right (fun b acc => String (ascii_of_nat b) acc) EmptyString l.

(** Each round consumes at least one character, so [String.length s]
    rounds are enough (lemma [decode_go_enough]). *)
Fixpoint decode_go (fuel : nat) (s : string) : option string :=
  match fuel with
  | O => match s with EmptyString => Some EmptyString | _ => None end
  | S fuel' =>
      match s with
      | EmptyString => Some EmptyString
      | String c t =>
          if Ascii.eqb c "%" then
            match read_escape s with
            | None => None
            | Some (b, r) =>
                if Nat.ltb b 128 then option_map (String (ascii_of_nat b)) (decode_go fuel' r)
                else
                  let n := seq_length b in
                  if Nat.eqb n 0 then None
                  else match read_conts (n - 1) r with
                       | None => None
                       | Some (bs, r') =>
                           if utf8_ok (b :: bs) then option_map (append (bytes (b :: bs))) (decode_go fuel' r')
                           else None
                       end
            end
          else option_map (String c) (decode_go fuel' t)
      end
  end.

Definition decodeURIComponent (s : string) : option string := decode_go (String.length s) s.

(** ** Well-formed UTF-8 *)

(** The first [k] bytes of [s] as numbers, and the rest. *)
Fixpoint take_bytes (k : nat) (s : string) : option (list nat * string) :=
  match k with
  | O => Some ([], s)
  | S k' =>
      match s with
      | EmptyString => None
      | String c t =>
          match take_bytes k' t with
          | Some (bs, r) => Some (code c :: bs, r)
          | None => None
          end
      end
  end.

(** [s] is a sequence of well-formed UTF-8 encodings of code points. *)
Fixpoint utf8_go (fuel : nat) (s : string) : bool :=
  match fuel, s with
  | _, EmptyString => true
  | O, String _ _ => false
  | S fuel', String c t =>
      if Nat.ltb (code c) 128 then utf8_go fuel' t
      else match take_bytes (seq_length (code c) - 1) t with
           | Some (bs, r) => negb (Nat.eqb (seq_length (code c)) 0) && utf8_ok (code c :: bs) && utf8_go fuel' r
           | None => false
           end
  end.

Definition utf8_valid (s : string) : bool := utf8_go (String.length s) s.

(** ** Lemmas *)

Lemma hex_val_digit d : d < 16 -> hex_val (hex_digit d) = Some d.
Proof. intros H. do 16 (destruct d as [|d]; [reflexivity|]). lia. Qed.

Lemma read_escape_byte c r : read_escape (escape_byte c ++ r) = Some (code c, r).
Proof.
  unfold escape_byte. cbn [append read_escape].
  pose proof (code_lt_256 c). pose proof (Nat.div_mod (code c) 16 ltac:(lia)).
  pose proof (Nat.mod_upper_bound (code c) 16 ltac:(lia)).
  rewrite !hex_val_digit by (try apply Nat.Div0.div_lt_upper_bound; lia). f_equal. f_equal. lia.
Qed.

Lemma unreserved_ascii_b c : unreserved c = true -> Nat.ltb (code c) 128 && negb (Ascii.eqb c "%") = true.
Proof. revert c. ascii_enum. Qed.

Lemma unreserved_ascii c : unreserved c = true -> code c < 128 /\ Ascii.eqb c "%" = false.
Proof.
  intros H. apply unreserved_ascii_b, andb_prop in H as [H1 H2].
  split; [now apply Nat.ltb_lt|now destruct (Ascii.eqb c "%")].
Qed.

Lemma ascii_of_code c : ascii_of_nat (code c) = c.
Proof. apply ascii_nat_embedding. Qed.

(** One round of [decode_go] on an escape. *)
Lemma decode_go_escape g c r :
  decode_go (S g) (escape_byte c ++ r) =
  let b := code c in
  if Nat.ltb b 128 then option_map (String (ascii_of_nat b)) (decode_go g r)
  else let n := seq_length b in
       if Nat.eqb n 0 then None
       else match read_conts (n - 1) r with
            | None => None
            | Some (bs, r') => if utf8_ok (b :: bs) then option_map (append (bytes (b :: bs))) (decode_go g r')
                               else None
            end.
Proof.
  unfold escape_byte at 1. cbn [decode_go append Ascii.eqb Bool.eqb andb].
  change (String "%" _) with (escape_byte c ++ r). now rewrite read_escape_byte.
Qed.

Lemma decode_escape_ascii g c r :
  code c < 128 -> decode_go (S g) (escape_byte c ++ r) = option_map (String c) (decode_go g r).
Proof.
  intros Hc. rewrite decode_go_escape. cbv zeta. apply Nat.ltb_lt in Hc. now rewrite Hc, ascii_of_code.
Qed.

Lemma take_bytes_spec k t bs r :
  take_bytes k t = Some (bs, r) -> t = bytes bs ++ r /\ length bs = k.
Proof.
  revert t bs. induction k as [|k IH]; intros t bs; cbn [take_bytes].
  - now intros [= <- <-].
  - destruct t as [|c t]; [discriminate|]. destruct (take_bytes k t) as [[bs' r']|] eqn:E; [|discriminate].
    intros [= <- ->]. destruct (IH _ _ E) as [-> <-]. cbn. now rewrite ascii_of_code.
Qed.

Definition escapes (bs : list nat) : string :=
  fold_right (fun b acc => escape_byte (ascii_of_nat b) ++ acc) EmptyString bs.

Lemma high_not_unreserved c : 128 <= code c -> unreserved c = false.
Proof.
  intros H. destruct (unreserved c) eqn:E; [|reflexivity]. apply unreserved_ascii in E. lia.
Qed.

Lemma code_of_nat b : b < 256 -> code (ascii_of_nat b) = b.
Proof. intros H. unfold code. now apply nat_ascii_embedding. Qed.

Lemma encode_high bs r :
  Forall (fun b => 128 <= b < 256) bs -> encodeURIComponent (bytes bs ++ r) = escapes bs ++ encodeURIComponent r.
Proof.
  induction bs as [|b bs IH]; intros Hb; [reflexivity|]. inversion Hb as [|? ? [H1 H2] Hbs]; subst.
  cbn [bytes fold_right append encodeURIComponent]. fold (bytes bs).
  rewrite high_not_unreserved by (rewrite code_of_nat; lia). rewrite IH by exact Hbs.
  now rewrite append_assoc.
Qed.

Lemma read_conts_escapes bs r :
  Forall (fun b => cont b = true /\ b < 256) bs -> read_conts (length bs) (escapes bs ++ r) = Some (bs, r).
Proof.
  induction bs as [|b bs IH]; intros Hb; [reflexivity|]. inversion Hb as [|? ? [H1 H2] Hbs]; subst.
  cbn [length read_conts escapes fold_right]. fold (escapes bs). rewrite <- append_assoc, read_escape_byte.
  rewrite code_of_nat by exact H2. rewrite H1. now rewrite IH.
Qed.

(** A valid sequence is announced by its lead byte and continues with
    continuation bytes. *)
Lemma utf8_ok_shape b bs :
  utf8_ok (b :: bs) = true ->
  seq_length b <> 0 /\ length bs = seq_length b - 1 /\ 128 <= b /\ Forall (fun x => cont x = true) bs.
Proof.
  unfold utf8_ok, seq_length, cont.
  destruct bs as [|b2 [|b3 [|b4 [|? ?]]]]; try discriminate; intros H;
    repeat match goal with H : context [if Nat.eqb ?x ?y then _ else _] |- _ =>
             destruct (Nat.eqb_spec x y) end;
    nat_bool; subst;
    repeat match goal with |- context [Nat.ltb ?x ?y] => destruct (Nat.ltb_spec x y) end;
    (split; [lia|split; [cbn; lia|split; [lia|]]]); repeat constructor; nat_bool;
    apply andb_true_iff; split; apply Nat.leb_le + apply Nat.ltb_lt; lia.
Qed.

Lemma length_bytes bs : String.length (bytes bs) = length bs.
Proof. induction bs; simpl; auto. Qed.

Lemma bytes_cons b bs : bytes (b :: bs) = String (ascii_of_nat b) (bytes bs).
Proof. reflexivity. Qed.

Lemma decode_escape_lead g c bs r :
  128 <= code c -> utf8_ok (code c :: bs) = true ->
  decode_go (S g) (escape_byte c ++ escapes bs ++ r) = option_map (String c) (option_map (append (bytes bs)) (decode_go g r)).
Proof.
  intros Hc Hok. destruct (utf8_ok_shape _ _ Hok) as (Hn & Hlen & _ & Hcont).
  rewrite decode_go_escape. cbv zeta. destruct (Nat.ltb_spec (code c) 128); [lia|].
  apply Nat.eqb_neq in Hn. rewrite Hn, <- Hlen, read_conts_escapes, Hok.
  - destruct (decode_go g r); cbn; now rewrite ?ascii_of_code.
  - eapply Forall_impl; [|exact Hcont]. intros b Hb. split; [exact Hb|]. unfold cont in Hb. nat_bool. lia.
Qed.

(** Encoding then decoding a well-formed UTF-8 string gives it back. *)
Lemma decode_encode_go f : forall s g,
  utf8_go f s = true -> String.length s <= g -> decode_go g (encodeURIComponent s) = Some s.
Proof.
  induction f as [|f IH]; intros s g Hu Hl.
  { destruct s; [|discriminate]. destruct g; reflexivity. }
  destruct s as [|c t]; [destruct g; reflexivity|]. destruct g as [|g]; [cbn in Hl; lia|]. cbn in Hl.
  cbn [utf8_go] in Hu. destruct (Nat.ltb_spec (code c) 128) as [Hc|Hc].
  - cbn [encodeURIComponent]. destruct (unreserved c) eqn:Eu.
    + cbn [append decode_go]. rewrite (proj2 (unreserved_ascii c Eu)), IH by (auto; lia). reflexivity.
    + rewrite decode_escape_ascii, IH by (auto; lia). reflexivity.
  - destruct (take_bytes _ t) as [[bs r]|] eqn:Et; [|discriminate]. nat_bool.
    destruct (take_bytes_spec _ _ _ _ Et) as [-> _].
    destruct (utf8_ok_shape _ _ H1) as (_ & _ & _ & Hcont).
    cbn [encodeURIComponent]. rewrite high_not_unreserved by lia.
    rewrite encode_high.
    + rewrite decode_escape_lead by assumption. rewrite IH by (auto; rewrite str_length_append, length_bytes in Hl; lia).
      reflexivity.
    + eapply Forall_impl; [|exact Hcont]. intros b Hb. unfold cont in Hb. nat_bool. lia.
Qed.

Lemma encode_length s : String.length s <= String.length (encodeURIComponent s).
Proof.
  induction s as [|c t IH]; [reflexivity|]. cbn [encodeURIComponent].
  rewrite str_length_append. destruct (unreserved c); cbn; lia.
Qed.

(** A string without [%] decodes to itself. *)
Lemma decode_plain_go s g : String.length s <= g -> none_of (is_char "%") s = true -> decode_go g s = Some s.
Proof.
  revert g. induction s as [|c t IH]; intros [|g] Hg H; cbn in Hg |- *; try reflexivity; try lia.
  apply andb_prop in H as [Hc Ht]. unfold is_char in Hc. apply negb_true_iff in Hc.
  rewrite Hc, (IH g) by (auto; lia). reflexivity.
Qed.

Lemma decode_plain s : none_of (is_char "%") s = true -> decodeURIComponent s = Some s.
Proof. apply decode_plain_go. lia. Qed.

(** [encodeURIComponent] writes a character of [p] only when it is an
    unreserved one: escapes are [%] and upper-case hexadecimal digits. *)
Lemma encode_none_of (p : ascii -> bool) s :
  p "%"%char = false -> (forall n, n < 16 -> p (hex_digit n) = false) ->
  (forall c, unreserved c = true -> p c = false) -> none_of p (encodeURIComponent s) = true.
Proof.
  intros Hp Hh Hu. induction s as [|c t IH]; [reflexivity|]. cbn [encodeURIComponent].
  unfold none_of in *. rewrite all_chars_app, IH, andb_true_r.
  destruct (unreserved c) eqn:E; cbn [all_chars append]; [now rewrite Hu|].
  pose proof (code_lt_256 c). unfold escape_byte. cbn [all_chars append]. rewrite Hp, !Hh; [reflexivity| |].
  - apply Nat.mod_upper_bound. lia.
  - apply Nat.Div0.div_lt_upper_bound. lia.
Qed.

(** Round trip: decoding the [encodeURIComponent] form of a string
    of well-formed UTF-8 gives the string back; this is what lets the
    admin client's encoded e-mail reach the route handlers unchanged. *)
Theorem uri_roundtrip s : utf8_valid s = true -> decodeURIComponent (encodeURIComponent s) = Some s.
Proof.
  intros Hv. unfold decodeURIComponent. apply (decode_encode_go (String.length s)); [exact Hv|apply encode_length].
Qed.

End Uri.
