(* ===== verification/Normalizer.v ===== *)
(** The field/value normalizer of the back end ([src/backend/server.js]):
    [getCollectionName] (lines 216-223), [cleanCSVValue] (225-245) with the
    part of [parseFloat] it exercises, and the header cleaning and row
    cleaning inside [parseAndStoreCSVInMongo] (262-277).  Each regular
    expression of the code is one string operation of [Prelude]. *)

From Stdlib Require Import String Ascii List Bool Arith Lia ZArith QArith.
From S2P Require Import Prelude JsValue.
Import ListNotations.
Open Scope string_scope.

Module Normalizer.

(** ** Collection names *)

(** [.replace(/\.csv$/i, '')]. *)
Definition strip_csv_suffix (s : string) : string :=
  let n := String.length s in
  if (4 <=? n)%nat && String.eqb (lower (substring (n - 4) 4 s)) ".csv"
  then substring 0 (n - 4) s else s.

Definition is_us : ascii -> bool := is_char "_".


(** [getCollectionName] (server.js 216-223). *)
Definition getCollectionName (fileName : string) : string :=
  "data_" ++
  lower (strip_edges is_us
           (collapse_runs is_us "_"
              (replace_chars (fun c => negb (is_alnum c)) "_"
                 (strip_csv_suffix fileName)))).

(** ** Header cleaning *)

(** [.replace(/^\$/, '_')]. *)
Definition replace_leading_dollar (s : string) : string :=
  match s with
  | String c t => if is_char "$" c then String "_" t else s
  | EmptyString => EmptyString
  end.

(** The class [[()[\]{}/\\#%]]. *)
Definition is_header_punct (c : ascii) : bool :=
  existsb (Ascii.eqb c) ["("; ")"; "["; "]"; "{"; "}"; "/"; "\"; "#"; "%"]%char.

(** The chain of replacements of server.js 265-273, [n] being
    [Object.keys(cleaned).length] for the fallback name. *)
Definition cleanKey (key : string) (n : nat) : string :=
  let k := strip_edges is_us
             (collapse_runs is_us "_"
                (collapse_runs is_ws "_"
                   (remove_chars is_header_punct
                      (remove_chars (is_char "$")
                         (replace_leading_dollar
                            (replace_chars (is_char ".") "_" (trim key))))))) in
  if String.eqb k "" then "col_" ++ nat_to_string n else k.

(** ** Numerals and [parseFloat] *)

Fixpoint take_while (p : ascii -> bool) (s : string) : string :=
  match s with
  | String c t => if p c then String c (take_while p t) else EmptyString
  | EmptyString => EmptyString
  end.

Fixpoint drop_while (p : ascii -> bool) (s : string) : string :=
  match s with
  | String c t => if p c then drop_while p t else s
  | EmptyString => EmptyString
  end.

Definition strip_minus (s : string) : string := drop_head_if (is_char "-") s.

(** [/^-?[class]+\.?\d*$/]: the regular expressions of lines 232 and 238,
    with [class] = [[\d,]] and [\d]. *)
Definition numeral_shape (p : ascii -> bool) (s : string) : bool :=
  let u := strip_minus s in
  let run := take_while p u in
  let rest := drop_while p u in
  negb (String.eqb run "") &&
  match rest with
  | EmptyString => true
  | String c r => is_char "." c && all_chars is_digit r
  end.

Definition is_digit_or_comma (c : ascii) : bool := is_digit c || is_char "," c.

Definition digit_value (c : ascii) : Z := Z.of_nat (code c - 48).

Definition digits_value (s : string) : Z :=
  fold_left (fun acc c => acc * 10 + digit_value c)%Z (list_ascii_of_string s) 0%Z.

(** The sign of [parseFloat]'s grammar. *)
Definition sign_split (s : string) : bool * string :=
  match s with
  | String c t =>
      if is_char "-" c then (true, t) else if is_char "+" c then (false, t) else (false, s)
  | EmptyString => (false, s)
  end.

(** The digits after a decimal point, if the rest starts with one. *)
Definition frac_part (rest : string) : string :=
  match rest with
  | String c r => if is_char "." c then take_while is_digit r else EmptyString
  | EmptyString => EmptyString
  end.

(** [parseFloat]: optional white space and sign, integer digits, an
    optional fraction; [None] is NaN (no digit at all).  Exponents and
    [Infinity] are not modelled: the code only passes strings of digits,
    commas removed, a sign and a dot. *)
Definition parse_float (s : string) : option Q :=
  let '(neg, s1) := sign_split (trim_start s) in
  let ip := take_while is_digit s1 in
  let fp := frac_part (drop_while is_digit s1) in
  if String.eqb ip "" && String.eqb fp "" then None
  else
    let scale := (10 ^ Z.of_nat (String.length fp))%Z in
    let mag := (digits_value ip * scale + digits_value fp)%Z in
    Some (Qred (Qmake (if neg then - mag else mag)%Z (Z.to_pos scale))).

(** Lines 229-242 of [cleanCSVValue], on the trimmed string [t]. *)
Definition clean_trimmed (t : string) : jv :=
  if String.eqb t "" then JNull
  else
    let grouped :=
      if numeral_shape is_digit_or_comma t && includes t ","
      then parse_float (remove_chars (is_char ",") t) else None in
    match grouped with
    | Some q => JNum q
    | None =>
        match (if numeral_shape is_digit t then parse_float t else None) with
        | Some q => JNum q
        | None => JStr t
        end
    end.

(** [cleanCSVValue] (server.js 225-245). *)
Definition cleanCSVValue (v : jv) : jv :=
  match v with
  | JNull | JUndef => JNull
  | JNum _ => v
  | JStr s => clean_trimmed (trim s)
  | _ => v
  end.

(** ** Rows *)

(** The [records.map(row => ...)] body: every entry of the parsed row is
    assigned, in order, under its cleaned key. *)
Definition cleanRow (row : obj) : obj :=
  fold_left (fun cleaned kv =>
               obj_set (cleanKey (fst kv) (length cleaned)) (cleanCSVValue (snd kv)) cleaned)
            row [].

(** ** Properties of names *)

Definition coll_char (c : ascii) : bool := is_lower c || is_digit c || is_us c.

(** The characters the key cleaning promises to remove: MongoDB's path
    delimiter [.], the operator sigil [$], white space, and the
    punctuation class of line 269. *)
Definition key_forbidden (c : ascii) : bool :=
  is_char "." c || is_char "$" c || is_ws c || is_header_punct c.

Definition key_safe (k : string) : bool :=
  negb (String.eqb k "") && none_of key_forbidden k && no_double is_us k && edges_not is_us k.

Lemma is_us_only c : is_us c = true -> c = "_"%char.
Proof. unfold is_us, is_char. intros H. now apply Ascii.eqb_eq. Qed.

Lemma is_us_lower c : is_us (lower_char c) = is_us c.
Proof. revert c. ascii_enum. Qed.

Lemma coll_char_lower c : is_alnum c || is_us c = true -> coll_char (lower_char c) = true.
Proof. revert c. ascii_enum. Qed.

Lemma digit_not_forbidden c : is_digit c = true -> negb (key_forbidden c) = true.
Proof. revert c. ascii_enum. Qed.

Lemma digit_not_us c : is_digit c = true -> negb (is_us c) = true.
Proof. revert c. ascii_enum. Qed.

Lemma collapse_us_no_double s : no_double is_us (collapse_runs is_us "_" s) = true.
Proof. exact (proj1 (collapse_go_no_double is_us "_" eq_refl false s)). Qed.

(** The tail of the chain of [getCollectionName] and [cleanKey]:
    collapsing underscores and stripping one at each end. *)
Lemma us_tail_shape q s :
  all_chars q s = true -> q "_"%char = true ->
  let k := strip_edges is_us (collapse_runs is_us "_" s) in
  all_chars q k = true /\ no_double is_us k = true /\ edges_not is_us k = true.
Proof.
  intros Hs Hq k. pose proof (collapse_us_no_double s) as Hnd. subst k.
  split; [|split].
  - apply strip_edges_all, all_chars_collapse; [simpl; now rewrite Hq|exact Hs].
  - now apply strip_edges_no_double.
  - now apply strip_edges_edges.
Qed.

Lemma digits_safe ds :
  ds <> EmptyString -> all_chars is_digit ds = true ->
  none_of key_forbidden ds = true /\ none_of is_us ds = true /\ edges_not is_us ds = true.
Proof.
  intros Hne Hd.
  assert (Hu : none_of is_us ds = true) by exact (all_chars_impl _ _ ds digit_not_us Hd).
  split; [exact (all_chars_impl _ _ ds digit_not_forbidden Hd)|].
  split; [exact Hu|]. now apply none_of_edges.
Qed.

Lemma fallback_name_safe n : key_safe ("col_" ++ nat_to_string n) = true.
Proof.
  destruct (nat_to_string_digits n) as [Hne Hd].
  destruct (digits_safe _ Hne Hd) as [Hf [Hu He]].
  generalize dependent (nat_to_string n). intros ds Hne Hd Hf Hu He.
  unfold key_safe, edges_not in *. apply andb_prop in He as [_ He].
  apply negb_true_iff in He.
  rewrite no_double_app, rev_string_app.
  rewrite (head_is_app_ne _ (rev_string ds)) by (intros E; now apply Hne, rev_string_nil).
  unfold none_of in *. rewrite all_chars_app.
  rewrite Hf, He, (none_of_no_double _ _ Hu), (none_of_head _ _ Hu).
  reflexivity.
Qed.

Lemma replace_leading_dollar_none p s :
  p "_"%char = false -> none_of p s = true -> none_of p (replace_leading_dollar s) = true.
Proof.
  unfold none_of. intros Hp. destruct s as [|c t]; simpl; [reflexivity|].
  intros H. js_bool. destruct (is_char "$" c); simpl; rewrite ?Hp, ?H; auto.
Qed.

Lemma replace_leading_dollar_id s : none_of (is_char "$") s = true -> replace_leading_dollar s = s.
Proof.
  unfold none_of. destruct s as [|c t]; simpl; [reflexivity|].
  intros H. js_bool. apply negb_true_iff in H. now rewrite H.
Qed.

Lemma none_of_ext p q s : (forall c, p c = q c) -> none_of p s = none_of q s.
Proof. unfold none_of. intros E. induction s; simpl; congruence. Qed.

Lemma collapse_runs_none p r s :
  none_of p r = true -> none_of p (collapse_runs p r s) = true.
Proof. intros Hr. apply all_chars_collapse_repl; [|exact Hr]. intros c ->. reflexivity. Qed.

(** The key cleaning up to the underscore steps (lines 265-270) removes
    every forbidden character. *)
Lemma key_prefix_clean k :
  none_of key_forbidden
    (collapse_runs is_ws "_"
       (remove_chars is_header_punct
          (remove_chars (is_char "$")
             (replace_leading_dollar (replace_chars (is_char ".") "_" (trim k)))))) = true.
Proof.
  rewrite (none_of_ext _ (fun c => (is_char "." c || is_char "$" c || is_header_punct c) || is_ws c))
    by (intros c; unfold key_forbidden; destruct (is_char "." c), (is_char "$" c), (is_ws c),
          (is_header_punct c); reflexivity).
  rewrite none_of_or. apply andb_true_intro. split.
  - apply none_of_collapse; [|reflexivity].
    rewrite !none_of_or. apply andb_true_intro. split; [apply andb_true_intro; split|].
    + apply none_of_remove, none_of_remove, replace_leading_dollar_none; [reflexivity|].
      apply all_chars_map. intros c. now destruct (is_char "." c) eqn:E; rewrite ?E.
    + apply none_of_remove, none_of_remove_self.
    + apply none_of_remove_self.
  - now apply collapse_runs_none.
Qed.

Lemma cleanKey_key_safe k n : key_safe (cleanKey k n) = true.
Proof.
  unfold cleanKey.
  destruct (us_tail_shape _ _ (key_prefix_clean k) eq_refl) as [Ha [Hb Hc]].
  match goal with |- context [if String.eqb ?x "" then _ else _] => destruct (String.eqb x "") eqn:E end.
  - apply fallback_name_safe.
  - unfold key_safe, none_of. now rewrite E, Ha, Hb, Hc.
Qed.

(** Every cleaned header is a safe MongoDB field name. *)
Theorem cleanKey_safe k n : key_safe (cleanKey k n) = true.
Proof. apply cleanKey_key_safe. Qed.

Lemma cleanKey_safe_id x m : key_safe x = true -> cleanKey x m = x.
Proof.
  unfold key_safe, key_forbidden. intros H.
  apply andb_prop in H as [H Hed]. apply andb_prop in H as [H Hnd].
  apply andb_prop in H as [Hne Hf]. apply negb_true_iff in Hne.
  rewrite !none_of_or in Hf. apply andb_prop in Hf as [Hf Hpunct].
  apply andb_prop in Hf as [Hf Hws]. apply andb_prop in Hf as [Hdot Hdol].
  unfold cleanKey.
  rewrite (trim_id x (none_of_edges _ _ Hws)), (replace_chars_id _ _ _ Hdot),
    (replace_leading_dollar_id x Hdol), (remove_chars_id _ _ Hdol), (remove_chars_id _ _ Hpunct),
    (collapse_runs_id _ _ _ Hws).
  unfold collapse_runs.
  rewrite (collapse_go_id is_us "_" is_us_only false x Hnd) by discriminate.
  now rewrite (strip_edges_id _ _ Hed), Hne.
Qed.

(** Key cleaning is idempotent: a cleaned name cleans to itself,
    whatever its position. *)
Theorem cleanKey_idem k n m : cleanKey (cleanKey k n) m = cleanKey k n.
Proof. apply cleanKey_safe_id, cleanKey_key_safe. Qed.

(** Collection names are [data_] followed by lower-case letters,
    digits and single underscores, neither first nor last. *)
Theorem getCollectionName_shape f :
  exists s, getCollectionName f = "data_" ++ s /\ all_chars coll_char s = true /\
            no_double is_us s = true /\ edges_not is_us s = true.
Proof.
  set (a := replace_chars (fun c => negb (is_alnum c)) "_" (strip_csv_suffix f)).
  assert (Ha : all_chars (fun c => is_alnum c || is_us c) a = true).
  { apply all_chars_map. intros c. destruct (negb (is_alnum c)) eqn:E; [reflexivity|].
    apply negb_false_iff in E. now rewrite E. }
  destruct (us_tail_shape _ _ Ha eq_refl) as [H1 [H2 H3]].
  eexists. split; [reflexivity|]. unfold lower.
  rewrite all_chars_map_eq, no_double_map, edges_not_map by exact is_us_lower.
  split; [|split; assumption].
  exact (all_chars_impl _ _ _ coll_char_lower H1).
Qed.

(** ** Properties of values *)

Lemma take_while_all p s : all_chars p s = true -> take_while p s = s.
Proof. induction s as [|c s IH]; simpl; [reflexivity|]. intros H. js_bool. now rewrite H, IH. Qed.

Lemma drop_while_all p s : all_chars p s = true -> drop_while p s = EmptyString.
Proof. induction s as [|c s IH]; simpl; [reflexivity|]. intros H. js_bool. now rewrite H, IH. Qed.

Lemma digit_not_ws c : is_digit_or_comma c = true -> negb (is_ws c) = true.
Proof. revert c. ascii_enum. Qed.

Lemma digit_not_minus c : is_digit_or_comma c = true -> negb (is_char "-" c) = true.
Proof. revert c. ascii_enum. Qed.

Lemma digit_not_sign c : is_digit c = true -> is_char "-" c = false /\ is_char "+" c = false.
Proof. revert c. ascii_enum. Qed.

Lemma Qred_int z : Qred (z # 1) = (z # 1).
Proof.
  unfold Qred. pose proof (Z.ggcd_correct_divisors z 1) as Hd.
  pose proof (Z.ggcd_gcd z 1) as Hg. destruct (Z.ggcd z 1) as [g [a b]].
  simpl in *. rewrite Z.gcd_1_r in Hg. subst g. destruct Hd as [Ha Hb].
  rewrite Z.mul_1_l in Ha, Hb. now subst.
Qed.

(** [parseFloat] of a non-empty string of digits is its decimal value. *)
Lemma parse_float_digits d :
  d <> EmptyString -> all_chars is_digit d = true -> parse_float d = Some (inject_Z (digits_value d)).
Proof.
  intros Hne Hd. unfold parse_float.
  destruct d as [|c t]; [contradiction|].
  pose proof Hd as Hd'. simpl in Hd'. js_bool.
  destruct (digit_not_sign c H) as [Hm Hp].
  rewrite trim_start_no_head by (simpl; apply negb_true_iff, (digit_not_ws c); unfold is_digit_or_comma; now rewrite H).
  cbn [sign_split]. rewrite Hm, Hp.
  rewrite take_while_all, drop_while_all by exact Hd. cbn -[Qred digits_value].
  change (digits_value "") with 0%Z.
  rewrite Z.mul_1_r, Z.add_0_r. f_equal. apply Qred_int.
Qed.

Lemma remove_chars_keep q p s :
  all_chars (fun c => q c || p c) s = true -> all_chars q (remove_chars p s) = true.
Proof.
  induction s as [|c s IH]; simpl; [reflexivity|]. intros H. js_bool.
  destruct (p c) eqn:E; [auto|]. simpl. rewrite orb_false_r in H. now rewrite H, IH.
Qed.

(** A cell made of digits and thousands separators, with at least
    one comma and one digit, is stored as the number it spells. *)
Theorem cleanCSVValue_grouped s :
  all_chars is_digit_or_comma s = true -> includes s "," = true ->
  remove_chars (is_char ",") s <> EmptyString ->
  cleanCSVValue (JStr s) = JNum (inject_Z (digits_value (remove_chars (is_char ",") s))).
Proof.
  intros Hs Hc Hd. simpl.
  rewrite (trim_id s (none_of_edges _ _ (all_chars_impl _ _ _ digit_not_ws Hs))).
  unfold clean_trimmed.
  assert (Hne : String.eqb s "" = false) by (destruct s; [contradiction|reflexivity]).
  assert (Hshape : numeral_shape is_digit_or_comma s = true).
  { unfold numeral_shape, strip_minus.
    rewrite drop_head_if_no_head by exact (none_of_head _ _ (all_chars_impl _ _ _ digit_not_minus Hs)).
    rewrite take_while_all, drop_while_all by exact Hs. now rewrite Hne. }
  rewrite Hne, Hshape, Hc. simpl.
  rewrite parse_float_digits; [reflexivity|exact Hd|].
  apply remove_chars_keep. exact Hs.
Qed.

Lemma clean_trimmed_cases t :
  clean_trimmed t = JNull \/ (exists q, clean_trimmed t = JNum q) \/ clean_trimmed t = JStr t.
Proof.
  unfold clean_trimmed. destruct (String.eqb t ""); [now left|].
  repeat match goal with
         | |- context [match ?x with Some _ => _ | None => _ end] => destruct x
         end; eauto.
Qed.

(** Cleaning a cleaned value changes nothing. *)
Theorem cleanCSVValue_idem v : cleanCSVValue (cleanCSVValue v) = cleanCSVValue v.
Proof.
  destruct v; try reflexivity. cbn [cleanCSVValue].
  destruct (clean_trimmed_cases (trim s)) as [E|[[q E]|E]]; rewrite E; try reflexivity.
  cbn [cleanCSVValue]. rewrite trim_idem. exact E.
Qed.

(** ** Rows *)

Definition row_ok (o : obj) : Prop :=
  Forall (fun k => key_safe k = true) (obj_keys o) /\ NoDup (obj_keys o).

Lemma row_ok_set k v o : key_safe k = true -> row_ok o -> row_ok (obj_set k v o).
Proof.
  intros Hk [Hall Hnd]. split; [|now apply obj_set_nodup].
  apply Forall_forall. intros x Hx. apply obj_keys_set_incl in Hx as [->|Hx]; [exact Hk|].
  exact (proj1 (Forall_forall _ _) Hall x Hx).
Qed.

(** [C32] A cleaned record holds only safe field names, each once. *)
Theorem cleanRow_ok row : row_ok (cleanRow row).
Proof.
  unfold cleanRow. assert (H0 : row_ok []) by (split; constructor).
  revert H0. generalize (@nil (string * jv)). induction row as [|[k v] row IH]; intros acc Hacc.
  - exact Hacc.
  - simpl. apply IH, row_ok_set; [apply cleanKey_key_safe|exact Hacc].
Qed.

(** Two headers that clean to the same name do not receive distinct
    fallback names: the second overwrites the first and the record loses
    a column (server.js 273-274). *)
Theorem cleanRow_collision :
  cleanRow [("Q1.2025", JStr "5"); ("Q1_2025", JStr "7")] = [("Q1_2025", JNum 7)].
Proof. vm_compute. reflexivity. Qed.

(** Leading zeros are lost: an identifier such as [007] becomes the
    number 7. *)
Theorem cleanCSVValue_leading_zero : cleanCSVValue (JStr "007") = JNum 7.
Proof. vm_compute. reflexivity. Qed.

(** ** Witnesses *)

Lemma cleanCSVValue_grouped_witness : cleanCSVValue (JStr "8,144,550") = JNum 8144550.
Proof.
  rewrite (cleanCSVValue_grouped "8,144,550" eq_refl eq_refl ltac:(discriminate)).
  reflexivity.
Defined.

End Normalizer.
