(* ===== verification/Store.v ===== *)
(** The dataset store of the back end ([src/backend/server.js]): the
    MongoDB state as the core uses it (the [users] and [csvFiles]
    collections, GridFS, one [data_*] collection per uploaded file),
    [parseAndStoreCSVInMongo] (lines 247-297), the upload handler
    (844-1035), the schema handlers (1214-1341) and the accessible-files
    handler (1099-1123).  The CSV parser (csv-parse) is a library: it is
    the [CsvParser] interface, with a small instance for the examples. *)

From Stdlib Require Import String Ascii List Bool Arith Lia ZArith QArith.
From stdpp Require Import gmap strings.
From S2P Require Import Prelude JsValue Normalizer.
Import ListNotations.
Open Scope string_scope.

Module Store.
Import Normalizer.

(** ** Documents and state *)

(** A [csvFiles] document (the fields written at lines 937-962 and
    990-997). *)
Record fileDoc := {
  fd_fileName : string;
  fd_fileSize : N;
  fd_fileContent : option string;
  fd_storedInGridFS : bool;
  fd_uploadedAt : Z;
  fd_uploadedBy : string;
  fd_isActive : bool;
  fd_dataCollection : option string;
  fd_columns : option (list string);
  fd_rowCount : option nat
}.

(** A [users] document; [u_accessibleFiles] is [None] when the field is
    absent (the default admin created at line 101); [u_updated] and
    [u_filesUpdated] are the audit fields [updatedAt]/[updatedBy] and
    [filesUpdatedAt]/[filesUpdatedBy]. *)
Record userDoc := {
  u_id : N;
  u_email : string;
  u_passwordHash : string;
  u_role : string;
  u_accessibleFiles : option (list string);
  u_createdAt : Z;
  u_lastLogin : option Z;
  u_addedBy : option string;
  u_updated : option (Z * string);
  u_filesUpdated : option (Z * string)
}.

Record db := {
  connected : bool;                      (** [db !== null] *)
  collections : gmap string (list obj);  (** data collections, documents in natural order *)
  csvFiles : list fileDoc;               (** the [csvFiles] collection *)
  gridfs : list (string * string);       (** GridFS files: name, content *)
  users : list userDoc;
  next_oid : N                           (** the next [ObjectId] the driver assigns *)
}.

Definition is_admin (u : userDoc) : bool := String.eqb (u_role u) "admin".

(** [user.accessibleFiles || []]. *)
Definition accessible (u : userDoc) : list string :=
  match u_accessibleFiles u with Some l => l | None => [] end.

(** [findOne({ email })]. *)
Definition find_user (email : string) (st : db) : option userDoc :=
  find (fun u => String.eqb (u_email u) email) (users st).

(** [findOne({ fileName, isActive: true })]. *)
Definition find_active_file (f : string) (st : db) : option fileDoc :=
  find (fun d => String.eqb (fd_fileName d) f && fd_isActive d) (csvFiles st).

Definition named (f : string) (d : fileDoc) : bool := String.eqb (fd_fileName d) f.

(** ** MongoDB operations used by the handlers *)

(** [collection(c).drop()]; dropping a missing collection throws, and the
    code catches it (lines 280-285): either way the collection is gone. *)
Definition drop (c : string) (st : db) : db :=
  {| connected := connected st; collections := delete c (collections st);
     csvFiles := csvFiles st; gridfs := gridfs st; users := users st;
     next_oid := next_oid st |}.

Fixpoint with_ids (n : N) (docs : list obj) : list obj :=
  match docs with
  | [] => []
  | d :: ds => (("_id", JOid n) :: d) :: with_ids (N.succ n) ds
  end.

(** [collection(c).insertMany(docs)]: the driver prepends a fresh [_id]. *)
Definition insertMany (c : string) (docs : list obj) (st : db) : db :=
  let old := match collections st !! c with Some l => l | None => [] end in
  {| connected := connected st;
     collections := <[c := (old ++ with_ids (next_oid st) docs)%list]> (collections st);
     csvFiles := csvFiles st; gridfs := gridfs st; users := users st;
     next_oid := (next_oid st + N.of_nat (length docs))%N |}.

Definition set_csvFiles (l : list fileDoc) (st : db) : db :=
  {| connected := connected st; collections := collections st; csvFiles := l;
     gridfs := gridfs st; users := users st; next_oid := next_oid st |}.

Definition set_gridfs (l : list (string * string)) (st : db) : db :=
  {| connected := connected st; collections := collections st; csvFiles := csvFiles st;
     gridfs := l; users := users st; next_oid := next_oid st |}.

(** [updateOne({ fileName, isActive: true }, { $set: ... })] on the first
    matching document (lines 990-997). *)
Definition with_parse (c : string) (cols : list string) (n : nat) (d : fileDoc) : fileDoc :=
  {| fd_fileName := fd_fileName d; fd_fileSize := fd_fileSize d;
     fd_fileContent := fd_fileContent d; fd_storedInGridFS := fd_storedInGridFS d;
     fd_uploadedAt := fd_uploadedAt d; fd_uploadedBy := fd_uploadedBy d;
     fd_isActive := fd_isActive d; fd_dataCollection := Some c;
     fd_columns := Some cols; fd_rowCount := Some n |}.

Definition active_named (f : string) (d : fileDoc) : bool :=
  String.eqb (fd_fileName d) f && fd_isActive d.

Fixpoint update_first (f : string) (c : string) (cols : list string) (n : nat)
    (l : list fileDoc) : list fileDoc :=
  match l with
  | [] => []
  | d :: ds =>
      if active_named f d then with_parse c cols n d :: ds
      else d :: update_first f c cols n ds
  end.

(** ** The CSV parser (csv-parse with [columns: true, skip_empty_lines:
    true, bom: true]); [None] is a parse exception. *)
Class CsvParser := { csv_parse : string -> option (list obj) }.

(** [Object.keys(cleanedRecords[0] || {})] (line 289), read after
    [insertMany] (line 286), which assigns [_id] to each record it inserts:
    the key is added last unless the record already has it. *)
Definition headers_of (cleaned : list obj) : list string :=
  match cleaned with
  | c :: _ => if str_mem "_id" (obj_keys c) then obj_keys c else (obj_keys c ++ ["_id"])%list
  | [] => []
  end.

Section WithParser.
Context `{CsvParser}.

(** [parseAndStoreCSVInMongo] (lines 247-297): the collection name, the
  header of the first cleaned record and the record count, or the
  exception message. *)
Definition parseAndStoreCSVInMongo (fileName content : string) (st : db)
: ((string * list string * nat) + string) * db :=
let collectionName := getCollectionName fileName in
match csv_parse content with
| None => (inr "CSV parse error", st)
| Some [] => (inr ("No data found in CSV file " ++ fileName), st)
| Some records =>
    let cleaned := map cleanRow records in
    let st' := insertMany collectionName cleaned (drop collectionName st) in
    (inl (collectionName, headers_of cleaned, length cleaned), st')
end.

(** ** The upload handler *)

Record upload := { up_name : string; up_size : N; up_content : string }.

Inductive upload_resp :=
| UploadOk (dataCollection : option string) (columns : list string) (rowCount : nat)  (** 201 *)
| UploadErr (status : nat) (msg : string).

Definition sixteen_mib : N := 16 * 1024 * 1024.

(** [content.trim().toLowerCase().startsWith('<!doctype') || ...('<html')]. *)
Definition looks_like_html (content : string) : bool :=
let t := lower (trim content) in String.prefix "<!doctype" t || String.prefix "<html" t.

(** Lines 888-910: every GridFS entry (when a record says so) and every
  [csvFiles] record of this file name is deleted. *)
Definition delete_existing (f : string) (st : db) : db :=
let existing := List.filter (fun d => String.eqb (fd_fileName d) f) (csvFiles st) in
match existing with
| [] => st
| _ =>
    let st1 := if existsb fd_storedInGridFS existing
               then set_gridfs (List.filter (fun g => negb (String.eqb (fst g) f)) (gridfs st)) st
               else st in
    set_csvFiles (List.filter (fun d => negb (String.eqb (fd_fileName d) f)) (csvFiles st1)) st1
end.

Definition new_fileDoc (u : upload) (content : option string) (grid : bool) (email : string)
  (now : Z) : fileDoc :=
{| fd_fileName := up_name u; fd_fileSize := up_size u; fd_fileContent := content;
   fd_storedInGridFS := grid; fd_uploadedAt := now; fd_uploadedBy := email;
   fd_isActive := true; fd_dataCollection := None; fd_columns := None; fd_rowCount := None |}.

(** The storage engine's document size limit, which makes [insertOne]
  throw at line 964 ("document too large"). *)
Variable bson_fits : fileDoc -> bool.

(** Lines 977-1005: parse and store when there is content; a failure is
  swallowed and the metadata keeps no collection. *)
Definition store_parsed (f csvContent : string) (st : db)
: option (string * list string * nat) * db :=
if String.eqb csvContent "" then (None, st)
else match parseAndStoreCSVInMongo f csvContent st with
     | (inl (c, hs, n), st') =>
         (Some (c, hs, n), set_csvFiles (update_first f c hs n (csvFiles st')) st')
     | (inr _, st') => (None, st')
     end.

(** [POST /api/admin/files/upload] (lines 844-1035), after authentication
  and the admin check, for the admin [email] at time [now]. *)
Definition upload_handler (req : option upload) (email : string) (now : Z) (st : db)
: upload_resp * db :=
if negb (connected st) then (UploadErr 503 "Database not connected", st) else
match req with
| None => (UploadErr 400 "No file uploaded", st)
| Some u =>
    let large := N.ltb sixteen_mib (up_size u) in
    let sample := if large then substring 0 1024 (up_content u) else up_content u in
    if looks_like_html sample then
      (UploadErr 400 "Uploaded file appears to be HTML, not CSV. Please upload a valid CSV file.", st)
    else
      let st1 := delete_existing (up_name u) st in
      let doc := if large then new_fileDoc u None true email now
                 else new_fileDoc u (Some (up_content u)) false email now in
      if negb large && negb (bson_fits doc) then
        (UploadErr 500 "Failed to save file to database", st1)
      else
        let st2 := if large then set_gridfs (gridfs st1 ++ [(up_name u, up_content u)])%list st1
                   else st1 in
        let st3 := set_csvFiles (csvFiles st2 ++ [doc])%list st2 in
        match store_parsed (up_name u) (up_content u) st3 with
        | (Some (c, hs, n), st4) => (UploadOk (Some c) hs n, st4)
        | (None, st4) => (UploadOk None [] 0, st4)
        end
end.

End WithParser.

(** ** Schemas *)

Record schema := {
  sc_fileName : string;
  sc_collectionName : string;
  sc_columns : list string;
  sc_columnTypes : list (string * string);
  sc_rowCount : nat
}.

Definition docs_of (c : string) (st : db) : list obj :=
  match collections st !! c with Some l => l | None => [] end.

(** [fileDoc.dataCollection || getCollectionName(fileName)]. *)
Definition collection_of (d : fileDoc) : string :=
  match fd_dataCollection d with
  | Some c => if String.eqb c "" then getCollectionName (fd_fileName d) else c
  | None => getCollectionName (fd_fileName d)
  end.

Definition present (v : jv) : bool :=
  match v with JNull | JUndef => false | _ => true end.

Definition field (r : obj) (k : string) : jv :=
  match obj_get k r with Some v => v | None => JUndef end.

Definition type_name (v : jv) : string :=
  match v with JNum _ => "number" | _ => "string" end.

(** [sample.length > 0 ? Object.keys(sample[0]).filter(k => k !== '_id')
    : (fileDoc.columns || [])]. *)
Definition columns_of (sample : list obj) (d : fileDoc) : list string :=
  match sample with
  | r :: _ => List.filter (fun k => negb (String.eqb k "_id")) (obj_keys r)
  | [] => match fd_columns d with Some l => l | None => [] end
  end.

(** Lines 1248-1257: the type of the first present value; a column with no
    present value gets no entry. *)
Definition types_single (sample : list obj) (cols : list string) : list (string * string) :=
  flat_map (fun col =>
              match List.filter present (map (fun r => field r col) sample) with
              | v :: _ => [(col, type_name v)]
              | [] => []
              end) cols.

(** Lines 1316-1322: [sample.find(...)?.[col]], [undefined] giving
    ['string']. *)
Definition types_all (sample : list obj) (cols : list string) : list (string * string) :=
  match sample with
  | [] => []
  | _ => map (fun col =>
                (col, match find (fun r => present (field r col)) sample with
                      | Some r => type_name (field r col)
                      | None => "string"
                      end)) cols
  end.

Inductive schema_resp :=
| SchemaOk (s : schema)
| SchemaErr (status : nat) (msg : string).

(** [GET /api/data/schema/:fileName] (lines 1214-1277). *)
Definition schema_handler (email fileName : string) (st : db) : schema_resp :=
  if negb (connected st) then SchemaErr 503 "Database not connected" else
  match find_user email st with
  | None => SchemaErr 404 "User not found"
  | Some u =>
      if negb (is_admin u) && negb (str_mem fileName (accessible u))
      then SchemaErr 403 "Access denied to this file"
      else match find_active_file fileName st with
           | None => SchemaErr 404 ("File " ++ fileName ++ " not found")
           | Some d =>
               let c := collection_of d in
               let docs := docs_of c st in
               let sample := firstn 5 docs in
               let cols := columns_of sample d in
               SchemaOk {| sc_fileName := fileName; sc_collectionName := c; sc_columns := cols;
                           sc_columnTypes := types_single sample cols;
                           sc_rowCount := length docs |}
           end
  end.

Definition schema_of_file (st : db) (d : fileDoc) : schema :=
  let c := collection_of d in
  let docs := docs_of c st in
  let sample := firstn 3 docs in
  let cols := columns_of sample d in
  {| sc_fileName := fd_fileName d; sc_collectionName := c; sc_columns := cols;
     sc_columnTypes := types_all sample cols; sc_rowCount := length docs |}.

(** [GET /api/data/schemas] (lines 1280-1341): the schemas of the files the
    user may read, in the natural order of [csvFiles]. *)
Definition schemas_handler (email : string) (st : db) : option (list schema) :=
  if negb (connected st) then None else
  match find_user email st with
  | None => None
  | Some u =>
      let files :=
        if is_admin u then List.filter fd_isActive (csvFiles st)
        else match accessible u with
             | [] => []
             | acc => List.filter (fun d => str_mem (fd_fileName d) acc && fd_isActive d) (csvFiles st)
             end in
      Some (map (schema_of_file st) files)
  end.

(** [GET /api/user/files] (lines 1099-1123). *)
Definition user_files_handler (email : string) (st : db) : option (list string) :=
  if negb (connected st) then None else
  match find_user email st with
  | None => None
  | Some u =>
      if is_admin u then Some (map fd_fileName (List.filter fd_isActive (csvFiles st)))
      else Some (accessible u)
  end.

(** ** A parser for the examples

    Lines separated by LF, empty lines skipped, the first line naming the
    columns, cells separated by commas (no quoting): the inputs of the
    examples below are parsed the same way by csv-parse. *)

Fixpoint split_on (d : ascii) (s : string) : list string :=
  match s with
  | EmptyString => [EmptyString]
  | String c t =>
      if Ascii.eqb c d then EmptyString :: split_on d t
      else match split_on d t with
           | w :: ws => String c w :: ws
           | [] => [String c EmptyString]
           end
  end.

Definition simple_csv_parse (s : string) : option (list obj) :=
  let lines := List.filter (fun l => negb (String.eqb l "")) (split_on (ascii_of_nat 10) s) in
  match lines with
  | [] => Some []
  | h :: rows =>
      let hdr := split_on "," h in
      Some (map (fun r => combine hdr (map JStr (split_on "," r))) rows)
  end.

Definition simple_csv : CsvParser := {| csv_parse := simple_csv_parse |}.

(** Data of the examples: an admin, a user who may read [CRM leads.csv],
    and the two-row revenue file of the specification's scenario A. *)

Definition ex_admin : userDoc :=
  {| u_id := 0; u_email := "admin@indira.com"; u_passwordHash := "h:admin123"; u_role := "admin";
     u_accessibleFiles := None; u_createdAt := 0; u_lastLogin := None; u_addedBy := None;
     u_updated := None; u_filesUpdated := None |}.

Definition ex_user : userDoc :=
  {| u_id := 1; u_email := "analyst@indira.com"; u_passwordHash := "h:analyst"; u_role := "user";
     u_accessibleFiles := Some ["CRM leads.csv"]; u_createdAt := 1; u_lastLogin := None;
     u_addedBy := Some "admin@indira.com"; u_updated := None; u_filesUpdated := None |}.

Definition ex_db : db :=
  {| connected := true; collections := ∅; csvFiles := []; gridfs := [];
     users := [ex_admin; ex_user]; next_oid := 2%N |}.

Definition ex_revenue_csv : string :=
  "District,Revenue" ++ NL ++ "Thane,12000" ++ NL ++ "Pune,8500" ++ NL.

Definition ex_upload (name content : string) : upload :=
  {| up_name := name; up_size := N.of_nat (String.length content); up_content := content |}.

Definition ex_rows (content : string) : list obj :=
  match simple_csv_parse content with Some r => r | None => [] end.

Definition ex_after (name content : string) (st : db) : db :=
  snd (@upload_handler simple_csv (fun _ => true) (Some (ex_upload name content)) "admin@indira.com" 1%Z st).

(** ** Upload facts *)

(** The parts of the state an operation leaves alone. *)
Definition frame (st st' : db) : Prop :=
  connected st' = connected st /\ collections st' = collections st /\
  users st' = users st /\ next_oid st' = next_oid st.

Lemma frame_refl st : frame st st.
Proof. repeat split. Qed.

Lemma frame_trans a b c : frame a b -> frame b c -> frame a c.
Proof. unfold frame. intuition congruence. Qed.

Lemma frame_set_csvFiles l st : frame st (set_csvFiles l st).
Proof. repeat split. Qed.

Lemma frame_set_gridfs l st : frame st (set_gridfs l st).
Proof. repeat split. Qed.

Lemma frame_delete_existing f st : frame st (delete_existing f st).
Proof.
  unfold delete_existing. destruct (List.filter _ _); [apply frame_refl|].
  destruct (existsb _ _); repeat split.
Qed.

#[local] Hint Resolve frame_refl frame_set_csvFiles frame_set_gridfs frame_delete_existing : core.

Lemma filter_negb_none {A} (p : A -> bool) l : List.filter p l = [] -> List.filter (fun x => negb (p x)) l = l.
Proof.
  induction l as [|x l IH]; simpl; [reflexivity|].
  destruct (p x); simpl; intros H; [discriminate H|]. f_equal. auto.
Qed.

Lemma delete_existing_csvFiles f st :
  csvFiles (delete_existing f st) = List.filter (fun d => negb (named f d)) (csvFiles st).
Proof.
  unfold delete_existing, named. destruct (List.filter _ _) eqn:E.
  - symmetry. now apply filter_negb_none.
  - destruct (existsb _ _); reflexivity.
Qed.

Lemma update_first_skip f c cols n l1 l2 :
  forallb (fun d => negb (named f d)) l1 = true ->
  update_first f c cols n (l1 ++ l2) = (l1 ++ update_first f c cols n l2)%list.
Proof.
  induction l1 as [|d l1 IH]; simpl; [reflexivity|].
  intros H. apply andb_prop in H as [Hd Hl]. unfold active_named.
  unfold named in Hd. apply negb_true_iff in Hd. rewrite Hd. simpl. f_equal. auto.
Qed.

Lemma forallb_filter_negb {A} (p : A -> bool) l : forallb (fun x => negb (p x)) (List.filter (fun x => negb (p x)) l) = true.
Proof.
  induction l as [|x l IH]; simpl; [reflexivity|].
  destruct (p x) eqn:E; simpl; rewrite ?E; simpl; auto.
Qed.

Lemma filter_named_removed f l :
  List.filter (named f) (List.filter (fun d => negb (named f d)) l) = [].
Proof. induction l as [|d l IH]; simpl; [reflexivity|]. destruct (named f d) eqn:E; simpl; rewrite ?E; auto. Qed.

Lemma find_skip_removed f g l :
  f <> g -> find (active_named f) (List.filter (fun d => negb (named g d)) l) = find (active_named f) l.
Proof.
  intros Hne. induction l as [|d l IH]; simpl; [reflexivity|].
  unfold named, active_named in *. destruct (String.eqb (fd_fileName d) g) eqn:E; simpl.
  - apply String.eqb_eq in E. subst g. rewrite IH.
    destruct (String.eqb_spec (fd_fileName d) f); [congruence|reflexivity].
  - now rewrite IH.
Qed.

Section UploadFacts.
Context `{CsvParser}.
Variable bson_fits : fileDoc -> bool.

Lemma store_parsed_ok f c st recs :
c <> EmptyString -> csv_parse c = Some recs -> recs <> [] ->
store_parsed f c st =
(Some (getCollectionName f, headers_of (map cleanRow recs), length (map cleanRow recs)),
 let st' := insertMany (getCollectionName f) (map cleanRow recs) (drop (getCollectionName f) st) in
 set_csvFiles (update_first f (getCollectionName f) (headers_of (map cleanRow recs))
                 (length (map cleanRow recs)) (csvFiles st')) st').
Proof.
intros Hc Hp Hr. unfold store_parsed, parseAndStoreCSVInMongo.
destruct (String.eqb_spec c ""); [contradiction|]. rewrite Hp.
destruct recs; [contradiction|]. reflexivity.
Qed.

Lemma store_parsed_empty f c st :
c <> EmptyString -> csv_parse c = Some [] -> store_parsed f c st = (None, st).
Proof.
intros Hc Hp. unfold store_parsed, parseAndStoreCSVInMongo.
destruct (String.eqb_spec c ""); [contradiction|]. now rewrite Hp.
Qed.

(** The state after the checks and the metadata insert of a small,
  non-HTML file (lines 888-975). *)
Definition staged (u : upload) (email : string) (now : Z) (st : db) : db :=
let st1 := delete_existing (up_name u) st in
set_csvFiles (csvFiles st1 ++ [new_fileDoc u (Some (up_content u)) false email now])%list st1.

(** Hypotheses of a small upload that passes the checks of lines
  846-975. *)
Definition small_upload (st : db) (u : upload) (email : string) (now : Z) : Prop :=
connected st = true /\ (up_size u <= sixteen_mib)%N /\
looks_like_html (up_content u) = false /\
bson_fits (new_fileDoc u (Some (up_content u)) false email now) = true /\
up_content u <> EmptyString.

Lemma upload_small_unfold st u email now :
small_upload st u email now ->
upload_handler bson_fits (Some u) email now st =
match store_parsed (up_name u) (up_content u) (staged u email now st) with
| (Some (c, hs, n), st4) => (UploadOk (Some c) hs n, st4)
| (None, st4) => (UploadOk None [] 0, st4)
end.
Proof.
intros (Hc & Hsz & Hh & Hb & _). unfold upload_handler, staged.
rewrite Hc. cbn [negb].
replace (N.ltb sixteen_mib (up_size u)) with false by (symmetry; apply N.ltb_ge; exact Hsz).
rewrite Hh, Hb. reflexivity.
Qed.

Lemma staged_frame u email now st : frame st (staged u email now st).
Proof. unfold staged. eapply frame_trans; [apply frame_delete_existing|apply frame_set_csvFiles]. Qed.

Lemma upload_replaces_ok st u email now recs :
small_upload st u email now -> csv_parse (up_content u) = Some recs -> recs <> [] ->
let c := getCollectionName (up_name u) in
let cleaned := map cleanRow recs in
let res := upload_handler bson_fits (Some u) email now st in
fst res = UploadOk (Some c) (headers_of cleaned) (length recs) /\
collections (snd res) !! c = Some (with_ids (next_oid st) cleaned) /\
List.filter (named (up_name u)) (csvFiles (snd res)) =
  [with_parse c (headers_of cleaned) (length recs)
     (new_fileDoc u (Some (up_content u)) false email now)].
Proof.
intros Hs Hp Hr c cleaned res. subst res.
rewrite upload_small_unfold by exact Hs.
destruct Hs as (_ & _ & _ & _ & Hne).
rewrite (store_parsed_ok _ _ _ _ Hne Hp Hr). rewrite length_map. cbn [fst snd].
destruct (staged_frame u email now st) as (_ & Hcol & _ & Hoid).
split; [reflexivity|]. split.
- unfold set_csvFiles, insertMany, drop. cbn [collections next_oid].
  rewrite lookup_insert_eq, lookup_delete_eq. now rewrite Hoid.
- cbn. unfold staged. rewrite delete_existing_csvFiles. cbn.
  rewrite update_first_skip by apply forallb_filter_negb.
  cbn. unfold active_named. rewrite String.eqb_refl. cbn.
  rewrite List.filter_app, filter_named_removed. cbn. unfold named. now rewrite String.eqb_refl.
Qed.

(** [C28] A successful upload answers 201 with the collection, the
  headers (those of the first cleaned record, then the [_id] that
  [insertMany] adds) and the row count, replaces the data of its
  collection with the new file's cleaned records and leaves exactly one
  metadata record for the file name, whatever was stored before
  (re-upload overwrites and does not merge). *)
Theorem upload_replaces st u email now recs :
small_upload st u email now -> csv_parse (up_content u) = Some recs -> recs <> [] ->
let c := getCollectionName (up_name u) in
let cleaned := map cleanRow recs in
let res := upload_handler bson_fits (Some u) email now st in
fst res = UploadOk (Some c) (headers_of cleaned) (length recs) /\
collections (snd res) !! c = Some (with_ids (next_oid st) cleaned) /\
List.filter (named (up_name u)) (csvFiles (snd res)) =
  [with_parse c (headers_of cleaned) (length recs)
     (new_fileDoc u (Some (up_content u)) false email now)].
Proof. apply upload_replaces_ok. Qed.

Lemma find_app_some {A} (p : A -> bool) l1 l2 x :
find p l1 = Some x -> find p (l1 ++ l2)%list = Some x.
Proof. induction l1 as [|y l1 IH]; simpl; [discriminate|]. destruct (p y); auto. Qed.

Lemma find_app_none {A} (p : A -> bool) l1 l2 :
find p l1 = None -> find p (l1 ++ l2)%list = find p l2.
Proof. induction l1 as [|y l1 IH]; simpl; [reflexivity|]. destruct (p y); [discriminate|auto]. Qed.

Lemma find_active_removed f l :
find (active_named f) (List.filter (fun d => negb (named f d)) l) = None.
Proof.
induction l as [|d l IH]; simpl; [reflexivity|]. unfold named, active_named in *.
destruct (String.eqb (fd_fileName d) f) eqn:E; simpl; [exact IH|]. now rewrite E.
Qed.

Lemma store_parsed_meta f c st :
users (snd (store_parsed f c st)) = users st /\ connected (snd (store_parsed f c st)) = connected st.
Proof.
unfold store_parsed, parseAndStoreCSVInMongo.
destruct (String.eqb c ""); [split; reflexivity|].
destruct (csv_parse c) as [[|r rs]|]; split; reflexivity.
Qed.

Lemma upload_small_meta st u email now :
small_upload st u email now ->
users (snd (upload_handler bson_fits (Some u) email now st)) = users st /\
connected (snd (upload_handler bson_fits (Some u) email now st)) = connected st.
Proof.
intros Hs. rewrite upload_small_unfold by exact Hs.
destruct (staged_frame u email now st) as (Hc & _ & Hu & _).
destruct (store_parsed_meta (up_name u) (up_content u) (staged u email now st)) as [Hu' Hc'].
destruct (store_parsed _ _ _) as [[[[c hs] n]|] st4]; cbn in *; split; congruence.
Qed.

Lemma staged_csvFiles u email now st :
csvFiles (staged u email now st) =
(List.filter (fun d => negb (named (up_name u) d)) (csvFiles st) ++
 [new_fileDoc u (Some (up_content u)) false email now])%list.
Proof. unfold staged. cbn. now rewrite delete_existing_csvFiles. Qed.

(** An upload whose CSV has a header and no record (lines 256-258 throw,
  line 1002 swallows the error). *)
Lemma upload_empty st u email now :
small_upload st u email now -> csv_parse (up_content u) = Some [] ->
let res := upload_handler bson_fits (Some u) email now st in
fst res = UploadOk None [] 0 /\ collections (snd res) = collections st /\
find_active_file (up_name u) (snd res) = Some (new_fileDoc u (Some (up_content u)) false email now).
Proof.
intros Hs Hp res. subst res. rewrite upload_small_unfold by exact Hs.
pose proof Hs as (_ & _ & _ & _ & Hne).
rewrite (store_parsed_empty _ _ _ Hne Hp). cbn [fst snd].
destruct (staged_frame u email now st) as (_ & Hcol & _).
split; [reflexivity|]. split; [exact Hcol|].
unfold find_active_file. rewrite staged_csvFiles.
change (fun d => String.eqb (fd_fileName d) (up_name u) && fd_isActive d) with (active_named (up_name u)).
rewrite find_app_none by apply find_active_removed.
cbn. unfold active_named. now rewrite String.eqb_refl.
Qed.

Lemma schema_handler_admin email f st a d :
connected st = true -> find_user email st = Some a -> is_admin a = true ->
find_active_file f st = Some d ->
exists s, schema_handler email f st = SchemaOk s /\
          sc_rowCount s = length (docs_of (collection_of d) st).
Proof.
intros Hc Hu Ha Hd. unfold schema_handler. rewrite Hc, Hu, Ha, Hd. cbn.
eexists. split; reflexivity.
Qed.

Lemma length_with_ids n docs : length (with_ids n docs) = length docs.
Proof. revert n. induction docs; simpl; auto. Qed.

(** [C37] Stale data after a failed re-upload: when a file is uploaded
  again with a header and no record, the handler answers 201, the old
  collection is not dropped, and the schema endpoint still reports the
  first upload's rows. *)
Theorem reupload_empty_stale st u1 u2 email now1 now2 recs1 a :
up_name u2 = up_name u1 ->
small_upload st u1 email now1 -> csv_parse (up_content u1) = Some recs1 -> recs1 <> [] ->
small_upload (snd (upload_handler bson_fits (Some u1) email now1 st)) u2 email now2 ->
csv_parse (up_content u2) = Some [] ->
find_user email st = Some a -> is_admin a = true ->
let st1 := snd (upload_handler bson_fits (Some u1) email now1 st) in
let res := upload_handler bson_fits (Some u2) email now2 st1 in
fst res = UploadOk None [] 0 /\
exists s, schema_handler email (up_name u2) (snd res) = SchemaOk s /\ sc_rowCount s = length recs1.
Proof.
intros Hn Hs1 Hp1 Hr1 Hs2 Hp2 Hu Ha st1 res.
destruct (upload_replaces_ok st u1 email now1 recs1 Hs1 Hp1 Hr1) as (_ & Hcol1 & _).
fold st1 in Hcol1, Hs2.
destruct (upload_empty st1 u2 email now2 Hs2 Hp2) as (Hres & Hcol2 & Hfind).
destruct (upload_small_meta st u1 email now1 Hs1) as [Hu1 Hc1].
destruct (upload_small_meta st1 u2 email now2 Hs2) as [Hu2 Hc2].
split; [exact Hres|].
destruct (schema_handler_admin email (up_name u2) (snd res) a _
            ltac:(pose proof Hs1 as []; unfold res, st1 in *; congruence)
            ltac:(unfold find_user, res, st1 in *; congruence) Ha Hfind) as [s [Hsch Hrc]].
exists s. split; [exact Hsch|]. rewrite Hrc.
unfold docs_of. change (snd res) with (snd (upload_handler bson_fits (Some u2) email now2 st1)).
rewrite Hcol2. unfold collection_of. cbn. rewrite Hn, Hcol1.
rewrite length_with_ids, length_map. reflexivity.
Qed.

Lemma upload_csvFiles_other st u email now recs f1 :
small_upload st u email now -> csv_parse (up_content u) = Some recs -> recs <> [] ->
f1 <> up_name u ->
find_active_file f1 (snd (upload_handler bson_fits (Some u) email now st)) = find_active_file f1 st.
Proof.
intros Hs Hp Hr Hne. rewrite upload_small_unfold by exact Hs.
pose proof Hs as (_ & _ & _ & _ & Hc).
rewrite (store_parsed_ok _ _ _ _ Hc Hp Hr). cbn [snd csvFiles set_csvFiles insertMany drop].
rewrite staged_csvFiles.
rewrite update_first_skip by apply forallb_filter_negb.
unfold find_active_file. cbn [csvFiles set_csvFiles].
change (fun d => String.eqb (fd_fileName d) f1 && fd_isActive d) with (active_named f1).
destruct (find (active_named f1) (List.filter (fun d => negb (named (up_name u) d)) (csvFiles st)))
  eqn:E.
- rewrite (find_app_some _ _ _ _ E). rewrite find_skip_removed in E by exact Hne. now rewrite E.
- rewrite (find_app_none _ _ _ E). rewrite find_skip_removed in E by exact Hne. rewrite E.
  cbn. unfold active_named, with_parse. rewrite String.eqb_refl. cbn.
  destruct (String.eqb_spec (up_name u) f1); [congruence|reflexivity].
Qed.

(** [C38] Two file names with the same collection name (for instance
  [Revenue.csv] and [revenue.csv]) share one data collection: uploading
  the second makes the first file's schema report the second file's
  rows, while both metadata records stay active. *)
Theorem upload_shares_collection st u email now recs f1 d1 a :
small_upload st u email now -> csv_parse (up_content u) = Some recs -> recs <> [] ->
f1 <> up_name u -> getCollectionName f1 = getCollectionName (up_name u) ->
find_active_file f1 st = Some d1 -> collection_of d1 = getCollectionName f1 ->
find_user email st = Some a -> is_admin a = true ->
exists s, schema_handler email f1 (snd (upload_handler bson_fits (Some u) email now st)) = SchemaOk s /\
          sc_rowCount s = length recs.
Proof.
intros Hs Hp Hr Hne Hcn Hd1 Hcol Hu Ha.
destruct (upload_replaces_ok st u email now recs Hs Hp Hr) as (_ & Hc & _).
destruct (upload_small_meta st u email now Hs) as [Hu' Hc'].
pose proof Hs as (Hconn & _).
set (st' := snd (upload_handler bson_fits (Some u) email now st)) in *.
assert (Hc2 : connected st' = true) by (rewrite Hc'; exact Hconn).
assert (Hu2 : find_user email st' = Some a) by (unfold find_user; rewrite Hu'; exact Hu).
assert (Hd2 : find_active_file f1 st' = Some d1)
  by (unfold st'; rewrite (upload_csvFiles_other st u email now recs f1 Hs Hp Hr Hne); exact Hd1).
destruct (schema_handler_admin email f1 st' a d1 Hc2 Hu2 Ha Hd2) as [s [Hsch Hrc]].
exists s. split; [exact Hsch|]. rewrite Hrc. unfold docs_of. rewrite Hcol, Hcn, Hc.
rewrite length_with_ids, length_map. reflexivity.
Qed.

End UploadFacts.

(** [C27] The schemas a non-admin user receives are all of files in the
    user's accessible list (the server-side filter of lines 1294-1303). *)
Theorem schemas_only_accessible email st u ss :
  find_user email st = Some u -> is_admin u = false -> schemas_handler email st = Some ss ->
  Forall (fun s => str_mem (sc_fileName s) (accessible u) = true) ss.
Proof.
  unfold schemas_handler. intros Hu Ha. destruct (connected st); [|discriminate].
  rewrite Hu, Ha. destruct (accessible u) as [|f fs] eqn:Eacc; intros Hss; injection Hss as <-;
    [constructor|].
  apply Forall_map, Forall_forall. intros d Hd. apply list_elem_of_In, filter_In in Hd as [_ Hd].
  apply andb_prop in Hd as [Hm _]. exact Hm.
Qed.

(** The file names of the schemas a user receives are all in the list
    [GET /api/user/files] gives the same user. *)
Lemma schemas_in_user_files email st ss fs :
  schemas_handler email st = Some ss -> user_files_handler email st = Some fs ->
  Forall (fun s => str_mem (sc_fileName s) fs = true) ss.
Proof.
  unfold schemas_handler, user_files_handler. destruct (connected st); [|discriminate]. simpl.
  destruct (find_user email st) as [u|]; [|discriminate].
  destruct (is_admin u); intros Hss Hfs; injection Hss as <-; injection Hfs as <-;
    apply Forall_map, Forall_forall; intros d Hd; apply list_elem_of_In in Hd;
    apply str_mem_In; simpl.
  - now apply in_map.
  - destruct (accessible u) as [|f fs]; [destruct Hd|].
    apply filter_In in Hd as [_ Hd]. apply andb_prop in Hd as [Hm _]. now apply str_mem_In.
Qed.

(** ** Witnesses *)

Lemma upload_replaces_witness :
  let u := ex_upload "Revenue.csv" ex_revenue_csv in
  let res := @upload_handler simple_csv (fun _ => true) (Some u) "admin@indira.com" 1%Z ex_db in
  fst res = UploadOk (Some "data_revenue") ["District"; "Revenue"; "_id"] 2.
Proof.
  intros u res.
  destruct (@upload_replaces simple_csv (fun _ => true) ex_db u "admin@indira.com" 1%Z
              (ex_rows ex_revenue_csv)
              ltac:(repeat split; [vm_compute; discriminate|vm_compute; discriminate])
              ltac:(vm_compute; reflexivity) ltac:(vm_compute; discriminate)) as [H _].
  exact H.
Defined.

Lemma reupload_empty_stale_witness :
  let st1 := ex_after "Revenue.csv" ex_revenue_csv ex_db in
  let res := @upload_handler simple_csv (fun _ => true)
               (Some (ex_upload "Revenue.csv" ("District,Revenue" ++ NL))) "admin@indira.com" 1%Z st1 in
  fst res = UploadOk None [] 0 /\
  exists s, schema_handler "admin@indira.com" "Revenue.csv" (snd res) = SchemaOk s /\ sc_rowCount s = 2.
Proof.
  exact (@reupload_empty_stale simple_csv (fun _ => true) ex_db
           (ex_upload "Revenue.csv" ex_revenue_csv) (ex_upload "Revenue.csv" ("District,Revenue" ++ NL))
           "admin@indira.com" 1%Z 1%Z (ex_rows ex_revenue_csv) ex_admin eq_refl
           ltac:(repeat split; [vm_compute; discriminate|vm_compute; discriminate])
           ltac:(vm_compute; reflexivity) ltac:(vm_compute; discriminate)
           ltac:(repeat split; [vm_compute; discriminate|vm_compute; discriminate])
           ltac:(vm_compute; reflexivity) eq_refl eq_refl).
Defined.

Lemma upload_shares_collection_witness :
  let st1 := ex_after "Revenue.csv" ex_revenue_csv ex_db in
  let other := "District,Revenue" ++ NL ++ "Nashik,100" ++ NL in
  exists s, schema_handler "admin@indira.com" "Revenue.csv" (ex_after "revenue.csv" other st1) = SchemaOk s /\
            sc_rowCount s = 1.
Proof.
  intros st1 other.
  exact (@upload_shares_collection simple_csv (fun _ => true) st1 (ex_upload "revenue.csv" other)
           "admin@indira.com" 1%Z (ex_rows other) "Revenue.csv"
           (with_parse "data_revenue" ["District"; "Revenue"; "_id"] 2
              (new_fileDoc (ex_upload "Revenue.csv" ex_revenue_csv) (Some ex_revenue_csv) false
                 "admin@indira.com" 1%Z)) ex_admin
           ltac:(repeat split; [vm_compute; discriminate|vm_compute; discriminate])
           ltac:(vm_compute; reflexivity) ltac:(vm_compute; discriminate)
           ltac:(vm_compute; discriminate) ltac:(vm_compute; reflexivity)
           ltac:(vm_compute; reflexivity) ltac:(vm_compute; reflexivity) eq_refl eq_refl).
Defined.

Lemma schemas_only_accessible_witness :
  let st := ex_after "CRM leads.csv" ("Lead,City" ++ NL ++ "L1,Pune" ++ NL)
              (ex_after "Revenue.csv" ex_revenue_csv ex_db) in
  Forall (fun s => str_mem (sc_fileName s) (accessible ex_user) = true)
         (match schemas_handler "analyst@indira.com" st with Some l => l | None => [] end).
Proof.
  intros st.
  exact (schemas_only_accessible "analyst@indira.com" st ex_user _ eq_refl eq_refl
           ltac:(vm_compute; reflexivity)).
Defined.

End Store.
