(* ===== verification/Gateway.v ===== *)
(** The query gateway of the back end ([src/backend/server.js]):
    [validatePipeline] (lines 299-319) and the handler of
    [POST /api/data/query] (lines 1344-1419): request checks, the
    per-file authorisation, the stage blacklist, the choice of the
    collection, execution by MongoDB's aggregation engine, [_id]
    stripping and the 10 000-row cap.  The engine is the [AggEngine]
    interface with the one law the theorems use; a small engine for
    [$match]/[$group]/[$sum] serves the specification's scenario C. *)

From Stdlib Require Import String Ascii List Bool Arith Lia ZArith QArith.
From stdpp Require Import gmap strings.
From S2P Require Import Prelude JsValue Normalizer Store.
Import ListNotations.
Open Scope string_scope.

Module Gateway.
Import Normalizer Store.

(** ** The aggregation engine *)

(** [db.collection(c).aggregate(pipeline, { allowDiskUse: true })
    .toArray()]: the result documents, or the engine's error message.  The
    engine sees every collection (stages such as [$lookup] read others). *)
Class AggEngine := {
  aggregate : gmap string (list obj) -> string -> list jv -> list jv + string;
  (** An empty pipeline returns the collection's documents in order. *)
  aggregate_nil : forall cols c,
    aggregate cols c [] = inl (map JObj (match cols !! c with Some l => l | None => [] end))
}.

(** ** [validatePipeline] *)

Definition dangerousStages : list string :=
  ["$out"; "$merge"; "$currentOp"; "$listSessions"; "$planCacheStats"].

(** The first dangerous key of a stage, in [Object.keys] order. *)
Definition dangerous_key (stage : jv) : option string :=
  find (fun k => str_mem k dangerousStages) (js_keys stage).

(** The body of the loop of lines 306-316 on one stage. *)
Definition stage_error (s : jv) : option string :=
  if negb (typeof_object s) || match s with JNull => true | _ => false end
  then Some "Each pipeline stage must be an object"
  else match dangerous_key s with
       | Some k => Some ("Dangerous pipeline stage not allowed: " ++ k)
       | None => None
       end.

(** The loop of lines 306-316: the error of the first bad stage. *)
Fixpoint validate_stages (stages : list jv) : option string :=
  match stages with
  | [] => None
  | s :: rest =>
      match stage_error s with
      | Some e => Some e
      | None => validate_stages rest
      end
  end.

(** [validatePipeline] (lines 299-319): [None] when it returns, the
    message when it throws. *)
Definition validatePipeline (pipeline : jv) : option string :=
  match pipeline with
  | JArr stages => validate_stages stages
  | _ => Some "Pipeline must be an array"
  end.

(** ** The query handler *)

Inductive query_resp :=
| QueryOk (data : list jv) (rowCount totalRows : nat) (truncated : bool) (columns : list string)
| QueryErr (status : nat) (msg : string).

#[warnings="-abstract-large-number"]
Definition maxRows : nat := 10000.

(** Lines 1390-1396: the [_id] of a row is removed when it is an
    [ObjectId]; a grouping key named [_id] stays. *)
Definition strip_oid (row : jv) : jv :=
  match row with
  | JObj o => match obj_get "_id" o with
              | Some (JOid _) => JObj (obj_delete "_id" o)
              | _ => row
              end
  | _ => row
  end.

(** [req.body.x], [undefined] when absent. *)
Definition body_field (body : obj) (k : string) : jv :=
  match obj_get k body with Some v => v | None => JUndef end.

(** [user.accessibleFiles && user.accessibleFiles.includes(fileName)]. *)
Definition has_access (u : userDoc) (fileName : jv) : bool :=
  match u_accessibleFiles u, fileName with
  | Some l, JStr f => str_mem f l
  | _, _ => false
  end.

(** Lines 1377-1381: [reqCollection], or the file's [dataCollection], or
    [getCollectionName(fileName)]; a name that is not a string makes the
    driver (or [fileName.replace]) throw. *)
Definition target_collection (fileName reqCollection : jv) (st : db) : string + string :=
  if truthy reqCollection then
    match reqCollection with
    | JStr c => inl c
    | _ => inr "collection name must be a String"
    end
  else match fileName with
       | JStr f => inl (match find_active_file f st with
                        | Some d => collection_of d
                        | None => getCollectionName f
                        end)
       | _ => inr "fileName.replace is not a function"
       end.

(** Lines 1398-1411: the response of a successful aggregation. *)
Definition shape_result (result : list jv) : query_resp :=
  let cleanResult := map strip_oid result in
  let limited := firstn maxRows cleanResult in
  QueryOk limited (length limited) (length cleanResult) (Nat.ltb maxRows (length cleanResult))
          (match limited with r :: _ => js_keys r | [] => [] end).

Section Handler.
Context `{AggEngine}.

(** [POST /api/data/query] (lines 1344-1419), after authentication, for
    the user [email]. *)
Definition query_handler (email : string) (body : obj) (st : db) : query_resp :=
  let pipeline := body_field body "pipeline" in
  let fileName := body_field body "fileName" in
  let reqCollection := body_field body "collectionName" in
  if negb (truthy pipeline) || negb (is_array pipeline) then
    QueryErr 400 "pipeline (array) is required"
  else if negb (truthy fileName) && negb (truthy reqCollection) then
    QueryErr 400 "fileName or collectionName is required"
  else if negb (connected st) then QueryErr 503 "Database not connected"
  else match find_user email st with
  | None => QueryErr 404 "User not found"
  | Some u =>
      if negb (is_admin u) && truthy fileName && negb (has_access u fileName) then
        QueryErr 403 "Access denied to this file"
      else match validatePipeline pipeline with
      | Some msg => QueryErr 500 msg
      | None =>
          match target_collection fileName reqCollection st with
          | inr msg => QueryErr 500 msg
          | inl c =>
              match pipeline with
              | JArr stages =>
                  match aggregate (collections st) c stages with
                  | inl result => shape_result result
                  | inr msg => QueryErr 500 msg
                  end
              | _ => QueryErr 400 "pipeline (array) is required"
              end
          end
      end
  end.

End Handler.

(** ** A reference engine for the examples

    [$match] on equal scalar fields and [$group] with [_id: null] and
    [$sum] of fields, as MongoDB evaluates them; any other stage is an
    engine error.  It is not the program's code: it runs the scenarios. *)

Definition scalar_eqb (a b : jv) : bool :=
  match a, b with
  | JStr x, JStr y => String.eqb x y
  | JNum x, JNum y => Qeq_bool x y
  | JBool x, JBool y => Bool.eqb x y
  | JNull, JNull => true
  | _, _ => false
  end.

Definition match_doc (cond : obj) (d : jv) : bool :=
  forallb (fun kv => scalar_eqb (get_field d (fst kv)) (snd kv)) cond.

Definition num_of (v : jv) : Q := match v with JNum q => q | _ => 0%Q end.

(** [{ $sum: "$F" }]: the sum of the numeric values of [F]. *)
Definition sum_field (acc : jv) (docs : list jv) : jv :=
  match acc with
  | JObj [(op, JStr (String "$" f))] =>
      if String.eqb op "$sum"
      then JNum (Qred (fold_left Qplus (map (fun d => num_of (get_field d f)) docs) 0%Q))
      else JNull
  | _ => JNull
  end.

Definition group_null (spec : obj) (docs : list jv) : list jv :=
  match docs with
  | [] => []
  | _ => [JObj (("_id", JNull) ::
                map (fun kv => (fst kv, sum_field (snd kv) docs))
                    (List.filter (fun kv => negb (String.eqb (fst kv) "_id")) spec))]
  end.

Definition run_stage (docs : list jv) (stage : jv) : list jv + string :=
  match stage with
  | JObj [(op, JObj arg)] =>
      if String.eqb op "$match" then inl (List.filter (match_doc arg) docs)
      else if String.eqb op "$group" then inl (group_null arg docs)
      else inr ("Unrecognized pipeline stage name: " ++ op)
  | _ => inr "A pipeline stage specification object must contain exactly one field."
  end.

Definition mini_aggregate (cols : gmap string (list obj)) (c : string) (stages : list jv)
  : list jv + string :=
  fold_left (fun acc stage => match acc with inl docs => run_stage docs stage | inr e => inr e end)
            stages (inl (map JObj (match cols !! c with Some l => l | None => [] end))).

#[export] Instance mini_engine : AggEngine :=
  {| aggregate := mini_aggregate; aggregate_nil := fun cols c => eq_refl |}.

(** The request of specification scenario C, by the default admin, on the
    state after the upload of scenario A. *)
Definition scenario_C_body : obj :=
  [("pipeline", JArr [JObj [("$match", JObj [("District", JStr "Thane")])];
                      JObj [("$group", JObj [("_id", JNull);
                                             ("total", JObj [("$sum", JStr "$Revenue")])])]]);
   ("fileName", JStr "Revenue.csv")].

Definition scenario_C_state : db := ex_after "Revenue.csv" ex_revenue_csv ex_db.

(** ** Properties of the gateway *)

Lemma validate_stages_none stages :
  validate_stages stages = None <-> Forall (fun s => stage_error s = None) stages.
Proof.
  induction stages as [|s rest IH]; simpl; [split; constructor|].
  destruct (stage_error s) eqn:E.
  - split; [discriminate|]. intros H. inversion H. congruence.
  - rewrite IH. split; [intros H; constructor; assumption|intros H; now inversion H].
Qed.

Lemma stage_error_none s :
  stage_error s = None <-> typeof_object s = true /\ s <> JNull /\ dangerous_key s = None.
Proof.
  unfold stage_error.
  destruct (typeof_object s) eqn:Ht; cbn [negb orb].
  2: { split; [discriminate|]. intros (H & _). discriminate H. }
  destruct s; try discriminate Ht; cbn [orb];
    try (split; [discriminate|intros (_ & H & _); now contradiction H]);
    destruct (dangerous_key _); split; try discriminate;
    try (intros (_ & _ & H); discriminate H); intros _; repeat split; congruence.
Qed.

Section Props.
Context `{E : AggEngine}.

Lemma shape_result_ok result data rc tot tr cols :
  shape_result result = QueryOk data rc tot tr cols ->
  data = firstn maxRows (map strip_oid result) /\ tot = length result /\
  rc = length data /\ length data = Nat.min tot maxRows /\ tr = Nat.ltb maxRows tot.
Proof.
  unfold shape_result. intros H. injection H as <- <- <- <- _.
  rewrite length_map, length_firstn, length_map. repeat split; lia.
Qed.

Lemma query_handler_ok email body st data rc tot tr cols :
  query_handler email body st = QueryOk data rc tot tr cols ->
  exists c stages result,
    aggregate (collections st) c stages = inl result /\
    data = firstn maxRows (map strip_oid result) /\ tot = length result /\
    rc = length data /\ length data = Nat.min tot maxRows /\ tr = Nat.ltb maxRows tot.
Proof.
  unfold query_handler. cbv zeta.
  repeat match goal with
         | |- context [if ?b then _ else _] => destruct b
         | |- context [match ?x with Some _ => _ | None => _ end] => destruct x
         | |- context [match ?x with inl _ => _ | inr _ => _ end] => destruct x eqn:?
         end; try discriminate.
  destruct (body_field body "pipeline") as [| | | | | |stages|]; try discriminate.
  destruct (aggregate (collections st) s stages) as [result|msg] eqn:Ha; [|discriminate].
  intros Hs. exists s, stages, result. split; [exact Ha|]. exact (shape_result_ok _ _ _ _ _ _ Hs).
Qed.

(** [C1] What the client receives is the engine's result with ObjectId
    keys stripped and capped: at most 10 000 rows, [totalRows] the
    uncapped count, [truncated] exactly when that count exceeds 10 000. *)
Theorem query_result_bounds email body st data rc tot tr cols :
  query_handler email body st = QueryOk data rc tot tr cols ->
  exists c stages result,
    aggregate (collections st) c stages = inl result /\
    data = firstn maxRows (map strip_oid result) /\ tot = length result /\
    rc = length data /\ length data = Nat.min tot maxRows /\ tr = Nat.ltb maxRows tot.
Proof. apply query_handler_ok. Qed.

(** [C2] A pipeline the blacklist refuses never reaches the engine: the
    answer is an error, and it is the same whatever the engine. *)
Theorem unsafe_pipeline_rejected (E1 E2 : AggEngine) email body st msg :
  validatePipeline (body_field body "pipeline") = Some msg ->
  @query_handler E1 email body st = @query_handler E2 email body st /\
  exists status m, @query_handler E1 email body st = QueryErr status m.
Proof.
  intros Hv. unfold query_handler. cbv zeta. rewrite Hv. split.
  - reflexivity.
  - repeat match goal with
           | |- context [if ?b then _ else _] => destruct b
           | |- context [match ?x with Some _ => _ | None => _ end] => destruct x
           end; eauto.
Qed.

Lemma has_access_accessible u f : has_access u (JStr f) = str_mem f (accessible u).
Proof. unfold has_access, accessible. now destruct (u_accessibleFiles u). Qed.

(** [C3] A non-admin user who names a file outside the accessible list
    is refused with 403 before the pipeline is looked at. *)
Theorem unauthorized_file_denied email body st u f :
  connected st = true -> is_array (body_field body "pipeline") = true ->
  body_field body "fileName" = JStr f -> f <> EmptyString ->
  find_user email st = Some u -> is_admin u = false -> str_mem f (accessible u) = false ->
  query_handler email body st = QueryErr 403 "Access denied to this file".
Proof.
  intros Hc Ha Hf Hne Hu Hadm Hm. unfold query_handler. cbv zeta.
  rewrite Hf, Hc, Hu, Hadm, has_access_accessible, Hm.
  destruct (body_field body "pipeline"); try discriminate. cbn.
  destruct (String.eqb_spec f ""); [contradiction|reflexivity].
Qed.

(** [C11] Authorisation bypass: a non-admin user who sends a
    [collectionName] and no [fileName] skips the access check of line
    1366; with an empty pipeline the whole collection is returned, whatever
    the user's accessible list. *)
Theorem collection_only_skips_access email st u c :
  connected st = true -> find_user email st = Some u -> is_admin u = false -> c <> EmptyString ->
  query_handler email [("pipeline", JArr []); ("collectionName", JStr c)] st =
  shape_result (map JObj (docs_of c st)).
Proof.
  intros Hc Hu Ha Hne. unfold query_handler. cbv zeta. cbn [body_field obj_get String.eqb Ascii.eqb Bool.eqb].
  unfold truthy at 2 3. destruct (String.eqb_spec c ""); [contradiction|]. cbn.
  rewrite Hc, Hu, Ha. cbn. unfold target_collection. cbn.
  destruct (String.eqb_spec c ""); [contradiction|]. cbn.
  rewrite aggregate_nil. reflexivity.
Qed.

Lemma strip_oid_no_oid r o n : strip_oid r = JObj o -> obj_get "_id" o <> Some (JOid n).
Proof.
  destruct r; simpl; try discriminate.
  destruct (obj_get "_id" kvs) as [[]|] eqn:Eid; intros H; injection H as <-;
    try (rewrite Eid; discriminate). rewrite obj_get_delete. discriminate.
Qed.

(** No row the client receives carries an [ObjectId] as [_id]. *)
Theorem query_rows_no_objectid email body st data rc tot tr cols :
  query_handler email body st = QueryOk data rc tot tr cols ->
  Forall (fun r => forall o n, r = JObj o -> obj_get "_id" o <> Some (JOid n)) data.
Proof.
  intros H. destruct (query_handler_ok _ _ _ _ _ _ _ _ H) as (c & stages & result & _ & -> & _).
  apply Forall_forall. intros r Hr o n ->.
  apply list_elem_of_In in Hr.
  assert (Hin : In (JObj o) (map strip_oid result))
    by (rewrite <- (firstn_skipn maxRows (map strip_oid result)); apply in_or_app; now left).
  apply in_map_iff in Hin as [r' [Hs _]].
  exact (strip_oid_no_oid _ _ _ Hs).
Qed.

End Props.

Lemma validate_stages_app ok rest :
  Forall (fun s => stage_error s = None) ok -> validate_stages (ok ++ rest)%list = validate_stages rest.
Proof. induction 1 as [|s ok Hs _ IH]; simpl; [reflexivity|]. now rewrite Hs. Qed.

(** A pipeline whose first offending stage is an object with a
    blacklisted key is refused with the message naming that key
    (specification scenario D). *)
Theorem dangerous_stage_message ok s rest k :
  Forall (fun x => stage_error x = None) ok -> typeof_object s = true -> s <> JNull ->
  dangerous_key s = Some k ->
  validatePipeline (JArr (ok ++ s :: rest)) = Some ("Dangerous pipeline stage not allowed: " ++ k).
Proof.
  intros Hok Ht Hn Hk. simpl. rewrite validate_stages_app by exact Hok. simpl.
  unfold stage_error. rewrite Ht, Hk. destruct s; try reflexivity. contradiction.
Qed.

(** [C36] The blacklist lets [$lookup] and [$unionWith] through: for
    every pipeline, inserting a [$lookup] of any collection (with any
    fields) followed by a [$unionWith] of any collection, anywhere in it,
    leaves the verdict of [validatePipeline] unchanged, so a pipeline on
    one file may read another file's collection, outside the per-file
    authorisation. *)
Theorem cross_collection_stages_pass pre post from lf ff as_ c :
  validatePipeline
    (JArr (pre ++ JObj [("$lookup", JObj [("from", JStr from); ("localField", lf);
                                          ("foreignField", ff); ("as", as_)])]
               :: JObj [("$unionWith", JStr c)] :: post)) =
  validatePipeline (JArr (pre ++ post)).
Proof.
  cbn [validatePipeline]. induction pre as [|s pre IH]; [reflexivity|].
  cbn [app validate_stages]. now rewrite IH.
Qed.

(** Specification scenario C with the reference engine: the total
    revenue of Thane is one row [{_id: null, total: 12000}]; the code keeps
    the [_id: null] of the group, which is not an [ObjectId]. *)
Theorem scenario_C_total :
  @query_handler mini_engine "admin@indira.com" scenario_C_body scenario_C_state =
  QueryOk [JObj [("_id", JNull); ("total", JNum 12000)]] 1 1 false ["_id"; "total"].
Proof. vm_compute. reflexivity. Qed.

(** ** Witnesses *)

Lemma dangerous_stage_message_witness :
  validatePipeline (JArr [JObj [("$out", JStr "other_collection")]]) =
  Some "Dangerous pipeline stage not allowed: $out".
Proof.
  exact (dangerous_stage_message [] (JObj [("$out", JStr "other_collection")]) [] "$out"
           (List.Forall_nil _) eq_refl ltac:(discriminate) eq_refl).
Defined.

Lemma unsafe_pipeline_rejected_witness :
  exists status m,
    @query_handler mini_engine "admin@indira.com"
      [("pipeline", JArr [JObj [("$out", JStr "other_collection")]]); ("fileName", JStr "Revenue.csv")]
      (ex_after "Revenue.csv" ex_revenue_csv ex_db) = QueryErr status m.
Proof.
  exact (proj2 (unsafe_pipeline_rejected mini_engine mini_engine "admin@indira.com"
           [("pipeline", JArr [JObj [("$out", JStr "other_collection")]]); ("fileName", JStr "Revenue.csv")]
           (ex_after "Revenue.csv" ex_revenue_csv ex_db) _ eq_refl)).
Defined.

Lemma unauthorized_file_denied_witness :
  @query_handler mini_engine "analyst@indira.com"
    [("pipeline", JArr []); ("fileName", JStr "Revenue.csv")]
    (ex_after "Revenue.csv" ex_revenue_csv ex_db) = QueryErr 403 "Access denied to this file".
Proof.
  exact (@unauthorized_file_denied mini_engine "analyst@indira.com"
           [("pipeline", JArr []); ("fileName", JStr "Revenue.csv")]
           (ex_after "Revenue.csv" ex_revenue_csv ex_db) ex_user "Revenue.csv"
           ltac:(vm_compute; reflexivity) eq_refl eq_refl ltac:(discriminate)
           ltac:(vm_compute; reflexivity) eq_refl eq_refl).
Defined.

Lemma collection_only_skips_access_witness :
  @query_handler mini_engine "analyst@indira.com"
    [("pipeline", JArr []); ("collectionName", JStr "data_revenue")]
    (ex_after "Revenue.csv" ex_revenue_csv ex_db) =
  shape_result (map JObj (docs_of "data_revenue" (ex_after "Revenue.csv" ex_revenue_csv ex_db))).
Proof.
  exact (@collection_only_skips_access mini_engine "analyst@indira.com"
           (ex_after "Revenue.csv" ex_revenue_csv ex_db) ex_user "data_revenue"
           ltac:(vm_compute; reflexivity) ltac:(vm_compute; reflexivity) eq_refl ltac:(discriminate)).
Defined.

Lemma query_result_bounds_witness :
  exists c stages result,
    aggregate (collections scenario_C_state) c stages = inl result /\
    [JObj [("_id", JNull); ("total", JNum 12000)]] = firstn maxRows (map strip_oid result) /\
    1 = length result /\ 1 = length [JObj [("_id", JNull); ("total", JNum 12000)]] /\
    length [JObj [("_id", JNull); ("total", JNum 12000)]] = Nat.min 1 maxRows /\
    false = Nat.ltb maxRows 1.
Proof.
  exact (@query_result_bounds mini_engine "admin@indira.com" scenario_C_body scenario_C_state
           [JObj [("_id", JNull); ("total", JNum 12000)]] 1 1 false ["_id"; "total"]
           ltac:(vm_compute; reflexivity)).
Defined.

Lemma query_rows_no_objectid_witness :
  Forall (fun r => forall o n, r = JObj o -> obj_get "_id" o <> Some (JOid n))
         [JObj [("_id", JNull); ("total", JNum 12000)]].
Proof.
  exact (@query_rows_no_objectid mini_engine "admin@indira.com" scenario_C_body scenario_C_state
           [JObj [("_id", JNull); ("total", JNum 12000)]] 1 1 false ["_id"; "total"]
           ltac:(vm_compute; reflexivity)).
Defined.

End Gateway.
