(* ===== verification/Access.v ===== *)
(** The access policy of the front end ([src/frontend/index.tsx]): the
    table schemas the client keeps ([tableSchemas], filled by
    [loadDataFolderFiles]), [validateQuestionAccess] and
    [validateResponseAccess] (lines 2735-2812) and the filtering of the
    schemas put in the prompt by [getSystemInstruction] (lines 2817-2831).
    The list [userAccessibleFiles] is what [GET /api/user/files] returned,
    the empty list standing for "no restriction". *)

From Stdlib Require Import String Ascii List Bool Arith Lia ZArith NArith.
From S2P Require Import Prelude JsValue Store.
Import ListNotations.
Open Scope string_scope.
Open Scope nat_scope.

Module Access.
Import Store.

(** [tableSchemas[collectionName]]. *)
Record table_schema := {
  ts_columns : list string;
  ts_rowCount : nat;
  ts_fileName : string
}.

(** [tableSchemas]: a JavaScript object keyed by collection name. *)
Definition tables := list (string * table_schema).

Definition of_schema (s : schema) : table_schema :=
  {| ts_columns := sc_columns s; ts_rowCount := sc_rowCount s; ts_fileName := sc_fileName s |}.

(** The [setTableSchemas] calls of [loadDataFolderFiles] (lines 2554-2563)
    for the schemas of [GET /api/data/schemas], in order. *)
Definition add_schemas (ts : tables) (ss : list schema) : tables :=
  fold_left (fun acc s => obj_set (sc_collectionName s) (of_schema s) acc) ss ts.

(** [set.add(x)] on a [Set] enumerated in insertion order. *)
Definition set_add (acc : list string) (x : string) : list string :=
  if str_mem x acc then acc else acc ++ [x].

(** [allFileNames] (lines 2741-2744). *)
Definition known_files (ts : tables) : list string :=
  fold_left (fun acc sc => if String.eqb (ts_fileName sc) "" then acc else set_add acc (ts_fileName sc))
            (map snd ts) [].

(** [fileName.replace('.csv', '').toLowerCase()]: the first occurrence of
    [.csv] anywhere in the name is removed. *)
Definition without_ext (f : string) : string := lower (replace_first ".csv" "" f).

Definition with_underscores (n : string) : string := collapse_runs is_ws "_" n.

Definition with_spaces (n : string) : string := replace_chars (fun c => Ascii.eqb c "_") " " n.

Definition with_dashes (n : string) : string := replace_chars (fun c => Ascii.eqb c "_") "-" n.

(** [/[\s_-]+/]. *)
Definition is_sep (c : ascii) : bool := is_ws c || Ascii.eqb c "_" || Ascii.eqb c "-".

(** [fileNameWithoutExt.split(/[\s_-]+/).filter(w => w.length > 2)]. *)
Definition name_words (n : string) : list string :=
  List.filter (fun w => Nat.ltb 2 (String.length w)) (split_runs is_sep n).

(** The condition of lines 2762-2767, [ql] being the lower-cased question. *)
Definition question_mentions (ql f : string) : bool :=
  let n := without_ext f in
  let hasPartialMatch := existsb (fun w => includes ql w) (name_words n) in
  includes ql n || includes ql (with_underscores n) || includes ql (with_spaces n) ||
  includes ql (with_dashes n) || includes ql (lower f) || hasPartialMatch.

(** [validateQuestionAccess] (lines 2735-2779): [(allowed, unauthorizedFiles)]. *)
Definition validateQuestionAccess (acc : list string) (ts : tables) (q : string)
  : bool * list string :=
  match acc with
  | [] => (true, [])
  | _ =>
      let ql := lower q in
      let bad := List.filter (fun f => negb (str_mem f acc) && question_mentions ql f)
                             (known_files ts) in
      (match bad with [] => true | _ => false end, bad)
  end.

(** The condition of lines 2799-2802. *)
Definition response_mentions (rl f : string) : bool :=
  let n := without_ext f in
  includes rl n || includes rl (with_underscores n) || includes rl (with_spaces n) ||
  includes rl (lower f).

(** [validateResponseAccess] (lines 2782-2812): [(valid, unauthorizedReferences)];
    every schema is visited, so a file name held by two schemas is reported twice. *)
Definition validateResponseAccess (acc : list string) (ts : tables) (r : string)
  : bool * list string :=
  match acc with
  | [] => (true, [])
  | _ =>
      let rl := lower r in
      let bad := List.filter (fun f => negb (String.eqb f "") && negb (str_mem f acc) &&
                                       response_mentions rl f)
                             (map ts_fileName (map snd ts)) in
      (match bad with [] => true | _ => false end, bad)
  end.

(** [accessibleTableNames] and [accessibleSchemas] of [getSystemInstruction]
    (lines 2819-2831). *)
Definition accessible_tables (acc : list string) (ts : tables) (sqlTables : list string)
  : list string :=
  List.filter (fun t => match obj_get t ts with
                        | None => false
                        | Some sc => match acc with [] => true | _ => str_mem (ts_fileName sc) acc end
                        end) sqlTables.

Definition accessible_schemas (acc : list string) (ts : tables) : tables :=
  List.filter (fun kv => match acc with [] => true | _ => str_mem (ts_fileName (snd kv)) acc end) ts.

(** ** Examples *)

Definition ex_table (f : string) (cols : list string) (n : nat) : table_schema :=
  {| ts_columns := cols; ts_rowCount := n; ts_fileName := f |}.

(** The tables of a session that loaded three files. *)
Definition ex_tables : tables :=
  [("data_crm_leads", ex_table "CRM leads.csv" ["Lead"; "City"] 1);
   ("data_revenue", ex_table "Revenue.csv" ["District"; "Revenue"] 2);
   ("data_patient_feedback", ex_table "Patient_Feedback.csv" ["Centre"; "Score"] 40)].

(** A user created without accessible files, beside the examples of [Store]. *)
Definition ex_newcomer : userDoc :=
  {| u_id := 2%N; u_email := "new@indira.com"; u_passwordHash := "h:new"; u_role := "user";
     u_accessibleFiles := Some []; u_createdAt := 2%Z; u_lastLogin := None;
     u_addedBy := Some "admin@indira.com"; u_updated := None; u_filesUpdated := None |}.

Definition ex_db_newcomer : db :=
  {| connected := true; collections := collections ex_db; csvFiles := csvFiles ex_db;
     gridfs := gridfs ex_db; users := users ex_db ++ [ex_newcomer]; next_oid := next_oid ex_db |}.

(** The state after the admin uploaded [Revenue.csv] and [CRM leads.csv]. *)
Definition ex_two_files : db :=
  ex_after "CRM leads.csv" ("Lead,City" ++ NL ++ "L1,Pune" ++ NL)
           (ex_after "Revenue.csv" ex_revenue_csv ex_db).

Definition schemas_or_nil (r : option (list schema)) : list schema :=
  match r with Some l => l | None => [] end.

(** ** Lemmas *)

Lemma set_add_In acc x f : In f (set_add acc x) -> In f acc \/ f = x.
Proof.
  unfold set_add. destruct (str_mem x acc); [tauto|]. rewrite in_app_iff. simpl. intuition.
Qed.

Lemma set_add_NoDup acc x : NoDup acc -> NoDup (set_add acc x).
Proof.
  unfold set_add. destruct (str_mem x acc) eqn:E; [tauto|]. intros Hnd.
  apply NoDup_app; [exact Hnd|constructor; [simpl; tauto|constructor]|].
  intros y Hy [<-|[]]. apply str_mem_In in Hy. congruence.
Qed.

Lemma known_files_go f l acc :
  In f (fold_left (fun acc sc => if String.eqb (ts_fileName sc) "" then acc
                                 else set_add acc (ts_fileName sc)) l acc) ->
  In f acc \/ exists sc, In sc l /\ ts_fileName sc = f /\ f <> "".
Proof.
  revert acc. induction l as [|sc l IH]; simpl; intros acc H; [tauto|].
  destruct (IH _ H) as [H'|[sc' [? ?]]]; [|eauto].
  revert H'. destruct (String.eqb (ts_fileName sc) "") eqn:E; [tauto|]. apply String.eqb_neq in E.
  intros H'. destruct (set_add_In _ _ _ H') as [H0| ->]; [tauto|]. right. exists sc. simpl. auto.
Qed.

(** Every file the client knows is the file of one of its schemas. *)
Lemma known_files_sound f ts :
  In f (known_files ts) -> exists sc, In sc (map snd ts) /\ ts_fileName sc = f /\ f <> "".
Proof. intros H. destruct (known_files_go _ _ _ H) as [[]|]. assumption. Qed.

Lemma known_files_NoDup ts : NoDup (known_files ts).
Proof.
  unfold known_files. generalize (@NoDup_nil string). generalize (@nil string).
  induction (map snd ts) as [|sc l IH]; simpl; intros acc Hacc; [exact Hacc|].
  apply IH. destruct (String.eqb (ts_fileName sc) ""); auto using set_add_NoDup.
Qed.

(** The schemas loaded from the server are the client's only ones after a
    reload. *)
Lemma add_schemas_values ts ss v :
  In v (map snd (add_schemas ts ss)) -> In v (map snd ts) \/ exists s, In s ss /\ v = of_schema s.
Proof.
  revert ts. induction ss as [|s ss IH]; simpl; intros ts H; [tauto|].
  destruct (IH _ H) as [H'|[s' [? ?]]]; [|eauto].
  destruct (obj_set_values _ _ _ _ H') as [->|]; eauto.
Qed.

Lemma known_files_go_complete sc l acc :
  In sc l -> ts_fileName sc <> "" ->
  In (ts_fileName sc) (fold_left (fun acc sc => if String.eqb (ts_fileName sc) "" then acc
                                               else set_add acc (ts_fileName sc)) l acc).
Proof.
  assert (Hkeep : forall l acc x, In x acc ->
            In x (fold_left (fun acc sc => if String.eqb (ts_fileName sc) "" then acc
                                           else set_add acc (ts_fileName sc)) l acc)).
  { induction l0 as [|y l0 IH]; simpl; intros acc0 x Hx; [exact Hx|]. apply IH.
    destruct (String.eqb (ts_fileName y) ""); [exact Hx|]. unfold set_add.
    destruct (str_mem (ts_fileName y) acc0); [exact Hx|]. apply in_or_app. now left. }
  revert acc. induction l as [|y l IH]; simpl; intros acc Hin Hne; [destruct Hin|].
  destruct Hin as [<-|Hin]; [|now apply IH]. apply Hkeep.
  apply String.eqb_neq in Hne. rewrite Hne. unfold set_add.
  destruct (str_mem (ts_fileName y) acc) eqn:E; [now apply str_mem_In|]. apply in_or_app. right. now left.
Qed.

(** Every non-empty file name of a schema of the client is known. *)
Lemma known_files_complete sc ts :
  In sc (map snd ts) -> ts_fileName sc <> "" -> In (ts_fileName sc) (known_files ts).
Proof. apply known_files_go_complete. Qed.

Lemma response_question_mentions rl f : response_mentions rl f = true -> question_mentions rl f = true.
Proof. unfold response_mentions, question_mentions. cbv zeta. rewrite !orb_true_iff. tauto. Qed.

Lemma filter_match_nil {A} (l : list A) :
  match l with [] => true | _ => false end = true <-> l = [].
Proof. destruct l; split; congruence. Qed.

(** The question, lower-cased, contains [x] lower-cased. *)
Lemma includes_lower q x : includes q x = true -> includes (lower q) (lower x) = true.
Proof. apply includes_map. Qed.

(** ** Properties of the checks *)

(** [C8] In the deployed flow the question check never refuses: the
    client's schemas come from [GET /api/data/schemas] and its accessible
    list from [GET /api/user/files] for the same user, and every file of the
    former is in the latter, so no file is both known and forbidden.  The
    specification's scenario B (a denial naming [Revenue.csv]) cannot
    happen; the model only never sees the forbidden schema. *)
Theorem question_check_never_fires email st ss fs q :
  schemas_handler email st = Some ss -> user_files_handler email st = Some fs ->
  validateQuestionAccess fs (add_schemas [] ss) q = (true, []).
Proof.
  intros Hss Hfs. pose proof (schemas_in_user_files _ _ _ _ Hss Hfs) as Hall.
  destruct fs as [|f0 fs]; [reflexivity|]. unfold validateQuestionAccess.
  rewrite filter_none; [reflexivity|]. intros f Hf.
  destruct (known_files_sound _ _ Hf) as (sc & Hsc & <- & _).
  destruct (add_schemas_values _ _ _ Hsc) as [[]|(s0 & Hs0 & ->)].
  rewrite Forall_forall in Hall. change (ts_fileName (of_schema s0)) with (sc_fileName s0).
  rewrite (Hall s0 Hs0). reflexivity.
Qed.

(** Specification scenario B when the forbidden file is among the
    client's schemas: a user with access to [CRM leads.csv] asking "what is
    our revenue in Thane" is refused, the violating file being
    [Revenue.csv]. *)
Theorem scenario_B_question_denied :
  validateQuestionAccess ["CRM leads.csv"] ex_tables "what is our revenue in Thane" =
  (false, ["Revenue.csv"]).
Proof. vm_compute. reflexivity. Qed.

(** Completeness of the question check (specification 6): a question
    that contains, in any letter case, a forbidden known file's name in its
    underscore, space or dash variant is refused with that file listed. *)
Theorem question_check_flags_variants acc ts q f x :
  acc <> [] -> In f (known_files ts) -> ~ In f acc -> includes q x = true ->
  In (lower x) [with_underscores (without_ext f); with_spaces (without_ext f);
                with_dashes (without_ext f)] ->
  In f (snd (validateQuestionAccess acc ts q)) /\ fst (validateQuestionAccess acc ts q) = false.
Proof.
  intros Hacc Hf Hna Hx Hv. apply includes_lower in Hx.
  assert (Hm : question_mentions (lower q) f = true).
  { unfold question_mentions. cbv zeta.
    destruct Hv as [-> | [-> | [-> | []]]]; rewrite Hx; now rewrite ?orb_true_r. }
  assert (Hin : In f (List.filter (fun f => negb (str_mem f acc) && question_mentions (lower q) f)
                                  (known_files ts))).
  { apply filter_In. split; [exact Hf|]. rewrite Hm, andb_true_r.
    apply negb_true_iff. destruct (str_mem f acc) eqn:E; [|reflexivity].
    apply str_mem_In in E. contradiction. }
  destruct acc as [|a acc]; [contradiction|]. simpl.
  destruct (List.filter _ _) eqn:E; [destruct Hin|]. split; [exact Hin|reflexivity].
Qed.

(** Soundness of the question check: the answer is "allowed" exactly
    when no file is listed, each listed file is listed once, is the file of
    a schema of the client, is outside a non-empty accessible list, and is
    mentioned by the question. *)
Theorem question_check_sound acc ts q :
  let r := validateQuestionAccess acc ts q in
  (fst r = true <-> snd r = []) /\ NoDup (snd r) /\
  forall f, In f (snd r) ->
    acc <> [] /\ ~ In f acc /\ question_mentions (lower q) f = true /\
    exists sc, In sc (map snd ts) /\ ts_fileName sc = f /\ f <> "".
Proof.
  cbv zeta. destruct acc as [|a acc].
  - simpl. split; [tauto|]. split; [constructor|]. tauto.
  - unfold validateQuestionAccess. cbn [fst snd]. split; [apply filter_match_nil|]. split; [apply NoDup_filter, known_files_NoDup|].
    intros f Hf. apply filter_In in Hf as [Hk Hp]. apply andb_prop in Hp as [Hn Hm].
    split; [discriminate|]. split; [|split; [exact Hm|exact (known_files_sound _ _ Hk)]].
    intros Hin. apply (proj2 (str_mem_In f (a :: acc))) in Hin. rewrite Hin in Hn. discriminate.
Qed.

(** The response check is never stricter than the question check:
    every file it reports for a text, the question check reports for the
    same text. *)
Theorem response_refines_question acc ts t f :
  In f (snd (validateResponseAccess acc ts t)) -> In f (snd (validateQuestionAccess acc ts t)).
Proof.
  destruct acc as [|a acc]; simpl; [tauto|].
  intros Hf. apply filter_In in Hf as [Hv Hp]. apply andb_prop in Hp as [Hp Hr].
  apply andb_prop in Hp as [He Hn]. apply filter_In. split.
  - apply in_map_iff in Hv as [sc [<- Hsc]].
    apply known_files_complete; [exact Hsc|]. apply negb_true_iff, String.eqb_neq in He. exact He.
  - rewrite Hn. simpl. now apply response_question_mentions.
Qed.

(** The response check is strictly weaker than the specification's
    "identical matching logic": it has no dash variant and no partial-word
    match, so an answer naming [patient-feedback] passes while the same
    text as a question is refused. *)
Theorem response_check_misses_dash :
  validateResponseAccess ["CRM leads.csv"] ex_tables "Patient-feedback scores rose" = (true, []) /\
  validateQuestionAccess ["CRM leads.csv"] ex_tables "Patient-feedback scores rose" =
  (false, ["Patient_Feedback.csv"]).
Proof. vm_compute. split; reflexivity. Qed.

(** A non-admin user with an empty accessible list receives [[]]
    from [GET /api/user/files], which the client reads as "admin": both
    checks pass on any text and every schema of the client goes into the
    prompt. *)
Theorem empty_access_unrestricted email st u :
  connected st = true -> find_user email st = Some u -> is_admin u = false -> accessible u = [] ->
  user_files_handler email st = Some [] /\
  forall ts q r, validateQuestionAccess [] ts q = (true, []) /\
                 validateResponseAccess [] ts r = (true, []) /\ accessible_schemas [] ts = ts.
Proof.
  intros Hc Hu Ha Hacc. unfold user_files_handler. rewrite Hc, Hu, Ha, Hacc.
  split; [reflexivity|]. intros ts q r. split; [reflexivity|]. split; [reflexivity|].
  apply forallb_filter_id, forallb_forall. reflexivity.
Qed.

(** With a non-empty accessible list, the schemas and table names put
    in the prompt are only those of accessible files. *)
Theorem prompt_schemas_accessible acc ts sqlTables :
  acc <> [] ->
  Forall (fun kv => In (ts_fileName (snd kv)) acc) (accessible_schemas acc ts) /\
  Forall (fun t => exists sc, obj_get t ts = Some sc /\ In (ts_fileName sc) acc)
         (accessible_tables acc ts sqlTables).
Proof.
  intros Hne. destruct acc as [|a acc]; [contradiction|]. split; apply Forall_forall.
  - intros kv Hkv. apply filter_In in Hkv as [_ H]. now apply str_mem_In.
  - intros t Ht. apply filter_In in Ht as [_ H].
    destruct (obj_get t ts) as [sc|]; [|discriminate]. exists sc. split; [reflexivity|].
    now apply str_mem_In.
Qed.

(** ** Witnesses *)

Lemma question_check_never_fires_witness :
  validateQuestionAccess ["CRM leads.csv"]
    (add_schemas [] (schemas_or_nil (schemas_handler "analyst@indira.com" ex_two_files)))
    "what is our revenue in Thane" = (true, []).
Proof.
  exact (question_check_never_fires "analyst@indira.com" ex_two_files _ ["CRM leads.csv"]
           "what is our revenue in Thane" ltac:(vm_compute; reflexivity) ltac:(vm_compute; reflexivity)).
Defined.

Lemma question_check_flags_variants_witness :
  In "Patient_Feedback.csv"
     (snd (validateQuestionAccess ["CRM leads.csv"] ex_tables "Is PATIENT-FEEDBACK improving?")) /\
  fst (validateQuestionAccess ["CRM leads.csv"] ex_tables "Is PATIENT-FEEDBACK improving?") = false.
Proof.
  exact (question_check_flags_variants ["CRM leads.csv"] ex_tables "Is PATIENT-FEEDBACK improving?"
           "Patient_Feedback.csv" "PATIENT-FEEDBACK" ltac:(discriminate)
           ltac:(vm_compute; right; right; left; reflexivity) ltac:(simpl; intuition discriminate)
           ltac:(vm_compute; reflexivity) ltac:(vm_compute; right; right; left; reflexivity)).
Defined.

Lemma response_refines_question_witness :
  In "Revenue.csv" (snd (validateQuestionAccess ["CRM leads.csv"] ex_tables "Revenue rose in Thane")).
Proof.
  exact (response_refines_question ["CRM leads.csv"] ex_tables "Revenue rose in Thane" "Revenue.csv"
           ltac:(vm_compute; left; reflexivity)).
Defined.

Lemma empty_access_unrestricted_witness :
  user_files_handler "new@indira.com" ex_db_newcomer = Some [] /\
  forall ts q r, validateQuestionAccess [] ts q = (true, []) /\
                 validateResponseAccess [] ts r = (true, []) /\ accessible_schemas [] ts = ts.
Proof.
  exact (empty_access_unrestricted "new@indira.com" ex_db_newcomer ex_newcomer eq_refl
           ltac:(vm_compute; reflexivity) eq_refl eq_refl).
Defined.

Lemma prompt_schemas_accessible_witness :
  Forall (fun kv => In (ts_fileName (snd kv)) ["CRM leads.csv"])
         (accessible_schemas ["CRM leads.csv"] ex_tables) /\
  Forall (fun t => exists sc, obj_get t ex_tables = Some sc /\ In (ts_fileName sc) ["CRM leads.csv"])
         (accessible_tables ["CRM leads.csv"] ex_tables ["data_crm_leads"; "data_revenue"]).
Proof.
  exact (prompt_schemas_accessible ["CRM leads.csv"] ex_tables ["data_crm_leads"; "data_revenue"]
           ltac:(discriminate)).
Defined.

End Access.
