(* ===== verification/Reply.v ===== *)
(** The text handling of the conversation loop ([src/frontend/index.tsx]):
    the search for the query block of a model reply (the regular expression
    of line 3508), [removeQueryFromResponse] (lines 3006-3012), the
    messages the loop writes, and the classification of the errors of the
    model API (lines 3426-3462 and 3627-3643).  Regular expressions are
    written out as scans over the string: a lazy [[\s\S]*?x] is the text up
    to the first [x], a global replacement scans left to right and resumes
    after each match, a case-insensitive one compares lower-cased text.
    The scan for the query block is proved equal to the regular expression
    itself ([MONGO_RE]) run by the matcher of [Regex]. *)

From Stdlib Require Import String Ascii List Bool Arith Lia ZArith QArith.
From S2P Require Import Prelude Regex JsValue Normalizer.
Import ListNotations.
Open Scope string_scope.
Open Scope nat_scope.

Module Reply.

Definition FENCE : string := "```".
Definition MONGO_OPEN : string := "```mongodb".
Definition JSON_OPEN : string := "```json".
Definition PIPELINE_KEY : string := DQ ++ "pipeline" ++ DQ.

(** [s] starts with [pat], letter case ignored (the [i] flag). *)
Definition starts_ci (pat s : string) : bool := prefix (lower pat) (lower s).

(** The text after the first occurrence of [pat]. *)
Fixpoint after_first (pat s : string) : option string :=
  if prefix pat s then Some (substring (String.length pat) (String.length s) s)
  else match s with EmptyString => None | String _ t => after_first pat t end.

Fixpoint after_first_ci (pat s : string) : option string :=
  if starts_ci pat s then Some (substring (String.length pat) (String.length s) s)
  else match s with EmptyString => None | String _ t => after_first_ci pat t end.

(** The text before the first occurrence of [pat]. *)
Fixpoint before_first (pat s : string) : option string :=
  if prefix pat s then Some EmptyString
  else match s with
       | EmptyString => None
       | String c t => option_map (String c) (before_first pat t)
       end.

(** [fullResponse.match(/```mongodb\s*([\s\S]*?)\s*```/)], up to the
    white space around the group, which the code trims away: the text
    between the first [```mongodb] and the next fence. *)
Fixpoint mongo_block (s : string) : option string :=
  match s with
  | EmptyString => None
  | String _ t =>
      if prefix MONGO_OPEN s then
        match before_first FENCE (substring (String.length MONGO_OPEN) (String.length s) s) with
        | Some b => Some b
        | None => mongo_block t
        end
      else mongo_block t
  end.

(** The pattern of line 3508, [/```mongodb\s*([\s\S]*?)\s*```/], for
    the regular-expression engine of [Regex.v]; theorem
    [mongo_block_regex] shows that [mongo_block] computes its group up to
    the [trim] the code applies to it (line 3523). *)
Definition MONGO_RE : Regex.re :=
  Regex.Seq (Regex.lit MONGO_OPEN)
    (Regex.Seq (Regex.Star true Regex.ws)
       (Regex.Seq (Regex.Group 1 (Regex.Star false Regex.any))
          (Regex.Seq (Regex.Star true Regex.ws) (Regex.lit FENCE)))).

(** One global replacement by [''] of a pattern that starts with [open]
    (case-insensitive) and ends at the place [close_after] finds.  The
    counter [skip] is the number of characters of the current match still
    to drop; the scan resumes after the match. *)
Fixpoint strip_go (open : string) (close_after : string -> option string) (skip : nat) (s : string)
  : string :=
  match s with
  | EmptyString => EmptyString
  | String c t =>
      match skip with
      | S k => strip_go open close_after k t
      | O =>
          if starts_ci open s then
            match close_after (substring (String.length open) (String.length s) s) with
            | Some rest => strip_go open close_after (String.length s - String.length rest - 1) t
            | None => String c (strip_go open close_after 0 t)
            end
          else String c (strip_go open close_after 0 t)
      end
  end.

(** [text.replace(/```mongodb[\s\S]*?```/gi, '')]. *)
Definition strip_mongo (s : string) : string := strip_go MONGO_OPEN (after_first FENCE) 0 s.

(** [text.replace(/```json[\s\S]*?"pipeline"[\s\S]*?```/gi, '')]. *)
Definition strip_json (s : string) : string :=
  strip_go JSON_OPEN (fun r => match after_first_ci PIPELINE_KEY r with
                               | Some r' => after_first FENCE r'
                               | None => None
                               end) 0 s.

Fixpoint newlines (n : nat) : string :=
  match n with O => EmptyString | S k => NL ++ newlines k end.

(** [text.replace(/\n{3,}/g, '\n\n')]: [run] counts the newlines just read. *)
Fixpoint collapse_nl_go (run : nat) (s : string) : string :=
  match s with
  | EmptyString => newlines (if Nat.leb 3 run then 2 else run)
  | String c t =>
      if Ascii.eqb c (ascii_of_nat 10) then collapse_nl_go (S run) t
      else newlines (if Nat.leb 3 run then 2 else run) ++ String c (collapse_nl_go 0 t)
  end.

Definition collapse_nl (s : string) : string := collapse_nl_go 0 s.

(** [removeQueryFromResponse] (lines 3006-3012). *)
Definition removeQueryFromResponse (text : string) : string :=
  if String.eqb text "" then text
  else trim (collapse_nl (strip_json (strip_mongo text))).

(** ** Messages *)

(** [f.replace('.csv', '').replace(/_/g, ' ')]. *)
Definition display_name (f : string) : string :=
  replace_chars (fun c => Ascii.eqb c "_") " " (replace_first ".csv" "" f).

(** [list.join(', ')]. *)
Fixpoint join (sep : string) (l : list string) : string :=
  match l with
  | [] => EmptyString
  | [x] => x
  | x :: l' => x ++ sep ++ join sep l'
  end.

(** The current-access sentence of the denial messages. *)
Definition access_list (acc : list string) : string :=
  match acc with
  | [] => "All data sources (Admin access)"
  | _ => join ", " (map display_name acc)
  end.

(** The denial of a reply (line 3497). *)
Definition denied_message (refs acc : list string) : string :=
  "⚠️ **Access Restricted**" ++ NL ++ NL ++
  "I apologize, but my response referenced data sources you don't have access to: **" ++
  join ", " (map display_name refs) ++ "**" ++ NL ++ NL ++
  "Please contact your administrator if you need access to additional data sources." ++ NL ++ NL ++
  "You currently have access to: " ++ access_list acc.

(** The denial of the second check (line 3605). *)
Definition denied_message_final (refs acc : list string) : string :=
  "⚠️ **Access Restricted**" ++ NL ++ NL ++
  "I apologize, but my response referenced data sources you don't have access to: **" ++
  join ", " (map display_name refs) ++ "**" ++ NL ++ NL ++
  "You currently have access to: " ++ access_list acc.

(** [friendlyMessage] (lines 3513-3517). *)
Definition friendly_message (full : string) : string :=
  let textWithoutQuery := removeQueryFromResponse full in
  if negb (String.eqb textWithoutQuery "") && Nat.ltb 10 (String.length textWithoutQuery)
  then textWithoutQuery ++ NL ++ NL ++ "_🔍 Querying SQL Table for accurate data..._"
  else "_🔍 Consulting the data engine..._".

Definition INVALID_QUERY : string :=
  "Invalid MongoDB query format: needs 'collection' and 'pipeline' fields".

(** The prompts after a failed query (lines 3590 and 3598). *)
Definition repair_prompt (errMsg : string) (sqlTables : list string) : string :=
  let availableCollections := join ", " sqlTables in
  "The MongoDB query failed with error: " ++ DQ ++ errMsg ++ DQ ++ ". Available collections are: " ++
  (if String.eqb availableCollections "" then "None" else availableCollections) ++
  ". Please generate a corrected ```mongodb query or answer without querying.".

Definition fallback_prompt (errMsg : string) : string :=
  "The MongoDB query failed with error: " ++ DQ ++ errMsg ++ DQ ++
  ". Please answer based on general knowledge and context. Do NOT generate a MongoDB query again.".

(** ** Specification predicates *)

(** No backquote in [s]: a text that can neither open nor close a fence. *)
Definition no_tick (s : string) : bool := none_of (fun c => Ascii.eqb c "`") s.

(** Where the lazy group of [MONGO_RE] stops: before the white space
    that precedes the first fence. *)
Fixpoint fence_first (s : string) : option string :=
  if prefix FENCE (trim_start s) then Some EmptyString
  else match s with EmptyString => None | String a t => option_map (String a) (fence_first t) end.

(** ** Lemmas *)

Lemma lower_char_tick c : Ascii.eqb (lower_char c) "`" = Ascii.eqb c "`".
Proof. revert c. ascii_enum. Qed.

Lemma prefix_tick o c t : Ascii.eqb c "`" = false -> prefix (String "`" o) (String c t) = false.
Proof.
  intros Hc. change (prefix (String "`" o) (String c t))
    with (if ascii_dec "`" c then prefix o t else false).
  destruct (ascii_dec "`" c) as [<-|]; [discriminate|reflexivity].
Qed.

Lemma starts_ci_tick o c t : Ascii.eqb c "`" = false -> starts_ci (String "`" o) (String c t) = false.
Proof.
  intros Hc. unfold starts_ci, lower. cbn [map_chars]. rewrite <- lower_char_tick in Hc.
  replace (lower_char "`") with "`"%char by reflexivity. now apply prefix_tick.
Qed.

Lemma starts_ci_app p r : starts_ci p (p ++ r) = true.
Proof. unfold starts_ci, lower. rewrite map_chars_app. apply prefix_app. Qed.

Lemma no_tick_cons c t : no_tick (String c t) = true -> Ascii.eqb c "`" = false /\ no_tick t = true.
Proof. unfold no_tick, none_of. simpl. intros H. js_bool. now destruct (Ascii.eqb c "`"). Qed.

Lemma after_first_unfold pat s :
  after_first pat s =
  if prefix pat s then Some (substring (String.length pat) (String.length s) s)
  else match s with EmptyString => None | String _ t => after_first pat t end.
Proof. destruct s; reflexivity. Qed.

Lemma before_first_unfold pat s :
  before_first pat s =
  if prefix pat s then Some EmptyString
  else match s with EmptyString => None | String c t => option_map (String c) (before_first pat t) end.
Proof. destruct s; reflexivity. Qed.

Lemma after_first_fence q b : no_tick q = true -> after_first FENCE (q ++ FENCE ++ b) = Some b.
Proof.
  induction q as [|c q IH]; intros Hq.
  - change (EmptyString ++ ?x) with x. rewrite after_first_unfold, prefix_app, substring_after. reflexivity.
  - apply no_tick_cons in Hq as [Hc Hq]. change (String c q ++ ?x) with (String c (q ++ x)).
    rewrite after_first_unfold. unfold FENCE at 1. rewrite prefix_tick by exact Hc.
    exact (IH Hq).
Qed.

Lemma before_first_fence q b : no_tick q = true -> before_first FENCE (q ++ FENCE ++ b) = Some q.
Proof.
  induction q as [|c q IH]; intros Hq.
  - change (EmptyString ++ ?x) with x. rewrite before_first_unfold. now rewrite prefix_app.
  - apply no_tick_cons in Hq as [Hc Hq]. change (String c q ++ ?x) with (String c (q ++ x)).
    rewrite before_first_unfold. unfold FENCE at 1. rewrite prefix_tick by exact Hc.
    rewrite (IH Hq). reflexivity.
Qed.

Lemma mongo_block_skip a r : no_tick a = true -> mongo_block (a ++ r) = mongo_block r.
Proof.
  induction a as [|c a IH]; intros Ha; [reflexivity|].
  apply no_tick_cons in Ha as [Hc Ha]. change (String c a ++ r) with (String c (a ++ r)). unfold mongo_block; fold mongo_block.
  unfold MONGO_OPEN at 1. rewrite prefix_tick by exact Hc. exact (IH Ha).
Qed.

Section Strip.
Variable open : string.
Variable close_after : string -> option string.
Hypothesis open_tick : head_is (fun c => Ascii.eqb c "`") open = true.

Lemma strip_go_skip x r : strip_go open close_after (String.length x) (x ++ r) = strip_go open close_after 0 r.
Proof. induction x as [|c x IH]; [reflexivity|exact IH]. Qed.

Lemma strip_go_no_tick a r :
  no_tick a = true -> strip_go open close_after 0 (a ++ r) = a ++ strip_go open close_after 0 r.
Proof.
  destruct open as [|o0 o]; [discriminate|]. simpl in open_tick.
  apply Ascii.eqb_eq in open_tick. subst o0.
  induction a as [|c a IH]; intros Ha; [reflexivity|].
  apply no_tick_cons in Ha as [Hc Ha]. change (String c a ++ r) with (String c (a ++ r)). cbn [strip_go].
  rewrite starts_ci_tick by exact Hc. rewrite (IH Ha). reflexivity.
Qed.

End Strip.

(** *** The query-block pattern *)

Lemma ws_not_tick c : is_ws c = true -> Ascii.eqb c "`" = false.
Proof. revert c. ascii_enum. Qed.

Lemma ws_no_tick w : all_chars is_ws w = true -> no_tick w = true.
Proof.
  unfold no_tick, none_of. induction w as [|c w IH]; [reflexivity|]. cbn. intros H. js_bool.
  rewrite (ws_not_tick c H). now apply IH.
Qed.

Lemma before_first_skip w u :
  no_tick w = true -> before_first FENCE (w ++ u) = option_map (append w) (before_first FENCE u).
Proof.
  induction w as [|c w IH]; intros Hw; [cbn [append]; now destruct (before_first FENCE u)|].
  apply no_tick_cons in Hw as [Hc Hw]. change (String c w ++ u) with (String c (w ++ u)).
  rewrite before_first_unfold. unfold FENCE at 1. rewrite prefix_tick by exact Hc. fold FENCE.
  rewrite (IH Hw). now destruct (before_first FENCE u).
Qed.

Lemma before_first_some s b : before_first FENCE s = Some b -> exists r, s = b ++ FENCE ++ r.
Proof.
  revert b. induction s as [|a t IH]; intros b; rewrite before_first_unfold.
  - cbn. discriminate.
  - destruct (prefix FENCE (String a t)) eqn:Ep.
    + intros [= <-]. destruct (prefix_split _ _ Ep) as [r ->]. now exists r.
    + destruct (before_first FENCE t) as [b'|] eqn:E; [|discriminate]. intros [= <-].
      destruct (IH _ eq_refl) as [r ->]. now exists r.
Qed.

(** The group of [MONGO_RE] is the text before the first fence with its
    trailing white space removed. *)
Lemma fence_first_before s : fence_first s = option_map trim_end (before_first FENCE s).
Proof.
  induction s as [|a t IH]; [reflexivity|]. cbn [fence_first].
  destruct (prefix FENCE (trim_start (String a t))) eqn:Ep.
  - destruct (trim_start_split_ws (String a t)) as (w & Hw & Hs). destruct (prefix_split _ _ Ep) as [r Hr].
    rewrite Hr in Hs. rewrite Hs, before_first_fence by (now apply ws_no_tick).
    cbn. now rewrite trim_end_all_ws.
  - assert (Ea : prefix FENCE (String a t) = false).
    { destruct (prefix FENCE (String a t)) eqn:E; [|reflexivity]. rewrite <- Ep.
      destruct (prefix_split _ _ E) as [r Hr]. unfold FENCE in Hr. cbn in Hr. injection Hr as -> _.
      now rewrite trim_start_no_head. }
    rewrite before_first_unfold, Ea, IH. destruct (before_first FENCE t) as [b|] eqn:Eb; [|reflexivity]. cbn [option_map].
    rewrite trim_end_cons. destruct (is_ws a && all_chars is_ws b) eqn:Ew; [|reflexivity].
    exfalso. js_bool. destruct (before_first_some _ _ Eb) as [r ->].
    cbn [trim_start] in Ep. rewrite H, trim_start_app_ws in Ep by exact H0.
    rewrite trim_start_no_head in Ep by reflexivity. now rewrite prefix_app in Ep.
Qed.

Lemma substring_prefix x y : substring 0 (String.length (x ++ y) - String.length y) (x ++ y) = x.
Proof.
  rewrite str_length_append, Nat.add_sub. induction x as [|a x IH]; [now destruct y|]. cbn. now rewrite IH.
Qed.

Lemma fence_caps p s c :
  Regex.caps_of (Regex.m (Regex.Seq (Regex.Star true Regex.ws) (Regex.lit FENCE)) Regex.accept p s c) =
  if prefix FENCE (trim_start s) then Some c else None.
Proof.
  rewrite Regex.m_seq. unfold Regex.ws. rewrite Regex.m_star_greedy. revert p.
  induction s as [|a t IH]; intros p; cbn [Regex.gscan trim_start]; rewrite ?Regex.m_lit, ?Regex.strip_prefix_prefix.
  - reflexivity.
  - destruct (is_ws a) eqn:Ea.
    + rewrite Regex.caps_orelse, IH. destruct (prefix FENCE (trim_start t)); [reflexivity|].
      unfold FENCE at 1. rewrite prefix_tick by (now apply ws_not_tick). reflexivity.
    + now destruct (prefix FENCE (String a t)).
Qed.

Lemma group_caps x y p c :
  Regex.caps_of (Regex.lscan (fun p' s' c' =>
      Regex.m (Regex.Seq (Regex.Star true Regex.ws) (Regex.lit FENCE)) Regex.accept p' s'
        ((1, substring 0 (String.length (x ++ y) - String.length s') (x ++ y)) :: c')) p y c) =
  option_map (fun g => (1, x ++ g) :: c) (fence_first y).
Proof.
  revert x p. induction y as [|a t IH]; intros x p; cbn [Regex.lscan fence_first];
    rewrite Regex.caps_orelse, fence_caps, substring_prefix.
  - reflexivity.
  - destruct (prefix FENCE (trim_start (String a t))); [cbn [option_map]; now rewrite append_nil_r|].
    specialize (IH (x ++ String a EmptyString) (S p)). rewrite <- append_assoc in IH. cbn [append] in IH.
    rewrite IH. destruct (fence_first t); [|reflexivity]. cbn. now rewrite <- append_assoc.
Qed.

Lemma lead_caps r p c :
  Regex.caps_of (Regex.m (Regex.Seq (Regex.Star true Regex.ws)
                   (Regex.Seq (Regex.Group 1 (Regex.Star false Regex.any))
                      (Regex.Seq (Regex.Star true Regex.ws) (Regex.lit FENCE)))) Regex.accept p r c) =
  option_map (fun g => (1, g) :: c) (fence_first (trim_start r)).
Proof.
  assert (K : forall p s, Regex.caps_of (Regex.m (Regex.Seq (Regex.Group 1 (Regex.Star false Regex.any))
                   (Regex.Seq (Regex.Star true Regex.ws) (Regex.lit FENCE))) Regex.accept p s c) =
                 option_map (fun g => (1, g) :: c) (fence_first s)).
  { intros p' s. rewrite Regex.m_seq, Regex.m_group, Regex.m_star_any_lazy. exact (group_caps EmptyString s p' c). }
  rewrite Regex.m_seq. unfold Regex.ws at 1. rewrite Regex.m_star_greedy. revert p.
  induction r as [|a t IH]; intros p; cbn [Regex.gscan trim_start]; [apply K|].
  destruct (is_ws a) eqn:Ea; [|apply K].
  rewrite Regex.caps_orelse, IH. destruct (fence_first (trim_start t)) eqn:E; [reflexivity|].
  rewrite K. rewrite fence_first_before in *.
  destruct (trim_start_split_ws t) as (w & Hw & Ht).
  destruct (before_first FENCE (trim_start t)) eqn:Eb; [discriminate|].
  rewrite Ht. change (String a (w ++ trim_start t)) with (String a w ++ trim_start t).
  rewrite before_first_skip, Eb; [reflexivity|]. apply ws_no_tick. cbn. now rewrite Ea, Hw.
Qed.

Lemma mongo_search p s :
  match Regex.search_go MONGO_RE p s with Some (_, _, c) => Regex.group 1 c | None => None end =
  option_map trim (mongo_block s).
Proof.
  revert p. induction s as [|a t IH]; intros p.
  { reflexivity. }
  cbn [Regex.search_go]. unfold MONGO_RE at 1. rewrite Regex.m_seq, Regex.m_lit, Regex.strip_prefix_prefix.
  unfold mongo_block; fold mongo_block. destruct (prefix MONGO_OPEN (String a t)); [|apply IH].
  set (r := substring (String.length MONGO_OPEN) (String.length (String a t)) (String a t)).
  pose proof (lead_caps r (p + String.length MONGO_OPEN) []) as L.
  destruct (trim_start_split_ws r) as (w & Hw & Hr).
  assert (Eb : before_first FENCE r = option_map (append w) (before_first FENCE (trim_start r))).
  { rewrite Hr at 1. apply before_first_skip, ws_no_tick, Hw. }
  rewrite fence_first_before in L. rewrite Eb.
  destruct (before_first FENCE (trim_start r)) as [b|] eqn:Ef; cbn [option_map] in L |- *.
  - destruct (Regex.m _ _ _ _ _) as [[e c]|]; [|discriminate]. cbn in L. injection L as Hc. subst c. cbn.
    unfold trim. rewrite trim_start_app_ws by exact Hw. rewrite trim_start_no_head; [reflexivity|].
    destruct (before_first_some _ _ Ef) as [r' Hr']. pose proof (trim_start_head r) as Hh.
    rewrite Hr' in Hh. destruct b; [reflexivity|exact Hh].
  - destruct (Regex.m _ _ _ _ _) as [[e c]|]; [discriminate|]. apply IH.
Qed.

(** ** Properties *)

(** [C19] Equivalence with the regular expression: [mongo_block], the
    scan the model uses, gives exactly the trimmed group 1 of the match of
    [/```mongodb\s*([\s\S]*?)\s*```/] (line 3508) that the code parses
    (line 3523), on every reply, and fails exactly when the match fails. *)
Theorem mongo_block_regex s : Regex.match_group MONGO_RE 1 s = option_map trim (mongo_block s).
Proof. apply mongo_search. Qed.


(** Extraction of the query block: in a reply whose text before the
    block and whose query hold no backquote, the match of line 3508 is the
    query. *)
Theorem mongo_block_extract a q b :
  no_tick a = true -> no_tick q = true ->
  mongo_block (a ++ MONGO_OPEN ++ q ++ FENCE ++ b) = Some q.
Proof.
  intros Ha Hq. rewrite mongo_block_skip by exact Ha.
  assert (Hs : MONGO_OPEN ++ q ++ FENCE ++ b = String "`" ("``mongodb" ++ q ++ FENCE ++ b))
    by reflexivity.
  rewrite Hs. unfold mongo_block; fold mongo_block. rewrite <- Hs, prefix_app, substring_after.
  rewrite before_first_fence by exact Hq. reflexivity.
Qed.

(** [removeQueryFromResponse]'s first replacement removes a
    terminated query block, fences included, and goes on after it. *)
Theorem strip_mongo_block a q b :
  no_tick a = true -> no_tick q = true ->
  strip_mongo (a ++ MONGO_OPEN ++ q ++ FENCE ++ b) = a ++ strip_mongo b.
Proof.
  intros Ha Hq. unfold strip_mongo. rewrite strip_go_no_tick by (reflexivity || exact Ha). f_equal.
  set (x := "``mongodb" ++ q ++ FENCE).
  assert (Hs : MONGO_OPEN ++ q ++ FENCE ++ b = String "`" (x ++ b))
    by (subst x; rewrite <- !append_assoc; reflexivity).
  rewrite Hs. cbn [strip_go]. rewrite <- Hs, starts_ci_app, substring_after.
  rewrite after_first_fence by exact Hq. rewrite Hs.
  replace (String.length (String "`" (x ++ b)) - String.length b - 1) with (String.length x)
    by (cbn [String.length]; rewrite str_length_append; lia).
  apply strip_go_skip.
Qed.

(** A query block the model did not close is not a match of line
    3508 and is not removed by [removeQueryFromResponse]: the reply is shown
    to the user with its raw query. *)
Theorem unterminated_query_shown :
  let q := "{" ++ DQ ++ "collection" ++ DQ ++ ": " ++ DQ ++ "data_revenue" ++ DQ ++ "}" in
  let t := "Total revenue:" ++ NL ++ MONGO_OPEN ++ NL ++ q in
  mongo_block t = None /\ removeQueryFromResponse t = t.
Proof. vm_compute. split; reflexivity. Qed.

(** ** Witnesses *)

Lemma mongo_block_extract_witness :
  mongo_block ("Checking. " ++ MONGO_OPEN ++ " {q} " ++ FENCE ++ " done") = Some " {q} ".
Proof. exact (mongo_block_extract "Checking. " " {q} " " done" eq_refl eq_refl). Defined.

Lemma strip_mongo_block_witness :
  strip_mongo ("Checking. " ++ MONGO_OPEN ++ " {q} " ++ FENCE ++ " done") = "Checking. " ++ strip_mongo " done".
Proof. exact (strip_mongo_block "Checking. " " {q} " " done" eq_refl eq_refl). Defined.

End Reply.
