(* ===== verification/Conversation.v ===== *)
(** The conversation loop of the front end ([src/frontend/index.tsx]):
    [runGeneration] (lines 3410-3489), [processResponseWithMongo]
    (lines 3491-3651), [executeMongoQuery] and [findFileNameFromPipeline]
    (lines 3015-3066).  The chat model is a function of the chat session
    (its history, system instruction and the prompts sent so far), so every
    behaviour of the model is one value of [model]; the query service is a
    function of the request body, which [Session] instantiates with the
    server's [POST /api/data/query].  The state is the message list of the
    UI, the typing flag, the retry counter, the chat session and a trace of
    what the user saw, in order. *)

From Stdlib Require Import String Ascii List Bool Arith Lia ZArith QArith Qround.
From S2P Require Import Prelude JsValue Normalizer Access Reply.
Import ListNotations.
Open Scope string_scope.
Open Scope nat_scope.
Local Set Warnings "-abstract-large-number".


Module Conversation.
Import Normalizer Access Reply.

(** The JavaScript runtime functions the loop calls on values. *)
Class JsRuntime := {
  json_parse : string -> jv + string;  (** [JSON.parse], or the message of its [SyntaxError] *)
  json_stringify : jv -> string;       (** [JSON.stringify(v, replacer, 2)] *)
  locale_en_IN : Q -> string;          (** [n.toLocaleString('en-IN')] *)
  to_fixed2 : Q -> string;             (** [n.toFixed(2)] *)
  to_locale_string : Q -> string       (** [n.toLocaleString()] in the browser's locale *)
}.

(** An error raised by the model API: the fields the handler reads. *)
Record api_error := {
  er_message : string;   (** [err.message] *)
  er_cause : string;     (** [err.cause.message] *)
  er_json : string;      (** [JSON.stringify(err)] *)
  er_stack : string;     (** [err.stack] *)
  er_string : string;    (** [err.toString()] *)
  er_name : string       (** [err.name] *)
}.

(** One call of [sendMessageStream]: the chunks of the stream, or an error. *)
Inductive outcome :=
| Reply (chunks : list string)
| Fail (e : api_error).

Inductive role := RUser | RModel | RError.
Inductive msg_type := TText | TSimulation.

Record message := { m_role : role; m_text : string; m_type : msg_type }.

Record attachment := {
  at_name : string;
  at_content : string;
  at_isCsv : bool;
  at_isLarge : bool;
  at_collectionName : option string;
  at_headers : option (list string);
  at_rowCount : nat
}.

(** [chatSessionRef.current]. *)
Record session := {
  s_history : list message;
  s_system : string;
  s_sent : list string
}.

(** What the user sees, in order. *)
Inductive event :=
| EPrompt (p : string)             (** a message sent to the model *)
| EShow (i : nat) (m : message)    (** [messages[i]] becomes [m] on screen *)
| EWait (ms : nat)                 (** [await wait(ms)] *)
| EQuery (body : obj).             (** a [POST /api/data/query] *)

Record cstate := {
  msgs : list message;
  typing : bool;
  retryCount : nat;
  sess : session;
  trace : list event
}.

Definition maxRetries : nat := 5.

(** ** State updates *)

(** [updated[i] = m]; [i] is always the index of the turn's placeholder. *)
Fixpoint set_nth {A} (i : nat) (x : A) (l : list A) : list A :=
  match l, i with
  | [], _ => []
  | _ :: l', O => x :: l'
  | y :: l', S i' => y :: set_nth i' x l'
  end.

Definition show (i : nat) (m : message) (st : cstate) : cstate :=
  {| msgs := set_nth i m (msgs st); typing := typing st; retryCount := retryCount st;
     sess := sess st; trace := trace st ++ [EShow i m] |}.

(** [updated[i].text = t]. *)
Definition show_text (i : nat) (t : string) (st : cstate) : cstate :=
  let m := match nth_error (msgs st) i with
           | Some m => {| m_role := m_role m; m_text := t; m_type := m_type m |}
           | None => {| m_role := RModel; m_text := t; m_type := TText |}
           end in
  show i m st.

Definition set_typing (b : bool) (st : cstate) : cstate :=
  {| msgs := msgs st; typing := b; retryCount := retryCount st; sess := sess st; trace := trace st |}.

Definition set_retry (n : nat) (st : cstate) : cstate :=
  {| msgs := msgs st; typing := typing st; retryCount := n; sess := sess st; trace := trace st |}.

Definition log (e : event) (st : cstate) : cstate :=
  {| msgs := msgs st; typing := typing st; retryCount := retryCount st; sess := sess st;
     trace := trace st ++ [e] |}.

(** [chatSessionRef.current.sendMessageStream({ message: prompt })]. *)
Definition send (prompt : string) (st : cstate) : cstate :=
  let s := sess st in
  {| msgs := msgs st; typing := typing st; retryCount := retryCount st;
     sess := {| s_history := s_history s; s_system := s_system s; s_sent := s_sent s ++ [prompt] |};
     trace := trace st ++ [EPrompt prompt] |}.

(** ** Errors of the model API (lines 3426-3462) *)

Definition err_msg (e : api_error) : string :=
  if negb (String.eqb (er_message e) "") then er_message e
  else if negb (String.eqb (er_cause e) "") then er_cause e
  else er_json e.

Definition full_error_string (e : api_error) : string :=
  lower (er_stack e ++ " " ++ er_string e ++ " " ++ err_msg e).

Definition isQuotaError (e : api_error) : bool :=
  let s := full_error_string e in
  includes s "429" || includes s "503" || includes s "resource_exhausted" || includes s "quota".

Definition isCertError (e : api_error) : bool :=
  let s := full_error_string e in
  let m := err_msg e in
  includes (er_stack e) "ERR_CERT" || includes (er_string e) "ERR_CERT" || includes m "ERR_CERT" ||
  includes s "cert_authority_invalid" || includes s "certificate" || includes s "ssl" ||
  includes s "err_cert" || includes s "certificate validation" || includes s "failed to fetch" ||
  includes s "network error" || includes s "typeerror" ||
  (includes s "fetch" && includes s "typeerror") ||
  (String.eqb (er_name e) "TypeError" && includes m "fetch") ||
  (String.eqb (er_name e) "TypeError" && includes (er_stack e) "ERR_CERT").

Definition SSL_MESSAGE : string :=
  "🔒 **SSL Certificate Error**" ++ NL ++ NL ++
  "**Problem:** The browser cannot verify Google's SSL certificate. This is typically caused by:" ++ NL ++ NL ++
  "1. **Corporate Firewall/Proxy** - Your network may be intercepting SSL connections" ++ NL ++
  "2. **System Certificates** - Outdated or missing root certificates" ++ NL ++
  "3. **Network Configuration** - VPN or security software interfering" ++ NL ++ NL ++
  "**Solutions to Try:**" ++ NL ++ NL ++
  "✅ **Quick Fixes:**" ++ NL ++
  "- Try a different network (mobile hotspot, home WiFi)" ++ NL ++
  "- Disable VPN if active" ++ NL ++
  "- Check if your corporate firewall allows generativelanguage.googleapis.com" ++ NL ++ NL ++
  "✅ **System Fixes:**" ++ NL ++
  "- Update Windows certificates: Run Windows Update" ++ NL ++
  "- Check system date/time is correct" ++ NL ++
  "- Try a different browser" ++ NL ++ NL ++
  "✅ **For IT Administrators:**" ++ NL ++
  "- Whitelist *.googleapis.com in firewall" ++ NL ++
  "- Install proper root certificates" ++ NL ++
  "- Configure proxy to allow Google AI API" ++ NL ++ NL ++
  "**Note:** This is a network/infrastructure issue, not a code problem. The API key appears to be set correctly.".

(** The placeholder of a quota retry (line 3472). *)
Definition capacity_message (waitTime attempt : nat) : string :=
  "_System at capacity. Retrying in " ++ nat_to_string (waitTime / 1000) ++ "s (Attempt " ++
  nat_to_string (attempt + 1) ++ "/" ++ nat_to_string maxRetries ++ ")..._".

(** ** Errors that end the turn (lines 3627-3643) *)

(** [rawErrString.match(/retry in ([\d\.]+)s/)]: the run of digits and
    dots after the first [retry in ] that a [s] follows. *)
Definition is_digit_or_dot (c : ascii) : bool := is_digit c || is_char "." c.

Fixpoint retry_in (s : string) : option string :=
  match s with
  | EmptyString => None
  | String _ t =>
      if prefix "retry in " s then
        let rest := substring 9 (String.length s) s in
        let run := take_while is_digit_or_dot rest in
        if negb (String.eqb run "") && head_is (is_char "s") (drop_while is_digit_or_dot rest)
        then Some run else retry_in t
      else retry_in t
  end.

(** [Math.ceil(parseFloat(run))] printed, [NaN] when no digit. *)
Definition ceil_string (run : string) : string :=
  match Normalizer.parse_float run with
  | Some q => nat_to_string (Z.to_nat (Qceiling q))
  | None => "NaN"
  end.

Definition outer_error_message (e : api_error) : string :=
  let raw := er_message e in
  if includes raw "429" || includes raw "RESOURCE_EXHAUSTED" then
    let seconds := match retry_in raw with Some run => ceil_string run | None => "5" end in
    "⚠️ **Quota Exceeded**: Please wait " ++ seconds ++ " seconds or clear context before trying again."
  else if negb (String.eqb (er_message e) "") then "Error: " ++ er_message e
  else "Error: " ++ substring 0 300 raw.

(** ** Queries (lines 3015-3066) *)

Definition truthy_name (o : option string) : bool :=
  match o with Some c => negb (String.eqb c "") | None => false end.

(** [findFileNameFromPipeline]: the pipeline is not looked at; the first
    attachment with a collection name, else the first CSV attachment. *)
Definition findFileNameFromPipeline (atts : list attachment) (pipeline : jv) : option string :=
  match find (fun a => truthy_name (at_collectionName a)) atts with
  | Some a => Some (at_name a)
  | None => match find at_isCsv atts with Some a => Some (at_name a) | None => None end
  end.

(** The body [JSON.stringify]ed by [executeMongoQuery]; [undefined]
    fields are left out. *)
Definition query_body (atts : list attachment) (pipeline : jv) (fileName : option string) (coll : jv)
  : obj :=
  let targetFile := match fileName with
                    | Some f => if String.eqb f "" then findFileNameFromPipeline atts pipeline else Some f
                    | None => findFileNameFromPipeline atts pipeline
                    end in
  ([("pipeline", pipeline)] ++
   (match targetFile with Some f => if String.eqb f "" then [] else [("fileName", JStr f)] | None => [] end) ++
   (if truthy coll then [("collectionName", coll)] else []))%list.

(** [f.collectionName === collectionName]. *)
Definition same_collection (a : attachment) (coll : jv) : bool :=
  match at_collectionName a, coll with
  | Some c, JStr c' => String.eqb c c'
  | _, _ => false
  end.

(** [Object.entries(v)]. *)
Definition entries (v : jv) : list (string * jv) :=
  match v with
  | JObj o => o
  | JArr l => combine (map nat_to_string (seq 0 (length l))) l
  | _ => []
  end.

(** The first positive number of the first row, [_id] skipped (lines 3539-3553). *)
Fixpoint first_positive (kvs : list (string * jv)) : option (string * Q) :=
  match kvs with
  | [] => None
  | (k, v) :: r =>
      if String.eqb k "_id" then first_positive r
      else match v with
           | JNum q => if negb (Qle_bool q 0) then Some (k, q) else first_positive r
           | _ => first_positive r
           end
  end.

Definition exact_value (result : list jv) : option (string * Q) :=
  match result with
  | r0 :: _ => if truthy r0 && typeof_object r0 then first_positive (entries r0) else None
  | [] => None
  end.

(** The prompts sent and the waits, in order, of a trace. *)
Definition prompts_of (tr : list event) : list string :=
  flat_map (fun e => match e with EPrompt p => [p] | _ => [] end) tr.

Definition waits_of (tr : list event) : list nat :=
  flat_map (fun e => match e with EWait ms => [ms] | _ => [] end) tr.

Section Loop.
Context `{RT : JsRuntime}.

(** [nextPrompt] (lines 3555-3564). *)
Definition next_prompt (result : list jv) : string :=
  let resultStr := json_stringify (JArr result) in
  let truncatedResult := if Nat.ltb 50000 (String.length resultStr)
                         then substring 0 50000 resultStr ++ "...[Truncated]" else resultStr in
  let base := "MongoDB Query Result:" ++ NL ++ truncatedResult ++ NL ++ NL ++
              "Please interpret this data and answer the original user question." in
  match exact_value result with
  | Some (k, v) =>
      if String.eqb k "" then base
      else base ++ NL ++ NL ++ "🚨 **USE THIS EXACT NUMBER: " ++ locale_en_IN v ++ " (₹" ++
           to_fixed2 (v / inject_Z 10000000) ++ " Crore)** 🚨" ++ NL ++
           "DO NOT use any other number. The query result shows " ++ k ++ ": " ++ locale_en_IN v ++ NL
  | None => base
  end.

Variable model : session -> outcome.           (** the model's reply to the session's last prompt *)
Variable exec : obj -> list jv + string.       (** [POST /api/data/query]: [data] or [error] *)
Variable userAccessibleFiles : list string.
Variable tableSchemas : tables.
Variable chatAttachments : list attachment.    (** as captured by [handleSend] *)
Variable sqlTables : list string.
Variable isSimulation : bool.
Variable messageIndex : nat.

(** The stream of lines 3413-3424: each non-empty chunk is appended and the
    text so far shown. *)
Fixpoint stream (streamed : string) (chunks : list string) (st : cstate) : string * cstate :=
  match chunks with
  | [] => (streamed, st)
  | c :: cs =>
      if String.eqb c "" then stream streamed cs st
      else let t := streamed ++ c in
           stream t cs (show messageIndex {| m_role := RModel; m_text := t; m_type := TText |} st)
  end.

Inductive gen_result := GenText (t : string) | GenThrow (e : api_error).

(** [runGeneration(prompt, currentAttempt)] with [left = maxRetries -
    currentAttempt] retries left: [currentAttempt < maxRetries] is [left > 0]. *)
Fixpoint runGeneration (left : nat) (prompt : string) (st : cstate) : gen_result * cstate :=
  let st1 := send prompt st in
  match model (sess st1) with
  | Reply chunks => let (t, st2) := stream "" chunks st1 in (GenText t, st2)
  | Fail err =>
      if isCertError err then
        (GenText "", set_typing false (show messageIndex {| m_role := RError; m_text := SSL_MESSAGE; m_type := TText |} st1))
      else if isQuotaError err then
        match left with
        | S l =>
            let currentAttempt := maxRetries - left in
            let waitTime := 2000 * 2 ^ currentAttempt in
            let st2 := show messageIndex {| m_role := RModel; m_text := capacity_message waitTime currentAttempt;
                                            m_type := TText |} (set_retry (currentAttempt + 1) st1) in
            runGeneration l prompt (log (EWait waitTime) st2)
        | O => (GenThrow err, st1)
        end
      else (GenThrow err, st1)
  end.

(** The [try] block of lines 3524-3536: the parsed query, its checks,
    and the body [executeMongoQuery] posts, or the message of the error
    thrown on the way. *)
Definition parse_query (content : string) : obj + string :=
  match json_parse (trim content) with
  | inr e => inr e
  | inl q =>
      let coll := get_field q "collection" in
      let pipeline := get_field q "pipeline" in
      if negb (truthy coll) || negb (truthy pipeline) || negb (is_array pipeline) then inr INVALID_QUERY
      else
        let fileName := match find (fun a => same_collection a coll) chatAttachments with
                        | Some a => if String.eqb (at_name a) "" then None else Some (at_name a)
                        | None => None
                        end in
        inl (query_body chatAttachments pipeline fileName coll)
  end.

(** [await executeMongoQuery(...)]: the rows, or the message of the error. *)
Definition run_query (content : string) (st : cstate) : (list jv + string) * cstate :=
  match parse_query content with
  | inr e => (inr e, st)
  | inl body => (exec body, log (EQuery body) st)
  end.

(** [queryErr.message || String(queryErr)]. *)
Definition error_text (m : string) : string := if String.eqb m "" then "Error" else m.

Definition msg_type_of (full : string) : msg_type :=
  if isSimulation && (includes full "```json" || head_is (is_char "{") (trim full)) && includes full "}" &&
     (includes full "topEnd" || includes full "cxImpact")
  then TSimulation else TText.

(** [processResponseWithMongo(prompt, attemptCount)]; each call uses one
    unit of [fuel], and [None] is a run that has not ended when the fuel is
    spent. *)
Fixpoint processResponseWithMongo (fuel : nat) (prompt : string) (attemptCount : nat) (st : cstate)
  : option cstate :=
  match fuel with
  | O => None
  | S fuel' =>
      let (r, st1) := runGeneration maxRetries prompt st in
      match r with
      | GenThrow err =>
          Some (show messageIndex {| m_role := RError; m_text := outer_error_message err; m_type := TText |} st1)
      | GenText full =>
          let (valid, refs) := validateResponseAccess userAccessibleFiles tableSchemas full in
          if negb valid then
            Some (show messageIndex {| m_role := RModel; m_text := denied_message refs userAccessibleFiles;
                                       m_type := TText |} st1)
          else match mongo_block full with
          | Some content =>
              let friendlyMessage := friendly_message full in
              let st2 := show_text messageIndex friendlyMessage st1 in
              let (res, st3) := run_query content st2 in
              match res with
              | inl result => processResponseWithMongo fuel' (next_prompt result) attemptCount st3
              | inr m =>
                  let errMsg := error_text m in
                  if includes errMsg "Access denied" then
                    Some (show messageIndex {| m_role := RModel; m_text := "⚠️ **Access Restricted**" ++ NL ++ NL ++ errMsg;
                                               m_type := TText |} st3)
                  else if Nat.ltb attemptCount 2 then
                    processResponseWithMongo fuel' (repair_prompt errMsg sqlTables) (S attemptCount)
                      (show_text messageIndex (friendlyMessage ++ NL ++ "_⚠️ Retrying with adjusted query..._") st3)
                  else
                    processResponseWithMongo fuel' (fallback_prompt errMsg) (S attemptCount)
                      (show_text messageIndex (friendlyMessage ++ NL ++ NL ++ "_⚠️ Query failed: " ++
                                               substring 0 100 errMsg ++ ". Answering based on available context._") st3)
              end
          | None =>
              let (valid2, refs2) := validateResponseAccess userAccessibleFiles tableSchemas full in
              if negb valid2 then
                Some (show messageIndex {| m_role := RModel; m_text := denied_message_final refs2 userAccessibleFiles;
                                           m_type := TText |} st1)
              else
                Some (show messageIndex {| m_role := RModel; m_text := removeQueryFromResponse full;
                                           m_type := msg_type_of full |} st1)
          end
      end
  end.

End Loop.

(** The text a stream of chunks shows at its end. *)
Definition chunks_text (chunks : list string) : string := fold_right String.append EmptyString chunks.

(** A model outcome that does not ask for a query: an error, or a reply
    whose text has no query block. *)
Definition stops (o : outcome) : bool :=
  match o with
  | Reply chunks => match mongo_block (chunks_text chunks) with Some _ => false | None => true end
  | Fail _ => true
  end.

(** ** Examples *)

(** A query of the model naming the collection of a file the user may not
    read. *)
Definition ex_query_text : string :=
  "{" ++ DQ ++ "collection" ++ DQ ++ ": " ++ DQ ++ "data_revenue" ++ DQ ++ ", " ++
  DQ ++ "pipeline" ++ DQ ++ ": []}".

(** A runtime that knows the JSON text of the example. *)
Definition ex_runtime : JsRuntime :=
  {| json_parse := fun s => if String.eqb s ex_query_text
                            then inl (JObj [("collection", JStr "data_revenue"); ("pipeline", JArr [])])
                            else inr "Unexpected token in JSON";
     json_stringify := fun _ => "[]";
     locale_en_IN := fun _ => "0";
     to_fixed2 := fun _ => "0.00";
     to_locale_string := fun _ => "0" |}.

(** A turn in progress: the question and the placeholder at index 1. *)
Definition ex_cstate : cstate :=
  {| msgs := [{| m_role := RUser; m_text := "What is the revenue in Thane?"; m_type := TText |};
              {| m_role := RModel; m_text := "_🔍 Fetching data from SQL Table..._"; m_type := TText |}];
     typing := true; retryCount := 0;
     sess := {| s_history := []; s_system := ""; s_sent := [] |}; trace := [] |}.

Definition ex_error (msg name : string) : api_error :=
  {| er_message := msg; er_cause := ""; er_json := "{}"; er_stack := ""; er_string := name ++ ": " ++ msg;
     er_name := name |}.

(** A reply that asks for a query. *)
Definition ex_query_reply : string :=
  "Let me check the data." ++ NL ++ MONGO_OPEN ++ NL ++ ex_query_text ++ NL ++ FENCE.

Definition ex_crm_attachment : attachment :=
  {| at_name := "CRM leads.csv"; at_content := ""; at_isCsv := true; at_isLarge := false;
     at_collectionName := Some "data_crm_leads"; at_headers := Some ["Lead"; "City"]; at_rowCount := 1 |}.

(** A model that asks for one query, then answers. *)
Definition ex_two_rounds (s : session) : outcome :=
  if Nat.ltb (length (s_sent s)) 1 then Reply [ex_query_reply] else Reply ["Revenue in Thane is 12000."].

Section LoopFacts.
Context `{RT : JsRuntime}.
Variable model : session -> outcome.
Variable exec : obj -> list jv + string.
Variable acc : list string.
Variable ts : tables.
Variable atts : list attachment.
Variable tabs : list string.
Variable sim : bool.
Variable idx : nat.

(** Computes the trace of a sequence of state updates. *)
Ltac trace_simpl := cbn [trace msgs sess show show_text set_typing set_retry send log]; rewrite <- ?app_assoc.

Local Abbreviation gen := (runGeneration model idx).
Local Abbreviation process := (processResponseWithMongo model exec acc ts atts tabs sim idx).
Local Abbreviation query := (run_query exec atts).

Lemma prompts_of_app a b : prompts_of (a ++ b) = (prompts_of a ++ prompts_of b)%list.
Proof. apply flat_map_app. Qed.

Lemma waits_of_app a b : waits_of (a ++ b) = (waits_of a ++ waits_of b)%list.
Proof. apply flat_map_app. Qed.

Lemma stream_one t st :
  t <> "" -> stream idx "" [t] st = (t, show idx {| m_role := RModel; m_text := t; m_type := TText |} st).
Proof. intros Ht. simpl. destruct (String.eqb_spec t ""); [contradiction|reflexivity]. Qed.

Lemma gen_cert e left p st :
  model (sess (send p st)) = Fail e -> isCertError e = true ->
  gen left p st = (GenText "", set_typing false (show idx {| m_role := RError; m_text := SSL_MESSAGE;
                                                            m_type := TText |} (send p st))).
Proof. intros Hm Hc. destruct left; cbn [runGeneration]; now rewrite Hm, Hc. Qed.

Lemma gen_reply chunks left p st :
  model (sess (send p st)) = Reply chunks ->
  gen left p st = let (t, st2) := stream idx "" chunks (send p st) in (GenText t, st2).
Proof. intros Hm. destruct left; cbn [runGeneration]; now rewrite Hm. Qed.

(** Persistent quota errors: [left] more retries, each announced and
    preceded by its wait, then the error is thrown. *)
Lemma runGeneration_quota e left p st :
  (forall s, model s = Fail e) -> isCertError e = false -> isQuotaError e = true -> left <= maxRetries ->
  exists st', gen left p st = (GenThrow e, st') /\
    waits_of (trace st') = (waits_of (trace st) ++ map (fun a => 2000 * 2 ^ a) (seq (maxRetries - left) left))%list /\
    prompts_of (trace st') = (prompts_of (trace st) ++ repeat p (S left))%list.
Proof.
  intros Hm Hc Hq. revert st. induction left as [|l IH]; intros st Hl; simpl; rewrite Hm, Hc, Hq.
  - eexists. split; [reflexivity|]. cbn [send trace]. rewrite waits_of_app, prompts_of_app.
    cbn [waits_of prompts_of flat_map seq map repeat]. now rewrite !app_nil_r.
  - destruct (IH (log (EWait (2000 * 2 ^ (maxRetries - S l)))
                    (show idx {| m_role := RModel;
                                 m_text := capacity_message (2000 * 2 ^ (maxRetries - S l)) (maxRetries - S l);
                                 m_type := TText |}
                          (set_retry (maxRetries - S l + 1) (send p st)))) ltac:(lia))
      as (st' & Hg & Hw & Hp).
    exists st'. split; [exact Hg|]. cbn [log show set_retry send trace] in Hw, Hp.
    rewrite Hw, Hp, !waits_of_app, !prompts_of_app. cbn [waits_of prompts_of flat_map].
    replace (maxRetries - l) with (S (maxRetries - S l)) by (unfold maxRetries in *; lia).
    cbn [seq map repeat]. rewrite !app_nil_r. split; rewrite <- !app_assoc; reflexivity.
Qed.

(** ** Termination *)

Lemma stream_text s cs st :
  sess (snd (stream idx s cs st)) = sess st /\ fst (stream idx s cs st) = s ++ chunks_text cs.
Proof.
  revert s st. induction cs as [|c cs IH]; intros s st; cbn [stream chunks_text fold_right].
  - now rewrite append_nil_r.
  - destruct (String.eqb_spec c "") as [->|]; [apply IH|].
    destruct (IH (s ++ c) (show idx {| m_role := RModel; m_text := s ++ c; m_type := TText |} st)) as [Hs Ht].
    rewrite Hs, Ht. split; [reflexivity|]. now rewrite append_assoc.
Qed.

(** Every round of [runGeneration] that yields a text sends at least one
    prompt, and the text is empty or the reply to the last one. *)
Lemma gen_text left p st full st1 :
  gen left p st = (GenText full, st1) ->
  length (s_sent (sess st)) < length (s_sent (sess st1)) /\
  (full = EmptyString \/ exists cs, model (sess st1) = Reply cs /\ full = chunks_text cs).
Proof.
  revert st. induction left as [|l IH]; intros st; cbn [runGeneration];
    destruct (model (sess (send p st))) as [cs|e] eqn:Em.
  1,3: destruct (stream_text "" cs (send p st)) as [Hs Ht];
    destruct (stream idx "" cs (send p st)) as [t st2]; cbn [fst snd] in Hs, Ht;
    intros E; injection E as <- <-; rewrite Hs; cbn; rewrite length_app; cbn;
    split; [lia|right; eauto].
  all: destruct (isCertError e); [intros E; injection E as <- <-; cbn; rewrite length_app; cbn; split; [lia|now left]|].
  all: destruct (isQuotaError e); try discriminate.
  intros E. destruct (IH _ E) as [Hl Hf]. cbn in Hl. rewrite length_app in Hl. cbn in Hl. split; [lia|exact Hf].
Qed.

Lemma run_query_sess content st : sess (snd (query content st)) = sess st.
Proof. unfold run_query. now destruct (parse_query atts content). Qed.

(** ** Properties of the loop *)

(** [C7] Persistent quota errors: the prompt is sent six times, the
    five retries wait 2, 4, 8, 16 and 32 seconds, and the turn ends with
    [outer_error_message] of the error: "Quota Exceeded" for a 429, but
    "Error: ..." for a 503 or a quota message without 429, where the
    specification asks for a "system at capacity" message. *)
Theorem quota_retries_exhausted e fuel p a st :
  (forall s, model s = Fail e) -> isCertError e = false -> isQuotaError e = true ->
  exists st', process (S fuel) p a st = Some st' /\
    waits_of (trace st') = (waits_of (trace st) ++ [2000; 4000; 8000; 16000; 32000])%list /\
    prompts_of (trace st') = (prompts_of (trace st) ++ repeat p 6)%list /\
    exists pre, trace st' =
      (pre ++ [EShow idx {| m_role := RError; m_text := outer_error_message e; m_type := TText |}])%list.
Proof.
  intros Hm Hc Hq. destruct (runGeneration_quota e maxRetries p st Hm Hc Hq (le_n _)) as (st1 & Hg & Hw & Hp).
  cbn [processResponseWithMongo]. rewrite Hg. eexists. split; [reflexivity|].
  cbn [show trace]. rewrite !waits_of_app, !prompts_of_app, Hw, Hp.
  split; [|split; [|eexists; reflexivity]]; cbn; now rewrite <- ?app_assoc, ?app_nil_r.
Qed.

(** A TLS or network error ends [runGeneration] with the SSL
    diagnostic and an empty text, which [processResponseWithMongo] then
    finalises as an empty answer: the diagnostic is overwritten at once and
    the user is left with an empty message. *)
Theorem cert_error_diagnostic_overwritten e fuel p a st :
  model (sess (send p st)) = Fail e -> isCertError e = true ->
  fst (validateResponseAccess acc ts "") = true ->
  exists st', process (S fuel) p a st = Some st' /\
    trace st' = (trace st ++ [EPrompt p;
                              EShow idx {| m_role := RError; m_text := SSL_MESSAGE; m_type := TText |};
                              EShow idx {| m_role := RModel; m_text := ""; m_type := TText |}])%list.
Proof.
  intros Hm Hc Hv. cbn [processResponseWithMongo]. rewrite (gen_cert e) by assumption.
  destruct (validateResponseAccess acc ts "") as [v refs] eqn:Ev. simpl in Hv. subst v.
  cbn.
  assert (Ht : msg_type_of sim "" = TText) by (unfold msg_type_of; now destruct sim).
  rewrite Ht. eexists. split; [reflexivity|]. now trace_simpl.
Qed.

(** The first steps of a turn whose reply is one chunk: sent, streamed,
    and, when the response check passes, routed on the query block. *)
Lemma process_reply_valid full fuel p a st :
  model (sess (send p st)) = Reply [full] -> full <> "" ->
  fst (validateResponseAccess acc ts full) = true ->
  process (S fuel) p a st =
  let st1 := show idx {| m_role := RModel; m_text := full; m_type := TText |} (send p st) in
  match mongo_block full with
  | Some content =>
      let friendlyMessage := friendly_message full in
      let (res, st3) := query content (show_text idx friendlyMessage st1) in
      match res with
      | inl result => process fuel (next_prompt result) a st3
      | inr m =>
          if includes (error_text m) "Access denied" then
            Some (show idx {| m_role := RModel; m_text := "⚠️ **Access Restricted**" ++ NL ++ NL ++ error_text m;
                              m_type := TText |} st3)
          else if Nat.ltb a 2 then
            process fuel (repair_prompt (error_text m) tabs) (S a)
              (show_text idx (friendlyMessage ++ NL ++ "_⚠️ Retrying with adjusted query..._") st3)
          else
            process fuel (fallback_prompt (error_text m)) (S a)
              (show_text idx (friendlyMessage ++ NL ++ NL ++ "_⚠️ Query failed: " ++
                              substring 0 100 (error_text m) ++ ". Answering based on available context._") st3)
      end
  | None => Some (show idx {| m_role := RModel; m_text := removeQueryFromResponse full;
                              m_type := msg_type_of sim full |} st1)
  end.
Proof.
  intros Hm Hne Hv. cbn [processResponseWithMongo]. rewrite (gen_reply [full]) by exact Hm.
  rewrite stream_one by exact Hne. cbv zeta.
  destruct (validateResponseAccess acc ts full) as [v refs] eqn:Ev. simpl in Hv. subst v.
  cbn [negb]. destruct (mongo_block full); reflexivity.
Qed.

(** An "Access denied" answer of the query service ends the turn at
    once with the denial: no repair prompt and no other model call. *)
Theorem access_denied_terminal full content body m fuel p a st :
  model (sess (send p st)) = Reply [full] -> full <> "" ->
  fst (validateResponseAccess acc ts full) = true ->
  mongo_block full = Some content -> parse_query atts content = inl body -> exec body = inr m ->
  includes (error_text m) "Access denied" = true ->
  exists st', process (S fuel) p a st = Some st' /\
    prompts_of (trace st') = (prompts_of (trace st) ++ [p])%list /\
    exists pre, trace st' =
      (pre ++ [EShow idx {| m_role := RModel; m_text := "⚠️ **Access Restricted**" ++ NL ++ NL ++ error_text m;
                            m_type := TText |}])%list.
Proof.
  intros Hm Hne Hv Hb Hp He Ha. rewrite (process_reply_valid full) by assumption. cbv zeta. rewrite Hb.
  unfold run_query. rewrite Hp, He. cbv iota. rewrite Ha. eexists. split; [reflexivity|].
  split; [|eexists; reflexivity].
  trace_simpl. rewrite !prompts_of_app. cbn [prompts_of flat_map app]. now rewrite ?app_nil_r.
Qed.

(** [C33] No bound on the rounds of a turn: when every reply of the model
    passes the response check and carries a well-formed query that the
    service does not refuse for access, [processResponseWithMongo] never
    ends, whatever the fuel (a successful query does not count as an
    attempt, and after two repairs the fallback prompt loops as well). *)
Theorem query_loop_unbounded :
  (forall s, exists full content body,
      model s = Reply [full] /\ full <> "" /\ fst (validateResponseAccess acc ts full) = true /\
      mongo_block full = Some content /\ parse_query atts content = inl body /\
      forall m, exec body = inr m -> includes (error_text m) "Access denied" = false) ->
  forall fuel p a st, process fuel p a st = None.
Proof.
  intros H fuel. induction fuel as [|f IH]; intros p a st; [reflexivity|].
  destruct (H (sess (send p st))) as (full & content & body & Hm & Hne & Hv & Hb & Hp & He).
  rewrite (process_reply_valid full) by assumption. cbv zeta. rewrite Hb. unfold run_query. rewrite Hp.
  destruct (exec body) as [res|m] eqn:Ex; [apply IH|].
  rewrite (He m eq_refl). destruct (Nat.ltb a 2); apply IH.
Qed.

(** A reply the response check refuses has already been shown, in
    full, while it streamed: the check replaces it afterwards, whereas the
    specification runs it before the turn is shown. *)
Theorem refused_reply_shown_first full fuel p a st :
  model (sess (send p st)) = Reply [full] -> full <> "" ->
  fst (validateResponseAccess acc ts full) = false ->
  exists st', process (S fuel) p a st = Some st' /\
    trace st' = (trace st ++ [EPrompt p; EShow idx {| m_role := RModel; m_text := full; m_type := TText |};
                              EShow idx {| m_role := RModel;
                                           m_text := denied_message (snd (validateResponseAccess acc ts full)) acc;
                                           m_type := TText |}])%list.
Proof.
  intros Hm Hne Hv. cbn [processResponseWithMongo]. rewrite (gen_reply [full]) by exact Hm.
  rewrite stream_one by exact Hne. cbv zeta.
  destruct (validateResponseAccess acc ts full) as [v refs] eqn:Ev. simpl in Hv. subst v.
  cbn [negb fst snd]. eexists. split; [reflexivity|]. now trace_simpl.
Qed.

(** A reply without a query block that passes the response check
    ends the turn after one model call, showing the reply cleaned by
    [removeQueryFromResponse]. *)
Theorem plain_reply_finalised full fuel p a st :
  model (sess (send p st)) = Reply [full] -> full <> "" ->
  fst (validateResponseAccess acc ts full) = true -> mongo_block full = None ->
  process (S fuel) p a st =
  Some (show idx {| m_role := RModel; m_text := removeQueryFromResponse full; m_type := msg_type_of sim full |}
             (show idx {| m_role := RModel; m_text := full; m_type := TText |} (send p st))).
Proof. intros Hm Hne Hv Hb. rewrite (process_reply_valid full) by assumption. cbv zeta. now rewrite Hb. Qed.

(** [C18] Termination: once the session has sent [n] prompts the model
    stops asking for queries; then a turn ends, and [n - k + 1] rounds of
    fuel are enough from a session that has sent [k] prompts (each round
    sends at least one prompt, and only a reply with a query block starts
    another round). *)
Theorem process_terminates n :
  (forall s, n <= length (s_sent s) -> stops (model s) = true) ->
  forall fuel p a st, n - length (s_sent (sess st)) < fuel -> exists st', process fuel p a st = Some st'.
Proof.
  intros Hstop fuel. induction fuel as [|f IH]; intros p a st Hf; [lia|].
  cbn [processResponseWithMongo]. destruct (gen maxRetries p st) as [[full|e] st1] eqn:Eg; [|eauto].
  destruct (gen_text _ _ _ _ _ Eg) as [Hlen Hfull].
  destruct (validateResponseAccess acc ts full) as [[|] refs]; cbn [negb]; [|eauto].
  destruct (mongo_block full) as [content|] eqn:Eb;
    [|destruct (validateResponseAccess acc ts full) as [[|] ?]; cbn [negb]; eauto].
  assert (Hlt : length (s_sent (sess st1)) < n).
  { destruct (Nat.lt_ge_cases (length (s_sent (sess st1))) n) as [|Hge]; [assumption|].
    specialize (Hstop _ Hge). destruct Hfull as [->|(cs & Hm & ->)]; [vm_compute in Eb; discriminate Eb|].
    rewrite Hm in Hstop. unfold stops in Hstop. rewrite Eb in Hstop. discriminate Hstop. }
  cbv zeta. pose proof (run_query_sess content (show_text idx (friendly_message full) st1)) as Hq.
  destruct (query content _) as [[res|m] st3]; cbn [snd sess show_text show] in Hq.
  - apply IH. rewrite Hq. lia.
  - destruct (includes (error_text m) "Access denied"); [eauto|].
    destruct (Nat.ltb a 2); apply IH; cbn; rewrite Hq; lia.
Qed.

(** More fuel changes nothing: a turn that ends with some fuel ends
    in the same state with any larger fuel. *)
Theorem process_fuel_mono f g p a st st' :
  process f p a st = Some st' -> f <= g -> process g p a st = Some st'.
Proof.
  revert g p a st. induction f as [|f IH]; intros [|g] p a st H Hle; try discriminate; try lia.
  cbn [processResponseWithMongo] in H |- *. destruct (gen maxRetries p st) as [[full|e] st1]; [|exact H].
  destruct (validateResponseAccess acc ts full) as [[|] refs]; cbn [negb] in H |- *; [|exact H].
  destruct (mongo_block full) as [content|]; [|exact H].
  cbv zeta in H |- *. destruct (query content _) as [[res|m] st3]; [apply IH; auto; lia|].
  destruct (includes (error_text m) "Access denied"); [exact H|].
  destruct (Nat.ltb a 2); apply IH; auto; lia.
Qed.

End LoopFacts.

(** ** Witnesses *)

Lemma quota_retries_exhausted_witness :
  let e := ex_error "503 Service Unavailable: the model is overloaded" "Error" in
  exists st', @processResponseWithMongo ex_runtime (fun _ => Fail e) (fun _ => inl []) [] [] [] [] false 1
                1 "What is the revenue in Thane?" 0 ex_cstate = Some st' /\
    waits_of (trace st') = (waits_of (trace ex_cstate) ++ [2000; 4000; 8000; 16000; 32000])%list /\
    prompts_of (trace st') = (prompts_of (trace ex_cstate) ++ repeat "What is the revenue in Thane?" 6)%list /\
    exists pre, trace st' =
      (pre ++ [EShow 1 {| m_role := RError; m_text := outer_error_message e; m_type := TText |}])%list.
Proof.
  intros e. apply (quota_retries_exhausted _ _ _ _ _ _ _ _ e); [intros; reflexivity|vm_compute; reflexivity|vm_compute; reflexivity].
Defined.

Lemma cert_error_diagnostic_overwritten_witness :
  let e := ex_error "Failed to fetch" "TypeError" in
  exists st', @processResponseWithMongo ex_runtime (fun _ => Fail e) (fun _ => inl []) ["CRM leads.csv"]
                ex_tables [] [] false 1 1 "What is the revenue in Thane?" 0 ex_cstate = Some st' /\
    trace st' = (trace ex_cstate ++ [EPrompt "What is the revenue in Thane?";
                              EShow 1 {| m_role := RError; m_text := SSL_MESSAGE; m_type := TText |};
                              EShow 1 {| m_role := RModel; m_text := ""; m_type := TText |}])%list.
Proof.
  intros e. apply (cert_error_diagnostic_overwritten _ _ _ _ _ _ _ _ e); [reflexivity|vm_compute; reflexivity|vm_compute; reflexivity].
Defined.

Lemma access_denied_terminal_witness :
  let m := "Access denied to this file" in
  exists st', @processResponseWithMongo ex_runtime (fun _ => Reply [ex_query_reply]) (fun _ => inr m)
                ["CRM leads.csv"] [] [ex_crm_attachment] [] false 1 1 "What is the revenue in Thane?" 0 ex_cstate
              = Some st' /\
    prompts_of (trace st') = (prompts_of (trace ex_cstate) ++ ["What is the revenue in Thane?"])%list /\
    exists pre, trace st' =
      (pre ++ [EShow 1 {| m_role := RModel; m_text := "⚠️ **Access Restricted**" ++ NL ++ NL ++ error_text m;
                          m_type := TText |}])%list.
Proof.
  intros m.
  apply (access_denied_terminal _ _ _ _ _ _ _ _ ex_query_reply (NL ++ ex_query_text ++ NL)
           (match @parse_query ex_runtime [ex_crm_attachment] (NL ++ ex_query_text ++ NL) with
            | inl b => b | inr _ => [] end) m);
    [reflexivity|discriminate|vm_compute; reflexivity|vm_compute; reflexivity|vm_compute; reflexivity
    |reflexivity|vm_compute; reflexivity].
Defined.

Lemma query_loop_unbounded_witness :
  @processResponseWithMongo ex_runtime (fun _ => Reply [ex_query_reply]) (fun _ => inl [])
    [] [] [ex_crm_attachment] [] false 1 100 "What is the revenue in Thane?" 0 ex_cstate = None.
Proof.
  apply query_loop_unbounded. intros s.
  exists ex_query_reply, (NL ++ ex_query_text ++ NL),
    (match @parse_query ex_runtime [ex_crm_attachment] (NL ++ ex_query_text ++ NL) with
     | inl b => b | inr _ => [] end).
  split; [reflexivity|]. split; [discriminate|]. split; [vm_compute; reflexivity|].
  split; [vm_compute; reflexivity|]. split; [vm_compute; reflexivity|]. discriminate.
Defined.

Lemma refused_reply_shown_first_witness :
  let full := "Revenue in Thane is 12000." in
  exists st', @processResponseWithMongo ex_runtime (fun _ => Reply [full]) (fun _ => inl [])
                ["CRM leads.csv"] ex_tables [] [] false 1 1 "What is the revenue in Thane?" 0 ex_cstate
              = Some st' /\
    trace st' = (trace ex_cstate ++ [EPrompt "What is the revenue in Thane?";
                              EShow 1 {| m_role := RModel; m_text := full; m_type := TText |};
                              EShow 1 {| m_role := RModel;
                                         m_text := denied_message (snd (validateResponseAccess ["CRM leads.csv"] ex_tables full))
                                                     ["CRM leads.csv"];
                                         m_type := TText |}])%list.
Proof.
  intros full. apply (refused_reply_shown_first _ _ _ _ _ _ _ _ full); [reflexivity|discriminate|vm_compute; reflexivity].
Defined.

Lemma plain_reply_finalised_witness :
  let full := "Pune has 1 lead." in
  @processResponseWithMongo ex_runtime (fun _ => Reply [full]) (fun _ => inl [])
    ["CRM leads.csv"] ex_tables [] [] false 1 1 "How many leads in Pune?" 0 ex_cstate =
  Some (show 1 {| m_role := RModel; m_text := removeQueryFromResponse full; m_type := msg_type_of false full |}
             (show 1 {| m_role := RModel; m_text := full; m_type := TText |}
                   (send "How many leads in Pune?" ex_cstate))).
Proof.
  intros full. apply (plain_reply_finalised _ _ _ _ _ _ _ _ full); [reflexivity|discriminate|vm_compute; reflexivity|vm_compute; reflexivity].
Defined.

Lemma process_terminates_witness :
  (forall s, 1 <= length (s_sent s) -> stops (ex_two_rounds s) = true) /\
  exists st', @processResponseWithMongo ex_runtime ex_two_rounds (fun _ => inl []) [] [] [ex_crm_attachment] [] false 1
                2 "What is the revenue in Thane?" 0 ex_cstate = Some st'.
Proof.
  assert (H : forall s, 1 <= length (s_sent s) -> stops (ex_two_rounds s) = true).
  { intros s Hs. unfold ex_two_rounds. rewrite (proj2 (Nat.ltb_ge _ _) Hs). vm_compute. reflexivity. }
  split; [exact H|]. apply (process_terminates _ _ _ _ _ _ _ _ 1 H). cbn. lia.
Defined.

End Conversation.
