(* ===== verification/Session.v ===== *)
(** The client and the server together: the query service of the
    conversation loop is the server's [POST /api/data/query]
    ([Gateway.query_handler]) for the signed-in user, as [executeMongoQuery]
    (index.tsx, lines 3028-3066) sees it: the [data] of a success, the
    [error] of a failure. *)

From Stdlib Require Import String Ascii List Bool Arith Lia ZArith QArith.
From S2P Require Import Prelude JsValue Store Gateway Access Reply Conversation.
Import ListNotations.
Open Scope string_scope.
Open Scope nat_scope.

Module Session.
Import Store Gateway Access Conversation.

(** [executeMongoQuery] against the server, for the user [email] and the
    server state [st]. *)
Definition via_gateway `{AggEngine} (email : string) (st : db) (body : obj) : list jv + string :=
  match query_handler email body st with
  | QueryOk data _ _ _ _ => inl data
  | QueryErr _ msg => inr msg
  end.

(** ** Examples *)

(** The attachment [loadDataFolderFiles] builds from a schema (lines 2565-2574). *)
Definition attachment_of (s : schema) : attachment :=
  {| at_name := sc_fileName s; at_content := ""; at_isCsv := true;
     at_isLarge := Nat.ltb 1000 (sc_rowCount s);
     at_collectionName := Some (sc_collectionName s); at_headers := Some (sc_columns s);
     at_rowCount := sc_rowCount s |}.

Definition ex_blank : attachment :=
  {| at_name := ""; at_content := ""; at_isCsv := false; at_isLarge := false;
     at_collectionName := None; at_headers := None; at_rowCount := 0 |}.

(** ** Properties *)

(** [C9] The client checks the wrong file: for a query naming a
    collection that no attachment holds, [executeMongoQuery] sends as
    [fileName] the first attachment with a collection
    ([findFileNameFromPipeline] ignores the pipeline) together with the
    requested [collectionName]; the server checks access to that file and
    reads the requested collection.  A non-admin user's model thus reads
    the whole collection of a file the user may not access. *)
Theorem client_query_checks_wrong_file `{E : AggEngine} `{RT : JsRuntime} email st u atts content c a0 :
  connected st = true -> find_user email st = Some u -> is_admin u = false ->
  find (fun a => truthy_name (at_collectionName a)) atts = Some a0 -> at_name a0 <> "" ->
  str_mem (at_name a0) (accessible u) = true ->
  find (fun a => same_collection a (JStr c)) atts = None -> c <> "" ->
  json_parse (trim content) = inl (JObj [("collection", JStr c); ("pipeline", JArr [])]) ->
  exists body, parse_query atts content = inl body /\
    body_field body "fileName" = JStr (at_name a0) /\
    via_gateway email st body = inl (firstn maxRows (map strip_oid (map JObj (docs_of c st)))).
Proof.
  intros Hc Hu Ha Hf Hn Hm Hnone Hne Hj. unfold parse_query. rewrite Hj. cbn [get_field obj_get].
  cbn [String.eqb Ascii.eqb Bool.eqb]. unfold truthy at 1.
  destruct (String.eqb_spec c ""); [contradiction|]. cbn [negb orb truthy is_array].
  rewrite Hnone. unfold query_body, findFileNameFromPipeline. rewrite Hf.
  destruct (String.eqb_spec (at_name a0) ""); [contradiction|].
  unfold truthy. destruct (String.eqb_spec c ""); [contradiction|]. cbn [negb].
  eexists. split; [reflexivity|]. split; [cbn; destruct (String.eqb_spec (at_name a0) ""); easy|].
  unfold via_gateway, query_handler. cbn [body_field obj_get app String.eqb Ascii.eqb Bool.eqb].
  cbn [truthy is_array negb andb orb]. rewrite !(proj2 (String.eqb_neq _ _)) by assumption. cbn [negb].
  rewrite Hc, Hu, Ha, has_access_accessible, Hm. cbn [negb andb].
  unfold target_collection. cbn [truthy negb]. rewrite (proj2 (String.eqb_neq _ _)) by assumption.
  cbn [negb]. rewrite aggregate_nil. reflexivity.
Qed.

(** ** Witnesses *)

Lemma client_query_checks_wrong_file_witness :
  let st := ex_two_files in
  let atts := map attachment_of (schemas_or_nil (schemas_handler "analyst@indira.com" st)) in
  exists body, @parse_query ex_runtime atts ex_query_text = inl body /\
    body_field body "fileName" = JStr "CRM leads.csv" /\
    @via_gateway mini_engine "analyst@indira.com" st body =
    inl (firstn maxRows (map strip_oid (map JObj (docs_of "data_revenue" st)))).
Proof.
  intros st atts.
  exact (@client_query_checks_wrong_file mini_engine ex_runtime "analyst@indira.com" st ex_user atts
           ex_query_text "data_revenue" (nth 0 atts ex_blank)
           ltac:(vm_compute; reflexivity) ltac:(vm_compute; reflexivity) eq_refl
           ltac:(vm_compute; reflexivity) ltac:(vm_compute; discriminate) ltac:(vm_compute; reflexivity)
           ltac:(vm_compute; reflexivity) ltac:(discriminate) ltac:(vm_compute; reflexivity)).
Defined.

End Session.
