(* ===== verification/Codec.v ===== *)
(** Two small codecs the rest of the development uses: splitting on a
    separator ([String.prototype.split] with a one-character string, as
    [Store.split_on]) and a text encoding of strings as three-digit
    character codes, with three such fields joined by dots, which the
    example token service of [Admin] uses. *)

From Stdlib Require Import String Ascii List Bool Arith Lia.
From S2P Require Import Prelude Store.
Import ListNotations.
Open Scope string_scope.

Module Codec.
Import Store.

Definition digit (n : nat) : ascii := ascii_of_nat (48 + n).

Definition enc_char (c : ascii) : string :=
  let n := nat_of_ascii c in
  String (digit (n / 100)) (String (digit (n / 10 mod 10)) (String (digit (n mod 10)) EmptyString)).

Fixpoint enc (s : string) : string :=
  match s with EmptyString => EmptyString | String c t => enc_char c ++ enc t end.

Definition dec_char (a b d : ascii) : ascii :=
  ascii_of_nat ((nat_of_ascii a - 48) * 100 + (nat_of_ascii b - 48) * 10 + (nat_of_ascii d - 48)).

Fixpoint dec (s : string) : option string :=
  match s with
  | EmptyString => Some EmptyString
  | String a (String b (String d t)) => option_map (String (dec_char a b d)) (dec t)
  | _ => None
  end.

(** Three fields behind a version tag. *)
Definition enc3 (a b c : string) : string := "v1." ++ enc a ++ "." ++ enc b ++ "." ++ enc c.

Definition dec3 (s : string) : option (string * string * string) :=
  match split_on "." s with
  | [v; a; b; c] =>
      if String.eqb v "v1" then
        match dec a, dec b, dec c with
        | Some x, Some y, Some z => Some (x, y, z)
        | _, _, _ => None
        end
      else None
  | _ => None
  end.

(** ** Lemmas *)

Lemma split_on_word d s :
  all_chars (fun x => negb (Ascii.eqb x d)) s = true -> split_on d s = [s].
Proof.
  induction s as [|c s IH]; simpl; [reflexivity|]. intros H. js_bool.
  destruct (Ascii.eqb c d); [discriminate|]. now rewrite IH.
Qed.

Lemma split_on_prefix d w r :
  all_chars (fun x => negb (Ascii.eqb x d)) w = true -> split_on d (w ++ String d r) = w :: split_on d r.
Proof.
  induction w as [|c w IH]; simpl; intros H; [now rewrite Ascii.eqb_refl|]. js_bool.
  destruct (Ascii.eqb c d); [discriminate|]. now rewrite IH.
Qed.

Lemma dec_enc_char c : dec_char (digit (nat_of_ascii c / 100)) (digit (nat_of_ascii c / 10 mod 10))
                                (digit (nat_of_ascii c mod 10)) = c.
Proof. revert c. ascii_enum. Qed.

Lemma enc_char_digits c : all_chars is_digit (enc_char c) = true.
Proof. revert c. ascii_enum. Qed.

(** Decoding inverts encoding. *)
Lemma dec_enc s : dec (enc s) = Some s.
Proof.
  induction s as [|c s IH]; [reflexivity|].
  change (dec (enc (String c s))) with (option_map (String (dec_char (digit (nat_of_ascii c / 100))
            (digit (nat_of_ascii c / 10 mod 10)) (digit (nat_of_ascii c mod 10)))) (dec (enc s))).
  now rewrite IH, dec_enc_char.
Qed.

Lemma enc_digits s : all_chars is_digit (enc s) = true.
Proof. induction s as [|c s IH]; [reflexivity|]. cbn [enc]. rewrite all_chars_app, enc_char_digits. exact IH. Qed.

Lemma enc_no c s : is_digit c = false -> all_chars (fun x => negb (Ascii.eqb x c)) (enc s) = true.
Proof.
  intros Hc. apply (all_chars_impl is_digit); [|apply enc_digits].
  intros x Hx. destruct (Ascii.eqb_spec x c); [subst; congruence|reflexivity].
Qed.

Lemma dec3_enc3 a b c : dec3 (enc3 a b c) = Some (a, b, c).
Proof.
  unfold dec3, enc3.
  replace ("v1." ++ enc a ++ "." ++ enc b ++ "." ++ enc c)
    with ("v1" ++ String "." (enc a ++ String "." (enc b ++ String "." (enc c)))) by reflexivity.
  rewrite !split_on_prefix by (reflexivity || now apply enc_no).
  rewrite split_on_word by now apply enc_no. cbn. now rewrite !dec_enc.
Qed.

(** An encoded triple is one word: not empty, no space. *)
Lemma enc3_word a b c : enc3 a b c <> "" /\ includes (enc3 a b c) " " = false.
Proof.
  split; [discriminate|]. apply includes_char_none. unfold none_of, is_char, enc3.
  cbn [all_chars]. rewrite !all_chars_app, !enc_no by reflexivity. reflexivity.
Qed.

End Codec.
