(* ===== verification/Admin.v ===== *)
(** Authentication and administration on the server
    ([src/backend/server.js]): the default admin created by [connectDB]
    (lines 98-110), the middlewares [authenticateToken] and [requireAdmin]
    (lines 169-210), login, current user and logout (lines 445-528), the
    user management routes (lines 535-722), the admin file listing (lines
    729-841) and the accessible-file routes of a user (lines 1038-1096).
    JWT and bcrypt are the [TokenService] and [PasswordHasher] interfaces;
    times are seconds. *)

From Stdlib Require Import String Ascii List Bool Arith Lia ZArith NArith QArith.
From S2P Require Import Prelude JsValue Store Codec.
Import ListNotations.
Open Scope string_scope.

Module Admin.
Import Store Codec.

(** The payload of a token: [{ userId, email, role }]. *)
Record claims := { cl_userId : string; cl_email : string; cl_role : string }.

(** [expiresIn: '7d']. *)
Definition token_lifetime : Z := 604800.

(** [jwt.sign] and [jwt.verify] with the server's secret, at a time: a
    token verifies to its claims until it expires.  Tokens hold no space. *)
Class TokenService := {
  sign : Z -> claims -> string;
  verify : Z -> string -> option claims;
  verify_sign : forall t0 t c, (t0 <= t < t0 + token_lifetime)%Z -> verify t (sign t0 c) = Some c;
  sign_word : forall t0 c, sign t0 c <> "" /\ includes (sign t0 c) " " = false
}.

(** [bcrypt.hash(p, 10)] and [bcrypt.compare(p, h)] (the salt is not
    modelled). *)
Class PasswordHasher := {
  hash : string -> string;
  compare : string -> string -> bool;
  compare_hash : forall p, compare p (hash p) = true
}.

(** A response: status and JSON body. *)
Definition response := (nat * jv)%type.

Definition err (status : nat) (msg : string) : response := (status, JObj [("error", JStr msg)]).

Definition message (msg : string) : response := (200, JObj [("message", JStr msg)]).

Definition DB_DOWN : string := "Database not connected".

Definition set_users (l : list userDoc) (st : db) : db :=
  {| connected := connected st; collections := collections st; csvFiles := csvFiles st;
     gridfs := gridfs st; users := l; next_oid := next_oid st |}.

(** [updateOne(filter, { $set })]: the first matching document. *)
Fixpoint update_user (p : userDoc -> bool) (f : userDoc -> userDoc) (l : list userDoc)
  : option (list userDoc) :=
  match l with
  | [] => None
  | u :: l' => if p u then Some (f u :: l')
               else option_map (cons u) (update_user p f l')
  end.

(** [deleteOne(filter)]. *)
Fixpoint delete_user_doc (p : userDoc -> bool) (l : list userDoc) : option (list userDoc) :=
  match l with
  | [] => None
  | u :: l' => if p u then Some l' else option_map (cons u) (delete_user_doc p l')
  end.

Definition with_email (e : string) (u : userDoc) : bool := String.eqb (u_email u) e.

Definition id_string (n : N) : string := nat_to_string (N.to_nat n).

Definition time (t : Z) : jv := JNum (inject_Z t).

Definition opt_time (t : option Z) : jv := match t with Some x => time x | None => JNull end.

(** ** The default admin (lines 98-110) *)

Definition DEFAULT_ADMIN : string := "admin@indira.com".

Section Server.
Context `{H : PasswordHasher} `{T : TokenService}.

Definition seed_admin (now : Z) (st : db) : db :=
  match find_user DEFAULT_ADMIN st with
  | Some _ => st
  | None =>
      let u := {| u_id := next_oid st; u_email := DEFAULT_ADMIN; u_passwordHash := hash "admin123";
                  u_role := "admin"; u_accessibleFiles := None; u_createdAt := now; u_lastLogin := None;
                  u_addedBy := None; u_updated := None; u_filesUpdated := None |} in
      {| connected := connected st; collections := collections st; csvFiles := csvFiles st;
         gridfs := gridfs st; users := users st ++ [u]; next_oid := (next_oid st + 1)%N |}
  end.

(** ** Middlewares (lines 169-210) *)

(** [authHeader && authHeader.split(' ')[1]], [""] standing for a missing
    or empty token. *)
Definition bearer (header : option string) : string :=
  match header with Some h => nth 1 (split_on " " h) "" | None => "" end.

Definition authenticateToken (header : option string) (now : Z) : claims + response :=
  let token := bearer header in
  if String.eqb token "" then inr (err 401 "Access token required")
  else match verify now token with
       | None => inr (err 403 "Invalid or expired token")
       | Some c => inl c
       end.

Definition requireAdmin (c : claims) : option response :=
  if String.eqb (cl_role c) "admin" then None else Some (err 403 "Admin access required").

(** A route behind [authenticateToken, requireAdmin]. *)
Definition admin_route (header : option string) (now : Z) (st : db)
  (k : claims -> response * db) : response * db :=
  match authenticateToken header now with
  | inr r => (r, st)
  | inl c => match requireAdmin c with Some r => (r, st) | None => k c end
  end.

(** ** Login, current user, logout (lines 445-528) *)

Definition login (email password : string) (now : Z) (st : db) : response * db :=
  if negb (connected st) then (err 503 DB_DOWN, st)
  else if String.eqb email "" || String.eqb password "" then (err 400 "Email and password are required", st)
  else match find_user (lower email) st with
  | None => (err 401 "Invalid email or password", st)
  | Some u =>
      if negb (compare password (u_passwordHash u)) then (err 401 "Invalid email or password", st)
      else
        let touch v := {| u_id := u_id v; u_email := u_email v; u_passwordHash := u_passwordHash v;
                          u_role := u_role v; u_accessibleFiles := u_accessibleFiles v;
                          u_createdAt := u_createdAt v; u_lastLogin := Some now; u_addedBy := u_addedBy v;
                          u_updated := u_updated v; u_filesUpdated := u_filesUpdated v |} in
        let st' := match update_user (fun v => N.eqb (u_id v) (u_id u)) touch (users st) with
                   | Some l => set_users l st
                   | None => st
                   end in
        let token := sign now {| cl_userId := id_string (u_id u); cl_email := u_email u;
                                 cl_role := u_role u |} in
        ((200, JObj [("token", JStr token);
                     ("user", JObj [("email", JStr (u_email u)); ("role", JStr (u_role u));
                                    ("createdAt", time (u_createdAt u))])]), st')
  end.

Definition me (c : claims) (st : db) : response :=
  if negb (connected st) then err 503 DB_DOWN
  else match find_user (cl_email c) st with
  | None => err 404 "User not found"
  | Some u => (200, JObj [("email", JStr (u_email u)); ("role", JStr (u_role u));
                          ("createdAt", time (u_createdAt u)); ("lastLogin", opt_time (u_lastLogin u))])
  end.

Definition logout : response := message "Logged out successfully".

(** ** User management (lines 535-722) *)

(** A user as [find({}, { projection: { passwordHash: 0 } })] returns it,
    fields in the order they were written, with [fileCount] appended. *)
Definition user_json (u : userDoc) : jv :=
  JObj ([("_id", JOid (u_id u)); ("email", JStr (u_email u)); ("role", JStr (u_role u))] ++
        (match u_accessibleFiles u with Some l => [("accessibleFiles", JArr (map JStr l))] | None => [] end) ++
        [("createdAt", time (u_createdAt u)); ("lastLogin", opt_time (u_lastLogin u))] ++
        (match u_addedBy u with Some a => [("addedBy", JStr a)] | None => [] end) ++
        (match u_updated u with Some (t, who) => [("updatedAt", time t); ("updatedBy", JStr who)] | None => [] end) ++
        (match u_filesUpdated u with
         | Some (t, who) => [("filesUpdatedAt", time t); ("filesUpdatedBy", JStr who)] | None => [] end) ++
        [("fileCount", JNum (inject_Z (Z.of_nat (length (accessible u)))))])%list.

(** [GET /api/admin/users]: newest first. *)
Definition list_users (st : db) : response :=
  if negb (connected st) then err 503 DB_DOWN
  else (200, JArr (map user_json (sort_desc u_createdAt (users st)))).

(** [/^[^\s@]+@[^\s@]+\.[^\s@]+$/]: one [@] with a non-empty part before
    it, and after it a dot that is neither its first nor its last
    character; no white space anywhere. *)
Definition not_ws_at (c : ascii) : bool := negb (is_ws c || is_char "@" c).

(** The text before the first [@]. *)
Fixpoint take_while_not_at (s : string) : string :=
  match s with
  | EmptyString => EmptyString
  | String c t => if is_char "@" c then EmptyString else String c (take_while_not_at t)
  end.

Fixpoint dot_before_end (t : string) : bool :=
  match t with
  | String c ((String _ _) as r) => is_char "." c || dot_before_end r
  | _ => false
  end.

Definition valid_email (s : string) : bool :=
  let local := take_while_not_at s in
  match String.length local, substring (String.length local) (String.length s) s with
  | S _, String a dom =>
      is_char "@" a && all_chars not_ws_at local && all_chars not_ws_at dom &&
      match dom with String _ t => dot_before_end t | EmptyString => false end
  | _, _ => false
  end.

(** [POST /api/admin/users]; [role] and the elements of [accessibleFiles]
    are the strings the admin panel sends, [accessibleFiles] is [None] when
    it is not an array. *)
Definition add_user (c : claims) (email password role : string) (accessibleFiles : option (list string))
  (now : Z) (st : db) : response * db :=
  if negb (connected st) then (err 503 DB_DOWN, st)
  else if String.eqb email "" || String.eqb password "" then (err 400 "Email and password are required", st)
  else if negb (valid_email email) then (err 400 "Invalid email format", st)
  else match find_user (lower email) st with
  | Some _ => (err 409 "User with this email already exists", st)
  | None =>
      let addedBy := if negb (String.eqb (cl_email c) "") then cl_email c
                     else if negb (String.eqb (cl_userId c) "") then cl_userId c else "system" in
      let r := if String.eqb role "" then "user" else role in
      let files := match accessibleFiles with Some l => l | None => [] end in
      let u := {| u_id := next_oid st; u_email := lower email; u_passwordHash := hash password;
                  u_role := r; u_accessibleFiles := Some files; u_createdAt := now; u_lastLogin := None;
                  u_addedBy := Some addedBy; u_updated := None; u_filesUpdated := None |} in
      ((201, JObj [("_id", JOid (next_oid st)); ("email", JStr (lower email)); ("role", JStr r);
                   ("accessibleFiles", JArr (map JStr files)); ("createdAt", time now)]),
       {| connected := connected st; collections := collections st; csvFiles := csvFiles st;
          gridfs := gridfs st; users := users st ++ [u]; next_oid := (next_oid st + 1)%N |})
  end.

(** [DELETE /api/admin/users/:email]. *)
Definition delete_user (c : claims) (email : string) (st : db) : response * db :=
  if negb (connected st) then (err 503 DB_DOWN, st)
  else if String.eqb (lower email) (lower (cl_email c)) then (err 400 "Cannot delete your own account", st)
  else match delete_user_doc (with_email (lower email)) (users st) with
  | None => (err 404 "User not found", st)
  | Some l => (message "User deleted successfully", set_users l st)
  end.

(** [PUT /api/admin/users/:email/role]. *)
Definition update_role (c : claims) (email role : string) (now : Z) (st : db) : response * db :=
  if negb (connected st) then (err 503 DB_DOWN, st)
  else if String.eqb role "" || negb (str_mem role ["admin"; "user"]) then
    (err 400 "Valid role (admin or user) is required", st)
  else if String.eqb (lower email) (lower (cl_email c)) then (err 400 "Cannot change your own role", st)
  else
    let f v := {| u_id := u_id v; u_email := u_email v; u_passwordHash := u_passwordHash v; u_role := role;
                  u_accessibleFiles := u_accessibleFiles v; u_createdAt := u_createdAt v;
                  u_lastLogin := u_lastLogin v; u_addedBy := u_addedBy v;
                  u_updated := Some (now, cl_email c); u_filesUpdated := u_filesUpdated v |} in
    match update_user (with_email (lower email)) f (users st) with
    | None => (err 404 "User not found", st)
    | Some l => (message "User role updated successfully", set_users l st)
    end.

(** ** Files (lines 729-841 and 1038-1096) *)

(** A file of [GET /api/admin/files] (lines 778-788); the [_id] string of
    each document, which the model does not track, is left out. *)
Definition file_json (d : fileDoc) : jv :=
  let name := if String.eqb (fd_fileName d) "" then "Unknown" else fd_fileName d in
  JObj [("fileName", JStr name);
        ("filePath", JStr ("/data/" ++ (if String.eqb (fd_fileName d) "" then "unknown" else fd_fileName d)));
        ("fileSize", JNum (inject_Z (Z.of_N (fd_fileSize d))));
        ("uploadedAt", time (fd_uploadedAt d));
        ("uploadedBy", JStr (if String.eqb (fd_uploadedBy d) "" then "Unknown" else fd_uploadedBy d));
        ("isActive", JBool true);
        ("storedInGridFS", JBool (fd_storedInGridFS d))].

(** [GET /api/admin/files]: the active files, newest first. *)
Definition admin_files (st : db) : response :=
  if negb (connected st) then err 503 "Database not connected. Please check MongoDB connection."
  else (200, JArr (map file_json (sort_desc fd_uploadedAt (List.filter fd_isActive (csvFiles st))))).

(** [GET /api/admin/users/:email/files]. *)
Definition get_user_files (email : string) (st : db) : response :=
  if negb (connected st) then err 503 DB_DOWN
  else match find_user (lower email) st with
  | None => err 404 "User not found"
  | Some u => (200, JArr (map JStr (accessible u)))
  end.

(** [PUT /api/admin/users/:email/files]; [fileNames] is [None] when it is
    not an array. *)
Definition put_user_files (c : claims) (email : string) (fileNames : option (list string)) (now : Z)
  (st : db) : response * db :=
  if negb (connected st) then (err 503 DB_DOWN, st)
  else match fileNames with
  | None => (err 400 "fileNames must be an array", st)
  | Some l =>
      let f v := {| u_id := u_id v; u_email := u_email v; u_passwordHash := u_passwordHash v;
                    u_role := u_role v; u_accessibleFiles := Some l; u_createdAt := u_createdAt v;
                    u_lastLogin := u_lastLogin v; u_addedBy := u_addedBy v; u_updated := u_updated v;
                    u_filesUpdated := Some (now, cl_email c) |} in
      match update_user (with_email (lower email)) f (users st) with
      | None => (err 404 "User not found", st)
      | Some us => ((200, JObj [("message", JStr "User file access updated successfully");
                               ("accessibleFiles", JArr (map JStr l))]), set_users us st)
      end
  end.


(** ** The requests that change the users *)

Inductive request :=
| RLogin (email password : string)
| RAddUser (header : option string) (email password role : string) (accessibleFiles : option (list string))
| RDeleteUser (header : option string) (email : string)
| RUpdateRole (header : option string) (email role : string)
| RPutFiles (header : option string) (email : string) (fileNames : option (list string)).

(** The route of a request, its middlewares first. *)
Definition handle (r : request) (now : Z) (st : db) : response * db :=
  match r with
  | RLogin e p => login e p now st
  | RAddUser h e p ro f => admin_route h now st (fun c => add_user c e p ro f now st)
  | RDeleteUser h e => admin_route h now st (fun c => delete_user c e st)
  | RUpdateRole h e ro => admin_route h now st (fun c => update_role c e ro now st)
  | RPutFiles h e f => admin_route h now st (fun c => put_user_files c e f now st)
  end.

Inductive step : db -> db -> Prop :=
| step_request r now st : step st (snd (handle r now st)).

(** The states of a server started on a database without the default
    admin, after any sequence of requests. *)
Inductive reachable : db -> Prop :=
| reach_seed st now : find_user DEFAULT_ADMIN st = None -> reachable (seed_admin now st)
| reach_step st st' : reachable st -> step st st' -> reachable st'.

End Server.

(** ** Specification predicates *)

(** The unique index on [email] (line 96) and the lower-casing of every
    email written: emails are distinct and in lower case. *)
Definition users_ok (st : db) : Prop :=
  NoDup (map u_email (users st)) /\ Forall (fun e => lower e = e) (map u_email (users st)).

Definition has_admin (st : db) : bool := existsb is_admin (users st).

(** ** Examples *)

Definition ex_ops : userDoc :=
  {| u_id := 5; u_email := "ops@indira.com"; u_passwordHash := "h:ops"; u_role := "admin";
     u_accessibleFiles := Some []; u_createdAt := 5; u_lastLogin := None;
     u_addedBy := Some DEFAULT_ADMIN; u_updated := None; u_filesUpdated := None |}.

(** Two admins. *)
Definition ex_two_admins : db := set_users [ex_admin; ex_ops; ex_user] ex_db.

Definition claims_of (u : userDoc) : claims :=
  {| cl_userId := id_string (u_id u); cl_email := u_email u; cl_role := u_role u |}.

(** ** Instances for the examples

    A hasher that prefixes ["h:"], and a token service whose tokens are
    ["v1."] followed by the three claims, each character written as its
    three-digit code, separated by dots (these tokens do not expire). *)

Definition ex_hasher : PasswordHasher :=
  {| hash := fun p => "h:" ++ p; compare := fun p h => String.eqb h ("h:" ++ p);
     compare_hash := fun p => String.eqb_refl _ |}.

Definition ex_sign (t : Z) (c : claims) : string := enc3 (cl_userId c) (cl_email c) (cl_role c).

Definition ex_verify (t : Z) (s : string) : option claims :=
  match dec3 s with
  | Some (x, y, z) => Some {| cl_userId := x; cl_email := y; cl_role := z |}
  | None => None
  end.

Definition ex_tokens : TokenService :=
  {| sign := ex_sign; verify := ex_verify;
     verify_sign := fun t0 t c _ =>
       ltac:(unfold ex_verify, ex_sign; rewrite dec3_enc3; now destruct c);
     sign_word := fun t0 c => enc3_word (cl_userId c) (cl_email c) (cl_role c) |}.

(** ** Lemmas *)

(** The header ["Bearer " + token] carries the token. *)
Lemma bearer_token tok : tok <> "" -> includes tok " " = false -> bearer (Some ("Bearer " ++ tok)) = tok.
Proof.
  intros Hne Hsp. unfold bearer. replace ("Bearer " ++ tok) with ("Bearer" ++ String " " tok) by reflexivity.
  rewrite split_on_prefix by reflexivity.
  rewrite (split_on_word " " tok (includes_char_false _ _ Hsp)). reflexivity.
Qed.

Lemma update_user_emails p f l l' :
  (forall u, u_email (f u) = u_email u) -> update_user p f l = Some l' -> map u_email l' = map u_email l.
Proof.
  intros Hf. revert l'. induction l as [|u l IH]; simpl; intros l' E; [discriminate|].
  destruct (p u); [injection E as <-; simpl; now rewrite Hf|].
  destruct (update_user p f l) as [l''|] eqn:E'; [|discriminate]. injection E as <-. simpl. now rewrite IH.
Qed.

Lemma update_user_in p f l l' v :
  update_user p f l = Some l' -> In v l' -> In v l \/ exists w, In w l /\ v = f w.
Proof.
  revert l'. induction l as [|u l IH]; simpl; intros l' E Hv; [discriminate|].
  destruct (p u); [injection E as <-; destruct Hv as [<-|Hv]; eauto|].
  destruct (update_user p f l) as [l''|] eqn:E'; [|discriminate]. injection E as <-.
  destruct Hv as [<-|Hv]; [tauto|]. destruct (IH _ eq_refl Hv) as [|(w & ? & ?)]; eauto.
Qed.

Lemma delete_user_doc_split p l l' :
  delete_user_doc p l = Some l' -> exists a x b, l = (a ++ x :: b)%list /\ l' = (a ++ b)%list.
Proof.
  revert l'. induction l as [|u l IH]; simpl; intros l' E; [discriminate|].
  destruct (p u); [injection E as <-; now exists [], u, l|].
  destruct (delete_user_doc p l) as [l''|] eqn:E'; [|discriminate]. injection E as <-.
  destruct (IH _ eq_refl) as (a & x & b & -> & ->). now exists (u :: a), x, b.
Qed.

Lemma find_user_none e st : find_user e st = None -> ~ In e (map u_email (users st)).
Proof.
  unfold find_user. intros Hf Hin. apply in_map_iff in Hin as [u [<- Hu]].
  apply (find_none _ _ Hf) in Hu. now rewrite String.eqb_refl in Hu.
Qed.

Lemma find_user_some e st u : find_user e st = Some u -> In u (users st) /\ u_email u = e.
Proof. unfold find_user. intros Hf. apply find_some in Hf as [Hin He]. split; [exact Hin|]. now apply String.eqb_eq. Qed.

(** Distinct emails identify the records. *)
Lemma email_inj l u v :
  NoDup (map u_email l) -> In u l -> In v l -> u_email u = u_email v -> u = v.
Proof.
  induction l as [|w l IH]; simpl; [tauto|]. intros Hnd Hu Hv He. inversion Hnd as [|? ? Hn Hnd']; subst.
  destruct Hu as [<-|Hu], Hv as [<-|Hv]; auto.
  - exfalso. apply Hn. rewrite He. now apply in_map.
  - exfalso. apply Hn. rewrite <- He. now apply in_map.
Qed.

(** A route behind the middlewares changes the state only through its
    handler. *)
Lemma admin_route_cases `{TokenService} h now st k :
  admin_route h now st k = (fst (admin_route h now st k), st) \/
  exists c, admin_route h now st k = k c.
Proof.
  unfold admin_route. destruct (authenticateToken h now) as [c|r]; [|now left].
  destruct (requireAdmin c); [now left|right; eauto].
Qed.

Section Facts.
Context `{H : PasswordHasher} `{T : TokenService}.

Lemma auth_sign c t0 now :
  (t0 <= now < t0 + token_lifetime)%Z -> authenticateToken (Some ("Bearer " ++ sign t0 c)) now = inl c.
Proof.
  intros Ht. destruct (sign_word t0 c) as [Hne Hsp]. unfold authenticateToken.
  rewrite bearer_token by assumption. destruct (String.eqb_spec (sign t0 c) ""); [contradiction|].
  now rewrite verify_sign.
Qed.

(** An admin token passes both middlewares, whatever the database holds. *)
Lemma admin_route_sign c t0 now st k :
  cl_role c = "admin" -> (t0 <= now < t0 + token_lifetime)%Z ->
  admin_route (Some ("Bearer " ++ sign t0 c)) now st k = k c.
Proof. intros Hr Ht. unfold admin_route. rewrite auth_sign by exact Ht. unfold requireAdmin. now rewrite Hr. Qed.

(** What a request does to the users: nothing, an update of one record
    that keeps its email and password hash, a deletion, or a new record
    with a fresh lower-case email. *)
Lemma step_shape st st' :
  step st st' ->
  users st' = users st \/
  (exists p f l', (forall u, u_email (f u) = u_email u /\ u_passwordHash (f u) = u_passwordHash u) /\
                  update_user p f (users st) = Some l' /\ users st' = l') \/
  (exists p l', delete_user_doc p (users st) = Some l' /\ users st' = l') \/
  (exists u, find_user (u_email u) st = None /\ lower (u_email u) = u_email u /\
             users st' = (users st ++ [u])%list).
Proof.
  intros [r now st0]. destruct r as [e pw|h e pw ro f|h e|h e ro|h e f]; cbn [handle].
  - unfold login. destruct (negb (connected st0)); [now left|]. destruct (_ || _); [now left|].
    destruct (find_user (lower e) st0) as [u|]; [|now left]. destruct (negb _); [now left|].
    cbn [snd]. destruct (update_user _ _ (users st0)) as [l|] eqn:E; [|now left].
    right; left. do 3 eexists. split; [|split; [exact E|reflexivity]]. now intros v.
  - destruct (admin_route_cases h now st0 (fun c => add_user c e pw ro f now st0)) as [E|[c E]];
      rewrite E; [now left|]. unfold add_user.
    destruct (negb (connected st0)); [now left|]. destruct (_ || _); [now left|].
    destruct (negb (valid_email e)); [now left|].
    destruct (find_user (lower e) st0) eqn:Ef; [now left|]. do 3 right. eexists.
    refine (conj _ (conj _ eq_refl)); [exact Ef|apply lower_idem].
  - destruct (admin_route_cases h now st0 (fun c => delete_user c e st0)) as [E|[c E]];
      rewrite E; [now left|]. unfold delete_user.
    destruct (negb (connected st0)); [now left|]. destruct (String.eqb _ _); [now left|].
    destruct (delete_user_doc _ (users st0)) as [l|] eqn:Ed; [|now left].
    right; right; left. eauto.
  - destruct (admin_route_cases h now st0 (fun c => update_role c e ro now st0)) as [E|[c E]];
      rewrite E; [now left|]. unfold update_role.
    destruct (negb (connected st0)); [now left|]. destruct (_ || _); [now left|].
    destruct (String.eqb _ _); [now left|]. cbv zeta.
    destruct (update_user _ _ (users st0)) as [l|] eqn:Eu; [|now left].
    right; left. do 3 eexists. split; [|split; [exact Eu|reflexivity]]. now intros v.
  - destruct (admin_route_cases h now st0 (fun c => put_user_files c e f now st0)) as [E|[c E]];
      rewrite E; [now left|]. unfold put_user_files.
    destruct (negb (connected st0)); [now left|]. destruct f as [l|]; [|now left]. cbv zeta.
    destruct (update_user _ _ (users st0)) as [us|] eqn:Eu; [|now left].
    right; left. do 3 eexists. split; [|split; [exact Eu|reflexivity]]. now intros v.
Qed.

(** [C5] Every request keeps the emails of the users distinct and in
    lower case. *)
Theorem users_ok_step st st' : users_ok st -> step st st' -> users_ok st'.
Proof.
  intros [Hnd Hlow] Hs. unfold users_ok.
  destruct (step_shape _ _ Hs) as [E|[(p & f & l' & Hf & Hu & E)|[(p & l' & Hd & E)|(u & Hn & Hl & E)]]];
    rewrite E.
  - split; assumption.
  - rewrite (update_user_emails p f _ _ (fun v => proj1 (Hf v)) Hu). split; assumption.
  - destruct (delete_user_doc_split _ _ _ Hd) as (a & x & b & Ha & ->). rewrite Ha in Hnd, Hlow.
    rewrite map_app in *. simpl in *. split.
    + exact (NoDup_remove_1 _ _ _ Hnd).
    + apply Forall_app in Hlow as [Hla Hlb]. inversion Hlb; subst. now apply Forall_app.
  - rewrite map_app. simpl. split.
    + apply NoDup_app; [exact Hnd|constructor; [simpl; tauto|constructor]|].
      intros x Hx [<-|[]]. exact (find_user_none _ _ Hn Hx).
    + apply Forall_app. split; [exact Hlow|constructor; [exact Hl|constructor]].
Qed.

(** No request changes the password of an account: an email that
    names a user before and after a request names a user with the same
    password hash (there is no password-change route, although line 108
    asks to change the default admin's password after the first login). *)
Theorem password_hash_stable st st' e u u' :
  users_ok st -> step st st' -> find_user e st = Some u -> find_user e st' = Some u' ->
  u_passwordHash u' = u_passwordHash u.
Proof.
  intros [Hnd _] Hs Hfu Hfu'. apply find_user_some in Hfu as [Hu Heu].
  apply find_user_some in Hfu' as [Hu' Heu'].
  destruct (step_shape _ _ Hs) as [E|[(p & f & l' & Hf & Hup & E)|[(p & l' & Hd & E)|(w & Hn & Hl & E)]]];
    rewrite E in Hu'.
  - now rewrite (email_inj _ _ _ Hnd Hu' Hu ltac:(congruence)).
  - destruct (update_user_in _ _ _ _ _ Hup Hu') as [Hin|(v & Hv & ->)].
    + now rewrite (email_inj _ _ _ Hnd Hin Hu ltac:(congruence)).
    + destruct (Hf v) as [Hfe Hfh]. rewrite Hfh.
      now rewrite (email_inj _ _ _ Hnd Hv Hu ltac:(congruence)).
  - destruct (delete_user_doc_split _ _ _ Hd) as (a & x & b & Ha & ->).
    assert (Hin : In u' (users st)) by (rewrite Ha; apply in_app_or in Hu' as [|]; apply in_or_app; simpl; tauto).
    now rewrite (email_inj _ _ _ Hnd Hin Hu ltac:(congruence)).
  - apply in_app_or in Hu' as [Hin|[<-|[]]].
    + now rewrite (email_inj _ _ _ Hnd Hin Hu ltac:(congruence)).
    + exfalso. apply (find_user_none _ _ Hn). rewrite Heu', <- Heu. now apply in_map.
Qed.

(** [C10] Rights come from the token, not from the database: a token
    signed for an admin keeps its admin rights for seven days after the
    account is deleted (or demoted); with it a new admin can be created. *)
Theorem deleted_admin_keeps_rights c t0 now st email pw :
  cl_role c = "admin" -> (t0 <= now < t0 + token_lifetime)%Z -> find_user (cl_email c) st = None ->
  connected st = true -> email <> "" -> pw <> "" -> valid_email email = true ->
  find_user (lower email) st = None ->
  fst (fst (handle (RAddUser (Some ("Bearer " ++ sign t0 c)) email pw "admin" None) now st)) = 201 /\
  exists u, find_user (lower email) (snd (handle (RAddUser (Some ("Bearer " ++ sign t0 c)) email pw "admin" None) now st))
            = Some u /\ is_admin u = true.
Proof.
  intros Hr Ht _ Hc He Hp Hv Hn. cbn [handle]. rewrite admin_route_sign by assumption.
  unfold add_user. rewrite Hc, Hv, Hn. destruct (String.eqb_spec email ""); [contradiction|].
  destruct (String.eqb_spec pw ""); [contradiction|]. cbn [negb orb fst snd].
  split; [reflexivity|]. eexists. unfold find_user. cbn [users].
  rewrite find_app_none by exact Hn. cbn. rewrite String.eqb_refl. split; reflexivity.
Qed.

(** Two admins can take each other's rights: once the second admin
    has demoted the first, the first admin's token still passes
    [requireAdmin] and demotes the second, leaving no admin at all. *)
Theorem admins_can_remove_every_admin :
  let r1 := RUpdateRole (Some ("Bearer " ++ sign 0 (claims_of ex_ops))) DEFAULT_ADMIN "user" in
  let r2 := RUpdateRole (Some ("Bearer " ++ sign 0 (claims_of ex_admin))) "ops@indira.com" "user" in
  let st1 := snd (handle r1 10 ex_two_admins) in
  has_admin ex_two_admins = true /\ fst (fst (handle r1 10 ex_two_admins)) = 200 /\
  fst (fst (handle r2 20 st1)) = 200 /\ has_admin (snd (handle r2 20 st1)) = false.
Proof.
  cbv zeta. cbn [handle].
  rewrite !admin_route_sign by (reflexivity || (unfold token_lifetime; lia)).
  vm_compute. repeat split.
Qed.

End Facts.

(** ** Witnesses *)

Lemma ex_two_admins_ok : users_ok ex_two_admins.
Proof. split; repeat constructor; simpl; intuition discriminate. Qed.

Lemma deleted_admin_keeps_rights_witness :
  let st := set_users [ex_admin; ex_user] ex_db in
  let r := RAddUser (Some ("Bearer " ++ @sign ex_tokens 0 (claims_of ex_ops))) "new.admin@indira.com" "pw" "admin" None in
  fst (fst (@handle ex_hasher ex_tokens r 100 st)) = 201 /\
  exists u, find_user (lower "new.admin@indira.com") (snd (@handle ex_hasher ex_tokens r 100 st)) = Some u /\
            is_admin u = true.
Proof.
  intros st r.
  exact (@deleted_admin_keeps_rights ex_hasher ex_tokens (claims_of ex_ops) 0 100 st "new.admin@indira.com" "pw"
           eq_refl ltac:(unfold token_lifetime; lia) ltac:(vm_compute; reflexivity) eq_refl
           ltac:(discriminate) ltac:(discriminate) eq_refl ltac:(vm_compute; reflexivity)).
Defined.

Lemma users_ok_step_witness :
  let r := RAddUser (Some ("Bearer " ++ @sign ex_tokens 0 (claims_of ex_admin))) "Dana@Indira.com" "pw" "user"
             (Some ["CRM leads.csv"]) in
  users_ok (snd (@handle ex_hasher ex_tokens r 50 ex_two_admins)).
Proof.
  intros r. exact (@users_ok_step ex_hasher ex_tokens ex_two_admins _ ex_two_admins_ok (step_request r 50 ex_two_admins)).
Defined.

Lemma password_hash_stable_witness :
  let r := RPutFiles (Some ("Bearer " ++ @sign ex_tokens 0 (claims_of ex_admin))) "analyst@indira.com"
             (Some ["Revenue.csv"]) in
  let st' := snd (@handle ex_hasher ex_tokens r 50 ex_two_admins) in
  u_passwordHash (match find_user "analyst@indira.com" st' with Some v => v | None => ex_admin end) =
  u_passwordHash ex_user.
Proof.
  intros r st'.
  exact (@password_hash_stable ex_hasher ex_tokens ex_two_admins st' "analyst@indira.com" ex_user _
           ex_two_admins_ok (step_request r 50 ex_two_admins) ltac:(vm_compute; reflexivity)
           ltac:(vm_compute; reflexivity)).
Defined.

End Admin.
