(* ===== verification/Serving.v ===== *)
(** The Express routes of [src/backend/server.js] outside the JSON API and
    the error path of the API: the CSV download route [GET /data/:filename]
    (lines 1130-1208), the page routes with the API-key injection
    [injectApiKeyAndServe] (lines 325-428), [GET /health] (lines 431-438),
    the static files and the catch-all routes (lines 1415-1451), the
    multer file filter of the upload route (lines 145-156) and the global
    error handler (lines 1480-1496), composed with the upload handler of
    [Store.v] and the middlewares of [Admin.v].

    A reply is what the route hands to Express: a JSON or text body with
    its status, [next()] to the following route, or an error passed on to
    Express's default handler. *)

From Stdlib Require Import String Ascii List Bool Arith Lia ZArith NArith QArith.
From S2P Require Import Prelude Regex JsValue Uri Normalizer Store Gateway Admin.
Import ListNotations.
Open Scope string_scope.
Open Scope nat_scope.

Module Serving.
Import Normalizer Store Gateway Admin Uri.

Inductive reply :=
| RJson (status : nat) (body : jv)
| RText (status : nat) (contentType : string) (body : string)
| RNext                          (** [next()]: the next route that matches *)
| RError (status : nat).         (** [next(err)]: Express's own error page *)

Definition json_error (status : nat) (msg : string) : reply := RJson status (JObj [("error", JStr msg)]).

(** [s.endsWith(suffix)]. *)
Definition ends_with (s suffix : string) : bool := prefix (rev_string suffix) (rev_string s).

(** ** [GET /data/:filename] (lines 1130-1208) *)

(** The GridFS file of that name that [openDownloadStreamByName] reads:
    the latest one. *)
Definition gridfs_latest (f : string) (st : db) : option string :=
  match find (fun g => String.eqb (fst g) f) (rev (gridfs st)) with Some (_, c) => Some c | None => None end.

(** [findOne({ fileName, isActive: true })], and the second attempt with a
    decoded name (lines 1151-1162).  [None] is the URIError the second
    [decodeURIComponent] throws inside the [try], which the [catch] turns
    into a 500. *)
Definition find_csv (fileName : string) (st : db) : option (option fileDoc) :=
  match find_active_file fileName st with
  | Some d => Some (Some d)
  | None =>
      match decodeURIComponent fileName with
      | None => None
      | Some decodedFileName =>
          if String.eqb decodedFileName fileName then Some None
          else Some (find_active_file decodedFileName st)
      end
  end.

(** The route for the raw path segment [seg]: Express decodes the
    parameter (a malformed one is a 400 error), the handler decodes it once
    more, ignoring a failure (lines 1131-1136).  No authentication
    middleware guards the route. *)
Definition data_file (seg : string) (st : db) : reply :=
  match decodeURIComponent seg with
  | None => RError 400
  | Some param =>
      let fileName := match decodeURIComponent param with Some f => f | None => param end in
      if negb (ends_with fileName ".csv") then RNext
      else if negb (connected st) then json_error 503 DB_DOWN
      else match find_csv fileName st with
           | None => json_error 500 "Error serving file from database"
           | Some None => json_error 404 ("CSV file not found: " ++ fileName)
           | Some (Some d) =>
               let content := match fd_fileContent d with Some c => c | None => "" end in
               if fd_storedInGridFS d || (N.ltb sixteen_mib (fd_fileSize d) && String.eqb content "") then
                 match gridfs_latest fileName st with
                 | Some c => RText 200 "text/csv" c
                 | None => json_error 500 "Error reading file from GridFS"
                 end
               else if negb (String.eqb content "") then RText 200 "text/csv" content
               else json_error 404 ("CSV file " ++ fileName ++ " needs to be re-uploaded. Content is missing.")
           end
  end.

(** ** The API key in the page (lines 348-428) *)

(** [s.replace(/c/g, r)] for one character [c]. *)
Fixpoint replace_char_all (c : ascii) (r s : string) : string :=
  match s with
  | EmptyString => EmptyString
  | String a t => (if Ascii.eqb a c then r else String a EmptyString) ++ replace_char_all c r t
  end.

Definition BS : ascii := "092".
Definition SQ : ascii := "039".
Definition LF : ascii := "010".
Definition CR : ascii := "013".

(** [escapedApiKey] (lines 368-372): backslashes first, then quotes,
    line feeds and carriage returns. *)
Definition escape_key (apiKey : string) : string :=
  replace_char_all CR (String BS (String "r" EmptyString))
    (replace_char_all LF (String BS (String "n" EmptyString))
       (replace_char_all SQ (String BS (String SQ EmptyString))
          (replace_char_all BS (String BS (String BS EmptyString)) apiKey))).


(** [scriptInjection] (lines 394-409). *)
Definition script_injection (k : string) : string :=
  NL ++ "    <script>" ++ NL ++
  "      (function() {" ++ NL ++
  "        if (typeof window !== 'undefined') {" ++ NL ++
  "          window.__GEMINI_API_KEY__ = '" ++ k ++ "';" ++ NL ++
  "          if (!window.process) {" ++ NL ++
  "            window.process = { env: {} };" ++ NL ++
  "          }" ++ NL ++
  "          if (!window.process.env) {" ++ NL ++
  "            window.process.env = {};" ++ NL ++
  "          }" ++ NL ++
  "          window.process.env.API_KEY = '" ++ k ++ "';" ++ NL ++
  "          window.process.env.GEMINI_API_KEY = '" ++ k ++ "';" ++ NL ++
  "        }" ++ NL ++
  "      })();" ++ NL ++
  "    </script>" ++ NL ++
  "  ".


Definition env_polyfill (k : string) : string :=
  "window.process = window.process || { env: { API_KEY: '" ++ k ++ "', GEMINI_API_KEY: '" ++ k ++ "' } };".

Definition quote_class : Regex.re := Regex.Char (fun c => Ascii.eqb c SQ || Ascii.eqb c "034").
Definition sp : Regex.re := Regex.Star true Regex.ws.

(** [processEnvPattern] (line 377). *)
Definition processEnvPattern : Regex.re :=
  fold_right Regex.Seq (Regex.lit ";")
    [Regex.lit "window.process"; sp; Regex.lit "="; sp; Regex.lit "window.process"; sp; Regex.lit "||"; sp;
     Regex.lit "{"; sp; Regex.lit "env:"; sp; Regex.lit "{"; sp; Regex.lit "API_KEY:"; sp; quote_class;
     Regex.Group 1 (Regex.Star false Regex.dot); quote_class; sp;
     Regex.opt true (fold_right Regex.Seq Regex.Empty
                       [Regex.lit ","; sp; Regex.lit "GEMINI_API_KEY:"; sp; quote_class;
                        Regex.Group 2 (Regex.Star false Regex.dot); quote_class]);
     sp; Regex.lit "}"; sp; Regex.lit "}"].

(** [/<script[^>]*>/] and [/<html[^>]*>/]. *)
Definition tag_re (name : string) : Regex.re :=
  Regex.Seq (Regex.lit ("<" ++ name)) (Regex.Seq (Regex.Star true (Regex.Char (fun c => negb (Ascii.eqb c ">"))))
                                                 (Regex.lit ">")).

(** [injectApiKeyAndServe] for the page [index] ([None] when the build is
    missing) and [process.env.GEMINI_API_KEY || ''].  The page is sent
    with status 200 as [text/html].  The replacements with a template
    string read it as a replacement pattern ([$&], [$'] ...), those with a
    function do not. *)
Definition inject_html (index : option string) (apiKey : string) : reply :=
  match index with
  | None => RText 404 "text/html" "Build files not found. Please build the application first."
  | Some html0 =>
      let k := escape_key apiKey in
      let html1 :=
        if Regex.test processEnvPattern html0 then Regex.replace_first_sub processEnvPattern (env_polyfill k) html0
        else match Regex.match_text (tag_re "script") html0 with
             | Some m0 => Regex.replace_str m0 ("<script>" ++ env_polyfill k ++ "</script>" ++ NL ++ "    " ++ m0) html0
             | None => html0
             end in
      let si := script_injection k in
      let html2 :=
        if includes html1 "<head>" then Regex.replace_str "<head>" ("<head>" ++ si) html1
        else if includes html1 "</head>" then Regex.replace_str "</head>" (si ++ "</head>") html1
        else if includes html1 "<html" then Regex.replace_first_re (tag_re "html") (fun m0 _ => m0 ++ si) html1
        else html1 in
      RText 200 "text/html" html2
  end.

(** ** The other routes *)

(** What the server reads from its environment and its disk. *)
Record site := {
  distExists : bool;                       (** [frontend/dist/index.html] exists at start *)
  index_html : option string;              (** the page read at each request *)
  static_files : list (string * (string * string));
    (** [express.static] over [frontend/dist]: the request paths it
        answers, with the content type and body *)
  geminiKey : option string                (** [process.env.GEMINI_API_KEY] *)
}.

Definition key_or_empty (w : site) : string := match geminiKey w with Some k => k | None => "" end.

(** [GET /health] (lines 431-438). *)
Definition health (w : site) (st : db) : reply :=
  let k := key_or_empty w in
  RJson 200 (JObj [("status", JStr "healthy"); ("hasApiKey", JBool (negb (String.eqb k "")));
                   ("apiKeyLength", JNum (inject_Z (Z.of_nat (String.length k))));
                   ("dbConnected", JBool (connected st))]).

(** Express matches a route path without regard to letter case and with
    an optional trailing slash. *)
Definition route_is (path lit : string) : bool :=
  String.eqb (lower path) lit || negb (String.eqb lit "/") && String.eqb (lower path) (lit ++ "/").

(** The segment of [/data/:filename] in [path], if it has that form. *)
Definition data_param (path : string) : option string :=
  if prefix "/data/" (lower path) then
    let rest := substring 6 (String.length path - 6) path in
    let seg := if ends_with rest "/" then substring 0 (String.length rest - 1) rest else rest in
    if String.eqb seg "" || includes seg "/" then None else Some seg
  else None.

(** The catch-all route of a production build (lines 1421-1437). *)
Definition fallback (w : site) (path : string) : reply :=
  if prefix "/data/" path then json_error 404 ("CSV file not found: " ++ path)
  else if prefix "/api/" path then json_error 404 "API endpoint not found"
  else if includes path "." then RText 404 "text/html" "Not found"
  else inject_html (index_html w) (key_or_empty w).

(** A [GET] of [path] that no API route matched, in the order the routes
    are registered. *)
Definition serve_get (w : site) (path : string) (st : db) : reply :=
  if distExists w then
    if route_is path "/" || route_is path "/index.html" then inject_html (index_html w) (key_or_empty w)
    else if route_is path "/health" then health w st
    else
      let after_data :=
        match find (fun f => String.eqb (fst f) path) (static_files w) with
        | Some (_, (ty, body)) => RText 200 ty body
        | None => fallback w path
        end in
      match data_param path with
      | Some seg => match data_file seg st with RNext => after_data | r => r end
      | None => after_data
      end
  else if route_is path "/" then
    RJson 200 (JObj [("message", JStr "Express API server running in dev mode");
                     ("note", JStr "Frontend is served by Vite on port 3000");
                     ("api", JStr "API endpoints available at /api/*")])
  else if route_is path "/health" then health w st
  else if prefix "/api/" path then json_error 404 "API endpoint not found"
  else RJson 404 (JObj [("error", JStr "Not found");
                        ("note", JStr "In dev mode, static files are served by Vite on port 3000")]).

(** ** Uploads through multer and the error handler *)

(** The global error handler (lines 1480-1496) for an error of message
    [msg] on [path]. *)
Definition on_error (path msg : string) (status : nat) : reply :=
  if prefix "/api/" path then
    RJson 500 (JObj [("error", JStr "Internal server error");
                     ("message", JStr (if String.eqb msg "" then "An unexpected error occurred" else msg))])
  else RError status.

(** The multer [fileFilter] (lines 148-154). *)
Definition csv_filter (mimetype originalname : string) : bool :=
  String.eqb mimetype "text/csv" || ends_with originalname ".csv".

(** A multipart file part: its declared type and the stored upload. *)
Record part := { pt_mimetype : string; pt_file : upload }.

Definition UPLOAD_LIMIT : N := 500 * 1024 * 1024.

(** The storage engine's message when [insertOne] refuses a document
    (lines 964-973), the only error [Store.upload_handler] reports as 500. *)
Definition TOO_LARGE : string := "document too large".

Definition upload_json (r : upload_resp) (u : upload) (now : Z) : reply :=
  match r with
  | UploadOk dc cols n =>
      RJson 201 (JObj [("message", JStr "File uploaded successfully");
                       ("file", JObj [("fileName", JStr (up_name u));
                                      ("fileSize", JNum (inject_Z (Z.of_N (up_size u))));
                                      ("uploadedAt", time now);
                                      ("dataCollection", match dc with Some c => JStr c | None => JNull end);
                                      ("columns", JArr (map JStr cols));
                                      ("rowCount", JNum (inject_Z (Z.of_nat n)))])])
  | UploadErr 500 m =>
      RJson 500 (JObj [("error", JStr m); ("message", JStr TOO_LARGE);
                       ("hint", JStr "File is too large to store directly. Try splitting the CSV into smaller files.")])
  | UploadErr s m => json_error s m
  end.

Section Upload.
Context `{CsvParser} `{TokenService}.
Variable bson_fits : fileDoc -> bool.

(** [POST /api/admin/files/upload] with its middlewares in order:
    [authenticateToken], [requireAdmin], [upload.single('file')] (the
    filter and the size limit raise errors that reach the global handler),
    then the handler. *)
Definition upload_route (header : option string) (file : option part) (now : Z) (st : db) : reply * db :=
  match authenticateToken header now with
  | inr (s, b) => (RJson s b, st)
  | inl c =>
      match requireAdmin c with
      | Some (s, b) => (RJson s b, st)
      | None =>
          match file with
          | Some p =>
              if negb (csv_filter (pt_mimetype p) (up_name (pt_file p))) then
                (on_error "/api/admin/files/upload" "Only CSV files are allowed" 500, st)
              else if N.ltb UPLOAD_LIMIT (up_size (pt_file p)) then
                (on_error "/api/admin/files/upload" "File too large" 413, st)
              else
                let (r, st') := upload_handler bson_fits (Some (pt_file p)) (cl_email c) now st in
                (upload_json r (pt_file p) now, st')
          | None =>
              let (r, st') := upload_handler bson_fits None (cl_email c) now st in
              (match r with UploadErr s m => json_error s m | UploadOk _ _ _ => json_error 400 "No file uploaded" end, st')
          end
      end
  end.

End Upload.

(** ** Examples *)

Definition ex_page : string := "<!doctype html><html><head><title>IndiraGPT</title></head><body></body></html>".

Definition ex_site : site :=
  {| distExists := true; index_html := Some ex_page; static_files := []; geminiKey := Some "AIza-test'key" |}.

(** The revenue file as the admin page sends it. *)
Definition ex_csv_part : part := {| pt_mimetype := "text/csv"; pt_file := ex_upload "revenue.csv" ex_revenue_csv |}.

(** A spreadsheet export whose name holds an escape. *)
Definition ex_part_name : string := "q1%2024.csv".

Definition ex_escaped_db : db := ex_after ex_part_name ex_revenue_csv ex_db.

(** The example database after the admin uploaded the revenue file. *)
Definition ex_served : db := ex_after "revenue.csv" ex_revenue_csv ex_db.

(** ** Lemmas *)

Lemma ends_with_none c s : none_of (is_char c) s = true -> ends_with s (String c EmptyString) = false.
Proof.
  intros H. unfold ends_with. change (rev_string (String c EmptyString)) with (String c EmptyString).
  unfold none_of in H. rewrite <- all_chars_rev in H.
  destruct (rev_string s) as [|a t]; [reflexivity|]. cbn in H |- *. apply andb_prop in H as [Ha _].
  unfold is_char in Ha. destruct (ascii_dec c a) as [<-|]; [|reflexivity]. now rewrite Ascii.eqb_refl in Ha.
Qed.





(** The one record of a file name, active, is what the routes find. *)
Lemma find_active_single f st d :
  List.filter (named f) (csvFiles st) = [d] -> fd_isActive d = true -> find_active_file f st = Some d.
Proof.
  unfold find_active_file. induction (csvFiles st) as [|x l IH]; cbn; [discriminate|].
  unfold named at 1. destruct (String.eqb (fd_fileName x) f) eqn:E; cbn.
  - intros Hl Ha. injection Hl as -> Hn. now rewrite Ha.
  - exact IH.
Qed.

Lemma upload_limit_small n : (n <= sixteen_mib)%N -> N.ltb UPLOAD_LIMIT n = false.
Proof. intros Hn. apply N.ltb_ge. unfold UPLOAD_LIMIT, sixteen_mib in *. lia. Qed.

(** The encoded form has no [/], so it is one path segment. *)
Lemma encode_no_slash f : none_of (is_char "/") (encodeURIComponent f) = true.
Proof.
  apply encode_none_of; [reflexivity| |].
  - intros n Hn. do 16 (destruct n as [|n]; [reflexivity|]). lia.
  - intros c Hc. unfold unreserved, is_alnum, is_digit, is_upper, is_lower, in_range, is_char in *.
    destruct (Ascii.eqb_spec c "/") as [->|]; [discriminate|reflexivity].
Qed.

Lemma encode_nonempty f : f <> EmptyString -> encodeURIComponent f <> EmptyString.
Proof.
  intros Hf He. pose proof (encode_length f) as L. rewrite He in L. destruct f; [easy|cbn in L; lia].
Qed.

Lemma lower_data x : lower ("/data/" ++ x) = "/data/" ++ lower x.
Proof. apply map_chars_app. Qed.

(** The page, health and root routes do not take a [/data/] path. *)
Lemma route_is_data x l : In l ["/"; "/index.html"; "/health"] -> route_is ("/data/" ++ x) l = false.
Proof. unfold route_is. rewrite lower_data. intros [<-|[<-|[<-|[]]]]; reflexivity. Qed.

Lemma data_param_segment x :
  x <> EmptyString -> none_of (is_char "/") x = true -> data_param ("/data/" ++ x) = Some x.
Proof.
  intros Hx Hs. unfold data_param. rewrite lower_data, prefix_app.
  change 6 with (String.length "/data/"). rewrite str_length_append, Nat.add_sub_swap, Nat.sub_diag by lia.
  rewrite substring_after_le by lia. rewrite ends_with_none, includes_char_none by exact Hs.
  destruct (String.eqb_spec x "") as [->|]; [contradiction|reflexivity].
Qed.

(** A name of an active CSV file kept in the collection, requested by its
    encoded form, is served. *)
Lemma data_file_found f st d c :
  utf8_valid f = true -> none_of (is_char "%") f = true -> ends_with f ".csv" = true ->
  connected st = true -> find_active_file f st = Some d -> fd_storedInGridFS d = false ->
  fd_fileContent d = Some c -> c <> EmptyString ->
  data_file (encodeURIComponent f) st = RText 200 "text/csv" c.
Proof.
  intros Hv Hp He Hc Hf Hg Hd Hne. unfold data_file.
  unfold decodeURIComponent at 1. rewrite (decode_encode_go (String.length f) f _ Hv (encode_length f)).
  rewrite decode_plain, He, Hc by exact Hp. cbn [negb]. unfold find_csv. rewrite Hf, Hd, Hg.
  destruct (String.eqb_spec c "") as [->|]; [contradiction|]. rewrite andb_false_r. reflexivity.
Qed.

(** [C4] Unauthenticated download: the [/data/:filename] route has no
    authentication middleware.  For an active CSV file kept in the
    collection, a request without any token for its encoded name returns
    its whole content, while the query API refuses the same file with 403
    to a signed-in user who has no access to it. *)
Theorem data_download_unauthenticated `{AggEngine} w st f d c email u :
  distExists w = true -> connected st = true ->
  utf8_valid f = true -> none_of (is_char "%") f = true -> ends_with f ".csv" = true ->
  find_active_file f st = Some d -> fd_storedInGridFS d = false -> fd_fileContent d = Some c -> c <> EmptyString ->
  find_user email st = Some u -> is_admin u = false -> str_mem f (accessible u) = false ->
  query_handler email [("pipeline", JArr []); ("fileName", JStr f)] st = QueryErr 403 "Access denied to this file" /\
  serve_get w ("/data/" ++ encodeURIComponent f) st = RText 200 "text/csv" c.
Proof.
  intros Hw Hc Hv Hp He Hf Hg Hd Hne Hu Ha Hm.
  assert (Hf0 : f <> EmptyString) by (intros ->; discriminate).
  split.
  - unfold query_handler. cbv zeta.
    change (body_field _ "fileName") with (JStr f). change (body_field _ "pipeline") with (JArr []).
    rewrite Hc, Hu, Ha, has_access_accessible, Hm.
    cbn. destruct (String.eqb_spec f "") as [->|]; [contradiction|reflexivity].
  - unfold serve_get. rewrite Hw, !route_is_data by (cbn; tauto).
    rewrite data_param_segment by (auto using encode_nonempty, encode_no_slash).
    rewrite (data_file_found f st d c); auto.
Qed.





(** [C21] Upload then public download: an admin's upload of a small CSV
    file through the whole route (both middlewares, the multer filter and
    limit, then the handler) answers 201 with the columns (the cleaned
    headers followed by the [_id] that [insertMany] adds) and the row
    count, and from then on anyone, without a token, gets the uploaded
    text back from [GET /data/<encoded name>]. *)
Theorem upload_then_public_download `{CsvParser} `{TokenService} (bson_fits : fileDoc -> bool) w t0 c p now st recs :
  let u := pt_file p in
  cl_role c = "admin" -> (t0 <= now < t0 + token_lifetime)%Z ->
  csv_filter (pt_mimetype p) (up_name u) = true ->
  small_upload bson_fits st u (cl_email c) now -> csv_parse (up_content u) = Some recs -> recs <> [] ->
  distExists w = true -> utf8_valid (up_name u) = true -> none_of (is_char "%") (up_name u) = true ->
  ends_with (up_name u) ".csv" = true ->
  let res := upload_route bson_fits (Some ("Bearer " ++ sign t0 c)) (Some p) now st in
  fst res = upload_json (UploadOk (Some (getCollectionName (up_name u))) (headers_of (map cleanRow recs)) (length recs)) u now /\
  serve_get w ("/data/" ++ encodeURIComponent (up_name u)) (snd res) = RText 200 "text/csv" (up_content u).
Proof.
  intros u Hr Ht Hf Hs Hp Hne Hw Hv Hpc He res. subst res.
  pose proof (upload_replaces_ok bson_fits st u (cl_email c) now recs Hs Hp Hne) as (Hres & _ & Hone).
  pose proof Hs as (Hc & Hsz & _ & _ & Hcne). pose proof (upload_small_meta bson_fits st u (cl_email c) now Hs) as [_ Hc'].
  unfold upload_route. rewrite auth_sign by exact Ht. unfold requireAdmin. rewrite Hr, String.eqb_refl.
  fold u. rewrite Hf, upload_limit_small by exact Hsz. cbn [negb].
  destruct (upload_handler bson_fits (Some u) (cl_email c) now st) as [r st'] eqn:E. cbn [fst snd] in *.
  subst r. split; [reflexivity|].
  unfold serve_get. rewrite Hw, !route_is_data by (cbn; tauto).
  assert (Hu0 : up_name u <> EmptyString) by (intros E0; rewrite E0 in He; discriminate).
  rewrite data_param_segment by (auto using encode_nonempty, encode_no_slash).
  erewrite data_file_found; [reflexivity|try assumption..].
  - now rewrite Hc'.
  - apply find_active_single; [exact Hone|reflexivity].
  - reflexivity.
  - reflexivity.
Qed.

(** Error path: a file the multer filter refuses (neither of type
    [text/csv] nor named [*.csv]) sent by an admin is answered by the
    global error handler with status 500, "Internal server error" and the
    filter's message, a client error reported as a server failure; nothing
    is stored. *)
Theorem upload_non_csv_internal_error `{CsvParser} `{TokenService} (bson_fits : fileDoc -> bool) t0 c p now st :
  cl_role c = "admin" -> (t0 <= now < t0 + token_lifetime)%Z ->
  csv_filter (pt_mimetype p) (up_name (pt_file p)) = false ->
  upload_route bson_fits (Some ("Bearer " ++ sign t0 c)) (Some p) now st =
  (RJson 500 (JObj [("error", JStr "Internal server error"); ("message", JStr "Only CSV files are allowed")]), st).
Proof.
  intros Hr Ht Hf. unfold upload_route. rewrite auth_sign by exact Ht. unfold requireAdmin.
  rewrite Hr, String.eqb_refl, Hf. reflexivity.
Qed.

(** Double decoding: the route decodes the name Express has already
    decoded.  A file whose name holds a valid escape such as [%20] is
    looked up under the decoded name: requested by its encoded name it is
    answered 404, even while it is active. *)
Theorem data_double_decoded w st f f' :
  distExists w = true -> connected st = true -> utf8_valid f = true ->
  decodeURIComponent f = Some f' -> f' <> f -> ends_with f' ".csv" = true ->
  find_active_file f' st = None -> decodeURIComponent f' = Some f' ->
  serve_get w ("/data/" ++ encodeURIComponent f) st = json_error 404 ("CSV file not found: " ++ f').
Proof.
  intros Hw Hc Hv Hd Hne He Hn Hd'.
  assert (Hf0 : f <> EmptyString) by (intros ->; cbn in Hd; injection Hd as <-; now apply Hne).
  unfold serve_get. rewrite Hw, !route_is_data by (cbn; tauto).
  rewrite data_param_segment by (auto using encode_nonempty, encode_no_slash).
  unfold data_file. unfold decodeURIComponent at 1.
  rewrite (decode_encode_go (String.length f) f _ Hv (encode_length f)), Hd, He, Hc. cbn [negb].
  unfold find_csv. rewrite Hn, Hd', String.eqb_refl. reflexivity.
Qed.

(** ** Witnesses *)


(** A key with [$&] is not placed as it is: [replace] puts the matched
    [<head>] in its place, so the page's literal reads back another key. *)
Lemma dollar_key_expanded :
  match inject_html (Some ex_page) "AIza$&key" with
  | RText _ _ body => includes body "__GEMINI_API_KEY__ = 'AIza<head>key'"
  | _ => false
  end = true.
Proof. vm_compute. reflexivity. Qed.

Lemma data_download_unauthenticated_witness :
  @query_handler mini_engine "analyst@indira.com" [("pipeline", JArr []); ("fileName", JStr "revenue.csv")] ex_served
    = QueryErr 403 "Access denied to this file" /\
  serve_get ex_site ("/data/" ++ encodeURIComponent "revenue.csv") ex_served = RText 200 "text/csv" ex_revenue_csv.
Proof.
  eapply (@data_download_unauthenticated mini_engine ex_site ex_served "revenue.csv" _ ex_revenue_csv
            "analyst@indira.com" ex_user); try (vm_compute; reflexivity).
  discriminate.
Defined.

Lemma upload_then_public_download_witness :
  let res := @upload_route simple_csv ex_tokens (fun _ => true)
               (Some ("Bearer " ++ @sign ex_tokens 0 (claims_of ex_admin))) (Some ex_csv_part) 1 ex_db in
  serve_get ex_site ("/data/" ++ encodeURIComponent "revenue.csv") (snd res) = RText 200 "text/csv" ex_revenue_csv.
Proof.
  intros res.
  destruct (@upload_then_public_download simple_csv ex_tokens (fun _ => true) ex_site 0 (claims_of ex_admin)
              ex_csv_part 1 ex_db (ex_rows ex_revenue_csv) eq_refl ltac:(unfold token_lifetime; lia)
              ltac:(vm_compute; reflexivity)
              ltac:(repeat split; [vm_compute; discriminate|vm_compute; discriminate])
              ltac:(vm_compute; reflexivity) ltac:(vm_compute; discriminate)
              eq_refl ltac:(vm_compute; reflexivity) ltac:(vm_compute; reflexivity)
              ltac:(vm_compute; reflexivity)) as [_ H].
  exact H.
Defined.

Lemma upload_non_csv_internal_error_witness :
  @upload_route simple_csv ex_tokens (fun _ => true) (Some ("Bearer " ++ @sign ex_tokens 0 (claims_of ex_admin)))
    (Some {| pt_mimetype := "application/vnd.ms-excel"; pt_file := ex_upload "revenue.xlsx" ex_revenue_csv |}) 1 ex_db =
  (RJson 500 (JObj [("error", JStr "Internal server error"); ("message", JStr "Only CSV files are allowed")]), ex_db).
Proof. apply upload_non_csv_internal_error; [reflexivity|unfold token_lifetime; lia|vm_compute; reflexivity]. Defined.

Lemma data_double_decoded_witness :
  find_active_file ex_part_name ex_escaped_db <> None /\
  serve_get ex_site ("/data/" ++ encodeURIComponent ex_part_name) ex_escaped_db =
  json_error 404 ("CSV file not found: " ++ "q1 24.csv").
Proof.
  split; [vm_compute; discriminate|].
  apply data_double_decoded; [reflexivity|vm_compute; reflexivity|vm_compute; reflexivity|vm_compute; reflexivity
    |discriminate|vm_compute; reflexivity|vm_compute; reflexivity|vm_compute; reflexivity].
Defined.

End Serving.
