(* ===== verification/Client.v ===== *)
(** The client side of authentication and administration
    ([src/frontend/index.tsx]): the request each function of [authAPI]
    sends (lines 1205-1428), how it reads the answer, and [checkAuth]
    (lines 2250-2276), which asks the server for the current user and the
    user's accessible files when the page loads.  On the server side, the
    Express routes of the user administration API (lines 563-722 and
    1038-1096) take the raw path of the request: the [:email] parameter is
    decoded by Express before the handlers of [Admin] see it, and a
    malformed escape is an error the global handler answers.  The two
    sides meet through [encodeURIComponent] and [decodeURIComponent].

    Requests of [checkAuth] reach the server one after the other: the
    database may change between them (another admin's request, a lost
    connection), so [checkAuth] takes the state of each request. *)

From Stdlib Require Import String Ascii List Bool Arith Lia ZArith NArith QArith.
From S2P Require Import Prelude Regex JsValue Uri Store Access Admin Serving.
Import ListNotations.
Open Scope string_scope.
Open Scope nat_scope.

Module Client.
Import Store Access Admin Uri Serving.

Inductive meth := GET | POST | PUT | DELETE.

(** A [fetch] request: method, path, [Authorization] header and JSON body. *)
Record http_req := { rq_method : meth; rq_path : string; rq_auth : option string; rq_body : jv }.

Definition API_BASE : string := "/api".

Definition bearer_of (token : string) : option string := Some ("Bearer " ++ token).

(** ** The requests of [authAPI] *)

(** [DELETE /admin/users/:email] of [deleteUser] (lines 1302-1315). *)
Definition deleteUser_req (token email : string) : http_req :=
  {| rq_method := DELETE; rq_path := API_BASE ++ "/admin/users/" ++ encodeURIComponent email;
     rq_auth := bearer_of token; rq_body := JUndef |}.

(** [updateUserRole] (lines 1317-1333). *)
Definition updateUserRole_req (token email role : string) : http_req :=
  {| rq_method := PUT; rq_path := API_BASE ++ "/admin/users/" ++ encodeURIComponent email ++ "/role";
     rq_auth := bearer_of token; rq_body := JObj [("role", JStr role)] |}.

(** [getUserFiles] (lines 1364-1377). *)
Definition getUserFiles_req (token email : string) : http_req :=
  {| rq_method := GET; rq_path := API_BASE ++ "/admin/users/" ++ encodeURIComponent email ++ "/files";
     rq_auth := bearer_of token; rq_body := JUndef |}.

(** [updateUserFiles] (lines 1379-1396). *)
Definition updateUserFiles_req (token email : string) (fileNames : list string) : http_req :=
  {| rq_method := PUT; rq_path := API_BASE ++ "/admin/users/" ++ encodeURIComponent email ++ "/files";
     rq_auth := bearer_of token; rq_body := JObj [("fileNames", JArr (map JStr fileNames))] |}.

(** [addUser] (lines 1281-1299). *)
Definition addUser_req (token email password role : string) (accessibleFiles : list string) : http_req :=
  {| rq_method := POST; rq_path := API_BASE ++ "/admin/users"; rq_auth := bearer_of token;
     rq_body := JObj [("email", JStr email); ("password", JStr password); ("role", JStr role);
                      ("accessibleFiles", JArr (map JStr accessibleFiles))] |}.

(** ** The server's routes for them *)

(** A string field of the body; the client sends strings only. *)
Definition str_field (body : jv) (k : string) : string :=
  match get_field body k with JStr s => s | _ => "" end.

(** An array field: [Array.isArray(v)] and its string elements. *)
Definition str_list (v : jv) : option (list string) :=
  match v with
  | JArr l => Some (map (fun x => match x with JStr s => s | _ => "" end) l)
  | _ => None
  end.

(** Express's decoding of a route parameter failed: the [URIError] goes to
    the global error handler, which answers 500 on an [/api/] path. *)
Definition decode_failure (seg : string) : response :=
  (500, JObj [("error", JStr "Internal server error");
              ("message", JStr ("Failed to decode param '" ++ seg ++ "'"))]).

(** The path after [/api/admin/users/]: the parameter segment and the
    rest ([""], ["/role"] or ["/files"]). *)
Fixpoint split_segment (s : string) : string * string :=
  match s with
  | EmptyString => (EmptyString, EmptyString)
  | String "/" t => (EmptyString, s)
  | String a t => let (x, r) := split_segment t in (String a x, r)
  end.

Section Services.
Context `{PasswordHasher} `{TokenService}.

(** The user administration routes, [None] for a request none of them
    matches. *)
Definition admin_users_api (r : http_req) (now : Z) (st : db) : option (response * db) :=
  let h := rq_auth r in
  let body := rq_body r in
  if String.eqb (rq_path r) "/api/admin/users" then
    match rq_method r with
    | POST => Some (handle (RAddUser h (str_field body "email") (str_field body "password") (str_field body "role")
                              (str_list (get_field body "accessibleFiles"))) now st)
    | GET => Some (admin_route h now st (fun _ => (list_users st, st)))
    | _ => None
    end
  else match Regex.strip_prefix "/api/admin/users/" (rq_path r) with
  | None => None
  | Some rest =>
      let (seg, tail) := split_segment rest in
      if String.eqb seg "" then None else
      let with_param k := match decodeURIComponent seg with
                          | None => Some (decode_failure seg, st)
                          | Some email => Some (k email)
                          end in
      match rq_method r, tail with
      | DELETE, EmptyString => with_param (fun e => handle (RDeleteUser h e) now st)
      | PUT, "/role" => with_param (fun e => handle (RUpdateRole h e (str_field body "role")) now st)
      | GET, "/files" => with_param (fun e => admin_route h now st (fun _ => (get_user_files e st, st)))
      | PUT, "/files" => with_param (fun e => handle (RPutFiles h e (str_list (get_field body "fileNames"))) now st)
      | _, _ => None
      end
  end.

(** [GET /api/auth/me] (lines 500-523). *)
Definition me_route (header : option string) (now : Z) (st : db) : response :=
  match authenticateToken header now with inr r => r | inl c => me c st end.

(** [GET /api/user/files] (lines 1098-1123). *)
Definition user_files_route (header : option string) (now : Z) (st : db) : response :=
  match authenticateToken header now with
  | inr r => r
  | inl c =>
      if negb (connected st) then err 503 DB_DOWN
      else match user_files_handler (cl_email c) st with
           | Some l => (200, JArr (map JStr l))
           | None => err 404 "User not found"
           end
  end.

(** ** How the client reads the answers *)

Definition ok (status : nat) : bool := (200 <=? status) && (status <? 300).

(** What a call of [authAPI] gives back: a value or the message of the
    error it throws. *)
Inductive outcome := Done (v : jv) | Thrown (msg : string).

(** [getCurrentUser] (lines 1235-1253) on the answer of its request; the
    flag says whether [auth_token] is removed. *)
Definition getCurrentUser_res (resp : response) : outcome * bool :=
  let (status, body) := resp in
  if ok status then (Done body, false)
  else if Nat.eqb status 401 then (Thrown "Session expired", true)
  else (Thrown (match get_field body "error" with JStr e => if String.eqb e "" then "Failed to get user" else e
                                                  | _ => "Failed to get user" end), false).

(** [f => typeof f === 'string' ? f : (f.fileName || f.name || f)]. *)
Definition file_name_of (f : jv) : jv :=
  match f with
  | JStr _ => f
  | _ => if truthy (get_field f "fileName") then get_field f "fileName"
         else if truthy (get_field f "name") then get_field f "name" else f
  end.

(** [getUserAccessibleFiles] (lines 1399-1422): [None] is a [fetch] that
    throws; every failure gives the empty list. *)
Definition getUserAccessibleFiles_res (resp : option response) : list jv :=
  match resp with
  | Some (status, JArr files) => if ok status then map file_name_of files else []
  | _ => []
  end.

(** The state [checkAuth] writes. *)
Record auth_state := {
  a_token : option string;        (** [localStorage.auth_token] *)
  a_user : option jv;             (** [user] *)
  a_files : list jv;              (** [userAccessibleFiles] *)
  a_filesLoaded : bool;
  a_authLoading : bool
}.

Definition initial (token : option string) : auth_state :=
  {| a_token := token; a_user := None; a_files := []; a_filesLoaded := false; a_authLoading := true |}.

(** [checkAuth] with the database [st1] at [GET /api/auth/me] and [st2]
    at [GET /api/user/files]. *)
Definition checkAuth (token : option string) (now : Z) (st1 st2 : db) : auth_state :=
  match token with
  | None => {| a_token := None; a_user := None; a_files := []; a_filesLoaded := true; a_authLoading := false |}
  | Some t =>
      match getCurrentUser_res (me_route (bearer_of t) now st1) with
      | (Done u, _) =>
          {| a_token := Some t; a_user := Some u;
             a_files := getUserAccessibleFiles_res (Some (user_files_route (bearer_of t) now st2));
             a_filesLoaded := true; a_authLoading := false |}
      | (Thrown _, _) =>
          {| a_token := None; a_user := None; a_files := []; a_filesLoaded := true; a_authLoading := false |}
      end
  end.

(** ** Signing in and out *)

(** [authAPI.login] (lines 1206-1232): [POST /api/auth/login]. *)
Definition login_req (email password : string) : http_req :=
  {| rq_method := POST; rq_path := API_BASE ++ "/auth/login"; rq_auth := None;
     rq_body := JObj [("email", JStr email); ("password", JStr password)] |}.

Definition CONNECT_MESSAGE : string :=
  "Cannot connect to server. Please make sure the Express server is running on port 5005. Run: npm run dev:server".

(** How [login] reads the answer: the body of a success, or the message
    it throws, rewritten by its [catch] when it mentions JSON.  Every
    answer of [POST /api/auth/login] is JSON, so the content-type check of
    lines 1214-1219 passes. *)
Definition login_res (resp : response) : outcome :=
  let (status, body) := resp in
  if ok status then Done body
  else
    let m := match get_field body "error" with
             | JStr e => if String.eqb e "" then "Login failed" else e
             | _ => "Login failed"
             end in
    Thrown (if includes m "JSON" then CONNECT_MESSAGE else m).

(** [LoginPage.handleSubmit] (lines 1611-1625) with [App.handleLogin]
    (lines 2291-2294): the token is stored and the user set; the error of
    the login form is the second component. *)
Definition login_submit (a : auth_state) (resp : response) : auth_state * string :=
  match login_res resp with
  | Done body =>
      let token := match get_field body "token" with JStr t => t | _ => "" end in
      ({| a_token := Some token; a_user := Some (get_field body "user"); a_files := a_files a;
          a_filesLoaded := a_filesLoaded a; a_authLoading := a_authLoading a |}, "")
  | Thrown m =>
      (a, if String.eqb m "" then "Login failed" else m)
  end.

(** [App.handleLogout] (lines 2296-2300) after [authAPI.logout]: the token
    is removed and the user cleared; the accessible list is left as it
    was. *)
Definition logout_client (a : auth_state) : auth_state :=
  {| a_token := None; a_user := None; a_files := a_files a; a_filesLoaded := a_filesLoaded a;
     a_authLoading := a_authLoading a |}.

(** The login form sent to [POST /api/auth/login]: the page's state, the
    form's error and the database after the request. *)
Definition login_flow (email password : string) (now : Z) (st : db) (a : auth_state) : auth_state * string * db :=
  let r := login_req email password in
  let (resp, st') := login (str_field (rq_body r) "email") (str_field (rq_body r) "password") now st in
  let (a', e) := login_submit a resp in (a', e, st').

End Services.

(** ** Examples *)

(** The database after an admin deleted the analyst's account. *)
Definition ex_after_delete : db :=
  snd (@handle ex_hasher ex_tokens (RDeleteUser (bearer_of (@sign ex_tokens 0 (claims_of ex_admin))) "analyst@indira.com")
         1 ex_db).

(** ** Lemmas *)

Lemma users_path x : API_BASE ++ "/admin/users/" ++ x = "/api/admin/users/" ++ x.
Proof. reflexivity. Qed.

(** A segment without [/] followed by the rest of the path. *)
Lemma split_segment_app x tail :
  none_of (is_char "/") x = true -> head_is (is_char "/") tail = true \/ tail = EmptyString ->
  split_segment (x ++ tail) = (x, tail).
Proof.
  intros Hx Ht. induction x as [|a x IH].
  - destruct Ht as [Ht| ->]; [|reflexivity]. destruct tail as [|b t]; [discriminate|].
    cbn in Ht. unfold is_char in Ht. destruct (Ascii.eqb_spec b "/") as [->|]; [reflexivity|discriminate].
  - cbn in Hx. apply andb_prop in Hx as [Ha Hx]. unfold is_char in Ha. apply negb_true_iff in Ha.
    change (String a x ++ tail) with (String a (x ++ tail)). cbn [split_segment].
    rewrite IH by exact Hx.
    destruct (Ascii.eqb_spec a "/") as [->|]; [discriminate|].
    destruct a as [[] [] [] [] [] [] [] []]; try reflexivity; congruence.
Qed.

Lemma decode_encoded e : utf8_valid e = true -> decodeURIComponent (encodeURIComponent e) = Some e.
Proof. intros Hv. apply (decode_encode_go (String.length e)); [exact Hv|apply encode_length]. Qed.

Lemma str_list_strings l : str_list (JArr (map JStr l)) = Some l.
Proof. cbn. f_equal. rewrite map_map. apply map_id. Qed.

Section RouteFacts.
Context `{PasswordHasher} `{TokenService}.

(** The route taken by a request on [/api/admin/users/<encoded e><tail>]. *)
Lemma admin_users_api_param m e tail h body now st :
  utf8_valid e = true -> e <> EmptyString -> head_is (is_char "/") tail = true \/ tail = EmptyString ->
  admin_users_api {| rq_method := m; rq_path := "/api/admin/users/" ++ encodeURIComponent e ++ tail;
                     rq_auth := h; rq_body := body |} now st =
  match m, tail with
  | DELETE, EmptyString => Some (handle (RDeleteUser h e) now st)
  | PUT, "/role" => Some (handle (RUpdateRole h e (str_field body "role")) now st)
  | GET, "/files" => Some (admin_route h now st (fun _ => (get_user_files e st, st)))
  | PUT, "/files" => Some (handle (RPutFiles h e (str_list (get_field body "fileNames"))) now st)
  | _, _ => None
  end.
Proof.
  intros Hv He Ht. unfold admin_users_api. cbn [rq_path rq_method rq_auth rq_body].
  replace (String.eqb _ "/api/admin/users") with false by reflexivity.
  rewrite Regex.strip_prefix_app, split_segment_app by (auto using encode_no_slash).
  destruct (String.eqb_spec (encodeURIComponent e) "") as [E|]; [now apply encode_nonempty in E|].
  rewrite decode_encoded by exact Hv. destruct m, tail as [|c [|]]; reflexivity.
Qed.

End RouteFacts.

(** ** Properties *)

(** [C22] Round trip through the URL: for every e-mail of well-formed
    UTF-8, the requests [deleteUser], [updateUserRole], [getUserFiles] and
    [updateUserFiles] build reach the server's handler for exactly that
    e-mail, with the token, role and file list the client sent:
    [encodeURIComponent] keeps the address in one path segment and
    Express's decoding gives it back. *)
Theorem client_admin_requests_roundtrip `{PasswordHasher} `{TokenService} token e role fs now st :
  utf8_valid e = true -> e <> EmptyString ->
  admin_users_api (deleteUser_req token e) now st = Some (handle (RDeleteUser (bearer_of token) e) now st) /\
  admin_users_api (updateUserRole_req token e role) now st =
    Some (handle (RUpdateRole (bearer_of token) e role) now st) /\
  admin_users_api (getUserFiles_req token e) now st =
    Some (admin_route (bearer_of token) now st (fun _ => (get_user_files e st, st))) /\
  admin_users_api (updateUserFiles_req token e fs) now st =
    Some (handle (RPutFiles (bearer_of token) e (Some fs)) now st).
Proof.
  intros Hv He. unfold deleteUser_req, updateUserRole_req, getUserFiles_req, updateUserFiles_req.
  rewrite !users_path. rewrite <- (append_nil_r (encodeURIComponent e)) at 1.
  rewrite !admin_users_api_param by (auto; left; reflexivity).
  change (str_field (JObj [("role", JStr role)]) "role") with role.
  change (get_field (JObj [("fileNames", JArr (map JStr fs))]) "fileNames") with (JArr (map JStr fs)).
  rewrite str_list_strings. repeat split; reflexivity.
Qed.

(** [C12] Fail-open on error: when the database changes between the two
    requests of [checkAuth] so that [GET /api/user/files] fails (the
    connection is lost, or an admin deleted the account in between), the
    client keeps the signed-in user and sets [userAccessibleFiles] to the
    empty list, which the access checks read as "no restriction". *)
Theorem checkAuth_fail_open `{TokenService} t0 c now st1 st2 u ts q r :
  (t0 <= now < t0 + token_lifetime)%Z ->
  connected st1 = true -> find_user (cl_email c) st1 = Some u ->
  connected st2 = false \/ find_user (cl_email c) st2 = None ->
  let a := checkAuth (Some (sign t0 c)) now st1 st2 in
  a_user a = Some (snd (me c st1)) /\ a_files a = [] /\ a_token a = Some (sign t0 c) /\
  validateQuestionAccess [] ts q = (true, []) /\ validateResponseAccess [] ts r = (true, []).
Proof.
  intros Ht Hc1 Hu1 H2 a. subst a. unfold checkAuth, me_route, user_files_route, bearer_of.
  rewrite auth_sign by exact Ht. unfold me at 1. rewrite Hc1, Hu1. cbn [negb getCurrentUser_res ok].
  unfold me. rewrite Hc1, Hu1. cbn [snd a_user a_files a_token].
  split; [reflexivity|]. split; [|repeat split].
  destruct H2 as [Hc2|Hu2].
  - rewrite Hc2. reflexivity.
  - destruct (connected st2); [|reflexivity]. cbn [negb]. unfold user_files_handler.
    rewrite Hu2. destruct (connected st2); reflexivity.
Qed.

Section LoginFacts.
Context `{PasswordHasher} `{TokenService}.

(** A successful sign-in through the form: the token and user the server
    returns are stored, the form shows no error, and every other field of
    the page's state is the one it had. *)
Lemma login_flow_success email password now st a u :
  connected st = true -> email <> "" -> password <> "" -> find_user (lower email) st = Some u ->
  compare password (u_passwordHash u) = true ->
  fst (login_flow email password now st a) =
    ({| a_token := Some (sign now (claims_of u));
        a_user := Some (JObj [("email", JStr (u_email u)); ("role", JStr (u_role u));
                              ("createdAt", time (u_createdAt u))]);
        a_files := a_files a; a_filesLoaded := a_filesLoaded a; a_authLoading := a_authLoading a |}, "").
Proof.
  intros Hc He Hp Hu Hpw. unfold login_flow, login_req. cbn [rq_body str_field get_field obj_get].
  rewrite ?String.eqb_refl. cbn - [login]. unfold login.
  rewrite Hc. apply String.eqb_neq in He, Hp. rewrite He, Hp. cbn [negb orb]. rewrite Hu, Hpw. cbn [negb].
  destruct (update_user _ _ _); reflexivity.
Qed.

End LoginFacts.

(** [C14] Signing out and in again without reloading the page keeps the
    accessible list of the account signed in before.  [App.handleLogout]
    clears the token and the user, [App.handleLogin] sets the new user, and
    neither touches [userAccessibleFiles], which only [checkAuth] writes
    when the page is mounted: after a successful sign-in as [u], the page
    holds [u]'s token and user, and the previous account's list (the empty
    list, unrestricted, on a page loaded signed out). *)
Theorem login_keeps_previous_files `{PasswordHasher} `{TokenService} email password now st a u :
  connected st = true -> email <> "" -> password <> "" -> find_user (lower email) st = Some u ->
  compare password (u_passwordHash u) = true ->
  let '(a', e) := fst (login_flow email password now st (logout_client a)) in
  a_token a' = Some (sign now (claims_of u)) /\
  a_user a' = Some (JObj [("email", JStr (u_email u)); ("role", JStr (u_role u));
                          ("createdAt", time (u_createdAt u))]) /\
  a_files a' = a_files a /\ e = "".
Proof.
  intros Hc He Hp Hu Hpw. rewrite (login_flow_success _ _ _ _ _ u Hc He Hp Hu Hpw).
  repeat split.
Qed.

(** ** Witnesses *)

Lemma client_admin_requests_roundtrip_witness :
  let tok := @sign ex_tokens 0 (claims_of ex_admin) in
  utf8_valid "dr.é+ops@indira.com" = true /\
  @admin_users_api ex_hasher ex_tokens (deleteUser_req tok "dr.é+ops@indira.com") 1 ex_db =
    Some (@handle ex_hasher ex_tokens (RDeleteUser (bearer_of tok) "dr.é+ops@indira.com") 1 ex_db).
Proof.
  intros tok. assert (Hv : utf8_valid "dr.é+ops@indira.com" = true) by (vm_compute; reflexivity).
  split; [exact Hv|].
  exact (proj1 (@client_admin_requests_roundtrip ex_hasher ex_tokens tok _ "user" [] 1 ex_db Hv ltac:(discriminate))).
Defined.

Lemma checkAuth_fail_open_witness :
  find_user "analyst@indira.com" ex_after_delete = None /\
  a_files (@checkAuth ex_tokens (Some (@sign ex_tokens 0 (claims_of ex_user))) 1 ex_db ex_after_delete) = [].
Proof.
  assert (Hd : find_user "analyst@indira.com" ex_after_delete = None) by (vm_compute; reflexivity).
  split; [exact Hd|].
  exact (proj1 (proj2 (@checkAuth_fail_open ex_tokens 0 (claims_of ex_user) 1 ex_db ex_after_delete ex_user [] "" ""
                  ltac:(unfold token_lifetime; lia) eq_refl ltac:(vm_compute; reflexivity) (or_intror Hd)))).
Defined.

(** The analyst's page, where the admin then signs in: the admin's page
    keeps the analyst's list. *)
Lemma login_keeps_previous_files_witness :
  let a := @checkAuth ex_tokens (Some (@sign ex_tokens 0 (claims_of ex_user))) 1 ex_db ex_db in
  a_files a = [JStr "CRM leads.csv"] /\
  a_files (fst (fst (@login_flow ex_hasher ex_tokens "Admin@indira.com" "admin123" 2 ex_db (logout_client a))))
    = [JStr "CRM leads.csv"].
Proof.
  intros a. assert (Ha : a_files a = [JStr "CRM leads.csv"]) by (vm_compute; reflexivity).
  split; [exact Ha|].
  pose proof (@login_keeps_previous_files ex_hasher ex_tokens "Admin@indira.com" "admin123" 2 ex_db a ex_admin
                eq_refl ltac:(discriminate) ltac:(discriminate) ltac:(vm_compute; reflexivity) eq_refl) as H.
  destruct (fst (login_flow _ _ _ _ _)) as [a' e]. cbn [fst]. destruct H as [_ [_ [-> _]]]. exact Ha.
Defined.

End Client.
