(* ===== verification/Panel.v ===== *)
(** * Panel: the admin panel of the frontend

    [AdminPanel] of src/frontend/index.tsx (lines 1699-1858): the page an
    admin uses to list the users and the files, add, delete and promote
    users, grant files to a user and upload CSV files.  Its state is the
    record [panel] (the [useState] hooks of lines 1700-1713 and the
    [dataNeedsReload] flag of [localStorage]); each handler is a function
    of the token in [localStorage], the time, the server's database and
    the panel, and gives the panel and the database after it.  The calls
    of [authAPI] (lines 1269-1397) go through the server's routes of
    [Client], [Admin] and [Serving]; the handlers [await] them one after
    the other, so the database is threaded through them in order.

    [loadData] sends its two requests together ([Promise.all]); both are
    reads, so their order does not matter.  When both fail, the model
    reports the users' error: which rejection [Promise.all] sees first
    depends on timing.  The panel's [handleLogout] (lines 1855-1858) is
    [authAPI.logout], whose route changes nothing, followed by
    [App.handleLogout]: [Client.logout_client]. *)

From Stdlib Require Import String Ascii List Bool Arith Lia ZArith NArith QArith.
From S2P Require Import Prelude Regex JsValue Uri Store Access Admin Reply Serving Client.
Import ListNotations.
Open Scope string_scope.
Open Scope nat_scope.

Module Panel.
Import Store Admin Uri Reply Serving Client.

(** The add-user form (lines 1705-1710). *)
Record form := {
  f_show : bool;                  (** [showAddUser] *)
  f_email : string;               (** [newUserEmail] *)
  f_password : string;            (** [newUserPassword] *)
  f_role : string;                (** [newUserRole] *)
  f_files : list string           (** [newUserFiles] *)
}.

Definition empty_form : form :=
  {| f_show := false; f_email := ""; f_password := ""; f_role := "user"; f_files := [] |}.

(** The state of [AdminPanel]. *)
Record panel := {
  p_users : jv;                   (** [users] *)
  p_files : jv;                   (** [files] *)
  p_loading : bool;
  p_error : string;
  p_selectedUser : option jv;
  p_form : form;
  p_addingUser : bool;
  p_uploadingFile : bool;
  p_uploadProgress : option (nat * nat);   (** [{ current, total }] *)
  p_lastSync : option Z;          (** [lastSync]: the time of the last refresh, [''] before it *)
  p_dataNeedsReload : bool        (** [localStorage.dataNeedsReload] *)
}.

Definition initial_panel : panel :=
  {| p_users := JArr []; p_files := JArr []; p_loading := true; p_error := ""; p_selectedUser := None;
     p_form := empty_form;
     p_addingUser := false; p_uploadingFile := false; p_uploadProgress := None; p_lastSync := None;
     p_dataNeedsReload := false |}.

(** ** The setters of the hooks *)

Definition setLists (us fs : jv) (now : Z) (p : panel) : panel :=
  {| p_users := us; p_files := fs; p_loading := p_loading p; p_error := p_error p;
     p_selectedUser := p_selectedUser p; p_form := p_form p; p_addingUser := p_addingUser p;
     p_uploadingFile := p_uploadingFile p; p_uploadProgress := p_uploadProgress p; p_lastSync := Some now;
     p_dataNeedsReload := p_dataNeedsReload p |}.

Definition setLoading (b : bool) (p : panel) : panel :=
  {| p_users := p_users p; p_files := p_files p; p_loading := b; p_error := p_error p;
     p_selectedUser := p_selectedUser p; p_form := p_form p; p_addingUser := p_addingUser p;
     p_uploadingFile := p_uploadingFile p; p_uploadProgress := p_uploadProgress p; p_lastSync := p_lastSync p;
     p_dataNeedsReload := p_dataNeedsReload p |}.

Definition setError (e : string) (p : panel) : panel :=
  {| p_users := p_users p; p_files := p_files p; p_loading := p_loading p; p_error := e;
     p_selectedUser := p_selectedUser p; p_form := p_form p; p_addingUser := p_addingUser p;
     p_uploadingFile := p_uploadingFile p; p_uploadProgress := p_uploadProgress p; p_lastSync := p_lastSync p;
     p_dataNeedsReload := p_dataNeedsReload p |}.

Definition setSelectedUser (s : option jv) (p : panel) : panel :=
  {| p_users := p_users p; p_files := p_files p; p_loading := p_loading p; p_error := p_error p;
     p_selectedUser := s; p_form := p_form p; p_addingUser := p_addingUser p;
     p_uploadingFile := p_uploadingFile p; p_uploadProgress := p_uploadProgress p; p_lastSync := p_lastSync p;
     p_dataNeedsReload := p_dataNeedsReload p |}.

Definition setForm (f : form) (p : panel) : panel :=
  {| p_users := p_users p; p_files := p_files p; p_loading := p_loading p; p_error := p_error p;
     p_selectedUser := p_selectedUser p; p_form := f; p_addingUser := p_addingUser p;
     p_uploadingFile := p_uploadingFile p; p_uploadProgress := p_uploadProgress p; p_lastSync := p_lastSync p;
     p_dataNeedsReload := p_dataNeedsReload p |}.

Definition setAddingUser (b : bool) (p : panel) : panel :=
  {| p_users := p_users p; p_files := p_files p; p_loading := p_loading p; p_error := p_error p;
     p_selectedUser := p_selectedUser p; p_form := p_form p; p_addingUser := b;
     p_uploadingFile := p_uploadingFile p; p_uploadProgress := p_uploadProgress p; p_lastSync := p_lastSync p;
     p_dataNeedsReload := p_dataNeedsReload p |}.

Definition setUploadingFile (b : bool) (p : panel) : panel :=
  {| p_users := p_users p; p_files := p_files p; p_loading := p_loading p; p_error := p_error p;
     p_selectedUser := p_selectedUser p; p_form := p_form p; p_addingUser := p_addingUser p;
     p_uploadingFile := b; p_uploadProgress := p_uploadProgress p; p_lastSync := p_lastSync p;
     p_dataNeedsReload := p_dataNeedsReload p |}.

Definition setUploadProgress (x : option (nat * nat)) (p : panel) : panel :=
  {| p_users := p_users p; p_files := p_files p; p_loading := p_loading p; p_error := p_error p;
     p_selectedUser := p_selectedUser p; p_form := p_form p; p_addingUser := p_addingUser p;
     p_uploadingFile := p_uploadingFile p; p_uploadProgress := x; p_lastSync := p_lastSync p;
     p_dataNeedsReload := p_dataNeedsReload p |}.

(** [setLastSync(...)] and [localStorage.setItem('dataNeedsReload', 'true')]
    at the end of an upload. *)
Definition setSynced (now : Z) (p : panel) : panel :=
  {| p_users := p_users p; p_files := p_files p; p_loading := p_loading p; p_error := p_error p;
     p_selectedUser := p_selectedUser p; p_form := p_form p; p_addingUser := p_addingUser p;
     p_uploadingFile := p_uploadingFile p; p_uploadProgress := p_uploadProgress p; p_lastSync := Some now;
     p_dataNeedsReload := true |}.

(** ** The calls of [authAPI] *)

(** [GET /admin/users] of [getAllUsers] (lines 1269-1280). *)
Definition getAllUsers_req (token : string) : http_req :=
  {| rq_method := GET; rq_path := API_BASE ++ "/admin/users"; rq_auth := bearer_of token; rq_body := JUndef |}.

(** [GET /admin/files] of [getAllFiles] (lines 1335-1346). *)
Definition getAllFiles_req (token : string) : http_req :=
  {| rq_method := GET; rq_path := API_BASE ++ "/admin/files"; rq_auth := bearer_of token; rq_body := JUndef |}.

(** [if (!res.ok) throw new Error(error.error || default); return res.json()]. *)
Definition api_res (dflt : string) (resp : response) : outcome :=
  let (status, body) := resp in
  if ok status then Done body
  else Thrown (match get_field body "error" with
               | JStr e => if String.eqb e "" then dflt else e
               | _ => dflt
               end).

(** [err.message || default] in the handlers' [catch]. *)
Definition msg_or (m dflt : string) : string := if String.eqb m "" then dflt else m.

(** The selected user's files: [selectedUser.accessibleFiles || []]; the
    server sends them as an array of strings. *)
Definition files_of (u : jv) : list string :=
  match str_list (get_field u "accessibleFiles") with Some l => l | None => [] end.

(** [{ ...user, k: v }]. *)
Definition spread_set (u : jv) (k : string) (v : jv) : jv :=
  match u with JObj o => JObj (obj_set k v o) | _ => JObj [(k, v)] end.

(** [selectedUser?.email === email]. *)
Definition selected_is (s : option jv) (email : string) : bool :=
  match s with
  | Some u => match get_field u "email" with JStr e => String.eqb e email | _ => false end
  | None => false
  end.

(** The new list of [handleFileToggle] (lines 1816-1818). *)
Definition toggle_files (fileName : string) (currentFiles : list string) : list string :=
  if str_mem fileName currentFiles then List.filter (fun f => negb (String.eqb f fileName)) currentFiles
  else currentFiles ++ [fileName].

(** [fileArray.filter(file => !file.name.endsWith('.csv'))]. *)
Definition invalid_names (names : list string) : list string :=
  List.filter (fun n => negb (ends_with n ".csv")) names.

Section Calls.
Context `{PasswordHasher} `{TokenService} `{CsvParser}.
Variable bson_fits : fileDoc -> bool.

(** The admin routes the panel reaches: [GET /api/admin/files] (lines
    729-841) and the user routes of [Client.admin_users_api]. *)
Definition admin_api (r : http_req) (now : Z) (st : db) : option (response * db) :=
  match rq_method r with
  | GET => if String.eqb (rq_path r) "/api/admin/files"
           then Some (admin_route (rq_auth r) now st (fun _ => (admin_files st, st)))
           else admin_users_api r now st
  | _ => admin_users_api r now st
  end.

(** A call of [authAPI] with the token of [localStorage]: without one it
    throws ["Not authenticated"] before any request.  Every request the
    panel builds has a route ([admin_api] is [Some]); the last branch is
    not reached. *)
Definition call (dflt : string) (mk : string -> http_req) (tok : option string) (now : Z) (st : db)
  : outcome * db :=
  match tok with
  | None => (Thrown "Not authenticated", st)
  | Some t =>
      match admin_api (mk t) now st with
      | Some (resp, st') => (api_res dflt resp, st')
      | None => (Thrown dflt, st)
      end
  end.

(** [uploadFile] (lines 1348-1362): the [multipart] request of
    [POST /api/admin/files/upload], answered by [Serving.upload_route].
    Every answer of that route on an [/api/] path is JSON. *)
Definition uploadFile (tok : option string) (pt : part) (now : Z) (st : db) : outcome * db :=
  match tok with
  | None => (Thrown "Not authenticated", st)
  | Some t =>
      let (rep, st') := upload_route bson_fits (bearer_of t) (Some pt) now st in
      match rep with
      | RJson s b => (api_res "Failed to upload file" (s, b), st')
      | _ => (Thrown "Failed to upload file", st')
      end
  end.

End Calls.

(** ** The handlers *)

Section Handlers.
Context `{PasswordHasher} `{TokenService} `{CsvParser}.
Variable bson_fits : fileDoc -> bool.

(** [loadData] (lines 1719-1734). *)
Definition loadData (tok : option string) (now : Z) (st : db) (p : panel) : panel * db :=
  let p1 := setLoading true p in
  let (r1, st1) := call "Failed to get users" getAllUsers_req tok now st in
  let (r2, st2) := call "Failed to load files" getAllFiles_req tok now st1 in
  let p2 := match r1, r2 with
            | Done us, Done fs => setLists us fs now p1
            | Thrown m, _ | Done _, Thrown m => setError (msg_or m "Failed to load data") p1
            end in
  (setLoading false p2, st2).

(** The loop of [handleFileUpload] (lines 1756-1764): file [i] of
    [total]; a failure is logged and the loop goes on. *)
Fixpoint upload_all (tok : option string) (now : Z) (i total : nat) (fs : list part) (p : panel) (st : db)
  : panel * db :=
  match fs with
  | [] => (p, st)
  | f :: fs' =>
      let (r, st') := uploadFile bson_fits tok f now st in
      let p' := match r with
                | Done _ => setUploadProgress (Some (S i, total)) p
                | Thrown _ => p
                end in
      upload_all tok now (S i) total fs' p' st'
  end.

(** [handleFileUpload] (lines 1736-1780) on the selected files.  The
    [catch] of lines 1772-1774 is not reached: [loadData] catches its own
    errors.  The [reloadData] event it dispatches reaches the main page's
    [handleDataReload], which the model leaves out. *)
Definition handleFileUpload (tok : option string) (now : Z) (st : db) (p : panel) (files : list part)
  : panel * db :=
  match files with
  | [] => (p, st)
  | _ =>
      let invalid := invalid_names (map (fun f => up_name (pt_file f)) files) in
      match invalid with
      | _ :: _ => (setError ("Only CSV files are allowed. Invalid files: " ++ join ", " invalid) p, st)
      | [] =>
          let total := length files in
          let p1 := setUploadProgress (Some (0, total)) (setError "" (setUploadingFile true p)) in
          let (p2, st2) := upload_all tok now 0 total files p1 st in
          let (p3, st3) := loadData tok now st2 p2 in
          (setUploadingFile false (setUploadProgress None (setSynced now p3)), st3)
      end
  end.

(** [handleAddUser] (lines 1782-1800) with the form's fields. *)
Definition handleAddUser (tok : option string) (now : Z) (st : db) (p : panel) : panel * db :=
  let p1 := setAddingUser true (setError "" p) in
  let fm := p_form p in
  let (r, st1) := call "Failed to add user"
                    (fun t => addUser_req t (f_email fm) (f_password fm) (f_role fm) (f_files fm)) tok now st in
  match r with
  | Done _ =>
      let (p2, st2) := loadData tok now st1 (setForm empty_form p1) in
      (setAddingUser false p2, st2)
  | Thrown m => (setAddingUser false (setError (msg_or m "Failed to add user") p1), st1)
  end.

(** [handleUserSelect] (lines 1802-1810). *)
Definition handleUserSelect (tok : option string) (now : Z) (st : db) (p : panel) (user : jv) : panel * db :=
  let p1 := setSelectedUser (Some user) p in
  let (r, st1) := call "Failed to load user files" (fun t => getUserFiles_req t (str_field user "email"))
                    tok now st in
  match r with
  | Done userFiles => (setSelectedUser (Some (spread_set user "accessibleFiles" userFiles)) p1, st1)
  | Thrown m => (setError (msg_or m "Failed to load user files") p1, st1)
  end.

(** [handleFileToggle] (lines 1812-1827). *)
Definition handleFileToggle (tok : option string) (now : Z) (st : db) (p : panel) (fileName : string)
  : panel * db :=
  match p_selectedUser p with
  | None => (p, st)
  | Some selectedUser =>
      let newFiles := toggle_files fileName (files_of selectedUser) in
      let (r, st1) := call "Failed to update user files"
                        (fun t => updateUserFiles_req t (str_field selectedUser "email") newFiles) tok now st in
      match r with
      | Done _ =>
          loadData tok now st1
            (setSelectedUser (Some (spread_set selectedUser "accessibleFiles" (JArr (map JStr newFiles)))) p)
      | Thrown m => (setError (msg_or m "Failed to update file access") p, st1)
      end
  end.

(** [handleDeleteUser] (lines 1829-1841); [confirmed] is the answer to
    [confirm(...)]. *)
Definition handleDeleteUser (tok : option string) (now : Z) (st : db) (p : panel) (email : string)
  (confirmed : bool) : panel * db :=
  if negb confirmed then (p, st) else
  let (r, st1) := call "Failed to delete user" (fun t => deleteUser_req t email) tok now st in
  match r with
  | Done _ =>
      loadData tok now st1 (if selected_is (p_selectedUser p) email then setSelectedUser None p else p)
  | Thrown m => (setError (msg_or m "Failed to delete user") p, st1)
  end.

(** [handleUpdateRole] (lines 1843-1853): the selection is updated after
    the refresh, from the value the handler started with. *)
Definition handleUpdateRole (tok : option string) (now : Z) (st : db) (p : panel) (email newRole : string)
  : panel * db :=
  let (r, st1) := call "Failed to update user role" (fun t => updateUserRole_req t email newRole) tok now st in
  match r with
  | Done _ =>
      let (p2, st2) := loadData tok now st1 p in
      match p_selectedUser p with
      | Some s => if selected_is (Some s) email
                  then (setSelectedUser (Some (spread_set s "role" (JStr newRole))) p2, st2)
                  else (p2, st2)
      | None => (p2, st2)
      end
  | Thrown m => (setError (msg_or m "Failed to update user role") p, st1)
  end.

End Handlers.

(** ** The add-user form's inputs (lines 1946-2007)

    The [onChange] handlers of the form: the "full identity" field shows
    the text before the first [@] and writes it back followed by
    [@indira.com]; no input sets [newUserRole].  The browser's own
    constraint validation ([required], [minLength], [type="email"]) before
    [onSubmit] is not modelled: the server checks the fields again. *)
Inductive form_input :=
| ToggleAddUser                            (** [setShowAddUser(!showAddUser)] *)
| SetIdentity (v : string)                 (** [setNewUserEmail(v + '@indira.com')] *)
| SetEmail (v : string)
| SetPassword (v : string)
| CheckFile (fileName : string) (checked : bool).

Definition form_edit (fm : form) (i : form_input) : form :=
  match i with
  | ToggleAddUser =>
      {| f_show := negb (f_show fm); f_email := f_email fm; f_password := f_password fm;
         f_role := f_role fm; f_files := f_files fm |}
  | SetIdentity v =>
      {| f_show := f_show fm; f_email := v ++ "@indira.com"; f_password := f_password fm;
         f_role := f_role fm; f_files := f_files fm |}
  | SetEmail v =>
      {| f_show := f_show fm; f_email := v; f_password := f_password fm; f_role := f_role fm;
         f_files := f_files fm |}
  | SetPassword v =>
      {| f_show := f_show fm; f_email := f_email fm; f_password := v; f_role := f_role fm;
         f_files := f_files fm |}
  | CheckFile f checked =>
      {| f_show := f_show fm; f_email := f_email fm; f_password := f_password fm; f_role := f_role fm;
         f_files := if checked then f_files fm ++ [f] else List.filter (fun g => negb (String.eqb g f)) (f_files fm) |}
  end.

(** ** The panel against the server *)

(** The header passes [authenticateToken] and [requireAdmin]. *)
Definition admin_ok `{TokenService} (h : option string) (now : Z) : bool :=
  match authenticateToken h now with
  | inl c => match requireAdmin c with None => true | Some _ => false end
  | inr _ => false
  end.

(** The panel shows what the server's two lists hold. *)
Definition in_sync (p : panel) (st : db) : Prop :=
  p_users p = snd (list_users st) /\ p_files p = snd (admin_files st).

(** What a route of the admin API does to the database [st]: it keeps the
    connection, an error changes nothing, and a success passed the admin
    middlewares. *)
Definition route_props `{TokenService} (h : option string) (now : Z) (st : db) (x : response * db) : Prop :=
  connected (snd x) = connected st /\ (ok (fst (fst x)) = false -> snd x = st) /\
  (ok (fst (fst x)) = true -> admin_ok h now = true).

Section Steps.
Context `{PasswordHasher} `{TokenService} `{CsvParser}.
Variable bson_fits : fileDoc -> bool.
Variable tok : option string.

(** What the admin can do on the panel, with the token [tok] of the
    session, at any time [now]; nothing else writes the database. *)
Inductive panel_step : panel * db -> panel * db -> Prop :=
| ps_load now p st : panel_step (p, st) (loadData tok now st p)
| ps_input i p st : panel_step (p, st) (setForm (form_edit (p_form p) i) p, st)
| ps_upload now p st fs : panel_step (p, st) (handleFileUpload bson_fits tok now st p fs)
| ps_add now p st : panel_step (p, st) (handleAddUser tok now st p)
| ps_select now p st u : panel_step (p, st) (handleUserSelect tok now st p u)
| ps_toggle now p st f : panel_step (p, st) (handleFileToggle tok now st p f)
| ps_delete now p st e b : panel_step (p, st) (handleDeleteUser tok now st p e b)
| ps_role now p st e r : panel_step (p, st) (handleUpdateRole tok now st p e r).

(** The panel mounted ([useEffect] of lines 1715-1717) on a connected
    database with a token the admin routes accept, then any steps. *)
Inductive reachable : panel * db -> Prop :=
| reach_mount now st t : tok = Some t -> connected st = true -> admin_ok (bearer_of t) now = true ->
    reachable (loadData tok now st initial_panel)
| reach_step x y : reachable x -> panel_step x y -> reachable y.

End Steps.

(** ** Examples

    The admin of [Store.ex_db] on the panel at times 1, 2, 3: the mount,
    the selection of the analyst, the refused re-upload of the revenue
    file. *)

Definition ex_token : string := @sign ex_tokens 0 (claims_of ex_admin).

Definition ex_mounted : panel * db := @loadData ex_hasher ex_tokens (Some ex_token) 1 ex_db initial_panel.

Definition ex_selected : panel * db :=
  @handleUserSelect ex_hasher ex_tokens (Some ex_token) 2 (snd ex_mounted) (fst ex_mounted) (user_json ex_user).

Definition ex_selection : jv := match p_selectedUser (fst ex_selected) with Some s => s | None => JNull end.

(** The mounted panel after typing a new account's e-mail and password. *)
Definition ex_form_filled : panel * db :=
  let p1 := setForm (form_edit (p_form (fst ex_mounted)) (SetEmail "dana@indira.com")) (fst ex_mounted) in
  (setForm (form_edit (p_form p1) (SetPassword "secret1")) p1, snd ex_mounted).

(** The revenue file again, with a storage engine that refuses its
    document. *)
Definition ex_reupload : panel * db :=
  @handleFileUpload ex_hasher ex_tokens simple_csv (fun _ => false) (Some ex_token) 3 ex_served
    (fst (@loadData ex_hasher ex_tokens (Some ex_token) 2 ex_served initial_panel)) [ex_csv_part].

(** ** Lemmas *)

(** Breaks every [if] and [match] of the goal. *)
Ltac break_goal :=
  repeat match goal with
         | |- context [match ?x with _ => _ end] => destruct x eqn:?
         end.

Ltac break_in H :=
  repeat match type of H with
         | context [match ?x with _ => _ end] => destruct x eqn:?
         end.

Section ServerFacts.
Context `{PasswordHasher} `{TokenService}.

(** A request the admin routes answer with an error leaves the database
    as it was. *)
Lemma handle_err r now st : ok (fst (fst (handle r now st))) = false -> snd (handle r now st) = st.
Proof.
  destruct r as [e pw|h e pw ro f|h e|h e ro|h e f]; cbn [handle];
    unfold login, admin_route, add_user, delete_user, update_role, put_user_files;
    break_goal; cbn; intros E; try reflexivity; discriminate.
Qed.

Lemma handle_connected r now st : connected (snd (handle r now st)) = connected st.
Proof.
  destruct r as [e pw|h e pw ro f|h e|h e ro|h e f]; cbn [handle];
    unfold login, admin_route, add_user, delete_user, update_role, put_user_files;
    break_goal; reflexivity.
Qed.

(** A success of an admin route passed both middlewares. *)
Lemma admin_route_ok h now st k : ok (fst (fst (admin_route h now st k))) = true -> admin_ok h now = true.
Proof.
  unfold admin_route, admin_ok. destruct (authenticateToken h now) as [c|r] eqn:E.
  - unfold requireAdmin. now destruct (String.eqb _ _).
  - unfold authenticateToken in E. destruct (String.eqb _ _); [now injection E as <-|].
    destruct (verify _ _); [discriminate|now injection E as <-].
Qed.

Lemma admin_route_read h now st x : snd (admin_route h now st (fun _ => (x, st))) = st.
Proof. unfold admin_route. now break_goal. Qed.

Lemma admin_route_props h now st k :
  (forall c, connected (snd (k c)) = connected st /\ (ok (fst (fst (k c))) = false -> snd (k c) = st)) ->
  route_props h now st (admin_route h now st k).
Proof.
  intros Hk. split; [|split; [|apply admin_route_ok]];
    unfold admin_route; destruct (authenticateToken h now) as [c|]; try destruct (requireAdmin c);
    try reflexivity; apply Hk.
Qed.

Ltac handler_props :=
  apply admin_route_props; intros ?;
  unfold add_user, delete_user, update_role, put_user_files; break_goal; cbn;
  (split; [reflexivity|intros; (reflexivity || discriminate)]).

Lemma admin_api_props r now st x :
  admin_api r now st = Some x -> route_props (rq_auth r) now st x.
Proof.
  unfold admin_api, admin_users_api. intros E. break_in E; try discriminate E;
    lazymatch type of E with Some ?y = Some ?x => replace x with y by congruence end; cbn [handle];
    try handler_props;
    try (apply admin_route_props; intros; split; [reflexivity|reflexivity]);
    (split; [reflexivity|split; [reflexivity|discriminate]]).
Qed.

Lemma admin_ok_route h now st k : admin_ok h now = true -> exists c, admin_route h now st k = k c.
Proof.
  unfold admin_ok, admin_route. destruct (authenticateToken h now) as [c|]; [|discriminate].
  destruct (requireAdmin c); [discriminate|eauto].
Qed.

Lemma api_res_cases dflt resp :
  (ok (fst resp) = true /\ api_res dflt resp = Done (snd resp)) \/
  (ok (fst resp) = false /\ exists m, api_res dflt resp = Thrown m).
Proof. destruct resp as [status body]. unfold api_res. cbn [fst snd]. destruct (ok status); eauto. Qed.

(** A call of [authAPI]: the connection is kept, a thrown error changed
    nothing, and a value comes back only for a token the admin routes
    accept. *)
Lemma call_props dflt mk tok now st o st' :
  (forall t, rq_auth (mk t) = bearer_of t) -> call dflt mk tok now st = (o, st') ->
  connected st' = connected st /\ (forall m, o = Thrown m -> st' = st) /\
  (forall v, o = Done v -> exists t, tok = Some t /\ admin_ok (bearer_of t) now = true).
Proof.
  intros Ha. unfold call. destruct tok as [t|]; [|intros E; injection E as <- <-; repeat split; discriminate].
  destruct (admin_api (mk t) now st) as [[resp st1]|] eqn:A;
    [|intros E; injection E as <- <-; repeat split; discriminate].
  apply admin_api_props in A as (Hc & He & Hok). rewrite Ha in Hok. cbn [snd fst] in *.
  intros E; injection E as <- <-. split; [exact Hc|].
  destruct (api_res_cases dflt resp) as [[O R]|[O [m R]]]; rewrite R; split; intros ? X; try discriminate.
  - eauto.
  - now apply He.
Qed.

(** The [GET] routes only read. *)
Lemma admin_api_get r now st x : rq_method r = GET -> admin_api r now st = Some x -> snd x = st.
Proof.
  unfold admin_api, admin_users_api. intros M E. rewrite M in E. break_in E; try discriminate E;
    lazymatch type of E with Some ?y = Some ?x => replace x with y by congruence end;
    try apply admin_route_read; reflexivity.
Qed.

Lemma call_get dflt mk tok now st :
  (forall t, rq_method (mk t) = GET) -> snd (call dflt mk tok now st) = st.
Proof.
  intros M. unfold call. destruct tok as [t|]; [|reflexivity].
  destruct (admin_api (mk t) now st) as [[resp st1]|] eqn:A; [|reflexivity].
  exact (admin_api_get _ _ _ _ (M t) A).
Qed.

Lemma call_cases dflt mk tok now st o st1 :
  (forall t, rq_auth (mk t) = bearer_of t) -> call dflt mk tok now st = (o, st1) ->
  connected st1 = connected st /\
  ((exists v t, o = Done v /\ tok = Some t /\ admin_ok (bearer_of t) now = true) \/
   (exists m, o = Thrown m /\ st1 = st)).
Proof.
  intros Ha E. destruct (call_props dflt mk tok now st o st1 Ha E) as (C & T & D). split; [exact C|].
  destruct o as [v|m]; [left|right; eauto]. destruct (D v eq_refl) as (t & -> & A). eauto.
Qed.

(** The two reads of [loadData] with a token the admin routes accept. *)
Lemma call_users t now st :
  admin_ok (bearer_of t) now = true -> connected st = true ->
  call "Failed to get users" getAllUsers_req (Some t) now st = (Done (snd (list_users st)), st).
Proof.
  intros A Hc. unfold call, admin_api, admin_users_api, getAllUsers_req. cbn [rq_method rq_path rq_auth].
  destruct (admin_ok_route (bearer_of t) now st (fun _ => (list_users st, st)) A) as [c ->].
  unfold list_users. rewrite Hc. reflexivity.
Qed.

Lemma call_files t now st :
  admin_ok (bearer_of t) now = true -> connected st = true ->
  call "Failed to load files" getAllFiles_req (Some t) now st = (Done (snd (admin_files st)), st).
Proof.
  intros A Hc. unfold call, admin_api, getAllFiles_req. cbn [rq_method rq_path rq_auth].
  destruct (admin_ok_route (bearer_of t) now st (fun _ => (admin_files st, st)) A) as [c ->].
  unfold admin_files. rewrite Hc. reflexivity.
Qed.

(** [loadData] on a connected database: the panel shows the server's
    lists, or it keeps its own and shows an error. *)
Lemma loadData_cases tok now st p :
  connected st = true ->
  (loadData tok now st p =
     (setLoading false (setLists (snd (list_users st)) (snd (admin_files st)) now (setLoading true p)), st) /\
   exists t, tok = Some t /\ admin_ok (bearer_of t) now = true) \/
  exists m, loadData tok now st p = (setLoading false (setError m (setLoading true p)), st).
Proof.
  intros Hc. destruct tok as [t|]; [|right; eexists; reflexivity].
  destruct (admin_ok (bearer_of t) now) eqn:A.
  - left. split; [|eauto]. unfold loadData. now rewrite call_users, call_files by assumption.
  - right. unfold loadData.
    destruct (call _ getAllUsers_req _ now st) as [r1 st1] eqn:E1.
    destruct (call_props _ getAllUsers_req _ _ _ _ _ (fun _ => eq_refl) E1) as (_ & T1 & D1).
    destruct r1 as [v1|m1]; [destruct (D1 v1 eq_refl) as (t' & [=<-] & A'); congruence|].
    rewrite (T1 m1 eq_refl). destruct (call _ getAllFiles_req _ now st) as [r2 st2] eqn:E2.
    destruct (call_props _ getAllFiles_req _ _ _ _ _ (fun _ => eq_refl) E2) as (_ & T2 & D2).
    destruct r2 as [v2|m2]; [destruct (D2 v2 eq_refl) as (t' & [=<-] & A'); congruence|].
    rewrite (T2 m2 eq_refl). eauto.
Qed.

Lemma loadData_ok t now st p :
  admin_ok (bearer_of t) now = true -> connected st = true ->
  loadData (Some t) now st p =
    (setLoading false (setLists (snd (list_users st)) (snd (admin_files st)) now (setLoading true p)), st).
Proof. intros A Hc. unfold loadData. now rewrite call_users, call_files by assumption. Qed.

(** After [loadData] on a connected database the panel is in sync when
    it was before, or when the token is accepted; the database is
    unchanged. *)
Lemma loadData_in_sync tok now st p :
  connected st = true ->
  in_sync p st \/ (exists t, tok = Some t /\ admin_ok (bearer_of t) now = true) ->
  in_sync (fst (loadData tok now st p)) st /\ snd (loadData tok now st p) = st.
Proof.
  intros Hc [S|(t & -> & A)].
  - destruct (loadData_cases tok now st p Hc) as [[-> _]|[m ->]]; [easy|]. destruct S as [S1 S2]. easy.
  - rewrite loadData_ok by assumption. easy.
Qed.

End ServerFacts.

Section UploadFacts.
Context `{PasswordHasher} `{TokenService} `{CsvParser}.
Variable bson_fits : fileDoc -> bool.

Lemma store_parsed_connected f c st : connected (snd (store_parsed f c st)) = connected st.
Proof.
  unfold store_parsed, parseAndStoreCSVInMongo. destruct (String.eqb c ""); [reflexivity|].
  destruct (csv_parse c) as [[|r rs]|]; reflexivity.
Qed.

Lemma upload_handler_connected f email now st :
  connected (snd (upload_handler bson_fits f email now st)) = connected st.
Proof.
  unfold upload_handler. destruct (negb (connected st)); [reflexivity|].
  destruct f as [u|]; [|reflexivity]. destruct (looks_like_html _); [reflexivity|].
  assert (D : connected (delete_existing (up_name u) st) = connected st) by apply frame_delete_existing.
  destruct (_ && _); [exact D|].
  match goal with |- context [store_parsed ?a ?b ?s] =>
    pose proof (store_parsed_connected a b s) as P; destruct (store_parsed a b s) as [[[[c hs] n]|] st4] end;
    cbn [snd] in *; rewrite P; destruct (N.ltb _ _); exact D.
Qed.

(** An upload keeps the connection, and changes nothing for a token the
    admin routes refuse. *)
Lemma upload_route_props h pt now st :
  connected (snd (upload_route bson_fits h (Some pt) now st)) = connected st /\
  (admin_ok h now = false -> snd (upload_route bson_fits h (Some pt) now st) = st).
Proof.
  unfold upload_route, admin_ok. destruct (authenticateToken h now) as [c|[s b]]; [|easy].
  destruct (requireAdmin c) as [[s b]|]; [easy|]. split; [|discriminate].
  destruct (negb _); [reflexivity|]. destruct (N.ltb _ _); [reflexivity|].
  destruct (upload_handler _ _ _ _ _) as [r st'] eqn:E. cbn [snd].
  rewrite <- (upload_handler_connected (Some (pt_file pt)) (cl_email c) now st), E. reflexivity.
Qed.

(** The loop of uploads: the database is the uploads' one after the
    other; the panel's lists and error stay as they were. *)
Lemma upload_all_props tok now i total fs p st :
  let (p', st') := upload_all bson_fits tok now i total fs p st in
  st' = fold_left (fun st f => snd (uploadFile bson_fits tok f now st)) fs st /\
  p_users p' = p_users p /\ p_files p' = p_files p /\ p_error p' = p_error p.
Proof.
  revert i p st. induction fs as [|f fs IH]; intros i p st; cbn [upload_all fold_left]; [easy|].
  destruct (uploadFile bson_fits tok f now st) as [r st1] eqn:E.
  specialize (IH (S i) (match r with Done _ => setUploadProgress (Some (S i, total)) p | Thrown _ => p end) st1).
  destruct (upload_all _ _ _ _ _ _ _ _) as [p' st']. cbn [snd].
  destruct IH as (-> & U & F & Er). destruct r; easy.
Qed.

Lemma upload_fold_props tok now fs st :
  connected (fold_left (fun st f => snd (uploadFile bson_fits tok f now st)) fs st) = connected st /\
  ((forall t, tok = Some t -> admin_ok (bearer_of t) now = false) ->
   fold_left (fun st f => snd (uploadFile bson_fits tok f now st)) fs st = st).
Proof.
  revert st. induction fs as [|f fs IH]; intros st; cbn [fold_left]; [easy|].
  assert (U : connected (snd (uploadFile bson_fits tok f now st)) = connected st /\
              ((forall t, tok = Some t -> admin_ok (bearer_of t) now = false) ->
               snd (uploadFile bson_fits tok f now st) = st)).
  { unfold uploadFile. destruct tok as [t|]; [|easy].
    destruct (upload_route_props (bearer_of t) f now st) as [C N].
    destruct (upload_route _ _ _ _ _) as [[] st'] eqn:E; cbn [snd] in *; split; auto. }
  destruct U as [C N]. destruct (IH (snd (uploadFile bson_fits tok f now st))) as [C' N']. split.
  - congruence.
  - intros A. rewrite N' by exact A. auto.
Qed.

End UploadFacts.

Section StepFacts.
Context `{PasswordHasher} `{TokenService} `{CsvParser}.
Variable bson_fits : fileDoc -> bool.
Variable tok : option string.

(** A call of a handler on a connected database, then [loadData] when it
    succeeded, [k] otherwise. *)
Ltac call_step E :=
  let C := fresh "C" in let v := fresh "v" in let t := fresh "t" in let A := fresh "A" in
  let m := fresh "m" in
  let X := fresh "X" in
  pose proof (fun Ha => call_cases _ _ _ _ _ _ _ Ha E) as X; specialize (X (fun _ => eq_refl));
  destruct X as [C [(v & t & -> & -> & A)|(m & -> & ->)]].

Ltac loaded Hc :=
  match goal with |- context [loadData ?k ?n ?s ?q] =>
    let L := fresh "L" in let S := fresh "S" in
    destruct (loadData_in_sync k n s q ltac:(congruence) ltac:(eauto)) as [L S];
    destruct (loadData k n s q) as [? ?]; cbn [fst snd] in *; subst end.

Ltac synced :=
  unfold in_sync in *;
  cbn [fst snd p_users p_files setLists setLoading setError setSelectedUser setForm setAddingUser
       setUploadingFile setUploadProgress setSynced] in *;
  split; [congruence|easy].

(** Every step of the panel keeps it in sync with the server. *)
Lemma panel_step_sync x y :
  panel_step bson_fits tok x y -> connected (snd x) = true -> in_sync (fst x) (snd x) ->
  connected (snd y) = true /\ in_sync (fst y) (snd y).
Proof.
  intros Hs; destruct Hs as [now p st|i p st|now p st fs|now p st|now p st u|now p st f|now p st e b|now p st e r];
    cbn [fst snd]; intros Hc Sy.
  - destruct (loadData_in_sync tok now st p Hc (or_introl Sy)) as [L S].
    destruct (loadData tok now st p); cbn in *; subst; synced.
  - synced.
  - unfold handleFileUpload. destruct fs as [|f0 fs0]; [synced|].
    destruct (invalid_names _) as [|n ns]; [|synced].
    match goal with |- context [upload_all ?b ?k ?n ?i ?tt ?l ?q ?s] =>
      pose proof (upload_all_props b k n i tt l q s) as UA; destruct (upload_all b k n i tt l q s) as [p2 st2] end.
    destruct UA as (-> & U & F & _). cbn in U, F.
    destruct (upload_fold_props bson_fits tok now (f0 :: fs0) st) as [C N].
    set (st2 := fold_left _ _ _) in *.
    assert (Sy2 : in_sync p2 st2 \/ exists t, tok = Some t /\ admin_ok (bearer_of t) now = true).
    { destruct tok as [t|]; [destruct (admin_ok (bearer_of t) now) eqn:A; [right; eauto|]|];
        left; (rewrite N; [unfold in_sync in *; rewrite U, F; exact Sy|]); intros ? [=<-]; exact A. }
    destruct (loadData_in_sync tok now st2 p2 ltac:(congruence) Sy2) as [L S].
    destruct (loadData _ _ _ _); cbn [fst snd] in *; subst; synced.
  - unfold handleAddUser. destruct (call _ _ _ _ _) as [o st1] eqn:E. call_step E.
    + loaded Hc. synced.
    + synced.
  - unfold handleUserSelect.
    pose proof (call_get "Failed to load user files" (fun t => getUserFiles_req t (str_field u "email")) tok now st
                  (fun _ => eq_refl)) as G.
    destruct (call _ _ _ _ _) as [[v|m] st1]; cbn [snd] in G; subst; synced.
  - unfold handleFileToggle. destruct (p_selectedUser p) as [s|]; [|synced].
    destruct (call _ _ _ _ _) as [o st1] eqn:E. call_step E.
    + loaded Hc. synced.
    + synced.
  - unfold handleDeleteUser. destruct b; cbn [negb]; [|synced]. destruct (call _ _ _ _ _) as [o st1] eqn:E. call_step E.
    + loaded Hc. synced.
    + synced.
  - unfold handleUpdateRole. destruct (call _ _ _ _ _) as [o st1] eqn:E. call_step E.
    + loaded Hc. destruct (p_selectedUser p) as [s|]; [destruct (selected_is _ _)|]; synced.
    + synced.
Qed.

(** [C13] The admin panel shows what the server holds: from its mount on a
    connected database with an accepted token, through any sequence of
    handlers (uploads, new users, selections, file toggles, deletions,
    role changes, form inputs, refreshes) with the session's token, the
    panel's [users] and [files] are the answers of [GET /api/admin/users]
    and [GET /api/admin/files] on the current database.  Every handler
    that changes the database calls [loadData] after the change, and a
    failed request changes nothing. *)
Theorem panel_reachable_in_sync x :
  reachable bson_fits tok x -> connected (snd x) = true /\ in_sync (fst x) (snd x).
Proof.
  induction 1 as [now st t Ht Hc A|x y _ [Hc Sy] Hs].
  - destruct (loadData_in_sync tok now st initial_panel Hc (or_intror (ex_intro _ t (conj Ht A)))) as [L S].
    destruct (loadData tok now st initial_panel); cbn in *; subst; easy.
  - exact (panel_step_sync x y Hs Hc Sy).
Qed.

End StepFacts.

(** ** Granting files *)

Lemma get_spread_eq s k v : get_field (spread_set s k v) k = v.
Proof.
  unfold spread_set, get_field. destruct s; cbv beta iota;
    try change [(k, v)] with (obj_set k v []); now rewrite obj_get_set_eq.
Qed.

Lemma get_spread_ne s k k2 v : k <> k2 -> get_field (spread_set s k v) k2 = get_field s k2.
Proof.
  intros Hk. unfold spread_set, get_field. destruct s; cbv beta iota;
    try change [(k, v)] with (obj_set k v []); now rewrite obj_get_set_ne.
Qed.

Lemma files_of_spread s l : files_of (spread_set s "accessibleFiles" (JArr (map JStr l))) = l.
Proof. unfold files_of. now rewrite get_spread_eq, str_list_strings. Qed.

Lemma email_spread s k v : k <> "email" -> str_field (spread_set s k v) "email" = str_field s "email".
Proof. intros Hk. unfold str_field. now rewrite get_spread_ne. Qed.

Lemma update_user_find p f l u :
  find p l = Some u -> p (f u) = true -> exists l', update_user p f l = Some l' /\ find p l' = Some (f u).
Proof.
  intros Hf Hp. induction l as [|v l IH]; cbn in *; [discriminate|].
  destruct (p v) eqn:Pv.
  - injection Hf as ->. exists (f u :: l). cbn. now rewrite Hp.
  - destruct (IH Hf) as (l' & -> & Hl'). exists (v :: l'). cbn. now rewrite Pv.
Qed.

Lemma toggle_files_twice f l : str_mem f l = false -> toggle_files f (toggle_files f l) = l.
Proof.
  intros Hf. unfold toggle_files. rewrite Hf.
  replace (str_mem f (l ++ [f])) with true by (symmetry; apply str_mem_In; apply in_or_app; right; now left).
  rewrite filter_app. cbn. rewrite String.eqb_refl, app_nil_r.
  induction l as [|g l IH]; [reflexivity|]. cbn in Hf |- *. apply orb_false_iff in Hf as [Hg Hl].
  rewrite String.eqb_sym, Hg. cbn. now rewrite IH.
Qed.

Section ToggleFacts.
Context `{PasswordHasher} `{TokenService} `{CsvParser}.

(** The toggle of file [f] for the selected user [s] with an accepted
    token: the server stores the new list for [s]'s e-mail, and the
    selection shows it. *)
Lemma toggle_step t now st p s u f :
  admin_ok (bearer_of t) now = true -> connected st = true -> p_selectedUser p = Some s ->
  utf8_valid (str_field s "email") = true -> str_field s "email" <> "" ->
  find_user (lower (str_field s "email")) st = Some u ->
  let (p', st') := handleFileToggle (Some t) now st p f in
  exists s' u', p_selectedUser p' = Some s' /\ str_field s' "email" = str_field s "email" /\
    files_of s' = toggle_files f (files_of s) /\ find_user (lower (str_field s "email")) st' = Some u' /\
    accessible u' = toggle_files f (files_of s) /\ connected st' = true.
Proof.
  intros A Hc Hs Hv He Hu. unfold handleFileToggle. rewrite Hs.
  set (e := str_field s "email") in *. set (nf := toggle_files f (files_of s)).
  unfold call, admin_api, updateUserFiles_req. cbn [rq_method]. rewrite users_path.
  rewrite admin_users_api_param by (auto; left; reflexivity). cbn [handle].
  match goal with |- context [admin_route ?h ?n ?s ?k] => destruct (admin_ok_route h n s k A) as [c ->] end.
  unfold put_user_files. rewrite Hc. cbn [negb get_field obj_get String.eqb Ascii.eqb Bool.eqb].
  rewrite str_list_strings.
  edestruct update_user_find as (l' & -> & Hl');
    [exact Hu|unfold with_email; cbn; apply String.eqb_eq, (proj2 (find_user_some _ _ _ Hu))|].
  unfold api_res. cbv beta iota zeta. replace (ok 200) with true by reflexivity. cbv iota.
  rewrite loadData_ok by (exact A || exact Hc).
  eexists _, _. split; [reflexivity|]. split; [apply email_spread; discriminate|].
  split; [apply files_of_spread|]. split; [exact Hl'|]. split; [reflexivity|exact Hc].
Qed.

(** [C25] Refinement of the file toggle: when an admin toggles file [f] for
    the selected user (a well-formed, non-empty e-mail of an existing
    account), [PUT /api/admin/users/:email/files] stores the toggled list
    for that account, and the selection shows exactly the list the server
    answers to [GET /api/admin/users/:email/files] afterwards: [f] is
    removed when it was listed and appended otherwise. *)
Theorem toggle_syncs_selection t now st p s u f :
  admin_ok (bearer_of t) now = true -> connected st = true -> p_selectedUser p = Some s ->
  utf8_valid (str_field s "email") = true -> str_field s "email" <> "" ->
  find_user (lower (str_field s "email")) st = Some u ->
  let (p', st') := handleFileToggle (Some t) now st p f in
  exists s', p_selectedUser p' = Some s' /\ files_of s' = toggle_files f (files_of s) /\
    get_user_files (str_field s "email") st' = (200, JArr (map JStr (files_of s'))).
Proof.
  intros A Hc Hs Hv He Hu. pose proof (toggle_step t now st p s u f A Hc Hs Hv He Hu) as T.
  destruct (handleFileToggle _ _ _ _ _) as [p' st']. destruct T as (s' & u' & Hs' & _ & Hf & Hu' & Ha & Hc').
  exists s'. split; [exact Hs'|]. split; [exact Hf|].
  unfold get_user_files. rewrite Hc', Hu'. cbn [negb]. now rewrite Hf, Ha.
Qed.

(** Round trip: toggling twice a file the selected user did not have
    gives the account back the list it had, on the server and in the
    panel. *)
Theorem toggle_twice_restores t now st p s u f :
  admin_ok (bearer_of t) now = true -> connected st = true -> p_selectedUser p = Some s ->
  utf8_valid (str_field s "email") = true -> str_field s "email" <> "" ->
  find_user (lower (str_field s "email")) st = Some u -> str_mem f (files_of s) = false ->
  let (p1, st1) := handleFileToggle (Some t) now st p f in
  let (p2, st2) := handleFileToggle (Some t) now st1 p1 f in
  (exists s2, p_selectedUser p2 = Some s2 /\ files_of s2 = files_of s) /\
  get_user_files (str_field s "email") st2 = (200, JArr (map JStr (files_of s))).
Proof.
  intros A Hc Hs Hv He Hu Hf. pose proof (toggle_step t now st p s u f A Hc Hs Hv He Hu) as T1.
  destruct (handleFileToggle _ _ _ _ _) as [p1 st1]. destruct T1 as (s1 & u1 & Hs1 & He1 & Hf1 & Hu1 & _ & Hc1).
  rewrite <- He1 in Hv, He, Hu1. pose proof (toggle_step t now st1 p1 s1 u1 f A Hc1 Hs1 Hv He Hu1) as T2.
  destruct (handleFileToggle _ _ _ _ _) as [p2 st2]. destruct T2 as (s2 & u2 & Hs2 & He2 & Hf2 & Hu2 & Ha2 & Hc2).
  rewrite Hf1, toggle_files_twice in Hf2, Ha2 by exact Hf.
  split; [eauto|]. rewrite <- He1. unfold get_user_files. rewrite Hc2, Hu2. cbn [negb]. now rewrite Ha2.
Qed.

End ToggleFacts.

(** ** Uploads *)

Section UploadClaims.
Context `{PasswordHasher} `{TokenService} `{CsvParser}.
Variable bson_fits : fileDoc -> bool.

Lemma uploadFile_state t f now st :
  snd (uploadFile bson_fits (Some t) f now st) = snd (upload_route bson_fits (bearer_of t) (Some f) now st).
Proof. unfold uploadFile. now destruct (upload_route _ _ _ _ _) as [[] st']. Qed.

Lemma upload_fold_route t now fs st :
  fold_left (fun st f => snd (uploadFile bson_fits (Some t) f now st)) fs st =
  fold_left (fun st f => snd (upload_route bson_fits (bearer_of t) (Some f) now st)) fs st.
Proof.
  revert st. induction fs as [|f fs IH]; intros st; [reflexivity|]. cbn [fold_left].
  now rewrite uploadFile_state, IH.
Qed.

(** [C29] Failed uploads are silent: when an admin uploads a batch of files
    whose names all end in [.csv], the database is the result of the
    server's upload route applied to each file in turn, and whatever the
    server answered for each of them (a file refused as HTML, too large,
    or not stored), the panel ends with no error message, the progress
    bar cleared, and the lists refreshed. *)
Theorem upload_failures_silent t now st p fs :
  admin_ok (bearer_of t) now = true -> connected st = true -> fs <> [] ->
  invalid_names (map (fun f => up_name (pt_file f)) fs) = [] ->
  let (p', st') := handleFileUpload bson_fits (Some t) now st p fs in
  st' = fold_left (fun st f => snd (upload_route bson_fits (bearer_of t) (Some f) now st)) fs st /\
  p_error p' = "" /\ p_uploadProgress p' = None /\ p_uploadingFile p' = false /\
  p_dataNeedsReload p' = true /\ in_sync p' st'.
Proof.
  intros A Hc Hne Hinv. unfold handleFileUpload. destruct fs as [|f0 fs0]; [contradiction|].
  cbv zeta. rewrite Hinv.
  match goal with |- context [upload_all ?b ?k ?n ?i ?tt ?l ?q ?s] =>
    pose proof (upload_all_props b k n i tt l q s) as UA; destruct (upload_all b k n i tt l q s) as [p2 st2] end.
  destruct UA as (-> & _ & _ & Er). destruct (upload_fold_props bson_fits (Some t) now (f0 :: fs0) st) as [C _].
  rewrite loadData_ok by (exact A || congruence). rewrite upload_fold_route.
  cbn [p_error p_uploadProgress p_uploadingFile p_dataNeedsReload setUploadingFile setUploadProgress setSynced
       setLoading setLists] in *.
  repeat split; assumption.
Qed.

End UploadClaims.

(** ** The roles of new accounts *)

Section RoleFacts.
Context `{PasswordHasher} `{TokenService} `{CsvParser}.
Variable bson_fits : fileDoc -> bool.
Variable tok : option string.

Lemma form_edit_role fm i : f_role (form_edit fm i) = f_role fm.
Proof. now destruct i. Qed.

Lemma loadData_form now st p : p_form (fst (loadData tok now st p)) = p_form p.
Proof.
  unfold loadData. destruct (call _ getAllUsers_req _ _ _) as [[] ?], (call _ getAllFiles_req _ _ _) as [[] ?];
    reflexivity.
Qed.

Lemma upload_all_form now i total fs p st :
  p_form (fst (upload_all bson_fits tok now i total fs p st)) = p_form p.
Proof.
  revert i p st. induction fs as [|f fs IH]; intros i p st; [reflexivity|]. cbn [upload_all].
  destruct (uploadFile _ _ _ _ _) as [[] st']; rewrite IH; reflexivity.
Qed.

(** The form of a reachable panel asks for the role ["user"]. *)
Lemma reachable_role x : reachable bson_fits tok x -> f_role (p_form (fst x)) = "user".
Proof.
  induction 1 as [now st t _ _ _|x y _ IH Hs]; [now rewrite loadData_form|].
  destruct Hs as [now p st|i p st|now p st fs|now p st|now p st u|now p st f|now p st e b|now p st e r];
    cbn [fst] in *.
  - now rewrite loadData_form.
  - cbn. now rewrite form_edit_role.
  - unfold handleFileUpload. destruct fs; [exact IH|]. destruct (invalid_names _); [|exact IH].
    match goal with |- context [upload_all ?b ?k ?n ?i ?tt ?l ?q ?s] =>
      pose proof (upload_all_form n i tt l q s) as UA; destruct (upload_all b k n i tt l q s) as [p2 st2] end.
    pose proof (loadData_form now st2 p2) as L. destruct (loadData _ _ _ _) as [p3 st3]. cbn in *. congruence.
  - unfold handleAddUser. destruct (call _ _ _ _ _) as [[] st1]; [|exact IH].
    pose proof (loadData_form now st1 (setForm empty_form (setAddingUser true (setError "" p)))) as L.
    destruct (loadData _ _ _ _) as [p3 st3]. cbn in *. now rewrite L.
  - unfold handleUserSelect. now destruct (call _ _ _ _ _) as [[] st1].
  - unfold handleFileToggle. destruct (p_selectedUser p); [|exact IH].
    destruct (call _ _ _ _ _) as [[] st1]; [|exact IH]. now rewrite loadData_form.
  - unfold handleDeleteUser. destruct b; [|exact IH]. cbn [negb].
    destruct (call _ _ _ _ _) as [[] st1]; [|exact IH]. rewrite loadData_form. now destruct (selected_is _ _).
  - unfold handleUpdateRole. destruct (call _ _ _ _ _) as [[] st1]; [|exact IH].
    pose proof (loadData_form now st1 p) as L. destruct (loadData _ _ _ _) as [p3 st3]. cbn in L.
    destruct (p_selectedUser p) as [s|]; [destruct (selected_is _ _)|]; cbn; congruence.
Qed.

Lemma loadData_state now st p : snd (loadData tok now st p) = st.
Proof.
  unfold loadData.
  pose proof (call_get "Failed to get users" getAllUsers_req tok now st (fun _ => eq_refl)) as G1.
  destruct (call _ getAllUsers_req _ _ _) as [r1 st1]. cbn in G1. subst st1.
  pose proof (call_get "Failed to load files" getAllFiles_req tok now st (fun _ => eq_refl)) as G2.
  destruct (call _ getAllFiles_req _ _ _) as [r2 st2]. cbn in G2. now subst st2.
Qed.

(** The users after [POST /api/admin/users] with the role ["user"]: the
    old ones and, perhaps, a new one whose role is ["user"]. *)
Lemma add_request_role h e pw fs now st u :
  In u (users (snd (handle (RAddUser h e pw "user" fs) now st))) -> In u (users st) \/ u_role u = "user".
Proof.
  cbn [handle]. destruct (admin_route_cases h now st (fun c => add_user c e pw "user" fs now st)) as [E|[c E]];
    rewrite E; [now left|]. unfold add_user. break_goal; cbn [snd users]; try (now left);
    intros Hu; apply in_app_or in Hu as [Hu|[<-|[]]]; (now left) || (now right).
Qed.

(** [C26] The admin panel only creates accounts with the role ["user"]: no
    input of its add-user form sets [newUserRole], so from any reachable
    state, the accounts a submission of the form adds to the database
    all have the role ["user"]; an admin is only made by promotion. *)
Theorem panel_adds_only_users now p st :
  reachable bson_fits tok (p, st) ->
  let (p', st') := handleAddUser tok now st p in
  forall u, In u (users st') -> In u (users st) \/ u_role u = "user".
Proof.
  intros R. pose proof (reachable_role _ R) as Hr. cbn [fst] in Hr. unfold handleAddUser. rewrite Hr.
  destruct (call _ _ _ _ _) as [o st1] eqn:E.
  assert (S1 : forall u, In u (users st1) -> In u (users st) \/ u_role u = "user").
  { unfold call in E. destruct tok as [t|]; [|injection E as _ <-; now left].
    unfold admin_api, admin_users_api, addUser_req in E. cbn [rq_method rq_path rq_auth] in E.
    replace (String.eqb _ "/api/admin/users") with true in E by reflexivity.
    change (str_field _ "role") with "user" in E.
    destruct (handle _ now st) as [resp st2] eqn:Eh. injection E as _ <-. intros u Hu.
    match type of Eh with handle (RAddUser ?h ?e ?pw _ ?fs) ?n ?s = _ =>
      pose proof (add_request_role h e pw fs n s u) as A end.
    rewrite Eh in A. exact (A Hu). }
  destruct o as [v|m]; [|exact S1].
  pose proof (loadData_state now st1 (setForm empty_form (setAddingUser true (setError "" p)))) as L.
  destruct (loadData _ _ _ _) as [p3 st3]. cbn in L. now subst st3.
Qed.

End RoleFacts.

(** ** Witnesses *)

(** The example panel is mounted. *)
Lemma ex_mounted_reachable :
  @reachable ex_hasher ex_tokens simple_csv (fun _ => true) (Some ex_token) (fst ex_mounted, snd ex_mounted).
Proof.
  change (fst ex_mounted, snd ex_mounted) with ex_mounted. unfold ex_mounted.
  apply (reach_mount _ _ 1 ex_db ex_token eq_refl eq_refl). vm_compute. reflexivity.
Qed.

Lemma panel_reachable_in_sync_witness :
  let x := @handleFileToggle ex_hasher ex_tokens (Some ex_token) 3 (snd ex_selected) (fst ex_selected) "Revenue.csv" in
  connected (snd x) = true /\ in_sync (fst x) (snd x).
Proof.
  intros x. apply (@panel_reachable_in_sync ex_hasher ex_tokens simple_csv (fun _ => true) (Some ex_token)).
  pose proof ex_mounted_reachable as R0.
  assert (R1 : @reachable ex_hasher ex_tokens simple_csv (fun _ => true) (Some ex_token) (fst ex_selected, snd ex_selected)).
  { change (fst ex_selected, snd ex_selected) with ex_selected.
    exact (reach_step _ _ _ _ R0 (ps_select _ _ 2 _ _ (user_json ex_user))). }
  exact (reach_step _ _ _ _ R1 (ps_toggle _ _ 3 _ _ "Revenue.csv")).
Defined.

Lemma toggle_syncs_selection_witness :
  p_selectedUser (fst ex_selected) = Some ex_selection /\
  files_of ex_selection = ["CRM leads.csv"] /\
  let (p', st') := @handleFileToggle ex_hasher ex_tokens (Some ex_token) 3 (snd ex_selected) (fst ex_selected)
                     "Revenue.csv" in
  exists s', p_selectedUser p' = Some s' /\ files_of s' = toggle_files "Revenue.csv" (files_of ex_selection) /\
    get_user_files (str_field ex_selection "email") st' = (200, JArr (map JStr (files_of s'))).
Proof.
  split; [vm_compute; reflexivity|]. split; [vm_compute; reflexivity|].
  exact (@toggle_syncs_selection ex_hasher ex_tokens ex_token 3 (snd ex_selected) (fst ex_selected) ex_selection
           ex_user "Revenue.csv" ltac:(vm_compute; reflexivity) eq_refl ltac:(vm_compute; reflexivity)
           ltac:(vm_compute; reflexivity) ltac:(vm_compute; discriminate) ltac:(vm_compute; reflexivity)).
Defined.

Lemma toggle_twice_restores_witness :
  str_mem "Revenue.csv" (files_of ex_selection) = false /\
  let (p1, st1) := @handleFileToggle ex_hasher ex_tokens (Some ex_token) 3 (snd ex_selected) (fst ex_selected)
                     "Revenue.csv" in
  let (p2, st2) := @handleFileToggle ex_hasher ex_tokens (Some ex_token) 3 st1 p1 "Revenue.csv" in
  (exists s2, p_selectedUser p2 = Some s2 /\ files_of s2 = files_of ex_selection) /\
  get_user_files (str_field ex_selection "email") st2 = (200, JArr (map JStr (files_of ex_selection))).
Proof.
  split; [vm_compute; reflexivity|].
  exact (@toggle_twice_restores ex_hasher ex_tokens ex_token 3 (snd ex_selected) (fst ex_selected) ex_selection
           ex_user "Revenue.csv" ltac:(vm_compute; reflexivity) eq_refl ltac:(vm_compute; reflexivity)
           ltac:(vm_compute; reflexivity) ltac:(vm_compute; discriminate) ltac:(vm_compute; reflexivity)
           ltac:(vm_compute; reflexivity)).
Defined.

(** The refused re-upload: the server answers 500 and has dropped the old
    file's metadata, the panel lists no file and shows no error. *)
Lemma upload_failures_silent_witness :
  match fst (@upload_route simple_csv ex_tokens (fun _ => false) (bearer_of ex_token) (Some ex_csv_part) 3 ex_served)
  with RJson s _ => s | _ => 0 end = 500 /\
  p_files (fst ex_reupload) = JArr [] /\ p_error (fst ex_reupload) = "".
Proof.
  split; [vm_compute; reflexivity|]. split; [vm_compute; reflexivity|].
  pose proof (@upload_failures_silent ex_hasher ex_tokens simple_csv (fun _ => false) ex_token 3 ex_served
                (fst (@loadData ex_hasher ex_tokens (Some ex_token) 2 ex_served initial_panel)) [ex_csv_part]
                ltac:(vm_compute; reflexivity) eq_refl ltac:(discriminate) ltac:(vm_compute; reflexivity)) as U.
  unfold ex_reupload. destruct (handleFileUpload _ _ _ _ _ _) as [p' st']. exact (proj1 (proj2 U)).
Defined.

Lemma panel_adds_only_users_witness :
  length (users (snd (@handleAddUser ex_hasher ex_tokens (Some ex_token) 4 (snd ex_form_filled) (fst ex_form_filled))))
    = 3 /\
  let (p', st') := @handleAddUser ex_hasher ex_tokens (Some ex_token) 4 (snd ex_form_filled) (fst ex_form_filled) in
  forall u, In u (users st') -> In u (users (snd ex_form_filled)) \/ u_role u = "user".
Proof.
  split; [vm_compute; reflexivity|].
  pose proof ex_mounted_reachable as R0.
  pose proof (reach_step _ _ _ _ R0 (ps_input _ _ (SetEmail "dana@indira.com") _ _)) as R1.
  pose proof (reach_step _ _ _ _ R1 (ps_input _ _ (SetPassword "secret1") _ _)) as R2.
  exact (@panel_adds_only_users ex_hasher ex_tokens simple_csv (fun _ => true) (Some ex_token) 4
           (fst ex_form_filled) (snd ex_form_filled) R2).
Defined.

End Panel.
