(* ===== verification/Turn.v ===== *)
(** One turn of the conversation as [handleSend] runs it
    ([src/frontend/index.tsx], lines 3156-3656): the question check, the
    choice of the files the prompt points the model to
    ([matchFilesToQuery], lines 3069-3153), the composition of the prompt,
    the new messages, the API key checks, the chat session and the call of
    [processResponseWithMongo].  The client's state is a record of the
    React state the handler reads and writes. *)

From Stdlib Require Import String Ascii List Bool Arith Lia ZArith QArith.
From S2P Require Import Prelude JsValue Normalizer Store Access Reply Conversation Session.
Import ListNotations.
Local Set Warnings "-abstract-large-number".
Open Scope string_scope.
Open Scope nat_scope.

Module Turn.
Import Access Reply Conversation.

(** [/a|b|.../i.test(s)] for alternatives written in lower case. *)
Definition matches_any (s : string) (alternatives : list string) : bool :=
  existsb (fun w => includes (lower s) w) alternatives.

(** The alternatives of the revenue regular expression (lines 3075 and 3192). *)
Definition revenue_words : list string :=
  ["revenue"; "revenues"; "financial"; "income"; "earnings"; "money"; "rupees"; "rs."; "₹";
   "generated"; "contribution"; "contributing"].

(** [f.name.toLowerCase().includes('revenue') && !f.name.toLowerCase().includes('lead')]. *)
Definition is_revenue_file (f : attachment) : bool :=
  includes (lower (at_name f)) "revenue" && negb (includes (lower (at_name f)) "lead").

Record mapping := { mp_keywords : list string; mp_patterns : list string }.

(** [fileMappings] (lines 3085-3126). *)
Definition fileMappings : list mapping :=
  [ {| mp_keywords := ["revenue"; "revenues"; "financial"; "income"; "earnings"; "money"; "rupees"; "rs."; "₹"];
       mp_patterns := ["revenue"; "Revenue"] |};
    {| mp_keywords := ["call"; "calls"; "call center"; "call centre"; "audit"; "transcript"; "conversation";
                       "customer service"];
       mp_patterns := ["call"; "Call"; "audit"; "Audit"; "transcript"; "Transcript"] |};
    {| mp_keywords := ["lead"; "leads"; "crm"; "inquiry"; "inquiries"; "enquiry"; "enquiries"];
       mp_patterns := ["lead"; "Lead"; "crm"; "CRM"] |};
    {| mp_keywords := ["conversion"; "conversions"; "treatment"; "treatments"; "patient conversion"];
       mp_patterns := ["conversion"; "Conversion"; "treatment"; "Treatment"] |};
    {| mp_keywords := ["icsi"; "ivf"; "fertility"; "treatment"];
       mp_patterns := ["icsi"; "ICSI"; "ivf"; "IVF"] |};
    {| mp_keywords := ["market share"; "market"; "competition"; "competitor"; "competitive"];
       mp_patterns := ["market"; "Market"; "competition"; "Competition"; "Competetion"] |};
    {| mp_keywords := ["region"; "regional"; "city"; "cities"; "geography"; "geographic"; "location"; "locations"];
       mp_patterns := ["region"; "Region"; "city"; "City"] |};
    {| mp_keywords := ["source"; "sources"; "channel"; "channels"; "marketing"; "medium"; "media"];
       mp_patterns := ["source"; "Source"; "channel"; "Channel"; "medium"; "Medium"] |};
    {| mp_keywords := ["landing page"; "landing"; "page"; "pages"];
       mp_patterns := ["landing"; "Landing"] |};
    {| mp_keywords := ["revenue"; "revenues"];
       mp_patterns := ["revenue"; "Revenue"] |} ].

(** The files of one mapping whose keyword the query holds (lines 3129-3145). *)
Definition add_matches (queryLower : string) (availableFiles : list attachment) (acc : list attachment)
  (m : mapping) : list attachment :=
  if existsb (fun k => includes queryLower k) (mp_keywords m) then
    fold_left (fun acc2 file =>
                 if str_mem (at_name file) (map at_name acc2) then acc2
                 else if existsb (fun p => includes (lower (at_name file)) (lower p)) (mp_patterns m)
                      then (acc2 ++ [file])%list else acc2)
              availableFiles acc
  else acc.

(** [matchFilesToQuery] (lines 3069-3153). *)
Definition matchFilesToQuery (query : string) (availableFiles : list attachment) : list attachment :=
  let queryLower := lower query in
  let revenue := if matches_any queryLower revenue_words then find is_revenue_file availableFiles else None in
  match revenue with
  | Some revenueFile => [revenueFile]
  | None =>
      match fold_left (add_matches queryLower availableFiles) fileMappings [] with
      | [] => availableFiles
      | matchedFiles => matchedFiles
      end
  end.

(** ** The client state *)

Record client := {
  c_messages : list message;
  c_input : string;
  c_simInput : string;
  c_attachments : list attachment;     (** [chatAttachments] *)
  c_sqlTables : list string;
  c_tableSchemas : tables;
  c_userAccessibleFiles : list string;
  c_dataLoaded : bool;
  c_session : option session;          (** [chatSessionRef.current] *)
  c_typing : bool;
  c_retryCount : nat;
  c_trace : list event
}.

Definition MAX_TEXT_PAYLOAD_SIZE : nat := 30000.

(** [arr.filter((v, i, a) => a.indexOf(v) === i)]. *)
Fixpoint dedup (seen : list string) (l : list string) : list string :=
  match l with
  | [] => []
  | x :: l' => if str_mem x seen then dedup seen l' else x :: dedup (seen ++ [x]) l'
  end.

(** The denial of a question (lines 3162-3183). *)
Definition question_denied (cleanText : string) (unauthorized acc : list string) : string :=
  let unauthorizedList := join ", " (dedup [] (map display_name unauthorized)) in
  let accessibleList := access_list acc in
  "⚠️ **Access Restricted**" ++ NL ++ NL ++ "I don't have access to the following data sources: **" ++
  unauthorizedList ++ "**" ++ NL ++ NL ++ "**Your Question:** " ++ DQ ++ cleanText ++ DQ ++ NL ++ NL ++
  "**Why this is restricted:** You're asking about data sources that your administrator has not granted you access to." ++
  NL ++ NL ++ "**What you can do:**" ++ NL ++ "- Ask questions about the data sources you have access to: " ++
  accessibleList ++ NL ++ "- Contact your administrator to request access to: " ++ unauthorizedList ++ NL ++ NL ++
  "**Your current access:** " ++ accessibleList.

(** [dataReminder] (lines 3194-3226). *)
Definition data_reminder (cleanText : string) (csvFiles relevantFiles : list attachment)
  (isRevenueQueryCheck hasRevenueFileCheck dataLoaded : bool) (sqlTables : list string) : string :=
  match csvFiles with
  | _ :: _ =>
      if isRevenueQueryCheck && hasRevenueFileCheck then
        match find is_revenue_file csvFiles with
        | Some revenueFile =>
            NL ++ NL ++ "🚨 **CRITICAL FILE SELECTION FOR REVENUE QUERY** 🚨" ++ NL ++
            "**YOU ARE ASKED ABOUT REVENUE - YOU MUST USE " ++ DQ ++ "Revenue.csv" ++ DQ ++ " FILE ONLY**" ++ NL ++ NL ++
            "**DO NOT use " ++ DQ ++ "CRM leads.csv" ++ DQ ++ ", " ++ DQ ++ "CRM leads 2.csv" ++ DQ ++
            ", or any other file**" ++ NL ++
            "**ONLY use " ++ DQ ++ "Revenue.csv" ++ DQ ++ " for revenue-related queries**" ++ NL ++ NL ++
            "**The user asked: " ++ DQ ++ cleanText ++ DQ ++ "**" ++ NL ++
            "**You MUST analyze data from: " ++ at_name revenueFile ++ "**" ++ NL ++ NL ++
            "⚠️ CRITICAL: If you mention any other CSV file (like CRM leads), you are WRONG. Use ONLY Revenue.csv." ++
            NL ++ NL
        | None => ""
        end
      else if Nat.ltb 0 (length relevantFiles) && Nat.ltb (length relevantFiles) (length csvFiles) then
        let fileNames := join ", " (map at_name relevantFiles) in
        NL ++ NL ++ "🎯 **CRITICAL FILE SELECTION**: Based on your query " ++ DQ ++ cleanText ++ DQ ++
        ", you MUST use the following CSV file(s) for your analysis: **" ++ fileNames ++ "**" ++ NL ++ NL ++
        "**DO NOT use other files** unless they are explicitly relevant. Focus your analysis on: " ++ fileNames ++
        NL ++ NL ++ "⚠️ CRITICAL: You have access to " ++ nat_to_string (length csvFiles) ++
        " CSV data file(s) with real data. For this specific query, you MUST analyze the actual CSV data from: " ++
        fileNames ++ NL ++ NL
      else
        NL ++ NL ++ "⚠️ CRITICAL: You have access to " ++ nat_to_string (length csvFiles) ++
        " CSV data file(s) with real data. The CSV data is provided directly in the conversation below. You MUST analyze the actual CSV data to answer the user's question. DO NOT use generic data, benchmarks, or say " ++
        DQ ++ "data was not provided" ++ DQ ++ ". Use the actual data values from the CSV files provided." ++ NL ++ NL
  | [] =>
      if dataLoaded && Nat.eqb (length sqlTables) 0 then
        NL ++ NL ++ "⚠️ **DATA STATUS**: No valid CSV files are currently loaded. " ++
        "This may be because files uploaded via Admin Panel contain HTML instead of CSV data, or files need to be re-uploaded as valid CSV files. " ++
        "I will provide insights based on general knowledge, but for accurate analysis, valid CSV data is required." ++
        NL ++ NL
      else ""
  end.

Definition analysis_words : list string :=
  ["insights"; "analysis"; "analyze"; "evaluate"; "performance"; "metrics"; "statistics"; "summary";
   "findings"; "audit"; "review"; "report"].

Definition aggregation_words : list string :=
  ["revenue"; "sum"; "total"; "aggregate"; "calculate"; "amount"; "rupees"; "₹"; "rs."; "crore"; "lakh";
   "contribution"; "contributing"; "sum of"; "total of"; "how much"].

(** The two-phase instruction (lines 3234-3243). *)
Definition two_phase : string :=
  NL ++ NL ++ "🚨 **CRITICAL: TWO-PHASE ACCURACY REQUIREMENT** 🚨" ++ NL ++
  "**PHASE 1: Generate ONLY MongoDB aggregation pipelines in ```mongodb code blocks - NO NUMBERS OR ANALYSIS**" ++ NL ++
  "**PHASE 2: After receiving query results, provide analysis using EXACT numbers from results**" ++ NL ++ NL ++
  "**Example of CORRECT Phase 1 response:**" ++ NL ++
  "```mongodb" ++ NL ++ "{" ++ DQ ++ "collection" ++ DQ ++ ": " ++ DQ ++ "data_revenue" ++ DQ ++ ", " ++ DQ ++
  "pipeline" ++ DQ ++ ": [{" ++ DQ ++ "$match" ++ DQ ++ ": {" ++ DQ ++ "District" ++ DQ ++ ": " ++ DQ ++ "Thane" ++
  DQ ++ "}}, {" ++ DQ ++ "$group" ++ DQ ++ ": {" ++ DQ ++ "_id" ++ DQ ++ ": null, " ++ DQ ++ "total" ++ DQ ++ ": {" ++
  DQ ++ "$sum" ++ DQ ++ ": " ++ DQ ++ "$Total Revenue" ++ DQ ++ "}}}]}" ++ NL ++ "```" ++ NL ++
  "**Example of WRONG Phase 1 response (DO NOT DO THIS):**" ++ NL ++
  DQ ++ "The Thane region generated ₹2.71 Crore" ++ DQ ++ NL ++ NL.

(** The collection name the prompt gives an attachment (line 3262): the
    attachment's collection, else the same chain of replacements as the
    server's [getCollectionName]. *)
Definition coll_name (att : attachment) : string :=
  match at_collectionName att with
  | Some c => if String.eqb c "" then Normalizer.getCollectionName (at_name att) else c
  | None => Normalizer.getCollectionName (at_name att)
  end.

(** One entry of the data-source list (lines 3260-3275). *)
Definition data_source `{JsRuntime} (index : nat) (att : attachment) : string :=
  if at_isCsv att then
    let collName := coll_name att in
    NL ++ "--- DATA SOURCE " ++ nat_to_string (index + 1) ++ ": " ++ at_name att ++ " ---" ++ NL ++
    "**MongoDB Collection:** `" ++ collName ++ "`" ++ NL ++
    "**Rows:** " ++ to_locale_string (inject_Z (Z.of_nat (at_rowCount att))) ++ NL ++
    (match at_headers att with Some hs => "**Columns:** " ++ join ", " hs ++ NL | None => "" end) ++
    "**Query Example:**" ++ NL ++
    "```mongodb" ++ NL ++ "{" ++ DQ ++ "collection" ++ DQ ++ ": " ++ DQ ++ collName ++ DQ ++ ", " ++ DQ ++
    "pipeline" ++ DQ ++ ": [{" ++ DQ ++ "$group" ++ DQ ++ ": {" ++ DQ ++ "_id" ++ DQ ++ ": null, " ++ DQ ++
    "count" ++ DQ ++ ": {" ++ DQ ++ "$sum" ++ DQ ++ ": 1}}}]}" ++ NL ++ "```" ++ NL ++
    "--- END DATA SOURCE " ++ nat_to_string (index + 1) ++ " ---" ++ NL
  else if negb (at_isLarge att) && negb (String.eqb (at_content att) "") &&
          Nat.ltb (String.length (at_content att)) MAX_TEXT_PAYLOAD_SIZE then
    NL ++ "--- FILE " ++ nat_to_string (index + 1) ++ ": " ++ at_name att ++ " ---" ++ NL ++ at_content att ++
    NL ++ "--- END FILE ---" ++ NL
  else "".

Fixpoint data_sources `{JsRuntime} (index : nat) (atts : list attachment) : string :=
  match atts with
  | [] => ""
  | a :: rest => data_source index a ++ data_sources (S index) rest
  end.

(** [filesToShow] (lines 3249-3258). *)
Definition files_to_show (csvFiles relevantFiles : list attachment) (isRevenueQueryCheck hasRevenueFileCheck : bool)
  : list attachment :=
  if isRevenueQueryCheck && hasRevenueFileCheck then
    match find is_revenue_file csvFiles with Some f => [f] | None => csvFiles end
  else if Nat.ltb 0 (length relevantFiles) && Nat.ltb (length relevantFiles) (length csvFiles) then
    (relevantFiles ++ List.filter (fun f => negb (existsb (fun rf => String.eqb (at_name rf) (at_name f)) relevantFiles))
                                  csvFiles)%list
  else csvFiles.

(** The section appended when there are attachments (lines 3245-3282). *)
Definition sources_section `{JsRuntime} (cleanText : string) (csvFiles relevantFiles : list attachment)
  (isRevenueQueryCheck hasRevenueFileCheck : bool) : string :=
  NL ++ NL ++ "=== AVAILABLE DATA SOURCES (MongoDB Collections) ===" ++ NL ++
  "Data is stored in MongoDB. Generate ```mongodb code blocks to query it." ++ NL ++ NL ++
  (if isRevenueQueryCheck && hasRevenueFileCheck
   then "🚨 **REVENUE QUERY - USE ONLY Revenue.csv collection** 🚨" ++ NL ++ NL else "") ++
  data_sources 0 (files_to_show csvFiles relevantFiles isRevenueQueryCheck hasRevenueFileCheck) ++
  NL ++ "=== MONGODB QUERY INSTRUCTIONS ===" ++ NL ++
  "**Generate queries in ```mongodb code blocks. Format: JSON with " ++ DQ ++ "collection" ++ DQ ++ " and " ++
  DQ ++ "pipeline" ++ DQ ++ " keys.**" ++ NL ++
  "**The system executes them and returns results. Users NEVER see the queries.**" ++ NL ++
  "**Present results as: " ++ DQ ++ "Our analysis shows..." ++ DQ ++ " or " ++ DQ ++ "The data reveals..." ++ DQ ++
  "**" ++ NL ++ NL ++
  "User Question: " ++ (if String.eqb cleanText "" then "Analyze the attached data." else cleanText).

(** The prompt of a simulation (lines 3284-3298). *)
Definition simulation_prompt (cleanText : string) : string :=
  "PERFORM A WHAT-IF SIMULATION FOR THIS SCENARIO: " ++ DQ ++ cleanText ++ DQ ++ "." ++ NL ++
  "        " ++ NL ++
  "        You represent the 'Indira IVF Intelligence Engine'." ++ NL ++
  "        " ++ NL ++
  "        CRITICAL OUTPUT FORMAT:" ++ NL ++
  "        Return a STRICT JSON object (no markdown formatting outside the values) with these specific keys:" ++ NL ++
  "        {" ++ NL ++
  "          " ++ DQ ++ "synthesis" ++ DQ ++ ": " ++ DQ ++ "Executive summary markdown string" ++ DQ ++ "," ++ NL ++
  "          " ++ DQ ++ "topEnd" ++ DQ ++ ": " ++ DQ ++ "Analysis of Revenue, Market Share, and Volume Growth (Markdown list)" ++ DQ ++ "," ++ NL ++
  "          " ++ DQ ++ "bottomEnd" ++ DQ ++ ": " ++ DQ ++ "Analysis of Cost Efficiency, Conversion Rates, and OPEX (Markdown list)" ++ DQ ++ "," ++ NL ++
  "          " ++ DQ ++ "cxImpact" ++ DQ ++ ": " ++ DQ ++ "Analysis of Patient Empathy, Anxiety Reduction, and Brand Trust (Markdown list)" ++ DQ ++ "," ++ NL ++
  "          " ++ DQ ++ "constraints" ++ DQ ++ ": " ++ DQ ++ "Analysis of Risks, Compliance, and Operational Challenges (Markdown list)" ++ DQ ++ NL ++
  "        }" ++ NL ++
  "        ".

Definition video_prompt (cleanText : string) : string :=
  "Generate 5 Hyper-Local Video Themes for " ++ cleanText ++
  ". Ensure each theme object has 'title', 'rationale', 'emotionalHook' (e.g. 'Pride of the city'), and 'targetAudience' (e.g. 'Young couples'). Return result STRICTLY as a JSON object with a 'themes' array.".

Definition script_prompt (cleanText : string) : string :=
  "Generate a segmented video script. For the 'visual' field, provide extremely detailed scene logic, describing the action, lighting, and camera movement. Return strictly as a JSON object with a 'segments' array. Request: " ++
  cleanText.

(** ** The API key (lines 2176-2209) *)

(** Where [getApiKey] looks: [window] exists in the browser; [None] is an
    undefined value.  Vite defines both build-time names from
    [env.GEMINI_API_KEY] (vite.config.ts, lines 65-67). *)
Record key_env := {
  k_window : bool;
  k_runtime : option string;        (** [window.__GEMINI_API_KEY__] *)
  k_proc_gemini : option string;    (** [window.process.env.GEMINI_API_KEY] *)
  k_proc_api : option string;       (** [window.process.env.API_KEY] *)
  k_build_api : option string;      (** [process.env.API_KEY] *)
  k_build_gemini : option string    (** [process.env.GEMINI_API_KEY] *)
}.

Definition isValidKey (key : option string) : bool :=
  match key with
  | Some k => negb (String.eqb k "undefined") && negb (String.eqb (trim k) "") && Nat.ltb 10 (String.length k)
  | None => false
  end.

(** [a || b] on two optional strings. *)
Definition or_key (a b : option string) : option string :=
  match a with Some k => if String.eqb k "" then b else a | None => b end.

Definition getApiKey (e : key_env) : option string :=
  if k_window e && isValidKey (k_runtime e) then k_runtime e
  else if k_window e && isValidKey (k_proc_gemini e) then k_proc_gemini e
  else if k_window e && isValidKey (k_proc_api e) then k_proc_api e
  else let buildTimeKey := or_key (k_build_api e) (k_build_gemini e) in
       if isValidKey buildTimeKey then buildTimeKey else None.

Definition key_missing_message (e : key_env) : string :=
  if k_window e && match k_runtime e with Some _ => true | None => false end
  then "⚠️ **API Key Missing**: Please set GEMINI_API_KEY environment variable in App Runner configuration."
  else "⚠️ **API Key Missing**: Please set GEMINI_API_KEY in your .env.local file and restart the dev server.".

Definition KEY_FORMAT_MESSAGE : string :=
  "⚠️ **Invalid API Key Format**: The API key format appears incorrect. Google API keys typically start with " ++
  DQ ++ "AIza" ++ DQ ++ ". Please verify your GEMINI_API_KEY in .env.local.".

(** ** [handleSend] (lines 3156-3657) *)

Definition user_text (t : string) : message := {| m_role := RUser; m_text := t; m_type := TText |}.
Definition model_text (t : string) : message := {| m_role := RModel; m_text := t; m_type := TText |}.
Definition error_text_msg (t : string) : message := {| m_role := RError; m_text := t; m_type := TText |}.

Definition PLACEHOLDER : string := "_🔍 Fetching data from SQL Table..._".

(** [finalPrompt] before [processResponseWithMongo] (lines 3188-3303). *)
Definition final_prompt `{JsRuntime} (c : client) (cleanText : string)
  (isSimulation isVideoThemeRequest isScriptRequest : bool) : string :=
  let csvFiles := List.filter at_isCsv (c_attachments c) in
  let relevantFiles := matchFilesToQuery cleanText csvFiles in
  let isRevenueQueryCheck := matches_any cleanText revenue_words in
  let hasRevenueFileCheck := existsb is_revenue_file csvFiles in
  let p0 := cleanText ++ data_reminder cleanText csvFiles relevantFiles isRevenueQueryCheck hasRevenueFileCheck
                                       (c_dataLoaded c) (c_sqlTables c) in
  let needsQuery := (matches_any cleanText analysis_words || matches_any cleanText aggregation_words) &&
                    Nat.ltb 0 (length csvFiles) in
  let p1 := if needsQuery then p0 ++ two_phase else p0 in
  let p2 := match c_attachments c with
            | [] => p1
            | _ => p1 ++ sources_section cleanText csvFiles relevantFiles isRevenueQueryCheck hasRevenueFileCheck
            end in
  if isSimulation then simulation_prompt cleanText
  else if isVideoThemeRequest then video_prompt cleanText
  else if isScriptRequest then script_prompt cleanText
  else p2.

(** [displayMessage] (lines 3305-3314). *)
Definition display_message (atts : list attachment) (cleanText : string)
  (isSimulation isVideoThemeRequest isScriptRequest : bool) : string :=
  let d := if isSimulation then "🎲 Simulation Request: " ++ cleanText
           else if isVideoThemeRequest then "🎬 Generating Video Strategy for: " ++ cleanText
           else if isScriptRequest then "📝 Generating Script for: " ++ cleanText
           else cleanText in
  match atts with
  | [] => d
  | _ =>
      let attachmentLabel := "[📎 Attached " ++ nat_to_string (length atts) ++ " file(s): " ++
                             join ", " (map at_name atts) ++ "]" in
      if String.eqb d "" then attachmentLabel else attachmentLabel ++ NL ++ d
  end.

(** [chatSessionRef.current] after lines 3373-3391: created once, with the
    conversation so far except the errors. *)
Definition ensure_session (sys : string) (old : list message) (s : option session) : session :=
  match s with
  | Some s => s
  | None => {| s_history := List.filter (fun m => match m_role m with RError => false | _ => true end) old;
               s_system := sys; s_sent := [] |}
  end.

(** The client with new [messages], [isTyping], [retryCount], chat
    session and trace; the other fields as in [c]. *)
Definition client_with (c : client) (ms : list message) (input simInput : string) (atts : list attachment)
  (ty : bool) (retry : nat) (s : option session) (tr : list event) : client :=
  {| c_messages := ms; c_input := input; c_simInput := simInput; c_attachments := atts;
     c_sqlTables := c_sqlTables c; c_tableSchemas := c_tableSchemas c;
     c_userAccessibleFiles := c_userAccessibleFiles c; c_dataLoaded := c_dataLoaded c;
     c_session := s; c_typing := ty; c_retryCount := retry; c_trace := tr |}.

Section Send.
Context `{RT : JsRuntime}.
Variable sys : string.                    (** [getSystemInstruction()] *)
Variable keys : key_env.
Variable model : session -> outcome.
Variable exec : obj -> list jv + string.

(** [handleSend(text, isSimulation, isVideoThemeRequest, isScriptRequest)];
    [None] when the query loop has not ended within [fuel] calls. *)
Definition handleSend (fuel : nat) (text : string) (isSimulation isVideoThemeRequest isScriptRequest : bool)
  (c : client) : option client :=
  let cleanText := trim text in
  let chatAttachments := c_attachments c in
  let userAccessibleFiles := c_userAccessibleFiles c in
  let messages := c_messages c in
  if String.eqb cleanText "" && match chatAttachments with [] => true | _ => false end then Some c
  else
  let (allowed, unauthorizedFiles) := validateQuestionAccess userAccessibleFiles (c_tableSchemas c) cleanText in
  if negb allowed then
    Some (client_with c (messages ++ [user_text cleanText;
                                      model_text (question_denied cleanText unauthorizedFiles userAccessibleFiles)])%list
                      "" (c_simInput c) chatAttachments (c_typing c) (c_retryCount c) (c_session c) (c_trace c))
  else
  let finalPrompt := final_prompt c cleanText isSimulation isVideoThemeRequest isScriptRequest in
  let displayMessage := display_message chatAttachments cleanText isSimulation isVideoThemeRequest isScriptRequest in
  let newMessages := (messages ++ [user_text displayMessage])%list in
  match getApiKey keys with
  | None =>
      Some (client_with c (newMessages ++ [error_text_msg (key_missing_message keys)])%list "" "" [] false 0
                        (c_session c) (c_trace c))
  | Some apiKey =>
      if negb (String.prefix "AIza" apiKey) && Nat.ltb (String.length apiKey) 20 then
        Some (client_with c (newMessages ++ [error_text_msg KEY_FORMAT_MESSAGE])%list "" "" [] false 0
                          (c_session c) (c_trace c))
      else
      let s := ensure_session sys messages (c_session c) in
      let messageIndex := length newMessages in
      let st0 := {| msgs := (newMessages ++ [model_text PLACEHOLDER])%list; typing := true; retryCount := 0;
                    sess := s; trace := c_trace c |} in
      match processResponseWithMongo model exec userAccessibleFiles (c_tableSchemas c) chatAttachments
              (c_sqlTables c) isSimulation messageIndex fuel finalPrompt 0 st0 with
      | None => None
      | Some st => Some (client_with c (msgs st) "" "" [] false 0 (Some (sess st)) (trace st))
      end
  end.

End Send.

(** ** Loading the schemas ([loadDataFolderFiles], lines 2499-2602) *)

(** The environment of one call: [filesLoaded], a signed-in [user], a
    stored token, and the answer of [GET /api/data/schemas] ([None] when
    the fetch fails or the status is not ok). *)
Record load_env := {
  l_filesLoaded : bool;
  l_user : bool;
  l_token : bool;
  l_schemas : option (list Store.schema)
}.

Definition set_loaded (c : client) : client :=
  {| c_messages := c_messages c; c_input := c_input c; c_simInput := c_simInput c; c_attachments := c_attachments c;
     c_sqlTables := c_sqlTables c; c_tableSchemas := c_tableSchemas c;
     c_userAccessibleFiles := c_userAccessibleFiles c; c_dataLoaded := true; c_session := c_session c;
     c_typing := c_typing c; c_retryCount := c_retryCount c; c_trace := c_trace c |}.

(** The data part of the client replaced. *)
Definition with_data (c : client) (atts : list attachment) (tabs : list string) (ts : tables) (s : option session)
  : client :=
  {| c_messages := c_messages c; c_input := c_input c; c_simInput := c_simInput c; c_attachments := atts;
     c_sqlTables := tabs; c_tableSchemas := ts;
     c_userAccessibleFiles := c_userAccessibleFiles c; c_dataLoaded := c_dataLoaded c; c_session := s;
     c_typing := c_typing c; c_retryCount := c_retryCount c; c_trace := c_trace c |}.

Definition loadDataFolderFiles (forceReload : bool) (e : load_env) (c : client) : client :=
  if negb forceReload && c_dataLoaded c then c
  else if negb (l_filesLoaded e) || negb (l_user e) then c
  else if negb (l_token e) then set_loaded c
  else
  let c0 := if forceReload then with_data c [] [] [] (c_session c) else c in
  match l_schemas e with
  | None => set_loaded c0
  | Some schemas =>
      let newFiles := map Session.attachment_of schemas in
      let newTables := map Store.sc_collectionName schemas in
      let ts := add_schemas (c_tableSchemas c0) schemas in
      match newFiles with
      | [] => set_loaded (with_data c0 (c_attachments c0) (c_sqlTables c0) ts (c_session c0))
      | _ =>
          let atts := if forceReload then newFiles
                      else (c_attachments c0 ++
                            List.filter (fun f => negb (str_mem (at_name f) (map at_name (c_attachments c0)))) newFiles)%list in
          let tabs := if forceReload then newTables else dedup [] (c_sqlTables c0 ++ newTables)%list in
          set_loaded (with_data c0 atts tabs ts (if forceReload then None else c_session c0))
      end
  end.

(** ** Examples *)

Definition ex_revenue_attachment : attachment :=
  {| at_name := "Revenue.csv"; at_content := ""; at_isCsv := true; at_isLarge := false;
     at_collectionName := Some "data_revenue"; at_headers := Some ["District"; "Revenue"]; at_rowCount := 2 |}.

(** A fresh client of a user who may read [acc], with the schemas of
    [ex_tables] loaded. *)
Definition ex_client (acc : list string) : client :=
  {| c_messages := []; c_input := "what is our revenue in Thane"; c_simInput := "";
     c_attachments := [ex_crm_attachment; ex_revenue_attachment];
     c_sqlTables := ["data_crm_leads"; "data_revenue"]; c_tableSchemas := ex_tables;
     c_userAccessibleFiles := acc; c_dataLoaded := true; c_session := None;
     c_typing := false; c_retryCount := 0; c_trace := [] |}.

Definition ex_keys : key_env :=
  {| k_window := true; k_runtime := Some "AIzaSyExampleKey0123456789"; k_proc_gemini := None; k_proc_api := None;
     k_build_api := None; k_build_gemini := None |}.

(** ** Lemmas *)

Lemma matches_any_lower s ws : matches_any (lower s) ws = matches_any s ws.
Proof. unfold matches_any. now rewrite lower_idem. Qed.

Lemma set_nth_last {A} (l : list A) (x y : A) : set_nth (length l) x (l ++ [y])%list = (l ++ [x])%list.
Proof. induction l as [|a l IH]; simpl; [reflexivity|now rewrite IH]. Qed.

Lemma data_reminder_nil t r h dl sql :
  sql <> [] -> data_reminder t [] [] r h dl sql = "".
Proof. intros Hs. destruct sql; [contradiction|]. simpl. now destruct dl. Qed.

Lemma add_matches_nil q acc m : add_matches q [] acc m = acc.
Proof. unfold add_matches. now destruct existsb. Qed.

Lemma matchFilesToQuery_nil q : matchFilesToQuery q [] = [].
Proof.
  unfold matchFilesToQuery. cbn [find]. destruct (matches_any _ _);
  enough (E : forall ms acc, fold_left (add_matches (lower q) []) ms acc = acc) by now rewrite E.
  all: induction ms; intros acc; simpl; [reflexivity|now rewrite add_matches_nil].
Qed.

Lemma final_prompt_no_attachments `{JsRuntime} c t :
  c_attachments c = [] -> c_sqlTables c <> [] -> final_prompt c t false false false = t.
Proof.
  intros Ha Hs. unfold final_prompt. rewrite Ha. cbn [List.filter length Nat.ltb Nat.leb existsb].
  rewrite matchFilesToQuery_nil, (data_reminder_nil _ _ _ _ _ Hs), andb_false_r. apply append_nil_r.
Qed.

Lemma handleSend_allowed `{JsRuntime} sys keys model exec fuel text sim vid scr c :
  trim text <> "" ->
  fst (validateQuestionAccess (c_userAccessibleFiles c) (c_tableSchemas c) (trim text)) = true ->
  handleSend sys keys model exec fuel text sim vid scr c =
  let newMessages := (c_messages c ++ [user_text (display_message (c_attachments c) (trim text) sim vid scr)])%list in
  match getApiKey keys with
  | None => Some (client_with c (newMessages ++ [error_text_msg (key_missing_message keys)]) "" "" [] false 0
                              (c_session c) (c_trace c))
  | Some apiKey =>
      if negb (String.prefix "AIza" apiKey) && Nat.ltb (String.length apiKey) 20 then
        Some (client_with c (newMessages ++ [error_text_msg KEY_FORMAT_MESSAGE]) "" "" [] false 0
                          (c_session c) (c_trace c))
      else
      match processResponseWithMongo model exec (c_userAccessibleFiles c) (c_tableSchemas c) (c_attachments c)
              (c_sqlTables c) sim (length newMessages) fuel (final_prompt c (trim text) sim vid scr) 0
              {| msgs := (newMessages ++ [model_text PLACEHOLDER])%list; typing := true; retryCount := 0;
                 sess := ensure_session sys (c_messages c) (c_session c); trace := c_trace c |} with
      | None => None
      | Some st => Some (client_with c (msgs st) "" "" [] false 0 (Some (sess st)) (trace st))
      end
  end.
Proof.
  intros Ht Hq. unfold handleSend. destruct (String.eqb_spec (trim text) ""); [contradiction|].
  cbn [andb]. destruct (validateQuestionAccess _ _ _) as [[|] bad]; [reflexivity|discriminate].
Qed.

(** ** Properties *)

Section TurnFacts.
Context `{RT : JsRuntime}.
Variable sys : string.
Variable keys : key_env.
Variable model : session -> outcome.
Variable exec : obj -> list jv + string.

Local Abbreviation send_ := (handleSend sys keys model exec).

(** [C6] A question that names a file the user may not read is answered
    by the denial alone: the user's text and the denial are appended, and
    the chat session, the trace (no prompt, no query) and the
    attachments are untouched, whatever the fuel. *)
Theorem question_denial_skips_model fuel text sim vid scr c bad :
  trim text <> "" ->
  validateQuestionAccess (c_userAccessibleFiles c) (c_tableSchemas c) (trim text) = (false, bad) ->
  send_ fuel text sim vid scr c =
  Some (client_with c (c_messages c ++ [user_text (trim text);
                                        model_text (question_denied (trim text) bad (c_userAccessibleFiles c))])%list
                    "" (c_simInput c) (c_attachments c) (c_typing c) (c_retryCount c) (c_session c) (c_trace c)).
Proof.
  intros Ht Hq. unfold handleSend. destruct (String.eqb_spec (trim text) ""); [contradiction|].
  cbn [andb]. now rewrite Hq.
Qed.

(** A turn whose reply holds no query and passes the response check
    ends with the cleaned reply in the placeholder's place: the messages
    are the old ones, the user's line and the answer; the prompt sent is
    [final_prompt]; the input, the attachments and the typing flag are
    reset. *)
Theorem turn_plain_answer fuel text sim vid scr c k s0 full :
  trim text <> "" ->
  fst (validateQuestionAccess (c_userAccessibleFiles c) (c_tableSchemas c) (trim text)) = true ->
  getApiKey keys = Some k -> String.prefix "AIza" k = true ->
  ensure_session sys (c_messages c) (c_session c) = s0 ->
  model {| s_history := s_history s0; s_system := s_system s0;
           s_sent := (s_sent s0 ++ [final_prompt c (trim text) sim vid scr])%list |} = Reply [full] ->
  full <> "" -> fst (validateResponseAccess (c_userAccessibleFiles c) (c_tableSchemas c) full) = true ->
  mongo_block full = None ->
  exists c', send_ (S fuel) text sim vid scr c = Some c' /\
    c_messages c' = (c_messages c ++ [user_text (display_message (c_attachments c) (trim text) sim vid scr);
                                      {| m_role := RModel; m_text := removeQueryFromResponse full;
                                         m_type := msg_type_of sim full |}])%list /\
    c_session c' = Some {| s_history := s_history s0; s_system := s_system s0;
                           s_sent := (s_sent s0 ++ [final_prompt c (trim text) sim vid scr])%list |} /\
    c_typing c' = false /\ c_attachments c' = [] /\ c_input c' = "".
Proof.
  intros Ht Hq Hk Hp Hs Hm Hne Hv Hb. rewrite handleSend_allowed by assumption. cbv zeta.
  rewrite Hk, Hp. cbn [negb andb]. rewrite Hs.
  rewrite (process_reply_valid model exec _ _ _ _ sim _ full) by (subst; assumption).
  rewrite Hb. eexists. split; [reflexivity|]. cbn [client_with c_messages c_session c_typing c_attachments c_input
                                                  msgs sess show send].
  rewrite !set_nth_last, <- app_assoc. repeat split; reflexivity.
Qed.

(** The data sources reach the model only once: every turn past
    the question check empties [chatAttachments], the automatic schema
    load does nothing once [dataLoaded] is set, so the next question's
    prompt is the bare question (no data reminder, no schema list, no
    two-phase instruction). *)
Theorem later_turns_lose_sources fuel text sim vid scr c c1 t2 :
  trim text <> "" ->
  fst (validateQuestionAccess (c_userAccessibleFiles c) (c_tableSchemas c) (trim text)) = true ->
  c_sqlTables c <> [] -> c_dataLoaded c = true ->
  send_ fuel text sim vid scr c = Some c1 ->
  c_attachments c1 = [] /\ (forall e, loadDataFolderFiles false e c1 = c1) /\
  final_prompt c1 t2 false false false = t2.
Proof.
  intros Ht Hq Hs Hd. rewrite handleSend_allowed by assumption. cbv zeta.
  destruct (getApiKey keys) as [k|]; [destruct (_ && _); [|destruct processResponseWithMongo]|];
    intros E; try discriminate; injection E as <-;
    (split; [reflexivity|split; [intros e; unfold loadDataFolderFiles; cbn; now rewrite Hd|]];
     apply final_prompt_no_attachments; [reflexivity|exact Hs]).
Qed.

End TurnFacts.

(** A revenue question about attachments that hold a revenue file
    (named "revenue", not "lead") is tied to that one file: it is the
    whole result of [matchFilesToQuery] and the only data source the
    prompt lists. *)
Theorem revenue_query_single_file q atts f :
  matches_any q revenue_words = true -> find is_revenue_file atts = Some f ->
  matchFilesToQuery q atts = [f] /\
  files_to_show atts (matchFilesToQuery q atts) (matches_any q revenue_words) (existsb is_revenue_file atts) = [f].
Proof.
  intros Hq Hf. assert (Hm : matchFilesToQuery q atts = [f]).
  { unfold matchFilesToQuery. rewrite matches_any_lower, Hq, Hf. reflexivity. }
  split; [exact Hm|]. unfold files_to_show. rewrite Hq.
  destruct (find_some _ _ Hf) as [Hin Hr]. rewrite (proj2 (existsb_exists _ _) (ex_intro _ f (conj Hin Hr))).
  cbn [andb]. now rewrite Hf.
Qed.

(** ** Witnesses *)

Lemma question_denial_skips_model_witness :
  @handleSend ex_runtime "" ex_keys (fun _ => Reply []) (fun _ => inr "") 0 "what is our revenue in Thane"
    false false false (ex_client ["CRM leads.csv"]) =
  Some (client_with (ex_client ["CRM leads.csv"])
          [user_text "what is our revenue in Thane";
           model_text (question_denied "what is our revenue in Thane" ["Revenue.csv"] ["CRM leads.csv"])]
          "" "" [ex_crm_attachment; ex_revenue_attachment] false 0 None []).
Proof.
  exact (@question_denial_skips_model ex_runtime "" ex_keys (fun _ => Reply []) (fun _ => inr "") 0
           "what is our revenue in Thane" false false false (ex_client ["CRM leads.csv"]) ["Revenue.csv"]
           ltac:(vm_compute; discriminate) ltac:(vm_compute; reflexivity)).
Defined.

Lemma turn_plain_answer_witness :
  exists c', @handleSend ex_runtime "" ex_keys (fun _ => Reply ["Thane leads grew."]) (fun _ => inr "") 1
               "How are leads in Thane?" false false false (ex_client []) = Some c' /\
    c_messages c' = [user_text (display_message (c_attachments (ex_client [])) "How are leads in Thane?" false false false);
                     {| m_role := RModel; m_text := removeQueryFromResponse "Thane leads grew.";
                        m_type := msg_type_of false "Thane leads grew." |}] /\
    c_session c' = Some {| s_history := []; s_system := "";
                           s_sent := [@final_prompt ex_runtime (ex_client []) "How are leads in Thane?" false false false] |} /\
    c_typing c' = false /\ c_attachments c' = [] /\ c_input c' = "".
Proof.
  exact (@turn_plain_answer ex_runtime "" ex_keys (fun _ => Reply ["Thane leads grew."]) (fun _ => inr "") 0
           "How are leads in Thane?" false false false (ex_client []) "AIzaSyExampleKey0123456789"
           {| s_history := []; s_system := ""; s_sent := [] |} "Thane leads grew."
           ltac:(vm_compute; discriminate) eq_refl eq_refl eq_refl eq_refl eq_refl
           ltac:(discriminate) ltac:(vm_compute; reflexivity) ltac:(vm_compute; reflexivity)).
Defined.

Lemma later_turns_lose_sources_witness :
  exists c1, @handleSend ex_runtime "" ex_keys (fun _ => Reply ["Thane leads grew."]) (fun _ => inr "") 1
               "How are leads in Thane?" false false false (ex_client []) = Some c1 /\
    c_attachments c1 = [] /\ (forall e, loadDataFolderFiles false e c1 = c1) /\ @final_prompt ex_runtime c1 "And in Pune?" false false false = "And in Pune?".
Proof.
  destruct (@handleSend ex_runtime "" ex_keys (fun _ => Reply ["Thane leads grew."]) (fun _ => inr "") 1
              "How are leads in Thane?" false false false (ex_client [])) as [c1|] eqn:E;
    [|vm_compute in E; discriminate].
  exists c1. split; [reflexivity|].
  exact (@later_turns_lose_sources ex_runtime "" ex_keys (fun _ => Reply ["Thane leads grew."]) (fun _ => inr "") 1
           "How are leads in Thane?" false false false (ex_client []) c1 "And in Pune?"
           ltac:(vm_compute; discriminate) ltac:(vm_compute; reflexivity) ltac:(discriminate) eq_refl E).
Defined.

Lemma revenue_query_single_file_witness :
  matchFilesToQuery "what is our revenue in Thane" [ex_crm_attachment; ex_revenue_attachment] =
    [ex_revenue_attachment] /\
  files_to_show [ex_crm_attachment; ex_revenue_attachment]
    (matchFilesToQuery "what is our revenue in Thane" [ex_crm_attachment; ex_revenue_attachment])
    (matches_any "what is our revenue in Thane" revenue_words)
    (existsb is_revenue_file [ex_crm_attachment; ex_revenue_attachment]) = [ex_revenue_attachment].
Proof.
  exact (revenue_query_single_file "what is our revenue in Thane" [ex_crm_attachment; ex_revenue_attachment]
           ex_revenue_attachment ltac:(vm_compute; reflexivity) ltac:(vm_compute; reflexivity)).
Defined.

End Turn.
