(* ===== verification/Chat.v ===== *)
(** * Chat: files attached to the chat

    [handleChatFileSelect] (src/frontend/index.tsx, lines 2317-2367), the
    filter [isHTMLContent] (lines 2372-2392), [processSingleFile] (lines
    2431-2492) and [removeAttachment] (lines 2494-2496): the files a user
    picks in the chat are read in the browser and become attachments of
    the client state of [Turn]; a CSV file also gets a collection name
    (the chain of the server's [getCollectionName], written again in the
    client), a table schema and an entry of [sqlTables].  Nothing is sent
    to the server.

    A picked file is its name, the text [FileReader] gives ([None] when
    reading fails) and, for a ZIP archive, the entries JSZip lists (name,
    directory flag, text; [None] when loading fails).  Reading errors are
    caught and logged by the loop, which goes on with the next file. *)

From Stdlib Require Import String Ascii List Bool Arith Lia.
From S2P Require Import Prelude Regex JsValue Normalizer Store Access Conversation Reply Serving Turn.
Import ListNotations.
Open Scope string_scope.
Open Scope nat_scope.

Module Chat.
Import Regex Normalizer Store Access Conversation Turn.

Record picked := {
  pk_name : string;
  pk_text : option string;                            (** [readAsText] *)
  pk_zip : option (list (string * bool * string))     (** [JSZip.loadAsync]: name, [dir], text *)
}.

(** ** [isHTMLContent] *)

Definition is_quote (c : ascii) : bool := Ascii.eqb c (ascii_of_nat 34) || is_char "'" c.

(** [/<[a-z][\s\S]*>/i]. *)
Definition htmlTagPattern : re :=
  Seq (lit "<") (Seq (Char (fun c => is_lower c || is_upper c)) (Seq (Star true any) (lit ">"))).

(** [(s.match(r) || []).length] for a pattern without the [g] flag: the
    match array holds the matched text and one entry per group. *)
Definition match_length (r : re) (s : string) : nat :=
  match exec r s with Some _ => S (ngroups r) | None => 0 end.

Definition isHTMLContent (content : string) : bool :=
  if String.eqb content "" || String.eqb (trim content) "" then true
  else
    let trimmed := lower (trim content) in
    if prefix "<!doctype html" trimmed || prefix "<html" trimmed || includes trimmed "<html>" ||
       includes trimmed "</html>" || includes trimmed "<head>" || includes trimmed "<body>" ||
       includes trimmed "<script" || includes trimmed "<!DOCTYPE" then true
    else Nat.ltb 2 (match_length htmlTagPattern content).

(** ** [processSingleFile] *)

(** [/^["']|["']$/g]. *)
Definition quote_ends : re := Alt (Seq Bol (Char is_quote)) (Seq (Char is_quote) Eol).

(** [headerLine.split(',').map(h => h.trim().replace(/^["']|["']$/g, ''))]. *)
Definition header_cells (headerLine : string) : list string :=
  map (fun h => replace_all_re quote_ends (fun _ _ => "") (trim h)) (split_on "," headerLine).

(** [content.split('\n').filter(l => l.trim())]. *)
Definition data_lines (content : string) : list string :=
  List.filter (fun l => negb (String.eqb (trim l) "")) (split_on (ascii_of_nat 10) content).

(** The collection name of line 2446. *)
Definition chat_collection_name (name : string) : string :=
  "data_" ++ lower (strip_edges is_us (collapse_runs is_us "_"
                      (replace_chars (fun c => negb (is_alnum c)) "_" (strip_csv_suffix name)))).

(** What [processSingleFile] adds for one file: the attachment it pushes
    and, for a CSV file, the table schema it sets; [None] when it returns
    early (HTML content, fewer than two lines, no header). *)
Definition process_file (name content : string) : option (attachment * option (string * table_schema)) :=
  let isCsv := Serving.ends_with (lower name) ".csv" in
  let isLarge := Nat.ltb MAX_TEXT_PAYLOAD_SIZE (String.length content) in
  if isCsv then
    if isHTMLContent content then None
    else
      let collectionName := chat_collection_name name in
      match data_lines content with
      | headerLine :: (_ :: _) as rows =>
          let headers := header_cells headerLine in
          let rowCount := length rows in
          match headers with
          | [] => None
          | _ =>
              if forallb (fun h => String.eqb h "") headers then None
              else Some ({| at_name := name; at_content := content; at_isCsv := true; at_isLarge := isLarge;
                            at_collectionName := Some collectionName; at_headers := Some headers;
                            at_rowCount := rowCount |},
                         Some (collectionName, {| ts_columns := headers; ts_rowCount := rowCount;
                                                  ts_fileName := name |}))
          end
      | _ => None
      end
  else Some ({| at_name := name; at_content := content; at_isCsv := false; at_isLarge := isLarge;
                at_collectionName := None; at_headers := None; at_rowCount := 0 |}, None).

(** The accumulators [newFiles], [newTables] and the [tableSchemas] the
    queued updates build. *)
Definition processSingleFile (name content : string) (acc : list attachment * list string * tables)
  : list attachment * list string * tables :=
  let '(newFiles, newTables, ts) := acc in
  match process_file name content with
  | None => acc
  | Some (a, Some (c, t)) => ((newFiles ++ [a])%list, (newTables ++ [c])%list, obj_set c t ts)
  | Some (a, None) => ((newFiles ++ [a])%list, newTables, ts)
  end.

(** ** [handleChatFileSelect] *)

(** An entry of an archive that is read: not a directory, not under
    [__MACOSX], not hidden. *)
Definition zip_entry_ok (filename : string) (dir : bool) : bool :=
  negb dir && negb (prefix "__MACOSX" filename) && negb (prefix "." filename).

(** One iteration of the loop of lines 2326-2350; [jszip] is
    [typeof JSZip !== 'undefined']. *)
Definition read_file (jszip : bool) (acc : list attachment * list string * tables) (f : picked)
  : list attachment * list string * tables :=
  if Serving.ends_with (lower (pk_name f)) ".zip" then
    if jszip then
      match pk_zip f with
      | Some entries =>
          fold_left (fun acc e => let '(filename, dir, text) := e in
                                  if zip_entry_ok filename dir then processSingleFile filename text acc else acc)
                    entries acc
      | None => acc
      end
    else acc
  else match pk_text f with Some text => processSingleFile (pk_name f) text acc | None => acc end.

(** The [forEach] of lines 2354-2364. *)
Definition schema_update (ts : tables) (f : attachment) : tables :=
  match at_collectionName f, at_headers f with
  | Some c, Some hs =>
      if at_isCsv f && negb (String.eqb c "") && Nat.ltb 0 (at_rowCount f)
      then obj_set c {| ts_columns := hs; ts_rowCount := at_rowCount f; ts_fileName := at_name f |} ts
      else ts
  | _, _ => ts
  end.

Definition set_chat (c : client) (atts : list attachment) (tabs : list string) (ts : tables) : client :=
  {| c_messages := c_messages c; c_input := c_input c; c_simInput := c_simInput c; c_attachments := atts;
     c_sqlTables := tabs; c_tableSchemas := ts; c_userAccessibleFiles := c_userAccessibleFiles c;
     c_dataLoaded := c_dataLoaded c; c_session := c_session c; c_typing := false;
     c_retryCount := c_retryCount c; c_trace := c_trace c |}.

Definition handleChatFileSelect (jszip : bool) (files : list picked) (c : client) : client :=
  match files with
  | [] => c
  | _ =>
      let '(newFiles, newTables, ts) := fold_left (read_file jszip) files ([], [], c_tableSchemas c) in
      set_chat c (c_attachments c ++ newFiles)%list (dedup [] (c_sqlTables c ++ newTables)%list)
        (fold_left schema_update newFiles ts)
  end.

(** [prev.filter((_, i) => i !== index)]. *)
Fixpoint remove_index {A} (index : nat) (l : list A) : list A :=
  match l, index with
  | [], _ => []
  | _ :: t, 0 => t
  | x :: t, S i => x :: remove_index i t
  end.

Definition removeAttachment (index : nat) (c : client) : client :=
  {| c_messages := c_messages c; c_input := c_input c; c_simInput := c_simInput c;
     c_attachments := remove_index index (c_attachments c); c_sqlTables := c_sqlTables c;
     c_tableSchemas := c_tableSchemas c; c_userAccessibleFiles := c_userAccessibleFiles c;
     c_dataLoaded := c_dataLoaded c; c_session := c_session c; c_typing := c_typing c;
     c_retryCount := c_retryCount c; c_trace := c_trace c |}.

(** ** Reference definitions *)

(** The checks of [isHTMLContent] that can decide: the count of tags and
    the search for ["<!DOCTYPE"] in the lower-cased text are left out. *)
Definition isHTMLContent_effective (content : string) : bool :=
  String.eqb content "" || String.eqb (trim content) "" ||
  (let trimmed := lower (trim content) in
   prefix "<!doctype html" trimmed || prefix "<html" trimmed || includes trimmed "<html>" ||
   includes trimmed "</html>" || includes trimmed "<head>" || includes trimmed "<body>" ||
   includes trimmed "<script").

(** An attachment with its text removed. *)
Definition blank (a : attachment) : attachment :=
  {| at_name := at_name a; at_content := ""; at_isCsv := at_isCsv a; at_isLarge := at_isLarge a;
     at_collectionName := at_collectionName a; at_headers := at_headers a; at_rowCount := at_rowCount a |}.

(** The attachments of a list are CSV files. *)
Definition all_csv (l : list attachment) : Prop := Forall (fun a => at_isCsv a = true) l.

(** ** Examples *)

(** A text file of notes attached to the chat of [Turn.ex_client]. *)
Definition ex_notes (text : string) : picked := {| pk_name := "notes.txt"; pk_text := Some text; pk_zip := None |}.

Definition ex_chat (text : string) : client := handleChatFileSelect true [ex_notes text] (ex_client []).

(** ** Lemmas *)

Lemma prefix_all_chars p w s : prefix w s = true -> all_chars p s = true -> all_chars p w = true.
Proof.
  revert s. induction w as [|a w IH]; intros [|b s] Hp Hs; try reflexivity; try discriminate.
  cbn in Hp, Hs |- *. destruct (Ascii.ascii_dec a b) as [<-|]; [|discriminate].
  apply andb_prop in Hs as [Ha Hs]. rewrite Ha. exact (IH s Hp Hs).
Qed.

Lemma includes_all_chars p s w : includes s w = true -> all_chars p s = true -> all_chars p w = true.
Proof.
  induction s as [|a s IH]; cbn; intros Hi Hs.
  - rewrite orb_false_r in Hi. exact (prefix_all_chars p w "" Hi eq_refl).
  - apply orb_prop in Hi as [Hi|Hi].
    + exact (prefix_all_chars p w (String a s) Hi ltac:(cbn; exact Hs)).
    + apply andb_prop in Hs as [_ Hs]. exact (IH Hi Hs).
Qed.

(** A lower-cased text holds no upper-case letter, so it never includes
    ["<!DOCTYPE"]. *)
Lemma includes_lower_doctype s : includes (lower s) "<!DOCTYPE" = false.
Proof.
  destruct (includes (lower s) "<!DOCTYPE") eqn:E; [|reflexivity].
  assert (L : all_chars (fun c => negb (is_upper c)) (lower s) = true).
  { clear E. unfold lower. rewrite all_chars_map_eq. induction s as [|a s IH]; [reflexivity|].
    cbn. rewrite lower_char_not_upper. exact IH. }
  pose proof (includes_all_chars _ _ _ E L) as C. discriminate C.
Qed.

(** The array of a match without the [g] flag has one entry per group
    and one for the match. *)
Lemma match_length_le r s : match_length r s <= S (ngroups r).
Proof. unfold match_length. destruct (exec r s); lia. Qed.

Lemma htmlTag_count_small s : Nat.ltb 2 (match_length htmlTagPattern s) = false.
Proof.
  apply Nat.ltb_ge. pose proof (match_length_le htmlTagPattern s) as L.
  replace (ngroups htmlTagPattern) with 0 in L by reflexivity. lia.
Qed.

(** [C34] Two checks of [isHTMLContent] are dead: the text is lower-cased
    before it is searched for ["<!DOCTYPE"], and [content.match] without
    the [g] flag gives an array of at most one element for a pattern
    without groups, so "more than 2 HTML tags" never holds.  The filter
    is exactly its other checks: a text with many tags but none of the
    listed ones is taken for CSV. *)
Theorem isHTMLContent_dead_checks content : isHTMLContent content = isHTMLContent_effective content.
Proof.
  unfold isHTMLContent, isHTMLContent_effective.
  destruct (String.eqb content "" || String.eqb (trim content) ""); [reflexivity|]. cbv zeta.
  rewrite includes_lower_doctype, orb_false_r, htmlTag_count_small.
  now destruct (_ || _).
Qed.

(** ** What the prompt reads of the attachments *)

Lemma names_blank l : map at_name (map blank l) = map at_name l.
Proof. rewrite map_map. reflexivity. Qed.

Lemma filter_blank (f : attachment -> bool) l :
  (forall a, f (blank a) = f a) -> List.filter f (map blank l) = map blank (List.filter f l).
Proof. intros Hf. induction l as [|a l IH]; [reflexivity|]. cbn. rewrite Hf. destruct (f a); cbn; now rewrite IH. Qed.

Lemma find_blank (f : attachment -> bool) l :
  (forall a, f (blank a) = f a) -> find f (map blank l) = option_map blank (find f l).
Proof. intros Hf. induction l as [|a l IH]; [reflexivity|]. cbn. rewrite Hf. now destruct (f a). Qed.

Lemma existsb_blank (f : attachment -> bool) l :
  (forall a, f (blank a) = f a) -> existsb f (map blank l) = existsb f l.
Proof. intros Hf. induction l as [|a l IH]; [reflexivity|]. cbn. now rewrite Hf, IH. Qed.

Lemma add_matches_blank q l acc m :
  add_matches q (map blank l) (map blank acc) m = map blank (add_matches q l acc m).
Proof.
  unfold add_matches. destruct (existsb _ (mp_keywords m)); [|reflexivity].
  revert acc. induction l as [|a l IH]; intros acc; [reflexivity|]. cbn [fold_left map].
  rewrite names_blank. cbn [blank at_name].
  destruct (str_mem (at_name a) (map at_name acc)); [apply IH|].
  destruct (existsb _ (mp_patterns m)); [|apply IH].
  replace (map blank acc ++ [blank a])%list with (map blank (acc ++ [a])%list) by apply map_app. apply IH.
Qed.

Lemma matchFilesToQuery_blank q l : matchFilesToQuery q (map blank l) = map blank (matchFilesToQuery q l).
Proof.
  unfold matchFilesToQuery. cbv zeta. rewrite find_blank by reflexivity.
  destruct (matches_any (lower q) revenue_words); [destruct (find is_revenue_file l); [reflexivity|]|].
  all: assert (F : forall ms acc, fold_left (add_matches (lower q) (map blank l)) ms (map blank acc) =
                                  map blank (fold_left (add_matches (lower q) l) ms acc))
         by (induction ms as [|m ms IHm]; intros acc; [reflexivity|]; cbn; rewrite add_matches_blank; apply IHm).
  all: specialize (F fileMappings []); cbn [map] in F; cbn [option_map]; rewrite F;
    destruct (fold_left (add_matches (lower q) l) fileMappings []); reflexivity.
Qed.

Lemma data_reminder_blank t cs rs r h dl sql :
  data_reminder t (map blank cs) (map blank rs) r h dl sql = data_reminder t cs rs r h dl sql.
Proof.
  unfold data_reminder. destruct cs as [|a cs]; [reflexivity|]. cbn [map].
  rewrite <- (map_cons blank a cs), find_blank by reflexivity.
  destruct (r && h); [now destruct (find is_revenue_file (a :: cs))|].
  now rewrite !length_map, names_blank.
Qed.

Lemma files_to_show_blank cs rs r h :
  files_to_show (map blank cs) (map blank rs) r h = map blank (files_to_show cs rs r h).
Proof.
  unfold files_to_show. rewrite find_blank by reflexivity.
  destruct (r && h); [now destruct (find is_revenue_file cs)|]. rewrite !length_map.
  destruct (_ && _); [|reflexivity]. rewrite map_app. f_equal.
  rewrite filter_blank by (intros; reflexivity). f_equal. apply filter_ext. intros a.
  now rewrite existsb_blank by reflexivity.
Qed.

Lemma add_matches_csv q l acc m : all_csv l -> all_csv acc -> all_csv (add_matches q l acc m).
Proof.
  unfold add_matches. intros Hl. destruct (existsb _ _); [|easy]. revert acc.
  induction Hl as [|a l Ha Hl IH]; intros acc Hacc; [exact Hacc|]. cbn [fold_left]. apply IH.
  destruct (str_mem _ _); [exact Hacc|]. destruct (existsb _ _); [|exact Hacc].
  apply Forall_app. split; [exact Hacc|]. now constructor.
Qed.

Lemma matchFilesToQuery_csv q l : all_csv l -> all_csv (matchFilesToQuery q l).
Proof.
  intros Hl. unfold matchFilesToQuery. cbv zeta.
  assert (F : forall ms acc, all_csv acc -> all_csv (fold_left (add_matches (lower q) l) ms acc))
    by (induction ms as [|m ms IHm]; intros acc Ha; [exact Ha|]; apply IHm, add_matches_csv; assumption).
  assert (N : all_csv (match fold_left (add_matches (lower q) l) fileMappings [] with
                       | [] => l | m :: ms => m :: ms end))
    by (pose proof (F fileMappings [] (Forall_nil _)) as G; destruct (fold_left _ _ _); assumption).
  destruct (matches_any _ _); [|exact N].
  destruct (find is_revenue_file l) as [f|] eqn:Ef; [|exact N].
  apply find_some in Ef as [Hin _]. constructor; [|constructor].
  exact (proj1 (Forall_forall _ _) Hl f Hin).
Qed.

Lemma files_to_show_csv cs rs r h : all_csv cs -> all_csv rs -> all_csv (files_to_show cs rs r h).
Proof.
  intros Hc Hr. unfold files_to_show. destruct (r && h).
  - destruct (find is_revenue_file cs) as [f|] eqn:Ef; [|exact Hc].
    apply find_some in Ef as [Hin _]. constructor; [|constructor]. exact (proj1 (Forall_forall _ _) Hc f Hin).
  - destruct (_ && _); [|exact Hc]. apply Forall_app. split; [exact Hr|].
    apply Forall_forall. intros x Hx. apply filter_In in Hx as [Hx _]. exact (proj1 (Forall_forall _ _) Hc x Hx).
Qed.

Section Prompt.
Context `{JsRuntime}.

Lemma data_sources_blank i l : all_csv l -> data_sources i (map blank l) = data_sources i l.
Proof.
  intros Hl. revert i. induction Hl as [|a l Ha Hl IH]; intros i; [reflexivity|].
  cbn [map data_sources]. rewrite IH. f_equal. unfold data_source. cbn [blank at_isCsv]. now rewrite Ha.
Qed.

Lemma sources_section_blank t cs rs r h :
  all_csv cs -> all_csv rs ->
  sources_section t (map blank cs) (map blank rs) r h = sources_section t cs rs r h.
Proof.
  intros Hc Hr. unfold sources_section. rewrite files_to_show_blank, data_sources_blank; [reflexivity|].
  now apply files_to_show_csv.
Qed.

End Prompt.

Lemma filter_csv l : all_csv (List.filter at_isCsv l).
Proof. apply Forall_forall. intros x Hx. now apply filter_In in Hx as [_ Hx]. Qed.

Section PromptClaims.
Context `{JsRuntime}.

(** The prompt reads the attachments, [dataLoaded] and [sqlTables] of the
    client only. *)
Lemma final_prompt_fields c c' t sim vid scr :
  c_attachments c = c_attachments c' -> c_dataLoaded c = c_dataLoaded c' -> c_sqlTables c = c_sqlTables c' ->
  final_prompt c t sim vid scr = final_prompt c' t sim vid scr.
Proof. intros A D S. unfold final_prompt. now rewrite A, D, S. Qed.

Lemma final_prompt_blank c t sim vid scr :
  final_prompt (with_data c (map blank (c_attachments c)) (c_sqlTables c) (c_tableSchemas c) (c_session c))
    t sim vid scr = final_prompt c t sim vid scr.
Proof.
  unfold final_prompt. cbn [with_data c_attachments c_dataLoaded c_sqlTables].
  rewrite filter_blank by reflexivity. rewrite matchFilesToQuery_blank, existsb_blank by reflexivity.
  rewrite data_reminder_blank, length_map.
  rewrite sources_section_blank by (apply filter_csv || apply matchFilesToQuery_csv, filter_csv).
  now destruct (c_attachments c).
Qed.

(** [C30] No content of an attached file reaches the model: [filesToShow]
    only holds CSV attachments, whose entries give the name, the
    collection, the row count and the columns, so the branch that would
    put the text of a small non-CSV file in the prompt is never taken.
    Two clients whose attachments differ only in their contents send the
    same prompt; the rows of an attached CSV, and every attached text
    file, are never seen by the model. *)
Theorem attachment_contents_never_sent c1 c2 t sim vid scr :
  map blank (c_attachments c1) = map blank (c_attachments c2) ->
  c_dataLoaded c1 = c_dataLoaded c2 -> c_sqlTables c1 = c_sqlTables c2 ->
  final_prompt c1 t sim vid scr = final_prompt c2 t sim vid scr.
Proof.
  intros A D S. rewrite <- (final_prompt_blank c1), <- (final_prompt_blank c2).
  apply final_prompt_fields; cbn [with_data c_attachments c_dataLoaded c_sqlTables]; assumption.
Qed.

End PromptClaims.

(** ** Witnesses *)

Lemma attachment_contents_never_sent_witness :
  includes (@final_prompt ex_runtime (ex_chat "Q3 target: 42 crore") "summarize our revenue" false false false)
    "42 crore" = false /\
  @final_prompt ex_runtime (ex_chat "Q3 target: 42 crore") "summarize our revenue" false false false =
  @final_prompt ex_runtime (ex_chat "") "summarize our revenue" false false false.
Proof.
  split; [vm_compute; reflexivity|].
  exact (@attachment_contents_never_sent ex_runtime _ _ "summarize our revenue" false false false
           ltac:(vm_compute; reflexivity) eq_refl eq_refl).
Defined.

End Chat.
