(* ===== verification/Page.v ===== *)
(** The main page around the conversation ([App] in
    [src/frontend/index.tsx]): the messages kept in [localStorage] by
    [usePersistentState] (lines 211-236) under the key ['chat_messages']
    (line 2228) and cleaned on mount (lines 2277-2284), sign-out
    ([handleLogout], lines 2296-2300), [resetChat] (lines 2722-2732), the
    automatic loading of the schemas (lines 2651-2659) and the reload after
    an upload: the [reloadData] event and the ['dataNeedsReload'] flag the
    admin panel sets (lines 1770-1772 and 3946-3950), [handleDataReload],
    its timeout and the one-second [checkReload] interval (lines
    2662-2697).  Each event is followed by the effect of
    [usePersistentState] that writes the messages back.

    The handlers of lines 2662-2697 are installed by an effect with no
    dependencies, so they hold the functions of the first render, where
    [filesLoaded] is [false] and [user] is [null]; the forced reload they
    start is [Turn.loadDataFolderFiles] under that environment
    ([stale_env]).

    A value stored by [JSON.stringify] is represented by the value
    [JSON.parse] gives back; a text that is not JSON is not represented. *)

From Stdlib Require Import String Ascii List Bool Arith Lia ZArith.
From S2P Require Import Prelude JsValue Store Access Conversation Session Admin Client Turn.
Import ListNotations.
Open Scope string_scope.

Module Page.
Import Store Access Conversation Client Turn.

(** ** Messages in [localStorage] *)

Definition role_str (r : role) : string :=
  match r with RUser => "user" | RModel => "model" | RError => "error" end.

Definition type_str (t : msg_type) : string :=
  match t with TText => "text" | TSimulation => "simulation" end.

(** [JSON.stringify] of a message, as [JSON.parse] reads it back. *)
Definition message_json (m : message) : jv :=
  JObj [("role", JStr (role_str (m_role m))); ("text", JStr (m_text m)); ("type", JStr (type_str (m_type m)))].

(** How the page reads a role: everything but ['user'] and ['error'] is
    drawn as the model's (lines 4107-4109). *)
Definition role_of (v : jv) : role :=
  match v with
  | JStr s => if String.eqb s "user" then RUser else if String.eqb s "error" then RError else RModel
  | _ => RModel
  end.

Definition type_of (v : jv) : msg_type :=
  match v with JStr s => if String.eqb s "simulation" then TSimulation else TText | _ => TText end.

Definition message_of (v : jv) : message :=
  {| m_role := role_of (get_field v "role");
     m_text := match get_field v "text" with JStr t => t | _ => "" end;
     m_type := type_of (get_field v "type") |}.

(** The initial value of ['chat_messages'] (line 2228). *)
Definition WELCOME : string :=
  "Namaste. I am INDIRA GPT, your partner in fertility strategy." ++ NL ++ NL ++
  "I am here to help us serve our patients with compassion and scientific excellence." ++ NL ++ NL ++
  "📊 **Data Pre-loaded**: All CSV files are automatically loaded and ready for analysis. You can ask questions about your data immediately!".

Definition welcome : message := {| m_role := RModel; m_text := WELCOME; m_type := TText |}.

(** [msg != null && typeof msg.text === 'string'] (line 2281). *)
Definition keep_message (v : jv) : bool :=
  match v with
  | JNull | JUndef => false
  | _ => match get_field v "text" with JStr _ => true | _ => false end
  end.

(** The first render's [messages]: the stored value or the initial one
    (lines 213-223), then the cleaning effect (lines 2277-2284). *)
Definition restore_messages (item : option jv) : list message :=
  match item with
  | None => [welcome]
  | Some (JArr l) => map message_of (filter keep_message l)
  | Some _ => [welcome]
  end.

(** The keys of [localStorage] the page reads besides [auth_token], which
    [Client.auth_state] holds. *)
Record storage := {
  s_chat_messages : option jv;
  s_dataNeedsReload : option string
}.

(** ** The page *)

Record page := {
  pg_auth : auth_state;      (** [user], [filesLoaded] and the token *)
  pg_client : client;        (** the conversation's state *)
  pg_showAdmin : bool;
  pg_loading : bool;         (** [isLoadingRef.current] *)
  pg_reloading : bool;       (** [reloadInProgressRef.current] *)
  pg_timer : bool;           (** the timeout of [handleDataReload] is pending *)
  pg_store : storage
}.

Definition initial_client (ms : list message) : client :=
  {| c_messages := ms; c_input := ""; c_simInput := ""; c_attachments := []; c_sqlTables := [];
     c_tableSchemas := []; c_userAccessibleFiles := []; c_dataLoaded := false; c_session := None;
     c_typing := false; c_retryCount := 0; c_trace := [] |}.

(** A page loaded in the browser with this storage and sign-in state. *)
Definition mount (s : storage) (a : auth_state) : page :=
  {| pg_auth := a; pg_client := initial_client (restore_messages (s_chat_messages s)); pg_showAdmin := false;
     pg_loading := false; pg_reloading := false; pg_timer := false; pg_store := s |}.

Definition set_client (c : client) (p : page) : page :=
  {| pg_auth := pg_auth p; pg_client := c; pg_showAdmin := pg_showAdmin p; pg_loading := pg_loading p;
     pg_reloading := pg_reloading p; pg_timer := pg_timer p; pg_store := pg_store p |}.

Definition set_reload (reloading timer : bool) (p : page) : page :=
  {| pg_auth := pg_auth p; pg_client := pg_client p; pg_showAdmin := pg_showAdmin p; pg_loading := pg_loading p;
     pg_reloading := reloading; pg_timer := timer; pg_store := pg_store p |}.

Definition set_store (s : storage) (p : page) : page :=
  {| pg_auth := pg_auth p; pg_client := pg_client p; pg_showAdmin := pg_showAdmin p; pg_loading := pg_loading p;
     pg_reloading := pg_reloading p; pg_timer := pg_timer p; pg_store := s |}.

Definition set_flag (v : option string) (p : page) : page :=
  set_store {| s_chat_messages := s_chat_messages (pg_store p); s_dataNeedsReload := v |} p.

Definition set_dataLoaded (b : bool) (c : client) : client :=
  {| c_messages := c_messages c; c_input := c_input c; c_simInput := c_simInput c; c_attachments := c_attachments c;
     c_sqlTables := c_sqlTables c; c_tableSchemas := c_tableSchemas c;
     c_userAccessibleFiles := c_userAccessibleFiles c; c_dataLoaded := b; c_session := c_session c;
     c_typing := c_typing c; c_retryCount := c_retryCount c; c_trace := c_trace c |}.

(** The effect of [usePersistentState] (lines 225-233). *)
Definition persist (p : page) : page :=
  set_store {| s_chat_messages := Some (JArr (map message_json (c_messages (pg_client p))));
               s_dataNeedsReload := s_dataNeedsReload (pg_store p) |} p.

(** ** Reloading after an upload *)

(** [handleDataReload] (lines 2664-2680) up to its timeout. *)
Definition handleDataReload (p : page) : page :=
  if pg_reloading p then p
  else set_reload true true (set_client (set_dataLoaded false (pg_client p)) p).

(** [localStorage.setItem('dataNeedsReload', 'true')] and the [reloadData]
    event, whose listener runs at once. *)
Definition signal (p : page) : page := handleDataReload (set_flag (Some "true") p).

(** One round of [checkReload] (lines 2686-2692). *)
Definition tick (p : page) : page :=
  match s_dataNeedsReload (pg_store p) with
  | Some v => if String.eqb v "true" && negb (pg_reloading p) then handleDataReload (set_flag None p) else p
  | None => p
  end.

Definition is_some {A} (x : option A) : bool := match x with Some _ => true | None => false end.

(** What the first render's [loadDataFolderFiles] sees. *)
Definition stale_env : load_env :=
  {| l_filesLoaded := false; l_user := false; l_token := false; l_schemas := None |}.

(** The timeout of [handleDataReload]: [loadDataFolderFiles(true)] of the
    first render, then [reloadInProgressRef.current = false]. *)
Definition fire (p : page) : page :=
  set_reload false false (set_client (loadDataFolderFiles true stale_env (pg_client p)) p).

(** The environment of a load started from the current render, with the
    answer of [GET /api/data/schemas]. *)
Definition env_of (schemas : option (list schema)) (p : page) : load_env :=
  {| l_filesLoaded := a_filesLoaded (pg_auth p); l_user := is_some (a_user (pg_auth p));
     l_token := is_some (a_token (pg_auth p)); l_schemas := schemas |}.

(** The automatic load (lines 2652-2659), its [finally] included. *)
Definition auto_load (schemas : option (list schema)) (p : page) : page :=
  if negb (c_dataLoaded (pg_client p)) && a_filesLoaded (pg_auth p) && negb (pg_loading p) && is_some (a_user (pg_auth p))
  then set_client (loadDataFolderFiles false (env_of schemas p) (pg_client p)) p
  else p.

(** ** Signing out and clearing the chat *)

(** [handleLogout] (lines 2296-2300). *)
Definition handleLogout (p : page) : page :=
  {| pg_auth := logout_client (pg_auth p); pg_client := pg_client p; pg_showAdmin := false;
     pg_loading := pg_loading p; pg_reloading := pg_reloading p; pg_timer := pg_timer p; pg_store := pg_store p |}.

Definition CLEARED : string := "Chat history cleared. Ready to partner in the journey again.".

(** [resetChat] (lines 2722-2732); the studio keys it also removes belong
    to the video studio, which is not modelled. *)
Definition resetChat (p : page) : page :=
  let c := pg_client p in
  set_store {| s_chat_messages := None; s_dataNeedsReload := s_dataNeedsReload (pg_store p) |}
    (set_client {| c_messages := [{| m_role := RModel; m_text := CLEARED; m_type := TText |}];
                   c_input := c_input c; c_simInput := c_simInput c; c_attachments := c_attachments c;
                   c_sqlTables := c_sqlTables c; c_tableSchemas := c_tableSchemas c;
                   c_userAccessibleFiles := c_userAccessibleFiles c; c_dataLoaded := c_dataLoaded c;
                   c_session := None; c_typing := c_typing c; c_retryCount := c_retryCount c;
                   c_trace := c_trace c |} p).

(** ** Runs of the page *)

(** An event and the render that follows it. *)
Inductive page_step : page -> page -> Prop :=
| ps_signal p : page_step p (persist (signal p))
| ps_tick p : page_step p (persist (tick p))
| ps_fire p : pg_timer p = true -> page_step p (persist (fire p))
| ps_auto p schemas : page_step p (persist (auto_load schemas p))
| ps_logout p : page_step p (persist (handleLogout p))
| ps_reset p : page_step p (persist (resetChat p))
| ps_client p c : page_step p (persist (set_client c p)).

(** The pages of a browser tab opened on some storage, after any events. *)
Inductive reachable : page -> Prop :=
| reach_mount s a : reachable (persist (mount s a))
| reach_step p p' : reachable p -> page_step p p' -> reachable p'.

(** [uniqueNew] (lines 2582-2584): the files of a schema list whose names the chat does not have yet. *)
Definition new_files (ss : list schema) (atts : list attachment) : list attachment :=
  filter (fun f => negb (str_mem (at_name f) (map at_name atts))) (map Session.attachment_of ss).

(** The state every render leaves: the messages on screen are those in
    storage, and a timeout is pending exactly while a reload is in
    progress. *)
Definition page_ok (p : page) : Prop :=
  s_chat_messages (pg_store p) = Some (JArr (map message_json (c_messages (pg_client p)))) /\
  pg_timer p = pg_reloading p.

(** ** Examples *)

(** An analyst's question left in the browser's storage. *)
Definition ex_store : storage :=
  {| s_chat_messages := Some (JArr [message_json (user_text "What was the revenue of Thane last quarter?");
                                    message_json (model_text "Thane generated 12000 in revenue.")]);
     s_dataNeedsReload := None |}.

Definition ex_auth (email : string) : auth_state :=
  {| a_token := Some "t"; a_user := Some (JObj [("email", JStr email); ("role", JStr "user")]); a_files := [];
     a_filesLoaded := true; a_authLoading := false |}.

(** A signed-in page with its schemas loaded. *)
Definition ex_loaded : page :=
  {| pg_auth := ex_auth "analyst@indira.com"; pg_client := ex_client ["CRM leads.csv"; "Revenue.csv"];
     pg_showAdmin := false; pg_loading := false; pg_reloading := false; pg_timer := false;
     pg_store := {| s_chat_messages := None; s_dataNeedsReload := None |} |}.

Definition ex_new_schema : schema :=
  {| sc_fileName := "IVF cycles.csv"; sc_collectionName := "data_ivf_cycles"; sc_columns := ["Centre"; "Cycles"];
     sc_columnTypes := [("Centre", "string"); ("Cycles", "number")]; sc_rowCount := 40 |}.

(** ** Lemmas *)

Lemma message_of_json m : message_of (message_json m) = m.
Proof. destruct m as [[| |] t [|]]; reflexivity. Qed.

Lemma keep_message_json m : keep_message (message_json m) = true.
Proof. reflexivity. Qed.

(** What the page writes under ['chat_messages'] it reads back. *)
Lemma restore_persisted ms : restore_messages (Some (JArr (map message_json ms))) = ms.
Proof.
  cbn [restore_messages]. induction ms as [|m ms IH]; [reflexivity|].
  cbn [map filter]. rewrite keep_message_json. cbn [map]. now rewrite message_of_json, IH.
Qed.

Lemma persist_ok p : pg_timer p = pg_reloading p -> page_ok (persist p).
Proof. intros H. split; [reflexivity|exact H]. Qed.

Lemma handleDataReload_timer p : pg_timer p = pg_reloading p -> pg_timer (handleDataReload p) = pg_reloading (handleDataReload p).
Proof. intros H. unfold handleDataReload. destruct (pg_reloading p) eqn:E; [cbn beta iota; congruence|reflexivity]. Qed.

Lemma page_step_ok p p' : page_ok p -> page_step p p' -> page_ok p'.
Proof.
  intros [_ Ht] Hs. destruct Hs; apply persist_ok; try exact Ht.
  - apply handleDataReload_timer; exact Ht.
  - unfold tick. destruct (s_dataNeedsReload _) as [v|]; [|exact Ht].
    destruct (_ && _); [apply handleDataReload_timer; exact Ht|exact Ht].
  - reflexivity.
  - unfold auto_load. now destruct (_ && _).
Qed.

Lemma reachable_ok p : reachable p -> page_ok p.
Proof. induction 1 as [s a|p p' _ IH Hs]; [now apply persist_ok|exact (page_step_ok _ _ IH Hs)]. Qed.

(** The forced reload of the timeout returns at once. *)
Lemma fire_client p : pg_client (fire p) = pg_client p.
Proof. unfold fire, loadDataFolderFiles. reflexivity. Qed.

(** A load that is not forced, from the current render, with schemas. *)
Lemma load_merge e c ss :
  l_filesLoaded e = true -> l_user e = true -> l_token e = true -> l_schemas e = Some ss -> ss <> [] ->
  c_dataLoaded c = false ->
  c_attachments (loadDataFolderFiles false e c) = (c_attachments c ++ new_files ss (c_attachments c))%list /\
  c_session (loadDataFolderFiles false e c) = c_session c /\
  c_dataLoaded (loadDataFolderFiles false e c) = true.
Proof.
  intros Hf Hu Ht Hs Hne Hd. unfold loadDataFolderFiles. rewrite Hd, Hf, Hu, Ht, Hs. cbn -[add_schemas dedup].
  destruct ss as [|s0 ss]; [congruence|]. cbn -[add_schemas dedup filter str_mem]. repeat split.
Qed.

Lemma auto_load_run ss p :
  c_dataLoaded (pg_client p) = false -> a_filesLoaded (pg_auth p) = true -> pg_loading p = false ->
  is_some (a_user (pg_auth p)) = true ->
  auto_load (Some ss) p = set_client (loadDataFolderFiles false (env_of (Some ss) p) (pg_client p)) p.
Proof. intros Hd Hf Hl Hu. unfold auto_load. now rewrite Hd, Hf, Hl, Hu. Qed.

(** [C15] A conversation outlives the account that had it: in every page
    the browser can reach, whatever the sign-outs, loading the page again
    for any account shows the messages the previous page showed, since
    ['chat_messages'] is neither per account nor cleared on sign-out. *)
Theorem history_outlives_account p a :
  reachable p -> c_messages (pg_client (mount (pg_store p) a)) = c_messages (pg_client p).
Proof.
  intros Hr. destruct (reachable_ok p Hr) as [Hs _]. unfold mount. cbn [pg_client initial_client c_messages].
  rewrite Hs. apply restore_persisted.
Qed.

(** [C24] After an upload signal the forced reload changes nothing: the
    timeout's [loadDataFolderFiles(true)] returns at once, the chat keeps
    its attachments, tables and session, and only [dataLoaded] is
    cleared, which lets the automatic load run instead. *)
Theorem forced_reload_noop p :
  pg_reloading p = false -> pg_client (fire (signal p)) = set_dataLoaded false (pg_client p).
Proof. intros Hr. rewrite fire_client. unfold signal, handleDataReload. cbn [pg_reloading set_flag set_store]. now rewrite Hr. Qed.

(** [C17] An upload reaches the chat as a merge, not as the reload the
    code asks for: after the signal, whichever of the timeout and the
    automatic load runs first, the chat's attachments are the old ones
    followed by the files of new names (a changed or deleted file keeps
    its old entry), the chat session is kept, and the flag
    ['dataNeedsReload'] is still set, so the next round of [checkReload]
    clears [dataLoaded] again and starts a second load. *)
Theorem upload_reload_merges p ss :
  pg_reloading p = false -> pg_loading p = false -> a_filesLoaded (pg_auth p) = true ->
  is_some (a_user (pg_auth p)) = true -> is_some (a_token (pg_auth p)) = true -> ss <> [] ->
  let p1 := auto_load (Some ss) (fire (signal p)) in
  pg_client (fire (auto_load (Some ss) (signal p))) = pg_client p1 /\
  c_attachments (pg_client p1) = (c_attachments (pg_client p) ++ new_files ss (c_attachments (pg_client p)))%list /\
  c_session (pg_client p1) = c_session (pg_client p) /\
  c_dataLoaded (pg_client p1) = true /\
  s_dataNeedsReload (pg_store p1) = Some "true" /\
  c_dataLoaded (pg_client (tick p1)) = false.
Proof.
  intros Hr Hl Hf Hu Ht Hne p1.
  assert (Hs : pg_client (signal p) = set_dataLoaded false (pg_client p) /\ pg_reloading (signal p) = true /\
               s_dataNeedsReload (pg_store (signal p)) = Some "true" /\
               pg_auth (signal p) = pg_auth p /\ pg_loading (signal p) = pg_loading p)
    by (unfold signal, handleDataReload; cbn [pg_reloading set_flag set_store]; rewrite Hr; repeat split).
  destruct Hs as (Hc & Hr1 & Hfl & Ha0 & Hl0).
  assert (Hfire : fire (signal p) = set_reload false false (signal p))
    by reflexivity.
  unfold p1. rewrite Hfire, !auto_load_run
    by (cbn [pg_auth pg_loading pg_client set_reload]; rewrite ?Hc, ?Ha0, ?Hl0; assumption || reflexivity).
  destruct (load_merge (env_of (Some ss) (set_reload false false (signal p))) (pg_client (signal p)) ss)
    as (Ha & Hse & Hd);
    try (cbn [env_of l_filesLoaded l_user l_token l_schemas pg_auth set_reload]; rewrite ?Ha0, ?Hc;
         assumption || reflexivity).
  cbn [pg_client set_client set_reload] in *. rewrite Hc in *.
  cbn [c_attachments c_session set_dataLoaded] in Ha, Hse.
  split; [|split; [exact Ha|split; [exact Hse|split; [exact Hd|]]]].
  - rewrite fire_client. reflexivity.
  - split; [exact Hfl|]. unfold tick. cbn [pg_store set_client set_reload]. rewrite Hfl. reflexivity.
Qed.

(** ** Witnesses *)

Lemma history_outlives_account_witness :
  let p := persist (handleLogout (persist (mount ex_store (ex_auth "analyst@indira.com")))) in
  c_messages (pg_client (mount (pg_store p) (ex_auth "ops@indira.com"))) =
  [user_text "What was the revenue of Thane last quarter?"; model_text "Thane generated 12000 in revenue."].
Proof.
  intros p. exact (history_outlives_account p (ex_auth "ops@indira.com")
                     (reach_step _ _ (reach_mount _ _) (ps_logout _))).
Defined.

Lemma forced_reload_noop_witness :
  pg_client (fire (signal ex_loaded)) = set_dataLoaded false (pg_client ex_loaded).
Proof. exact (forced_reload_noop ex_loaded eq_refl). Defined.

Lemma upload_reload_merges_witness :
  let p1 := auto_load (Some [ex_new_schema]) (fire (signal ex_loaded)) in
  c_attachments (pg_client p1) =
    (c_attachments (pg_client ex_loaded) ++ [Session.attachment_of ex_new_schema])%list /\
  c_dataLoaded (pg_client (tick p1)) = false.
Proof.
  destruct (upload_reload_merges ex_loaded [ex_new_schema] eq_refl eq_refl eq_refl eq_refl eq_refl
              ltac:(discriminate)) as (_ & Ha & _ & _ & _ & Ht).
  exact (conj Ha Ht).
Defined.

End Page.
