(* ===== verification/Build.v ===== *)
(** The build and development configuration ([src/vite.config.ts]) and
    the ports the pieces of the program reach: the port the Express server
    listens on ([server.js] line 22, after [dotenv] loads
    [src/backend/.env], line 18), the backend port of Vite's
    development proxy (lines 6-33), the fixed backend URL of the page's
    data calls in development ([index.tsx] lines 2516-2517 and 3036-3037),
    and the build-time definitions of the API key names (lines 65-68),
    which [Turn.getApiKey] reads last.  The plugin that copies the [data]
    folder (lines 37-63) only copies files at build time and is not
    modelled. *)

From Stdlib Require Import String List Bool.
From S2P Require Import Prelude Turn.
Import ListNotations.
Open Scope string_scope.

Module Build.
Import Turn.

(** [process.env.X] as [X || ...] reads it: an empty value is unset. *)
Definition truthy_str (v : option string) : option string :=
  match v with Some s => if String.eqb s "" then None else Some s | None => None end.

(** [const PORT = process.env.PORT || 5005] ([server.js] line 22). *)
Definition server_port (PORT : option string) : string :=
  match truthy_str PORT with Some p => p | None => "5005" end.

(** A variable as [dotenv.config] (server.js line 18) and [loadEnv]
    (line 7) read it: a value already in the process environment wins over
    the one of their own [.env] file. *)
Definition from_env (process file : option string) : option string :=
  match process with Some v => Some v | None => file end.

(** Where the ports come from in development: the shell that starts both
    programs, the server's [src/backend/.env] and the [.env] of the
    directory Vite runs in. *)
Record dev_setup := {
  d_shell_PORT : option string;
  d_shell_BACKEND_PORT : option string;
  d_backend_PORT : option string;      (** [PORT] in [src/backend/.env] *)
  d_root_PORT : option string;         (** [PORT] in Vite's [.env] *)
  d_root_BACKEND_PORT : option string
}.

(** [process.env.PORT] of the server. *)
Definition server_PORT (d : dev_setup) : option string := from_env (d_shell_PORT d) (d_backend_PORT d).

(** The variables [loadEnv(mode, '.', '')] gives (line 7). *)
Record vite_env := {
  v_PORT : option string;
  v_BACKEND_PORT : option string;
  v_GEMINI_API_KEY : option string
}.

(** [env.PORT || env.BACKEND_PORT || '8080'] (line 9). *)
Definition backendPort (e : vite_env) : string :=
  match truthy_str (v_PORT e) with
  | Some p => p
  | None => match truthy_str (v_BACKEND_PORT e) with Some p => p | None => "8080" end
  end.

(** Line 10. *)
Definition backendUrl (e : vite_env) : string := "http://localhost:" ++ backendPort e.

(** The development server's proxy (lines 20-32): a path that starts with
    a key is sent to the backend unchanged. *)
Definition proxy_target (e : vite_env) (path : string) : option string :=
  if prefix "/api" path || prefix "/data" path then Some (backendUrl e ++ path) else None.

(** [isDev ? 'http://localhost:5005' : ''] (index.tsx lines 2516-2517 and
    3036-3037): the data calls of the page bypass the proxy. *)
Definition dev_backend_port : string := "5005".

(** [define] (lines 65-68): both build-time names get
    [env.GEMINI_API_KEY]. *)
Definition with_build_keys (e : vite_env) (k : key_env) : key_env :=
  {| k_window := k_window k; k_runtime := k_runtime k; k_proc_gemini := k_proc_gemini k;
     k_proc_api := k_proc_api k; k_build_api := v_GEMINI_API_KEY e; k_build_gemini := v_GEMINI_API_KEY e |}.

Definition vite_env_of (d : dev_setup) (key : option string) : vite_env :=
  {| v_PORT := from_env (d_shell_PORT d) (d_root_PORT d);
     v_BACKEND_PORT := from_env (d_shell_BACKEND_PORT d) (d_root_BACKEND_PORT d); v_GEMINI_API_KEY := key |}.

(** The keys [getApiKey] looks for in the window before the build-time ones. *)
Definition window_key (k : key_env) : bool :=
  k_window k && (isValidKey (k_runtime k) || isValidKey (k_proc_gemini k) || isValidKey (k_proc_api k)).

(** ** Examples *)

Definition ex_unset : dev_setup :=
  {| d_shell_PORT := None; d_shell_BACKEND_PORT := None; d_backend_PORT := None; d_root_PORT := None;
     d_root_BACKEND_PORT := None |}.

(** ** Lemmas *)

(** [or_key] of a key with itself is the key unless it is empty. *)
Lemma or_key_same k : isValidKey (or_key k k) = isValidKey k.
Proof. destruct k as [s|]; [cbn; now destruct (String.eqb s "")|reflexivity]. Qed.

(** A [PORT] set in the shell reaches both programs, so the proxy then
    sends the page's [/api] and [/data] calls to the server's port. *)
Lemma shell_port_proxy d key :
  truthy_str (d_shell_PORT d) <> None -> backendPort (vite_env_of d key) = server_port (server_PORT d).
Proof.
  unfold backendPort, server_port, server_PORT, vite_env_of, from_env. cbn [v_PORT].
  destruct (d_shell_PORT d) as [p|]; [|now intros []].
  intros H. destruct (truthy_str (Some p)); [reflexivity|now destruct H].
Qed.

(** With no [PORT] and no [BACKEND_PORT] anywhere, the server listens on
    5005 and the page's data calls go there, but the proxy sends login and
    the admin calls to 8080. *)
Lemma default_ports_differ key :
  server_port (server_PORT ex_unset) = dev_backend_port /\
  proxy_target (vite_env_of ex_unset key) "/api/auth/login" = Some "http://localhost:8080/api/auth/login".
Proof. split; reflexivity. Qed.

(** Both build-time names carry [env.GEMINI_API_KEY]: when the window
    holds no valid key, [getApiKey] gives that key if it is valid and
    nothing otherwise. *)
Lemma build_key_fallback e k :
  window_key k = false ->
  getApiKey (with_build_keys e k) = if isValidKey (v_GEMINI_API_KEY e) then v_GEMINI_API_KEY e else None.
Proof.
  unfold window_key, getApiKey, with_build_keys. cbn [k_window k_runtime k_proc_gemini k_proc_api k_build_api k_build_gemini].
  destruct (k_window k); cbn [andb]; intros H;
    [apply orb_false_elim in H as [H H3]; apply orb_false_elim in H as [H1 H2]; rewrite H1, H2, H3|];
    rewrite or_key_same; destruct (v_GEMINI_API_KEY e) as [s|]; try reflexivity;
    cbn [or_key]; destruct (String.eqb s "") eqn:E; try reflexivity; apply String.eqb_eq in E; now subst.
Qed.

End Build.
